(** * MarmaladeHttpUtils: a shallow embedding of the HTTP request engine

    The development follows the C++ sources of the repository:
    - [HttpRequest.h] / [HttpRequest.cpp]: the request classes
      ([HttpRequest], [HttpDownload], [HttpPost], [HttpPostJson]);
    - [YoutubeApi.h] / [YoutubeApi.cpp]: [YoutubeUploadRequest];
    - [HttpClient.h] / [HttpClient.cpp]: the worker structure, the libcurl
      callbacks, the worker thread and [HttpClient::Update];
    - [HttpDownloader.h]: the de-duplicating downloader.

    Objects live in a heap indexed by addresses, a [Ptr<HttpRequest>] is an
    optional address, [std::map] is a [gmap], [std::string] is [string].
    Calls into libcurl, pthreads and the s3e file API are the boundary of
    the model: what they return is an input of the embedded functions. *)

From Stdlib Require Import ZArith Ascii String Lia.
From Stdlib Require PrimFloat.
From stdpp Require Import base option list sorting gmap strings pretty.

Set Warnings "-register-all".
Open Scope Z_scope.

(** ** Characters and output streams *)

(** The numeric value of a byte of a [std::string]. *)
Definition byte_val (c : ascii) : Z := Z.of_N (N_of_ascii c).

(** [(int) c] for [char c]: whether plain [char] is signed is a property of
    the platform the library is built for. *)
Definition int_of_char (char_signed : bool) (c : ascii) : Z :=
  if char_signed && (128 <=? byte_val c) then byte_val c - 256 else byte_val c.

(** [isalnum] in the "C" locale: digits and the two ASCII letter ranges. *)
Definition isalnum (c : ascii) : bool :=
  let n := byte_val c in
  ((48 <=? n) && (n <=? 57)) || ((65 <=? n) && (n <=? 90)) || ((97 <=? n) && (n <=? 122)).

(** One digit as [std::hex] prints it: no [std::uppercase] is ever set on
    the stream, so the letters are lower case. *)
Definition hex_digit (d : Z) : ascii :=
  ascii_of_N (Z.to_N (if d <? 10 then 48 + d else 87 + d)).

(** The digits of [u], most significant first, at least one digit. *)
Fixpoint hex_digits (fuel : nat) (u : Z) (acc : string) : string :=
  match fuel with
  | O => acc
  | S fuel' =>
      let acc' := String (hex_digit (u mod 16)) acc in
      if u / 16 =? 0 then acc' else hex_digits fuel' (u / 16) acc'
  end.

(** An [int] written under [std::hex] is printed as the 32-bit unsigned
    value with the same bits. *)
Definition hex_of_int (v : Z) : string :=
  hex_digits 8 (v mod 2 ^ 32) EmptyString.

Fixpoint fill_string (n : nat) (c : ascii) : string :=
  match n with
  | O => EmptyString
  | S n' => String c (fill_string n' c)
  end.

(** The [std::ostringstream] of [UrlEncode], after [escaped.fill('0')] and
    [escaped << std::hex]: the text so far, the fill character and the
    field width of the next formatted output. *)
Record ostringstream := {
  oss_str : string;
  oss_fill : ascii;
  oss_width : nat
}.

(** Formatted output pads on the left up to the width and resets the width. *)
Definition oss_write (s : string) (o : ostringstream) : ostringstream :=
  {| oss_str := oss_str o +:+ fill_string (oss_width o - String.length s) (oss_fill o) +:+ s;
     oss_fill := oss_fill o;
     oss_width := 0 |}.

Definition oss_put_char (c : ascii) (o : ostringstream) : ostringstream :=
  oss_write (String c EmptyString) o.

Definition oss_put_int (v : Z) (o : ostringstream) : ostringstream :=
  oss_write (hex_of_int v) o.

Definition oss_setw (n : nat) (o : ostringstream) : ostringstream :=
  {| oss_str := oss_str o; oss_fill := oss_fill o; oss_width := n |}.

(** ** [HttpRequest::UrlEncode] *)

Definition UrlEncode_step (char_signed strict : bool)
    (escaped : ostringstream) (c : ascii) : ostringstream :=
  if isalnum c then
    oss_put_char c escaped
  else if (Ascii.eqb c "-" || Ascii.eqb c "_" || Ascii.eqb c ".") && negb strict then
    oss_put_char c escaped
  else if Ascii.eqb c " " && negb strict then
    oss_put_char "+" escaped
  else
    oss_setw 0 (oss_put_int (int_of_char char_signed c)
                  (oss_setw 2 (oss_put_char "%" escaped))).

Definition UrlEncode (char_signed : bool) (value : string) (strict : bool) : string :=
  oss_str (fold_left (UrlEncode_step char_signed strict)
             (list_ascii_of_string value)
             {| oss_str := EmptyString; oss_fill := "0"; oss_width := 0 |}).

(** What one step of the loop adds to an empty stream. *)
Definition UrlEncode_step_text (char_signed strict : bool) (c : ascii) : string :=
  oss_str (UrlEncode_step char_signed strict
             {| oss_str := EmptyString; oss_fill := "0"; oss_width := 0 |} c).

Definition char_portable (char_signed : bool) (c : ascii) : bool :=
  negb char_signed || (byte_val c <? 128).

(** The percent-encoding rule as a table, one byte at a time: alphanumerics
    pass in both modes, [- _ .] pass and space becomes [+] in the lenient
    mode only, anything else is [%] and two lower-case hex digits. *)
Definition percent_escape (c : ascii) : string :=
  String "%" (String (hex_digit (byte_val c / 16))
                (String (hex_digit (byte_val c mod 16)) EmptyString)).

Definition UrlEncode_rule (strict : bool) (c : ascii) : string :=
  if isalnum c then String c EmptyString
  else if strict then percent_escape c
  else if Ascii.eqb c "-" || Ascii.eqb c "_" || Ascii.eqb c "." then String c EmptyString
  else if Ascii.eqb c " " then "+"%string
  else percent_escape c.

(** The rule as the specification words it: [- _ .] pass in both modes and
    the hex digits are upper case. *)
Definition hex_digit_upper (d : Z) : ascii :=
  ascii_of_N (Z.to_N (if d <? 10 then 48 + d else 55 + d)).

Definition UrlEncode_rule_as_specified (strict : bool) (c : ascii) : string :=
  if isalnum c || Ascii.eqb c "-" || Ascii.eqb c "_" || Ascii.eqb c "." then String c EmptyString
  else if Ascii.eqb c " " && negb strict then "+"%string
  else String "%" (String (hex_digit_upper (byte_val c / 16))
                     (String (hex_digit_upper (byte_val c mod 16)) EmptyString)).

Fixpoint concat_map_string (f : ascii -> string) (s : string) : string :=
  match s with
  | EmptyString => EmptyString
  | String c s' => f c +:+ concat_map_string f s'
  end.

(** Strings whose encoding does not depend on the signedness of [char]. *)
Definition portable (char_signed : bool) (s : string) : Prop :=
  char_signed = false \/ Forall (fun c => byte_val c < 128) (list_ascii_of_string s).

(** ** Outcomes of a call

    A call on a state [S] either returns, or leaves by a C++ exception with
    the state as it stood at the [throw], or stops at an [IwAssert] that
    does not hold, or has no defined behaviour (a null pointer is
    dereferenced, an indeterminate byte is read). *)
Inductive outcome (S A : Type) : Type :=
| Returns (a : A) (s : S)
| Throws (what : string) (s : S)
| AssertFails (what : string)
| Undefined (what : string).

Arguments Returns {S A} a s.
Arguments Throws {S A} what s.
Arguments AssertFails {S A} what.
Arguments Undefined {S A} what.

Definition M (S A : Type) : Type := S -> outcome S A.

Definition ret {S A} (a : A) : M S A := fun s => Returns a s.

Definition bind {S A B} (m : M S A) (k : A -> M S B) : M S B :=
  fun s =>
    match m s with
    | Returns a s' => k a s'
    | Throws what s' => Throws what s'
    | AssertFails what => AssertFails what
    | Undefined what => Undefined what
    end.

Notation "'let*' x ':=' m 'in' k" := (bind m (fun x => k))
  (at level 10, x name, m at level 100, k at level 200, only parsing).
Notation "m ;; k" := (bind m (fun _ => k))
  (at level 100, k at level 200, right associativity, only parsing).

Definition get {S} : M S S := fun s => Returns s s.
Definition put {S} (s : S) : M S unit := fun _ => Returns tt s.
Definition modify {S} (f : S -> S) : M S unit := fun s => Returns tt (f s).
Definition throw {S A} (what : string) : M S A := fun s => Throws what s.
Definition undefined {S A} (what : string) : M S A := fun _ => Undefined what.

(** [IwAssert(channel, cond)]. *)
Definition IwAssert {S} (cond : bool) (what : string) : M S unit :=
  fun s => if cond then Returns tt s else AssertFails what.

(** Run a method of a part [S] of a larger state [T]. *)
Definition zoom {S T A} (proj : T -> S) (upd : S -> T -> T) (m : M S A) : M T A :=
  fun t =>
    match m (proj t) with
    | Returns a s' => Returns a (upd s' t)
    | Throws what s' => Throws what (upd s' t)
    | AssertFails what => AssertFails what
    | Undefined what => Undefined what
    end.

(** A C [double]. *)
Definition double : Type := PrimFloat.float.

(** Sizes are [size_t] values; arithmetic on them wraps. *)
Definition size_t_bits : Z := 32.
Definition size_t_wrap (z : Z) : Z := z mod 2 ^ size_t_bits.
Definition strlen (s : string) : Z := Z.of_nat (String.length s).

(** [(int) x] for a [long x]. *)
Definition int_of_long (x : Z) : Z := (x + 2 ^ 31) mod 2 ^ 32 - 2 ^ 31.

(** ** The s3e file API

    The file system the s3e calls act on: the regular files with their
    contents, the directories, and the paths on which a call that creates
    something ([s3eFileOpen] for writing, [s3eFileMakeDirectory]) is
    refused. Every call that opens, reads, writes or changes something is
    also recorded, in order; the query [s3eFileGetFileInt] behind [IsDir],
    which changes nothing, is not. [fs_error] is the code that
    [s3eFileGetError] reports after a call that was refused. *)
Inductive s3eCall :=
| s3eFileOpen_call (path mode : string)
| s3eFileWrite_call (path data : string)
| s3eFileRead_call (path : string) (n : Z)
| s3eFileClose_call (path : string)
| s3eFileRename_call (src dst : string)
| s3eFileDelete_call (path : string)
| s3eFileMakeDirectory_call (path : string).

Record FileSystem := {
  fs_files : gmap string string;
  fs_dirs : gset string;
  fs_denied : gset string;
  fs_error : Z;
  fs_calls : list s3eCall
}.

(** An open [s3eFile*]: the file and the position of the next read. *)
Record s3eFile := { file_path : string; file_pos : nat }.

Definition fs_log (c : s3eCall) (fs : FileSystem) : FileSystem :=
  {| fs_files := fs_files fs; fs_dirs := fs_dirs fs; fs_denied := fs_denied fs;
     fs_error := fs_error fs; fs_calls := fs_calls fs ++ [c] |}.

Definition fs_set_files (f : gmap string string) (fs : FileSystem) : FileSystem :=
  {| fs_files := f; fs_dirs := fs_dirs fs; fs_denied := fs_denied fs;
     fs_error := fs_error fs; fs_calls := fs_calls fs |}.

Definition fs_set_dirs (d : gset string) (fs : FileSystem) : FileSystem :=
  {| fs_files := fs_files fs; fs_dirs := d; fs_denied := fs_denied fs;
     fs_error := fs_error fs; fs_calls := fs_calls fs |}.

(** A directory is named with or without its trailing slash. *)
Fixpoint strip_slash (s : string) : string :=
  match s with
  | EmptyString => EmptyString
  | String c EmptyString => if Ascii.eqb c "/" then EmptyString else s
  | String c s' => String c (strip_slash s')
  end.

(** [s3eFileOpen(path, "w")]: a null pointer when refused, else the file
    is created empty. *)
Definition s3eFileOpen_w (path : string) (fs : FileSystem) : option s3eFile * FileSystem :=
  let fs1 := fs_log (s3eFileOpen_call path "w") fs in
  if bool_decide (path ∈ fs_denied fs) then (None, fs1)
  else (Some {| file_path := path; file_pos := 0 |},
        fs_set_files (<[path := EmptyString]> (fs_files fs1)) fs1).

(** [s3eFileOpen(path, "rb")]: a null pointer when there is no such file. *)
Definition s3eFileOpen_rb (path : string) (fs : FileSystem) : option s3eFile * FileSystem :=
  let fs1 := fs_log (s3eFileOpen_call path "rb") fs in
  match fs_files fs !! path with
  | Some _ => (Some {| file_path := path; file_pos := 0 |}, fs1)
  | None => (None, fs1)
  end.

(** [s3eFileWrite(data, 1, size, file)] appends to the file. *)
Definition s3eFileWrite (data : string) (f : s3eFile) (fs : FileSystem) : FileSystem :=
  let fs1 := fs_log (s3eFileWrite_call (file_path f) data) fs in
  let old := default EmptyString (fs_files fs !! file_path f) in
  fs_set_files (<[file_path f := old +:+ data]> (fs_files fs1)) fs1.

(** [s3eFileRead(buf, 1, n, file)]: the bytes read and the advanced handle. *)
Definition s3eFileRead (n : Z) (f : s3eFile) (fs : FileSystem) : string * s3eFile * FileSystem :=
  let content := default EmptyString (fs_files fs !! file_path f) in
  let got := substring (file_pos f) (Z.to_nat n) content in
  (got, {| file_path := file_path f; file_pos := (file_pos f + String.length got)%nat |},
   fs_log (s3eFileRead_call (file_path f) n) fs).

Definition s3eFileClose (f : s3eFile) (fs : FileSystem) : FileSystem :=
  fs_log (s3eFileClose_call (file_path f)) fs.

(** [s3eFileRename(src, dst)] moves the contents; nothing happens when
    there is no [src]. *)
Definition s3eFileRename (src dst : string) (fs : FileSystem) : FileSystem :=
  let fs1 := fs_log (s3eFileRename_call src dst) fs in
  match fs_files fs !! src with
  | Some content => fs_set_files (<[dst := content]> (delete src (fs_files fs1))) fs1
  | None => fs1
  end.

Definition s3eFileDelete (path : string) (fs : FileSystem) : FileSystem :=
  let fs1 := fs_log (s3eFileDelete_call path) fs in
  fs_set_files (delete path (fs_files fs1)) fs1.

(** [s.c_str()] read as a C string: the bytes before the first NUL. *)
Fixpoint c_str (s : string) : string :=
  match s with
  | EmptyString => EmptyString
  | String c s' => if Ascii.eqb c Ascii.zero then EmptyString else String c (c_str s')
  end.

(** [IsDir(path)]: [s3eFileGetFileInt(path.c_str(), S3E_FILE_ISDIR) == 1],
    a query of the file system that leaves it as it is. *)
Definition IsDir (path : string) (fs : FileSystem) : bool :=
  bool_decide (strip_slash (c_str path) ∈ fs_dirs fs).

(** [s3eFileMakeDirectory(path) == S3E_RESULT_SUCCESS]. *)
Definition s3eFileMakeDirectory (path : string) (fs : FileSystem) : bool * FileSystem :=
  let fs1 := fs_log (s3eFileMakeDirectory_call path) fs in
  if bool_decide (strip_slash path ∈ fs_denied fs) then (false, fs1)
  else (true, fs_set_dirs ({[strip_slash path]} ∪ fs_dirs fs1) fs1).

(** ** [iohelpers]: [DirName] and [MakePath] *)

(** [path.find_last_of(c)]. *)
Fixpoint find_last_of (c : ascii) (s : string) : option nat :=
  match s with
  | EmptyString => None
  | String a s' =>
      match find_last_of c s' with
      | Some i => Some (S i)
      | None => if Ascii.eqb a c then Some O else None
      end
  end.

Definition DirName (path : string) : string :=
  match find_last_of "/" path with
  | None => EmptyString
  | Some pos => substring 0 pos path
  end.

(** [s.substr(pos)]: up to the end. *)
Definition substr_from (pos : nat) (s : string) : string :=
  substring pos (String.length s - pos) s.

(** The [std::getline(ss, part, '/')] loop of [MakePath]: the parts between
    slashes; a last part is read only when it has characters. *)
Fixpoint getline_parts (s : string) (part : string) : list string :=
  match s with
  | EmptyString => if String.eqb part EmptyString then [] else [part]
  | String c s' =>
      if Ascii.eqb c "/" then part :: getline_parts s' EmptyString
      else getline_parts s' (part +:+ String c EmptyString)
  end.

Fixpoint MakePath_loop (path_parts : list string) (sub_path : string) : M FileSystem unit :=
  match path_parts with
  | [] => ret tt
  | part :: rest =>
      if (String.length part =? 0)%nat then MakePath_loop rest sub_path
      else
        let sub_path := sub_path +:+ part +:+ "/" in
        let* fs := get in
        if negb (IsDir sub_path fs) then
          let (ok, fs') := s3eFileMakeDirectory (c_str sub_path) fs in
          put fs' ;;
          if ok then MakePath_loop rest sub_path
          else throw ("Error - unable to make path '" +:+ sub_path
                      +:+ "'. Reported error had error code: " +:+ pretty (fs_error fs'))
        else MakePath_loop rest sub_path
  end.

Definition MakePath (uri : string) : M FileSystem unit :=
  let drive_sep := index 0 "://" uri in
  let drive := match drive_sep with Some i => substring 0 (i + 3) uri | None => EmptyString end in
  let path := match drive_sep with Some i => substr_from (i + 3) uri | None => uri end in
  MakePath_loop (getline_parts path EmptyString) drive.

(** ** The JSON tree of [json.h]

    [json::Reader::Read] and [json::Writer::Write] are taken as given
    functions. [Read] fills the element it is handed in place, so when it
    throws a [json::Exception] the element holds what had been read. *)
Module json.

Inductive UnknownElement :=
| Null
| Boolean (b : bool)
| Number (d : double)
| String (s : string)
| Array (elements : list UnknownElement)
| Object (members : list (string * UnknownElement)).

Inductive ReadResult :=
| ReadOk (element : UnknownElement)
| ReadException (what : string) (partial : UnknownElement).

End json.

(** ** [HttpRequest] *)
Module HttpRequest.

Inductive Method := GET | POST | HEAD | PUT.

Inductive Status := BUILDING | PENDING | SENDING | HEADERS | DONE | ERROR | CANCELLED.

#[global] Instance Method_eq_dec : EqDecision Method.
Proof. solve_decision. Defined.

#[global] Instance Status_eq_dec : EqDecision Status.
Proof. solve_decision. Defined.

(** The members of [HttpRequest]. The four progress counters are not
    initialised by the constructor: [None] until the worker writes them. *)
Record t := {
  m_method : Method;
  m_url : string;
  m_status : Status;
  m_uploadBytesNow : option double;
  m_uploadBytesTotal : option double;
  m_downloadBytesNow : option double;
  m_downloadBytesTotal : option double;
  m_requestHeaders : gmap string string;
  m_responseHeaders : gmap string string
}.

Definition new (method : Method) (url : string) : t :=
  {| m_method := method; m_url := url; m_status := BUILDING;
     m_uploadBytesNow := None; m_uploadBytesTotal := None;
     m_downloadBytesNow := None; m_downloadBytesTotal := None;
     m_requestHeaders := ∅; m_responseHeaders := ∅ |}.

Definition set_status (st : Status) (r : t) : t :=
  {| m_method := m_method r; m_url := m_url r; m_status := st;
     m_uploadBytesNow := m_uploadBytesNow r; m_uploadBytesTotal := m_uploadBytesTotal r;
     m_downloadBytesNow := m_downloadBytesNow r; m_downloadBytesTotal := m_downloadBytesTotal r;
     m_requestHeaders := m_requestHeaders r; m_responseHeaders := m_responseHeaders r |}.

Definition set_requestHeaders (h : gmap string string) (r : t) : t :=
  {| m_method := m_method r; m_url := m_url r; m_status := m_status r;
     m_uploadBytesNow := m_uploadBytesNow r; m_uploadBytesTotal := m_uploadBytesTotal r;
     m_downloadBytesNow := m_downloadBytesNow r; m_downloadBytesTotal := m_downloadBytesTotal r;
     m_requestHeaders := h; m_responseHeaders := m_responseHeaders r |}.

Definition set_responseHeaders (h : gmap string string) (r : t) : t :=
  {| m_method := m_method r; m_url := m_url r; m_status := m_status r;
     m_uploadBytesNow := m_uploadBytesNow r; m_uploadBytesTotal := m_uploadBytesTotal r;
     m_downloadBytesNow := m_downloadBytesNow r; m_downloadBytesTotal := m_downloadBytesTotal r;
     m_requestHeaders := m_requestHeaders r; m_responseHeaders := h |}.

Definition GetStatus (r : t) : Status := m_status r.

Definition GetMethodStr (r : t) : string :=
  match m_method r with GET => "GET" | POST => "POST" | HEAD => "HEAD" | PUT => "PUT" end.

Definition Cancel : M t unit :=
  modify (fun r => if decide (m_status r = PENDING) then set_status CANCELLED r else r).

Definition SetHeader (header value : string) : M t unit :=
  let* r := get in
  IwAssert (bool_decide (m_status r = BUILDING)) "m_status == BUILDING" ;;
  modify (fun r => set_requestHeaders (<[header := value]> (m_requestHeaders r)) r).

Definition CompileRequest : M t unit :=
  let* r := get in
  IwAssert (bool_decide (m_status r = BUILDING)) "m_status == BUILDING" ;;
  modify (set_status PENDING).

Definition HandleRequestStart : M t unit :=
  let* r := get in
  IwAssert (bool_decide (m_status r = PENDING)) "m_status == PENDING" ;;
  modify (set_status SENDING).

(** The worker's list of response headers, first node first. *)
Definition RH : Type := list (string * string).

Definition HandleResponseHeaders (pFirstHeader : RH) : M t unit :=
  let* r := get in
  IwAssert (bool_decide (m_status r = SENDING)) "m_status == SENDING" ;;
  modify (set_status HEADERS) ;;
  modify (fun r => set_responseHeaders
            (fold_left (fun m hv => <[hv.1 := hv.2]> m) pFirstHeader (m_responseHeaders r)) r).

Definition HandleResponse (success : bool) (httpStatusCode : Z) : M t unit :=
  let* r := get in
  IwAssert (bool_decide (m_status r = HEADERS)) "m_status == HEADERS" ;;
  modify (set_status (if success then DONE else ERROR)).

Definition Worker_UpdateProgress (dltotal dlnow ultotal ulnow : double) : M t unit :=
  modify (fun r =>
    {| m_method := m_method r; m_url := m_url r; m_status := m_status r;
       m_uploadBytesNow := Some ulnow; m_uploadBytesTotal := Some ultotal;
       m_downloadBytesNow := Some dlnow; m_downloadBytesTotal := Some dltotal;
       m_requestHeaders := m_requestHeaders r; m_responseHeaders := m_responseHeaders r |}).

End HttpRequest.

(** [std::map<std::string, V>] iterates in the order of its keys. *)
Definition key_order {V} (a b : string * V) : Prop := String.leb a.1 b.1 = true.

#[global] Instance key_order_dec {V} : RelDecision (@key_order V).
Proof. intros a b. unfold key_order. apply _. Defined.

Definition in_key_order {V} (m : gmap string V) : list (string * V) :=
  merge_sort key_order (map_to_list m).

(** What is outside the repository's own code and differs between builds:
    the signedness of plain [char], and the JSON reader and writer. *)
Record Platform := {
  char_signed : bool;
  Reader_Read : string -> json.UnknownElement -> json.ReadResult;
  Writer_Write : list (string * json.UnknownElement) -> string
}.

(** The [size] bytes at [contents]; reading past the chunk is undefined. *)
Definition mem_read {S} (contents : string) (size : Z) : M S string :=
  if size <=? strlen contents then ret (substring 0 (Z.to_nat size) contents)
  else undefined "read past the end of the chunk".

(** ** [HttpDownload] *)
Module HttpDownload.

Record t := {
  base : HttpRequest.t;
  m_destFile : string;
  m_pTmpFile : option s3eFile
}.

Definition set_base (b : HttpRequest.t) (d : t) : t :=
  {| base := b; m_destFile := m_destFile d; m_pTmpFile := m_pTmpFile d |}.

Definition set_pTmpFile (f : option s3eFile) (d : t) : t :=
  {| base := base d; m_destFile := m_destFile d; m_pTmpFile := f |}.

Definition tmp_path (d : t) : string := c_str (m_destFile d +:+ ".tmp").

(** The constructor: the object exists only when [MakePath] did not throw. *)
Definition new (url destFile : string) : M FileSystem t :=
  let d := {| base := HttpRequest.new HttpRequest.GET (c_str url);
              m_destFile := destFile; m_pTmpFile := None |} in
  let download_folder := DirName (m_destFile d) in
  let* fs := get in
  (if negb (IsDir download_folder fs) then MakePath download_folder else ret tt) ;;
  ret (set_base (HttpRequest.set_status HttpRequest.PENDING (base d)) d).

Definition Worker_HandleData (contents : string) (size : Z) : M (t * FileSystem) Z :=
  let* s := get in
  (match m_pTmpFile s.1 with
   | None =>
       let (f, fs') := s3eFileOpen_w (tmp_path s.1) s.2 in
       put (set_pTmpFile f s.1, fs') ;;
       match f with
       | None => throw "Unable to open file for downloading!"
       | Some _ => ret tt
       end
   | Some _ => ret tt
   end) ;;
  let* s := get in
  (match m_pTmpFile s.1 with
   | Some f =>
       let* data := mem_read contents size in
       put (s.1, s3eFileWrite data f s.2)
   | None => ret tt
   end) ;;
  ret size.

Definition Worker_HandleDone (success : bool) (httpStatusCode : Z) : M (t * FileSystem) unit :=
  let* s := get in
  match m_pTmpFile s.1 with
  | Some f =>
      let fs1 := s3eFileClose f s.2 in
      let d := set_pTmpFile None s.1 in
      if success && (httpStatusCode =? 200) then
        put (d, s3eFileRename (tmp_path d) (c_str (m_destFile d)) fs1)
      else
        put (d, s3eFileDelete (tmp_path d) fs1)
  | None => ret tt
  end.

End HttpDownload.

(** ** The response buffer of [HttpPost] and [YoutubeUploadRequest]

    [m_workerResponseBuffer] is null, or points to a block of cells (a cell
    is [None] while nothing has been written to it), or dangles after
    [free]. *)
Inductive c_buffer :=
| null
| block (cells : list (option ascii))
| freed.

(** [realloc(p, n)]: whether the allocator has the memory is an input. On
    failure the result is null (and the old block is lost to the caller). *)
Definition realloc {S} (ok : bool) (p : c_buffer) (n : Z) : M S c_buffer :=
  match p with
  | freed => undefined "realloc of a freed pointer"
  | null => ret (if ok then block (replicate (Z.to_nat n) None) else null)
  | block cells =>
      ret (if ok then block (take (Z.to_nat n) cells ++
                             replicate (Z.to_nat n - length cells) None)
           else null)
  end.

(** [memcpy(p + offset, data, size)] into a block. *)
Definition memcpy_at {S} (cells : list (option ascii)) (offset : Z) (data : string)
    : M S (list (option ascii)) :=
  if offset + strlen data <=? Z.of_nat (length cells) then
    ret (take (Z.to_nat offset) cells ++ map Some (list_ascii_of_string data) ++
         drop (Z.to_nat (offset + strlen data)) cells)
  else undefined "memcpy past the end of the block".

Fixpoint string_of_cells (cells : list (option ascii)) : option string :=
  match cells with
  | [] => Some EmptyString
  | Some c :: rest => option_map (String c) (string_of_cells rest)
  | None :: _ => None
  end.

(** [std::string response(buffer, size)]. *)
Definition std_string {S} (p : c_buffer) (size : Z) : M S string :=
  match p with
  | null => if size =? 0 then ret EmptyString else undefined "string from a null pointer"
  | freed => undefined "string from a freed pointer"
  | block cells =>
      if size <=? Z.of_nat (length cells) then
        match string_of_cells (take (Z.to_nat size) cells) with
        | Some s => ret s
        | None => undefined "indeterminate bytes read"
        end
      else undefined "string past the end of the block"
  end.

Definition is_null (p : c_buffer) : bool :=
  match p with null => true | _ => false end.

(** ** [HttpPost] *)
Module HttpPost.

Record t := {
  base : HttpRequest.t;
  m_data : gmap string string;
  m_postData : string;
  m_bytesUploaded : Z;
  m_workerResponseBuffer : c_buffer;
  m_workerResponseSize : Z;
  m_responseData : json.UnknownElement
}.

Definition set_base (b : HttpRequest.t) (p : t) : t :=
  {| base := b; m_data := m_data p; m_postData := m_postData p;
     m_bytesUploaded := m_bytesUploaded p;
     m_workerResponseBuffer := m_workerResponseBuffer p;
     m_workerResponseSize := m_workerResponseSize p;
     m_responseData := m_responseData p |}.

Definition set_data (d : gmap string string) (p : t) : t :=
  {| base := base p; m_data := d; m_postData := m_postData p;
     m_bytesUploaded := m_bytesUploaded p;
     m_workerResponseBuffer := m_workerResponseBuffer p;
     m_workerResponseSize := m_workerResponseSize p;
     m_responseData := m_responseData p |}.

Definition set_postData (d : string) (p : t) : t :=
  {| base := base p; m_data := m_data p; m_postData := d;
     m_bytesUploaded := m_bytesUploaded p;
     m_workerResponseBuffer := m_workerResponseBuffer p;
     m_workerResponseSize := m_workerResponseSize p;
     m_responseData := m_responseData p |}.

Definition set_bytesUploaded (n : Z) (p : t) : t :=
  {| base := base p; m_data := m_data p; m_postData := m_postData p;
     m_bytesUploaded := n;
     m_workerResponseBuffer := m_workerResponseBuffer p;
     m_workerResponseSize := m_workerResponseSize p;
     m_responseData := m_responseData p |}.

Definition set_buffer (b : c_buffer) (n : Z) (p : t) : t :=
  {| base := base p; m_data := m_data p; m_postData := m_postData p;
     m_bytesUploaded := m_bytesUploaded p;
     m_workerResponseBuffer := b;
     m_workerResponseSize := n;
     m_responseData := m_responseData p |}.

Definition set_responseData (e : json.UnknownElement) (p : t) : t :=
  {| base := base p; m_data := m_data p; m_postData := m_postData p;
     m_bytesUploaded := m_bytesUploaded p;
     m_workerResponseBuffer := m_workerResponseBuffer p;
     m_workerResponseSize := m_workerResponseSize p;
     m_responseData := e |}.

Definition SetHeader (header value : string) : M t unit :=
  zoom base set_base (HttpRequest.SetHeader header value).

(** The constructor; [SetHeader] is called while the status is [BUILDING]. *)
Definition new (url : string) : M unit t :=
  fun _ =>
    match SetHeader "Content-Type" "application/x-www-form-urlencoded"
            {| base := HttpRequest.new HttpRequest.POST (c_str url);
               m_data := ∅; m_postData := EmptyString; m_bytesUploaded := 0;
               m_workerResponseBuffer := null; m_workerResponseSize := 0;
               m_responseData := json.Null |} with
    | Returns _ p => Returns p tt
    | Throws what _ => Throws what tt
    | AssertFails what => AssertFails what
    | Undefined what => Undefined what
    end.

Definition SetValue (key value : string) : M t unit :=
  modify (fun p => set_data (<[c_str key := c_str value]> (m_data p)) p).

Fixpoint CompileRequest_loop (pf : Platform) (first : bool)
    (items : list (string * string)) (postData : string) : string :=
  match items with
  | [] => postData
  | it :: rest =>
      let postData := if first then postData else postData +:+ "&" in
      let key := UrlEncode (char_signed pf) it.1 true in
      let val := UrlEncode (char_signed pf) it.2 true in
      CompileRequest_loop pf false rest (postData +:+ key +:+ "=" +:+ val)
  end.

Definition CompileRequest (pf : Platform) : M t unit :=
  let* p := get in
  IwAssert (String.eqb (m_postData p) EmptyString) "m_postData.empty()" ;;
  modify (fun p => set_postData
            (CompileRequest_loop pf true (in_key_order (m_data p)) (m_postData p)) p) ;;
  zoom base set_base HttpRequest.CompileRequest.

Definition Worker_GetUploadSize (p : t) : Z := strlen (m_postData p).

(** Returns the number of bytes copied and the bytes themselves. *)
Definition Worker_HandleUpload (fillSize : Z) : M t (Z * string) :=
  let* p := get in
  let ncopy := Z.min (size_t_wrap (strlen (m_postData p) - m_bytesUploaded p)) fillSize in
  let copied := substring (Z.to_nat (m_bytesUploaded p)) (Z.to_nat ncopy) (m_postData p) in
  (if ncopy <=? strlen (m_postData p) - m_bytesUploaded p then ret tt
   else undefined "memcpy past the end of m_postData") ;;
  put (set_bytesUploaded (size_t_wrap (m_bytesUploaded p + ncopy)) p) ;;
  ret (ncopy, copied).

Definition Worker_HandleData (realloc_ok : bool) (contents : string) (size : Z) : M t Z :=
  (if 0 <? size then
     let* p := get in
     let* b := realloc realloc_ok (m_workerResponseBuffer p)
                 (size_t_wrap (m_workerResponseSize p + size)) in
     put (set_buffer b (m_workerResponseSize p) p) ;;
     match b with
     | block cells =>
         let* data := mem_read contents size in
         let* cells' := memcpy_at cells (m_workerResponseSize p) data in
         put (set_buffer (block cells') (size_t_wrap (m_workerResponseSize p + size)) p)
     | _ => ret tt
     end
   else ret tt) ;;
  ret size.

Definition Worker_HandleCleanup : M t unit :=
  modify (fun p =>
    if is_null (m_workerResponseBuffer p) then p
    else set_buffer freed (m_workerResponseSize p) p).

Definition looks_like_json (response : string) : bool :=
  match response with
  | String c _ => Ascii.eqb c "[" || Ascii.eqb c "{"
  | EmptyString => false
  end.

Definition HandleResponse (pf : Platform) (success : bool) (httpStatusCode : Z) : M t unit :=
  zoom base set_base (HttpRequest.HandleResponse success httpStatusCode) ;;
  let* p := get in
  let* response := std_string (m_workerResponseBuffer p) (m_workerResponseSize p) in
  if success then
    if String.eqb response EmptyString then
      put (set_responseData json.Null p)
    else if looks_like_json response then
      match Reader_Read pf response (m_responseData p) with
      | json.ReadOk e => put (set_responseData e p)
      | json.ReadException _ partial =>
          put (set_base (HttpRequest.set_status HttpRequest.ERROR (base p))
                 (set_responseData partial p))
      end
    else put (set_responseData (json.String response) p)
  else ret tt.

End HttpPost.

(** ** [HttpPostJson] *)
Module HttpPostJson.

Record t := {
  post : HttpPost.t;
  m_postDataJson : list (string * json.UnknownElement)
}.

Definition set_post (p : HttpPost.t) (j : t) : t :=
  {| post := p; m_postDataJson := m_postDataJson j |}.

Definition new (url : string) : M unit t :=
  fun _ =>
    match HttpPost.new url tt with
    | Returns p _ =>
        match HttpPost.SetHeader "Content-Type" "application/json" p with
        | Returns _ p' => Returns {| post := p'; m_postDataJson := [] |} tt
        | Throws what _ => Throws what tt
        | AssertFails what => AssertFails what
        | Undefined what => Undefined what
        end
    | Throws what _ => Throws what tt
    | AssertFails what => AssertFails what
    | Undefined what => Undefined what
    end.

Definition SetPostData (jsonObj : list (string * json.UnknownElement)) : M t unit :=
  let* j := get in
  IwAssert (bool_decide (HttpRequest.m_status (HttpPost.base (post j)) = HttpRequest.BUILDING))
    "m_status == BUILDING" ;;
  put {| post := post j; m_postDataJson := jsonObj |}.

Definition CompileRequest (pf : Platform) : M t unit :=
  modify (fun j => set_post (HttpPost.set_postData (Writer_Write pf (m_postDataJson j)) (post j)) j) ;;
  let* j := get in
  zoom post set_post
    (HttpPost.SetHeader "Content-Length" (pretty (strlen (HttpPost.m_postData (post j)))) ;;
     zoom HttpPost.base HttpPost.set_base HttpRequest.CompileRequest).

End HttpPostJson.

(** ** [YoutubeUploadRequest] *)
Module YoutubeUploadRequest.

Record t := {
  base : HttpRequest.t;
  m_fileSize : Z;
  m_bytesUploaded : Z;
  m_workerResponseBuffer : c_buffer;
  m_workerResponseSize : Z;
  m_pUploadFile : option s3eFile;
  m_filePath : string;
  m_responseData : json.UnknownElement
}.

Definition set_base (b : HttpRequest.t) (y : t) : t :=
  {| base := b; m_fileSize := m_fileSize y; m_bytesUploaded := m_bytesUploaded y;
     m_workerResponseBuffer := m_workerResponseBuffer y;
     m_workerResponseSize := m_workerResponseSize y;
     m_pUploadFile := m_pUploadFile y; m_filePath := m_filePath y;
     m_responseData := m_responseData y |}.

Definition set_upload (f : option s3eFile) (n : Z) (y : t) : t :=
  {| base := base y; m_fileSize := m_fileSize y; m_bytesUploaded := n;
     m_workerResponseBuffer := m_workerResponseBuffer y;
     m_workerResponseSize := m_workerResponseSize y;
     m_pUploadFile := f; m_filePath := m_filePath y;
     m_responseData := m_responseData y |}.

Definition set_buffer (b : c_buffer) (n : Z) (y : t) : t :=
  {| base := base y; m_fileSize := m_fileSize y; m_bytesUploaded := m_bytesUploaded y;
     m_workerResponseBuffer := b;
     m_workerResponseSize := n;
     m_pUploadFile := m_pUploadFile y; m_filePath := m_filePath y;
     m_responseData := m_responseData y |}.

Definition set_responseData (e : json.UnknownElement) (y : t) : t :=
  {| base := base y; m_fileSize := m_fileSize y; m_bytesUploaded := m_bytesUploaded y;
     m_workerResponseBuffer := m_workerResponseBuffer y;
     m_workerResponseSize := m_workerResponseSize y;
     m_pUploadFile := m_pUploadFile y; m_filePath := m_filePath y;
     m_responseData := e |}.

Definition SetHeader (header value : string) : M t unit :=
  zoom base set_base (HttpRequest.SetHeader header value).

Definition new (resumableURI accessToken filepath : string) (videoFileSize : Z) : M unit t :=
  fun _ =>
    match (SetHeader "Authorization" ("Bearer " +:+ c_str accessToken) ;;
           SetHeader "Content-Type" "video/*" ;;
           SetHeader "Content-Length" (pretty videoFileSize))
            {| base := HttpRequest.new HttpRequest.PUT (c_str resumableURI);
               m_fileSize := videoFileSize; m_bytesUploaded := 0;
               m_workerResponseBuffer := null; m_workerResponseSize := 0;
               m_pUploadFile := None; m_filePath := filepath;
               m_responseData := json.Null |} with
    | Returns _ y => Returns y tt
    | Throws what _ => Throws what tt
    | AssertFails what => AssertFails what
    | Undefined what => Undefined what
    end.

Definition Worker_GetUploadSize (y : t) : Z := m_fileSize y.

Definition Worker_HandleUpload (fillSize : Z) : M (t * FileSystem) (Z * string) :=
  let* s := get in
  (match m_pUploadFile s.1 with
   | None =>
       let (f, fs') := s3eFileOpen_rb (c_str (m_filePath s.1)) s.2 in
       put (set_upload f (m_bytesUploaded s.1) s.1, fs') ;;
       match f with
       | None => throw "Unable to open file for uploading!"
       | Some _ => ret tt
       end
   | Some _ => ret tt
   end) ;;
  let* s := get in
  match m_pUploadFile s.1 with
  | Some f =>
      let '(got, f', fs') := s3eFileRead fillSize f s.2 in
      let ncopy := strlen got in
      put (set_upload (Some f') (size_t_wrap (m_bytesUploaded s.1 + ncopy)) s.1, fs') ;;
      ret (ncopy, got)
  | None => ret (0, EmptyString)
  end.

Definition Worker_HandleData (realloc_ok : bool) (contents : string) (size : Z) : M t Z :=
  (if 0 <? size then
     let* y := get in
     let* b := realloc realloc_ok (m_workerResponseBuffer y)
                 (size_t_wrap (m_workerResponseSize y + size)) in
     put (set_buffer b (m_workerResponseSize y) y) ;;
     match b with
     | block cells =>
         let* data := mem_read contents size in
         let* cells' := memcpy_at cells (m_workerResponseSize y) data in
         put (set_buffer (block cells') (size_t_wrap (m_workerResponseSize y + size)) y)
     | _ => ret tt
     end
   else ret tt) ;;
  ret size.

Definition Worker_HandleCleanup : M (t * FileSystem) unit :=
  modify (fun s : t * FileSystem =>
    let y := if is_null (m_workerResponseBuffer s.1) then s.1
             else set_buffer freed (m_workerResponseSize s.1) s.1 in
    match m_pUploadFile y with
    | Some f => (y, s3eFileClose f s.2)
    | None => (y, s.2)
    end).

Definition HandleResponse (pf : Platform) (success : bool) (httpStatusCode : Z) : M t unit :=
  zoom base set_base (HttpRequest.HandleResponse success httpStatusCode) ;;
  let* y := get in
  let* response := std_string (m_workerResponseBuffer y) (m_workerResponseSize y) in
  if success then
    if String.eqb response EmptyString then
      put (set_responseData json.Null y)
    else if HttpPost.looks_like_json response then
      match Reader_Read pf response (m_responseData y) with
      | json.ReadOk e => put (set_responseData e y)
      | json.ReadException _ partial =>
          put (set_base (HttpRequest.set_status HttpRequest.ERROR (base y))
                 (set_responseData partial y))
      end
    else put (set_responseData (json.String response) y)
  else ret tt.

End YoutubeUploadRequest.

(** ** Requests as the engine sees them

    A [Ptr<HttpRequest>] points to an object of one of the request classes;
    a virtual call runs the override of the object's class. *)
Inductive Request :=
| Download (d : HttpDownload.t)
| Post (p : HttpPost.t)
| PostJson (j : HttpPostJson.t)
| YoutubeUpload (y : YoutubeUploadRequest.t).

Definition base_of (r : Request) : HttpRequest.t :=
  match r with
  | Download d => HttpDownload.base d
  | Post p => HttpPost.base p
  | PostJson j => HttpPost.base (HttpPostJson.post j)
  | YoutubeUpload y => YoutubeUploadRequest.base y
  end.

Definition with_base (b : HttpRequest.t) (r : Request) : Request :=
  match r with
  | Download d => Download (HttpDownload.set_base b d)
  | Post p => Post (HttpPost.set_base b p)
  | PostJson j => PostJson (HttpPostJson.set_post (HttpPost.set_base b (HttpPostJson.post j)) j)
  | YoutubeUpload y => YoutubeUpload (YoutubeUploadRequest.set_base b y)
  end.

Definition GetStatus (r : Request) : HttpRequest.Status := HttpRequest.m_status (base_of r).
Definition GetMethod (r : Request) : HttpRequest.Method := HttpRequest.m_method (base_of r).
Definition GetURL (r : Request) : string := HttpRequest.m_url (base_of r).

(** A method of the class, run on the object behind the pointer. *)
Definition as_variant {X A} (inj : X -> Request) (m : M X A) (x : X) : outcome Request A :=
  match m x with
  | Returns a x' => Returns a (inj x')
  | Throws what x' => Throws what (inj x')
  | AssertFails what => AssertFails what
  | Undefined what => Undefined what
  end.

Definition as_variant_fs {X A} (inj : X -> Request) (m : M (X * FileSystem) A)
    (x : X) (fs : FileSystem) : outcome (Request * FileSystem) A :=
  match m (x, fs) with
  | Returns a s => Returns a (inj s.1, s.2)
  | Throws what s => Throws what (inj s.1, s.2)
  | AssertFails what => AssertFails what
  | Undefined what => Undefined what
  end.

Definition inherited {A} (m : M HttpRequest.t A) : M Request A :=
  zoom base_of with_base m.

Definition no_fs {S A} (m : M S A) : M (S * FileSystem) A :=
  zoom fst (fun s t => (s, t.2)) m.

Definition Cancel : M Request unit := inherited HttpRequest.Cancel.

Definition CompileRequest (pf : Platform) : M Request unit :=
  fun r =>
    match r with
    | Post p => as_variant Post (HttpPost.CompileRequest pf) p
    | PostJson j => as_variant PostJson (HttpPostJson.CompileRequest pf) j
    | _ => inherited HttpRequest.CompileRequest r
    end.

Definition HandleRequestStart : M Request unit := inherited HttpRequest.HandleRequestStart.

Definition HandleResponseHeaders (pFirstHeader : HttpRequest.RH) : M Request unit :=
  inherited (HttpRequest.HandleResponseHeaders pFirstHeader).

Definition HandleResponse (pf : Platform) (success : bool) (httpStatusCode : Z) : M Request unit :=
  fun r =>
    match r with
    | Post p => as_variant Post (HttpPost.HandleResponse pf success httpStatusCode) p
    | PostJson j =>
        as_variant PostJson
          (zoom HttpPostJson.post HttpPostJson.set_post
             (HttpPost.HandleResponse pf success httpStatusCode)) j
    | YoutubeUpload y =>
        as_variant YoutubeUpload (YoutubeUploadRequest.HandleResponse pf success httpStatusCode) y
    | Download _ => inherited (HttpRequest.HandleResponse success httpStatusCode) r
    end.

Definition Worker_UpdateProgress (dltotal dlnow ultotal ulnow : double) : M Request unit :=
  inherited (HttpRequest.Worker_UpdateProgress dltotal dlnow ultotal ulnow).

Definition Worker_HandleData (realloc_ok : bool) (contents : string) (size : Z)
    : M (Request * FileSystem) Z :=
  fun s =>
    match s.1 with
    | Download d => as_variant_fs Download (HttpDownload.Worker_HandleData contents size) d s.2
    | Post p =>
        as_variant_fs Post (no_fs (HttpPost.Worker_HandleData realloc_ok contents size)) p s.2
    | PostJson j =>
        as_variant_fs PostJson
          (no_fs (zoom HttpPostJson.post HttpPostJson.set_post
                    (HttpPost.Worker_HandleData realloc_ok contents size))) j s.2
    | YoutubeUpload y =>
        as_variant_fs YoutubeUpload
          (no_fs (YoutubeUploadRequest.Worker_HandleData realloc_ok contents size)) y s.2
    end.

Definition Worker_GetUploadSize (r : Request) : Z :=
  match r with
  | Post p => HttpPost.Worker_GetUploadSize p
  | PostJson j => HttpPost.Worker_GetUploadSize (HttpPostJson.post j)
  | YoutubeUpload y => YoutubeUploadRequest.Worker_GetUploadSize y
  | Download _ => 0
  end.

Definition Worker_HandleUpload (fillSize : Z) : M (Request * FileSystem) (Z * string) :=
  fun s =>
    match s.1 with
    | Post p => as_variant_fs Post (no_fs (HttpPost.Worker_HandleUpload fillSize)) p s.2
    | PostJson j =>
        as_variant_fs PostJson
          (no_fs (zoom HttpPostJson.post HttpPostJson.set_post
                    (HttpPost.Worker_HandleUpload fillSize))) j s.2
    | YoutubeUpload y =>
        as_variant_fs YoutubeUpload (YoutubeUploadRequest.Worker_HandleUpload fillSize) y s.2
    | Download _ => Returns (0, EmptyString) s
    end.

Definition Worker_HandleDone (success : bool) (httpStatusCode : Z) : M (Request * FileSystem) unit :=
  fun s =>
    match s.1 with
    | Download d =>
        as_variant_fs Download (HttpDownload.Worker_HandleDone success httpStatusCode) d s.2
    | _ => Returns tt s
    end.

Definition Worker_HandleCleanup : M (Request * FileSystem) unit :=
  fun s =>
    match s.1 with
    | Post p => as_variant_fs Post (no_fs HttpPost.Worker_HandleCleanup) p s.2
    | PostJson j =>
        as_variant_fs PostJson
          (no_fs (zoom HttpPostJson.post HttpPostJson.set_post HttpPost.Worker_HandleCleanup)) j s.2
    | YoutubeUpload y =>
        as_variant_fs YoutubeUpload YoutubeUploadRequest.Worker_HandleCleanup y s.2
    | Download _ => Returns tt s
    end.

(** ** [HttpClient_Worker] *)

(** The options set on a libcurl easy handle. *)
Record CURL := {
  CURLOPT_USERAGENT : option string;
  CURLOPT_HTTPGET : bool;
  CURLOPT_NOBODY : bool;
  CURLOPT_UPLOAD : bool;
  CURLOPT_POST : bool;
  CURLOPT_URL : string;
  CURLOPT_HTTPHEADER : list string;
  CURLOPT_READFUNCTION : bool;
  CURLOPT_POSTFIELDSIZE : Z
}.

Definition CURLE_OK : Z := 0.
Definition CURL_READFUNC_ABORT : Z := 0x10000000.

Definition addr : Type := nat.

Module Worker.

Inductive StatusCode := UNUSED | ACTIVE | DONE | CLEANUP | READY.

#[global] Instance StatusCode_eq_dec : EqDecision StatusCode.
Proof. solve_decision. Defined.

(** Where the worker's native thread stands in [HttpClient_WorkerThread]. *)
Inductive Thread :=
| NotCreated
| Created
| AtLoopHead
| Performing
| AwaitingCleanup
| AwaitingJob
| Exited.

(** The members of the struct; [thread] stands for the pthread that
    [thread_id] names. *)
Record t := {
  userAgent : option string;
  pCurl : option CURL;
  thread : Thread;
  pRequest : option addr;
  cancelAndQuit : bool;
  status : StatusCode;
  responseHeadersDone : bool;
  pResponseHeaders : HttpRequest.RH;
  result : Z;
  responseStatusCode : Z
}.

Definition new : t :=
  {| userAgent := None; pCurl := None; thread := NotCreated; pRequest := None;
     cancelAndQuit := false; status := UNUSED; responseHeadersDone := false;
     pResponseHeaders := []; result := CURLE_OK; responseStatusCode := 0 |}.

Definition Reset (w : t) : t :=
  {| userAgent := userAgent w; pCurl := pCurl w; thread := thread w;
     pRequest := pRequest w; cancelAndQuit := cancelAndQuit w; status := status w;
     responseHeadersDone := false; pResponseHeaders := [];
     result := result w; responseStatusCode := 0 |}.

Definition CancelAndQuit (w : t) : t :=
  {| userAgent := userAgent w; pCurl := pCurl w; thread := thread w;
     pRequest := pRequest w; cancelAndQuit := true; status := status w;
     responseHeadersDone := responseHeadersDone w;
     pResponseHeaders := pResponseHeaders w;
     result := result w; responseStatusCode := responseStatusCode w |}.

Definition WakeToStatus (sc : StatusCode) (w : t) : t :=
  {| userAgent := userAgent w; pCurl := pCurl w; thread := thread w;
     pRequest := pRequest w; cancelAndQuit := cancelAndQuit w; status := sc;
     responseHeadersDone := responseHeadersDone w;
     pResponseHeaders := pResponseHeaders w;
     result := result w; responseStatusCode := responseStatusCode w |}.

Definition set_pRequest (p : option addr) (w : t) : t :=
  {| userAgent := userAgent w; pCurl := pCurl w; thread := thread w;
     pRequest := p; cancelAndQuit := cancelAndQuit w; status := status w;
     responseHeadersDone := responseHeadersDone w;
     pResponseHeaders := pResponseHeaders w;
     result := result w; responseStatusCode := responseStatusCode w |}.

Definition set_userAgent (ua : string) (w : t) : t :=
  {| userAgent := Some ua; pCurl := pCurl w; thread := thread w;
     pRequest := pRequest w; cancelAndQuit := cancelAndQuit w; status := status w;
     responseHeadersDone := responseHeadersDone w;
     pResponseHeaders := pResponseHeaders w;
     result := result w; responseStatusCode := responseStatusCode w |}.

Definition set_status (sc : StatusCode) (w : t) : t := WakeToStatus sc w.

Definition set_thread (th : Thread) (w : t) : t :=
  {| userAgent := userAgent w; pCurl := pCurl w; thread := th;
     pRequest := pRequest w; cancelAndQuit := cancelAndQuit w; status := status w;
     responseHeadersDone := responseHeadersDone w;
     pResponseHeaders := pResponseHeaders w;
     result := result w; responseStatusCode := responseStatusCode w |}.

Definition set_pCurl (c : option CURL) (w : t) : t :=
  {| userAgent := userAgent w; pCurl := c; thread := thread w;
     pRequest := pRequest w; cancelAndQuit := cancelAndQuit w; status := status w;
     responseHeadersDone := responseHeadersDone w;
     pResponseHeaders := pResponseHeaders w;
     result := result w; responseStatusCode := responseStatusCode w |}.

Definition set_headers (done : bool) (hs : HttpRequest.RH) (w : t) : t :=
  {| userAgent := userAgent w; pCurl := pCurl w; thread := thread w;
     pRequest := pRequest w; cancelAndQuit := cancelAndQuit w; status := status w;
     responseHeadersDone := done; pResponseHeaders := hs;
     result := result w; responseStatusCode := responseStatusCode w |}.

Definition set_result (res code : Z) (w : t) : t :=
  {| userAgent := userAgent w; pCurl := pCurl w; thread := thread w;
     pRequest := pRequest w; cancelAndQuit := cancelAndQuit w; status := status w;
     responseHeadersDone := responseHeadersDone w;
     pResponseHeaders := pResponseHeaders w;
     result := res; responseStatusCode := code |}.

End Worker.

(** ** The application's side: callbacks, the client, the heap *)

(** An [HttpCallbackBase]: the downloader's own [HttpCallback<HttpDownloader>]
    bound to [HandleDownloadDone], or a callback of the application. The
    function behind an application callback is not code of this repository
    and is not run by the model: [Call] records that it was called, with
    which request. What the application does with the engine in reaction
    (queue, cancel, ask for a file) appears as events of its own, see
    [Event], not inside [Update]. *)
Inductive HttpCallbackBase :=
| HttpCallback_HandleDownloadDone
| HttpStaticCallback (fn : nat).

#[global] Instance HttpCallbackBase_eq_dec : EqDecision HttpCallbackBase.
Proof. solve_decision. Defined.

(** The virtual calls made on requests, recorded as they are made. *)
Inductive MethodCall :=
| call_Cancel
| call_CompileRequest
| call_HandleRequestStart
| call_HandleResponseHeaders
| call_HandleResponse (success : bool) (httpStatusCode : Z)
| call_Worker_UpdateProgress
| call_Worker_HandleData (size : Z)
| call_Worker_HandleUpload (fillSize : Z)
| call_Worker_HandleDone (success : bool) (httpStatusCode : Z)
| call_Worker_HandleCleanup.

Record HttpClient := {
  m_userAgent : string;
  m_workers : list Worker.t;
  m_pendingRequests : list addr;
  m_pendingCallbacks : list (addr * HttpCallbackBase)
}.

Definition NUM_WORKERS (c : HttpClient) : nat := length (m_workers c).

(** The whole program state: the request objects by address (addresses are
    handed out in order and not reused), the file system, the client with
    the downloader's map on top of it, the application callbacks delivered
    and the virtual calls made. The heap keeps every object that was ever
    built: the reference counts of [Ptr] and the destruction of an object
    whose last [Ptr] goes away are not modelled, so nothing below speaks
    about when a request is freed. *)
Record World := {
  heap : gmap addr Request;
  next_addr : addr;
  fs : FileSystem;
  http : HttpClient;
  m_activeDownloads : gmap string addr;
  delivered : list (nat * addr);
  trace : list (addr * MethodCall)
}.

Definition set_heap (h : gmap addr Request) (W : World) : World :=
  {| heap := h; next_addr := next_addr W; fs := fs W; http := http W;
     m_activeDownloads := m_activeDownloads W; delivered := delivered W; trace := trace W |}.

Definition set_next_addr (n : addr) (W : World) : World :=
  {| heap := heap W; next_addr := n; fs := fs W; http := http W;
     m_activeDownloads := m_activeDownloads W; delivered := delivered W; trace := trace W |}.

Definition set_fs (f : FileSystem) (W : World) : World :=
  {| heap := heap W; next_addr := next_addr W; fs := f; http := http W;
     m_activeDownloads := m_activeDownloads W; delivered := delivered W; trace := trace W |}.

Definition set_http (c : HttpClient) (W : World) : World :=
  {| heap := heap W; next_addr := next_addr W; fs := fs W; http := c;
     m_activeDownloads := m_activeDownloads W; delivered := delivered W; trace := trace W |}.

Definition set_activeDownloads (m : gmap string addr) (W : World) : World :=
  {| heap := heap W; next_addr := next_addr W; fs := fs W; http := http W;
     m_activeDownloads := m; delivered := delivered W; trace := trace W |}.

Definition set_delivered (d : list (nat * addr)) (W : World) : World :=
  {| heap := heap W; next_addr := next_addr W; fs := fs W; http := http W;
     m_activeDownloads := m_activeDownloads W; delivered := d; trace := trace W |}.

Definition set_trace (t : list (addr * MethodCall)) (W : World) : World :=
  {| heap := heap W; next_addr := next_addr W; fs := fs W; http := http W;
     m_activeDownloads := m_activeDownloads W; delivered := delivered W; trace := t |}.

Definition set_workers (ws : list Worker.t) (c : HttpClient) : HttpClient :=
  {| m_userAgent := m_userAgent c; m_workers := ws;
     m_pendingRequests := m_pendingRequests c; m_pendingCallbacks := m_pendingCallbacks c |}.

Definition set_pendingRequests (q : list addr) (c : HttpClient) : HttpClient :=
  {| m_userAgent := m_userAgent c; m_workers := m_workers c;
     m_pendingRequests := q; m_pendingCallbacks := m_pendingCallbacks c |}.

Definition set_pendingCallbacks (cbs : list (addr * HttpCallbackBase)) (c : HttpClient) : HttpClient :=
  {| m_userAgent := m_userAgent c; m_workers := m_workers c;
     m_pendingRequests := m_pendingRequests c; m_pendingCallbacks := cbs |}.

Definition deref (p : option addr) : M World (addr * Request) :=
  fun W =>
    match p with
    | None => Undefined "null Ptr dereferenced"
    | Some a =>
        match heap W !! a with
        | Some r => Returns (a, r) W
        | None => Undefined "dangling Ptr dereferenced"
        end
    end.

Definition the_worker (i : nat) : M World Worker.t :=
  fun W =>
    match m_workers (http W) !! i with
    | Some w => Returns w W
    | None => Undefined "no such worker"
    end.

Definition update_worker (i : nat) (f : Worker.t -> Worker.t) : M World unit :=
  modify (fun W => set_http (set_workers (alter f i (m_workers (http W))) (http W)) W).

Definition record_call (a : addr) (c : MethodCall) : M World unit :=
  modify (fun W => set_trace (trace W ++ [(a, c)]) W).

(** [p->method(...)] for a virtual method that touches the object only. *)
Definition call {A} (p : option addr) (c : MethodCall) (m : M Request A) : M World A :=
  let* ar := deref p in
  record_call ar.1 c ;;
  fun W =>
    match m ar.2 with
    | Returns a r' => Returns a (set_heap (<[ar.1 := r']> (heap W)) W)
    | Throws what r' => Throws what (set_heap (<[ar.1 := r']> (heap W)) W)
    | AssertFails what => AssertFails what
    | Undefined what => Undefined what
    end.

(** The same for a method that also uses the file system. *)
Definition call_fs {A} (p : option addr) (c : MethodCall) (m : M (Request * FileSystem) A)
    : M World A :=
  let* ar := deref p in
  record_call ar.1 c ;;
  fun W =>
    match m (ar.2, fs W) with
    | Returns a s => Returns a (set_fs s.2 (set_heap (<[ar.1 := s.1]> (heap W)) W))
    | Throws what s => Throws what (set_fs s.2 (set_heap (<[ar.1 := s.1]> (heap W)) W))
    | AssertFails what => AssertFails what
    | Undefined what => Undefined what
    end.

(** ** The libcurl callbacks

    [i] is the index in [m_workers] of the worker that [_pWorker] points to. *)

Definition HttpClient_WorkerThread_WriteCallback (realloc_ok : bool)
    (contents : string) (size nmemb : Z) (i : nat) : M World Z :=
  let* pWorker := the_worker i in
  if Worker.cancelAndQuit pWorker then ret 0
  else
    let realsize := size_t_wrap (size * nmemb) in
    call_fs (Worker.pRequest pWorker) (call_Worker_HandleData realsize)
      (Worker_HandleData realloc_ok contents realsize).

Definition HttpClient_WorkerThread_ReadCallback (size nmemb : Z) (i : nat)
    : M World (Z * string) :=
  let* pWorker := the_worker i in
  if Worker.cancelAndQuit pWorker then ret (CURL_READFUNC_ABORT, EmptyString)
  else
    let realsize := size_t_wrap (size * nmemb) in
    call_fs (Worker.pRequest pWorker) (call_Worker_HandleUpload realsize)
      (Worker_HandleUpload realsize).

Definition CRLF : string := String (ascii_of_nat 13) (String (ascii_of_nat 10) EmptyString).

(** [while (header[colon_pos] == ' ') colon_pos++]. *)
Fixpoint skip_spaces (fuel : nat) (header : string) (colon_pos : nat) : nat :=
  match fuel with
  | O => colon_pos
  | S fuel' =>
      match String.get colon_pos header with
      | Some c => if Ascii.eqb c " " then skip_spaces fuel' header (S colon_pos) else colon_pos
      | None => colon_pos
      end
  end.

Definition push_header (key val : string) (w : Worker.t) : Worker.t :=
  Worker.set_headers (Worker.responseHeadersDone w) ((key, val) :: Worker.pResponseHeaders w) w.

Definition HttpClient_WorkerThread_HeaderCallback (pHeader : string) (size nmemb : Z) (i : nat)
    : M World Z :=
  let* pWorker := the_worker i in
  if Worker.cancelAndQuit pWorker then ret 0
  else
    let realsize := size_t_wrap (size * nmemb) in
    let* header := mem_read pHeader realsize in
    let n := String.length header in
    let header :=
      if (2 <=? n)%nat && String.eqb (substring (n - 2) 2 header) CRLF
      then substring 0 (n - 2) header else header in
    let colon_pos := index 0 ":" header in
    (if String.eqb header EmptyString then
       update_worker i (fun w => Worker.set_headers true (Worker.pResponseHeaders w) w)
     else
       match colon_pos with
       | Some pos =>
           let key := substring 0 pos header in
           let pos' := skip_spaces (String.length header) header (S pos) in
           let val := substr_from pos' header in
           update_worker i (push_header key val)
       | None =>
           if String.eqb (substring 0 4 header) "HTTP"
           then update_worker i (push_header "HTTP" header)
           else ret tt
       end) ;;
    ret realsize.

Definition HttpClient_WorkerThread_ProgressCallback (dltotal dlnow ultotal ulnow : double)
    (i : nat) : M World Z :=
  let* pWorker := the_worker i in
  if Worker.cancelAndQuit pWorker then ret 1
  else
    call (Worker.pRequest pWorker) call_Worker_UpdateProgress
      (Worker_UpdateProgress dltotal dlnow ultotal ulnow) ;;
    ret 0.

(** ** [HttpClient_WorkerThread], one stretch of the thread at a time *)

Definition curl_easy_init : CURL :=
  {| CURLOPT_USERAGENT := None; CURLOPT_HTTPGET := false; CURLOPT_NOBODY := false;
     CURLOPT_UPLOAD := false; CURLOPT_POST := false; CURLOPT_URL := EmptyString;
     CURLOPT_HTTPHEADER := []; CURLOPT_READFUNCTION := false; CURLOPT_POSTFIELDSIZE := 0 |}.

Definition setopt_USERAGENT (ua : option string) (c : CURL) : CURL :=
  {| CURLOPT_USERAGENT := ua; CURLOPT_HTTPGET := CURLOPT_HTTPGET c;
     CURLOPT_NOBODY := CURLOPT_NOBODY c; CURLOPT_UPLOAD := CURLOPT_UPLOAD c;
     CURLOPT_POST := CURLOPT_POST c; CURLOPT_URL := CURLOPT_URL c;
     CURLOPT_HTTPHEADER := CURLOPT_HTTPHEADER c;
     CURLOPT_READFUNCTION := CURLOPT_READFUNCTION c;
     CURLOPT_POSTFIELDSIZE := CURLOPT_POSTFIELDSIZE c |}.

(** The options set before [curl_easy_perform]; the read callback and the
    body size are set for a POST only and stay on the handle otherwise. *)
Definition WorkerThread_setopt (r : Request) (c : CURL) : CURL :=
  let is_post := bool_decide (GetMethod r = HttpRequest.POST) in
  {| CURLOPT_USERAGENT := CURLOPT_USERAGENT c;
     CURLOPT_HTTPGET := bool_decide (GetMethod r = HttpRequest.GET);
     CURLOPT_NOBODY := bool_decide (GetMethod r = HttpRequest.HEAD);
     CURLOPT_UPLOAD := bool_decide (GetMethod r = HttpRequest.PUT);
     CURLOPT_POST := is_post;
     CURLOPT_URL := c_str (GetURL r);
     CURLOPT_HTTPHEADER :=
       map (fun kv : string * string => c_str (kv.1 +:+ ": " +:+ kv.2))
         (in_key_order (HttpRequest.m_requestHeaders (base_of r)));
     CURLOPT_READFUNCTION := CURLOPT_READFUNCTION c || is_post;
     CURLOPT_POSTFIELDSIZE :=
       if is_post then Worker_GetUploadSize r else CURLOPT_POSTFIELDSIZE c |}.

(** From the thread's entry to the loop. *)
Definition WorkerThread_enter (i : nat) : M World unit :=
  update_worker i (fun w =>
    Worker.set_thread Worker.AtLoopHead
      (Worker.set_pCurl (Some (setopt_USERAGENT (Worker.userAgent w) curl_easy_init)) w)).

Definition WorkerThread_exit (i : nat) : M World unit :=
  update_worker i (fun w => Worker.set_thread Worker.Exited (Worker.set_pCurl None w)).

(** [while (!pWorker->cancelAndQuit)] and the set-up of the transfer. *)
Definition WorkerThread_loop_head (i : nat) : M World unit :=
  let* pWorker := the_worker i in
  if Worker.cancelAndQuit pWorker then WorkerThread_exit i
  else
    let* ar := deref (Worker.pRequest pWorker) in
    update_worker i (fun w =>
      Worker.set_thread Worker.Performing
        (Worker.set_pCurl (option_map (WorkerThread_setopt ar.2) (Worker.pCurl w)) w)).

(** [curl_easy_perform] has returned [result], and the response code read
    from the handle is [code]; down to the wait for the application. *)
Definition WorkerThread_perform_done (result code : Z) (i : nat) : M World unit :=
  update_worker i (Worker.set_result result code) ;;
  let* pWorker := the_worker i in
  call_fs (Worker.pRequest pWorker)
    (call_Worker_HandleDone (Worker.result pWorker =? CURLE_OK)
       (int_of_long (Worker.responseStatusCode pWorker)))
    (Worker_HandleDone (Worker.result pWorker =? CURLE_OK)
       (int_of_long (Worker.responseStatusCode pWorker))) ;;
  update_worker i (fun w => Worker.set_thread Worker.AwaitingCleanup (Worker.set_status Worker.DONE w)).

(** Woken from the wait in [DONE]: clean up, then sleep as [READY] or quit. *)
Definition WorkerThread_cleanup (i : nat) : M World unit :=
  let* pWorker := the_worker i in
  IwAssert (bool_decide (Worker.status pWorker = Worker.CLEANUP))
    "pWorker->status == HttpClient_Worker::CLEANUP" ;;
  call_fs (Worker.pRequest pWorker) call_Worker_HandleCleanup Worker_HandleCleanup ;;
  update_worker i Worker.Reset ;;
  let* pWorker := the_worker i in
  if Worker.cancelAndQuit pWorker then WorkerThread_exit i
  else update_worker i (fun w => Worker.set_thread Worker.AwaitingJob (Worker.set_status Worker.READY w)).

(** Out of the [READY] sleep, back to the head of the loop. *)
Definition WorkerThread_resume (i : nat) : M World unit :=
  let* pWorker := the_worker i in
  IwAssert (bool_decide (Worker.status pWorker = Worker.ACTIVE) || Worker.cancelAndQuit pWorker)
    "(pWorker->status == HttpClient_Worker::ACTIVE) || (pWorker->cancelAndQuit)" ;;
  update_worker i (Worker.set_thread Worker.AtLoopHead).

(** ** [HttpClient] and [HttpDownloader] *)

Definition HttpClient_new (numWorkers : nat) (userAgentStr : string) : HttpClient :=
  {| m_userAgent := c_str userAgentStr;
     m_workers := replicate numWorkers Worker.new;
     m_pendingRequests := [];
     m_pendingCallbacks := [] |}.

(** A program that has just built its [HttpDownloader] (an [HttpClient]
    with an empty map of active downloads). *)
Definition World_new (numWorkers : nat) (userAgentStr : string) (files : FileSystem) : World :=
  {| heap := ∅; next_addr := 0%nat; fs := files;
     http := HttpClient_new numWorkers userAgentStr;
     m_activeDownloads := ∅; delivered := []; trace := [] |}.

(** [new T(...)]: the object is placed at the next address. *)
Definition allocate (r : Request) : M World addr :=
  fun W =>
    Returns (next_addr W)
      (set_next_addr (S (next_addr W)) (set_heap (<[next_addr W := r]> (heap W)) W)).

Definition QueueRequest (pf : Platform) (pRequest : option addr)
    (pCallback : option HttpCallbackBase) : M World unit :=
  let* ar := deref pRequest in
  (if decide (GetStatus ar.2 = HttpRequest.BUILDING)
   then call pRequest call_CompileRequest (CompileRequest pf) else ret tt) ;;
  let* ar := deref pRequest in
  IwAssert (bool_decide (GetStatus ar.2 = HttpRequest.PENDING))
    "pRequest->GetStatus() == HttpRequest::PENDING" ;;
  modify (fun W => set_http (set_pendingRequests (m_pendingRequests (http W) ++ [ar.1]) (http W)) W) ;;
  match pCallback with
  | Some cb =>
      modify (fun W => set_http (set_pendingCallbacks
                                   (m_pendingCallbacks (http W) ++ [(ar.1, cb)]) (http W)) W)
  | None => ret tt
  end.

(** [HttpDownloader::HandleDownloadDone]: the first entry, in the order of
    the keys, whose request is [pRequest] is erased. *)
Definition HandleDownloadDone (pRequest : addr) : M World unit :=
  modify (fun W =>
    match filter (fun kv : string * addr => kv.2 = pRequest) (in_key_order (m_activeDownloads W)) with
    | kv :: _ => set_activeDownloads (delete kv.1 (m_activeDownloads W)) W
    | [] => W
    end).

(** [HttpCallbackBase::Call]: the downloader's callback runs
    [HandleDownloadDone]; a call of an application callback is recorded. *)
Definition Call (cb : HttpCallbackBase) (pRequest : addr) : M World unit :=
  match cb with
  | HttpCallback_HandleDownloadDone => HandleDownloadDone pRequest
  | HttpStaticCallback fn => modify (fun W => set_delivered (delivered W ++ [(fn, pRequest)]) W)
  end.

(** The loop over [m_pendingCallbacks] in [Update]: the callbacks
    registered for [pRequest] are called and erased; what is returned is
    the list that is left. *)
Fixpoint Update_callbacks (pRequest : addr) (cbs : list (addr * HttpCallbackBase))
    : M World (list (addr * HttpCallbackBase)) :=
  match cbs with
  | [] => ret []
  | it :: rest =>
      if decide (it.1 = pRequest) then
        Call it.2 pRequest ;;
        Update_callbacks pRequest rest
      else
        let* rest' := Update_callbacks pRequest rest in
        ret (it :: rest')
  end.

(** The body of the [for] loop of [Update] for worker [i]. *)
Definition Update_worker (pf : Platform) (i : nat) (p_free_worker : option nat)
    : M World (option nat) :=
  let* worker := the_worker i in
  match Worker.status worker with
  | Worker.ACTIVE =>
      let* ar := deref (Worker.pRequest worker) in
      (if bool_decide (GetStatus ar.2 = HttpRequest.SENDING) && Worker.responseHeadersDone worker
       then call (Worker.pRequest worker) call_HandleResponseHeaders
              (HandleResponseHeaders (Worker.pResponseHeaders worker))
       else ret tt) ;;
      ret p_free_worker
  | Worker.DONE =>
      let* ar := deref (Worker.pRequest worker) in
      (if bool_decide (GetStatus ar.2 = HttpRequest.SENDING)
       then call (Worker.pRequest worker) call_HandleResponseHeaders
              (HandleResponseHeaders (Worker.pResponseHeaders worker))
       else ret tt) ;;
      let success := (Worker.result worker =? CURLE_OK) && (Worker.responseStatusCode worker <? 400) in
      call (Worker.pRequest worker)
        (call_HandleResponse success (int_of_long (Worker.responseStatusCode worker)))
        (HandleResponse pf success (int_of_long (Worker.responseStatusCode worker))) ;;
      let* W := get in
      let* left := Update_callbacks ar.1 (m_pendingCallbacks (http W)) in
      modify (fun W => set_http (set_pendingCallbacks left (http W)) W) ;;
      update_worker i (Worker.WakeToStatus Worker.CLEANUP) ;;
      ret p_free_worker
  | Worker.CLEANUP => ret p_free_worker
  | _ =>
      (match Worker.pRequest worker with
       | Some _ => update_worker i (Worker.set_pRequest None)
       | None => ret tt
       end) ;;
      ret (match p_free_worker with None => Some i | Some _ => p_free_worker end)
  end.

Fixpoint Update_scan (pf : Platform) (indices : list nat) (p_free_worker : option nat)
    : M World (option nat) :=
  match indices with
  | [] => ret p_free_worker
  | i :: rest =>
      let* p_free_worker := Update_worker pf i p_free_worker in
      Update_scan pf rest p_free_worker
  end.

(** The part of [Update] after the loop. [spawn_ok] is whether
    [pthread_create] returns 0. *)
Definition Update_dispatch (spawn_ok : bool) (p_free_worker : option nat) : M World unit :=
  let* W := get in
  match p_free_worker, m_pendingRequests (http W) with
  | Some i, p_request :: rest =>
      modify (fun W => set_http (set_pendingRequests rest (http W)) W) ;;
      let* ar := deref (Some p_request) in
      if decide (GetStatus ar.2 = HttpRequest.PENDING) then
        update_worker i (Worker.set_pRequest (Some p_request)) ;;
        call (Some p_request) call_HandleRequestStart HandleRequestStart ;;
        let* free_worker := the_worker i in
        if decide (Worker.status free_worker = Worker.UNUSED) then
          IwAssert (bool_decide (Worker.pCurl free_worker = None))
            "p_free_worker->pCurl == nullptr" ;;
          update_worker i (Worker.set_userAgent (c_str (m_userAgent (http W)))) ;;
          update_worker i (Worker.set_status Worker.ACTIVE) ;;
          if spawn_ok then update_worker i (Worker.set_thread Worker.Created)
          else
            update_worker i (Worker.set_status Worker.DONE) ;;
            throw "Unable to spawn a new HttpClient worker thread."
        else
          IwAssert (bool_decide (Worker.status free_worker = Worker.READY))
            "p_free_worker->status == Worker::READY" ;;
          update_worker i (Worker.WakeToStatus Worker.ACTIVE)
      else
        IwAssert (bool_decide (GetStatus ar.2 = HttpRequest.CANCELLED))
          "p_request->GetStatus() == HttpRequest::CANCELLED"
  | _, _ => ret tt
  end.

Definition Update (pf : Platform) (spawn_ok : bool) : M World unit :=
  let* W := get in
  let* p_free_worker := Update_scan pf (seq 0 (NUM_WORKERS (http W))) None in
  Update_dispatch spawn_ok p_free_worker.

(** [HttpDownloader::DownloadFile]. *)
Definition DownloadFile (pf : Platform) (url destFile : string) : M World (option addr) :=
  let* W := get in
  match m_activeDownloads W !! url with
  | Some p => ret (Some p)
  | None =>
      let* d := zoom fs set_fs (HttpDownload.new url destFile) in
      let* p_request := allocate (Download d) in
      QueueRequest pf (Some p_request) (Some HttpCallback_HandleDownloadDone) ;;
      modify (fun W => set_activeDownloads (<[url := p_request]> (m_activeDownloads W)) W) ;;
      ret (Some p_request)
  end.

(** ** The program as a transition system

    What can happen next: the application calls into the downloader or
    cancels a request it holds, the destructor signals a worker, a worker
    thread runs its next stretch, libcurl calls one of the callbacks during
    a transfer. *)
Inductive Event :=
| ev_DownloadFile (url destFile : string)
| ev_QueueRequest (pRequest : addr) (pCallback : option nat)
| ev_Update (spawn_ok : bool)
| ev_Cancel (pRequest : addr)
| ev_CancelAndQuit (i : nat)
| ev_thread_enter (i : nat)
| ev_thread_loop_head (i : nat)
| ev_write (i : nat) (realloc_ok : bool) (contents : string) (size nmemb : Z)
| ev_header (i : nat) (pHeader : string) (size nmemb : Z)
| ev_read (i : nat) (size nmemb : Z)
| ev_progress (i : nat) (dltotal dlnow ultotal ulnow : double)
| ev_thread_perform_done (i : nat) (result code : Z)
| ev_thread_cleanup (i : nat)
| ev_thread_resume (i : nat).

Definition discard {S A} (m : M S A) : M S unit := let* _ := m in ret tt.

Definition run (pf : Platform) (ev : Event) : M World unit :=
  match ev with
  | ev_DownloadFile url destFile => discard (DownloadFile pf url destFile)
  | ev_QueueRequest p cb => QueueRequest pf (Some p) (option_map HttpStaticCallback cb)
  | ev_Update spawn_ok => Update pf spawn_ok
  | ev_Cancel p => call (Some p) call_Cancel Cancel
  | ev_CancelAndQuit i => update_worker i Worker.CancelAndQuit
  | ev_thread_enter i => WorkerThread_enter i
  | ev_thread_loop_head i => WorkerThread_loop_head i
  | ev_write i realloc_ok contents size nmemb =>
      discard (HttpClient_WorkerThread_WriteCallback realloc_ok contents size nmemb i)
  | ev_header i pHeader size nmemb =>
      discard (HttpClient_WorkerThread_HeaderCallback pHeader size nmemb i)
  | ev_read i size nmemb => discard (HttpClient_WorkerThread_ReadCallback size nmemb i)
  | ev_progress i dltotal dlnow ultotal ulnow =>
      discard (HttpClient_WorkerThread_ProgressCallback dltotal dlnow ultotal ulnow i)
  | ev_thread_perform_done i result code => WorkerThread_perform_done result code i
  | ev_thread_cleanup i => WorkerThread_cleanup i
  | ev_thread_resume i => WorkerThread_resume i
  end.

Definition thread_at (i : nat) (th : Worker.Thread) (W : World) : Prop :=
  Worker.thread <$> (m_workers (http W) !! i) = Some th.

Definition signalled (i : nat) (asleep : Worker.StatusCode) (W : World) : Prop :=
  exists w, m_workers (http W) !! i = Some w /\
            (Worker.status w <> asleep \/ Worker.cancelAndQuit w = true).

(** When an event can happen. A thread event needs the thread to stand at
    that point; a sleeping thread goes on once it has been signalled. *)
Definition enabled (ev : Event) (W : World) : Prop :=
  match ev with
  | ev_DownloadFile _ _ | ev_QueueRequest _ _ | ev_Update _ | ev_Cancel _ => True
  | ev_CancelAndQuit i =>
      exists w, m_workers (http W) !! i = Some w /\ Worker.status w <> Worker.UNUSED
  | ev_thread_enter i => thread_at i Worker.Created W
  | ev_thread_loop_head i => thread_at i Worker.AtLoopHead W
  | ev_write i _ _ _ _ | ev_header i _ _ _ | ev_read i _ _ | ev_progress i _ _ _ _
  | ev_thread_perform_done i _ _ => thread_at i Worker.Performing W
  | ev_thread_cleanup i => thread_at i Worker.AwaitingCleanup W /\ signalled i Worker.DONE W
  | ev_thread_resume i => thread_at i Worker.AwaitingJob W /\ signalled i Worker.READY W
  end.

(** The state a call leaves behind, also when it leaves by an exception. *)
Definition leaves {S A} (o : outcome S A) (s' : S) : Prop :=
  match o with
  | Returns _ s1 | Throws _ s1 => s' = s1
  | _ => False
  end.

Inductive step (pf : Platform) (W W' : World) : Prop :=
| step_event (ev : Event) (Hen : enabled ev W) (Hrun : leaves (run pf ev W) W').

Inductive reachable (pf : Platform) (W0 : World) : World -> Prop :=
| reachable_refl : reachable pf W0 W0
| reachable_step W W' : reachable pf W0 W -> step pf W W' -> reachable pf W0 W'.


(** ** Auxiliary notions for the statements below *)

(** Since [before], only [s3eFileMakeDirectory] has been called. *)
Definition only_mkdir_since (before after : FileSystem) : Prop :=
  fs_files after = fs_files before /\
  fs_denied after = fs_denied before /\
  exists made, fs_calls after = fs_calls before ++ map s3eFileMakeDirectory_call made.

Ltac split_all := repeat match goal with |- _ /\ _ => split end.

Ltac unfold_M :=
  unfold bind, ret, get, put, modify, throw, undefined, IwAssert, zoom, discard in *.

(** An empty file system on which creating the paths of [denied] is
    refused, with error code 1. *)
Definition files_denying (denied : list string) : FileSystem :=
  {| fs_files := ∅; fs_dirs := ∅; fs_denied := list_to_set denied; fs_error := 1;
     fs_calls := [] |}.

(** The buffer and [m_workerResponseSize] agree: the block has that many
    cells; after a failed [realloc] the pointer is null and the size is
    whatever it was. *)
Definition buffer_ok (b : c_buffer) (n : Z) : Prop :=
  match b with
  | null => 0 <= n
  | block cells => Z.of_nat (length cells) = n
  | freed => False
  end.

(** The first [n] cells behind the pointer once a [realloc] has succeeded. *)
Definition buffer_cells (b : c_buffer) (n : Z) : list (option ascii) :=
  match b with
  | block cells => cells
  | _ => replicate (Z.to_nat n) None
  end.

(** The body that [std::string response(buffer, size)] yields, when that
    is defined. *)
Definition response_body (b : c_buffer) (n : Z) : option string :=
  match std_string b n tt with
  | Returns s _ => Some s
  | _ => None
  end.

(** What [HttpPost::HandleResponse] and
    [YoutubeUploadRequest::HandleResponse] leave for a response that the
    engine reports as a success: the status and the response data for a
    body [response], where [before] is the response data before the call. *)
Definition success_result (pf : Platform) (response : string) (before : json.UnknownElement)
    (st : HttpRequest.Status) (data : json.UnknownElement) : Prop :=
  if String.eqb response EmptyString then
    st = HttpRequest.DONE /\ data = json.Null
  else if HttpPost.looks_like_json response then
    match Reader_Read pf response before with
    | json.ReadOk e => st = HttpRequest.DONE /\ data = e
    | json.ReadException _ partial => st = HttpRequest.ERROR /\ data = partial
    end
  else st = HttpRequest.DONE /\ data = json.String response.

(** The same as the specification words it: a body that does not look like
    JSON is always wrapped as a string. *)
Definition success_result_as_specified (pf : Platform) (response : string)
    (before : json.UnknownElement)
    (st : HttpRequest.Status) (data : json.UnknownElement) : Prop :=
  if HttpPost.looks_like_json response then
    match Reader_Read pf response before with
    | json.ReadOk e => st = HttpRequest.DONE /\ data = e
    | json.ReadException _ partial => st = HttpRequest.ERROR
    end
  else st = HttpRequest.DONE /\ data = json.String response.

(** A reader for the examples: it knows the empty object and the empty
    array, and throws on anything else. *)
Definition sample_Reader_Read (s : string) (e : json.UnknownElement) : json.ReadResult :=
  if String.eqb s "{}" then json.ReadOk (json.Object [])
  else if String.eqb s "[]" then json.ReadOk (json.Array [])
  else json.ReadException "Unexpected character in stream" e.

Definition sample_platform : Platform :=
  {| char_signed := false;
     Reader_Read := sample_Reader_Read;
     Writer_Write := fun _ => "{}"%string |}.

(** A form post whose headers have arrived and whose buffer holds [body]. *)
Definition sample_post (body : string) : HttpPost.t :=
  {| HttpPost.base := HttpRequest.set_status HttpRequest.HEADERS
                        (HttpRequest.new HttpRequest.POST "http://host/api");
     HttpPost.m_data := ∅; HttpPost.m_postData := EmptyString;
     HttpPost.m_bytesUploaded := 0;
     HttpPost.m_workerResponseBuffer :=
       if String.eqb body EmptyString then null
       else block (map Some (list_ascii_of_string body));
     HttpPost.m_workerResponseSize := strlen body;
     HttpPost.m_responseData := json.Null |}.

(** A streaming upload whose headers have arrived and nothing else. *)
Definition sample_upload : YoutubeUploadRequest.t :=
  {| YoutubeUploadRequest.base :=
       HttpRequest.set_status HttpRequest.HEADERS
         (HttpRequest.new HttpRequest.PUT "http://host/upload");
     YoutubeUploadRequest.m_fileSize := 0;
     YoutubeUploadRequest.m_bytesUploaded := 0;
     YoutubeUploadRequest.m_workerResponseBuffer := null;
     YoutubeUploadRequest.m_workerResponseSize := 0;
     YoutubeUploadRequest.m_pUploadFile := None;
     YoutubeUploadRequest.m_filePath := "movie.mp4";
     YoutubeUploadRequest.m_responseData := json.Null |}.

(** ** Relating the state before and after a call *)

(** Whenever [m] leaves a state behind (it returns or throws), that state
    is related by [R] to the one it started from. *)
Definition preserves {A} (R : World -> World -> Prop) (m : M World A) : Prop :=
  forall W,
    match m W with
    | Returns _ W' | Throws _ W' => R W W'
    | _ => True
    end.

(** A relation that holds as soon as the workers are the same. *)
Definition workers_only (R : World -> World -> Prop) : Prop :=
  forall W W', m_workers (http W') = m_workers (http W) -> R W W'.

(** No worker loses its cancellation flag (and no worker disappears). *)
Definition flags_kept (W W' : World) : Prop :=
  forall i w, m_workers (http W) !! i = Some w ->
    exists w', m_workers (http W') !! i = Some w' /\
               (Worker.cancelAndQuit w = true -> Worker.cancelAndQuit w' = true).

(** What libcurl takes as a request to stop: a write or header callback
    that returns another count than it was handed, a read callback that
    returns [CURL_READFUNC_ABORT], a progress callback that returns
    non-zero. *)
Definition write_aborts (returned realsize : Z) : Prop := returned <> realsize.
Definition read_aborts (returned : Z) : Prop := returned = CURL_READFUNC_ABORT.
Definition progress_aborts (returned : Z) : Prop := returned <> 0.

(** An empty file system that refuses nothing, and a downloader with one
    worker that has been asked for one file, has started the transfer and
    is then told to quit. *)
Definition sample_files : FileSystem := files_denying [].

Definition sample_start : World := World_new 1 "agent" sample_files.

Definition sample_events_cancelled : list Event :=
  [ev_DownloadFile "http://host/a.png" "a.png"; ev_Update true;
   ev_thread_enter 0; ev_thread_loop_head 0; ev_CancelAndQuit 0].


(** ** What one pass of [Update] over a worker may change *)

Definition is_free (w : Worker.t) : bool :=
  match Worker.status w with
  | Worker.UNUSED | Worker.READY => true
  | _ => false
  end.

Definition is_busy (w : Worker.t) : bool :=
  match Worker.status w with
  | Worker.ACTIVE | Worker.DONE => true
  | _ => false
  end.

Definition in_flight (st : HttpRequest.Status) : Prop :=
  st = HttpRequest.SENDING \/ st = HttpRequest.HEADERS.

Definition answered (st : HttpRequest.Status) : Prop :=
  st = HttpRequest.HEADERS \/ st = HttpRequest.DONE \/ st = HttpRequest.ERROR.

(** A worker before and after the loop of [Update]: a [DONE] worker may
    have become [CLEANUP], a free worker may have dropped its request. *)
Definition worker_scanned (w w' : Worker.t) : Prop :=
  Worker.cancelAndQuit w' = Worker.cancelAndQuit w /\
  Worker.result w' = Worker.result w /\
  Worker.responseStatusCode w' = Worker.responseStatusCode w /\
  Worker.pCurl w' = Worker.pCurl w /\
  Worker.thread w' = Worker.thread w /\
  Worker.userAgent w' = Worker.userAgent w /\
  Worker.responseHeadersDone w' = Worker.responseHeadersDone w /\
  Worker.pResponseHeaders w' = Worker.pResponseHeaders w /\
  (Worker.status w' = Worker.status w \/
   (Worker.status w = Worker.DONE /\ Worker.status w' = Worker.CLEANUP)) /\
  (Worker.pRequest w' = Worker.pRequest w \/
   (is_free w = true /\ Worker.pRequest w' = None)).

(** A request before and after: untouched, or moved on from a transfer. *)
Definition request_scanned (r r' : Request) : Prop :=
  r' = r \/ (in_flight (GetStatus r) /\ answered (GetStatus r')).

(** The loop body for worker [j], whose request is behind [A]: what it
    may touch. *)
Definition scan_frame (A : option addr) (j : nat) (W W' : World) : Prop :=
  fs W' = fs W /\ next_addr W' = next_addr W /\
  m_pendingRequests (http W') = m_pendingRequests (http W) /\
  m_userAgent (http W') = m_userAgent (http W) /\
  length (m_workers (http W')) = length (m_workers (http W)) /\
  (forall k, k <> j -> m_workers (http W') !! k = m_workers (http W) !! k) /\
  (forall w, m_workers (http W) !! j = Some w ->
     exists w', m_workers (http W') !! j = Some w' /\ worker_scanned w w') /\
  (forall b, A <> Some b -> heap W' !! b = heap W !! b) /\
  (forall b r, heap W !! b = Some r ->
     exists r', heap W' !! b = Some r' /\ request_scanned r r') /\
  (exists more, trace W' = trace W ++ more /\ forall c, c ∈ more -> A = Some c.1).

(** Only the downloader's map and the record of delivered callbacks may
    differ. *)
Definition same_core (W W' : World) : Prop :=
  heap W' = heap W /\ fs W' = fs W /\ next_addr W' = next_addr W /\
  http W' = http W /\ trace W' = trace W.

(** The state after the virtual call [c] on the object at [a] has left
    [r'] there. *)
Definition after_call (a : addr) (c : MethodCall) (r' : Request) (W : World) : World :=
  set_heap (<[a := r']> (heap W)) (set_trace (trace W ++ [(a, c)]) W).

(** Whenever [m] returns, its value satisfies [Q]. *)
Definition yields {A} (Q : A -> Prop) (m : M World A) : Prop :=
  forall W, match m W with Returns a _ => Q a | _ => True end.

(** The calls that an update of a request by the loop of [Update] makes. *)
Definition scan_step (pf : Platform) (r r' : Request) : Prop :=
  (exists hs, leaves (HandleResponseHeaders hs r) r') \/
  (exists success code, leaves (HandleResponse pf success code r) r').

#[global] Instance Thread_eq_dec : EqDecision Worker.Thread.
Proof. solve_decision. Defined.

(** [enabled], as a test. *)
Definition signalledb (i : nat) (asleep : Worker.StatusCode) (W : World) : bool :=
  match m_workers (http W) !! i with
  | Some w => negb (bool_decide (Worker.status w = asleep)) || Worker.cancelAndQuit w
  | None => false
  end.

Definition thread_atb (i : nat) (th : Worker.Thread) (W : World) : bool :=
  bool_decide (Worker.thread <$> (m_workers (http W) !! i) = Some th).

Definition enabledb (ev : Event) (W : World) : bool :=
  match ev with
  | ev_DownloadFile _ _ | ev_QueueRequest _ _ | ev_Update _ | ev_Cancel _ => true
  | ev_CancelAndQuit i =>
      match m_workers (http W) !! i with
      | Some w => negb (bool_decide (Worker.status w = Worker.UNUSED))
      | None => false
      end
  | ev_thread_enter i => thread_atb i Worker.Created W
  | ev_thread_loop_head i => thread_atb i Worker.AtLoopHead W
  | ev_write i _ _ _ _ | ev_header i _ _ _ | ev_read i _ _ | ev_progress i _ _ _ _
  | ev_thread_perform_done i _ _ => thread_atb i Worker.Performing W
  | ev_thread_cleanup i => thread_atb i Worker.AwaitingCleanup W && signalledb i Worker.DONE W
  | ev_thread_resume i => thread_atb i Worker.AwaitingJob W && signalledb i Worker.READY W
  end.

(** The state after a list of events, each of which must be enabled where
    it stands and leave a state. *)
Fixpoint play (pf : Platform) (evs : list Event) (W : World) : option World :=
  match evs with
  | [] => Some W
  | ev :: rest =>
      if enabledb ev W then
        match run pf ev W with
        | Returns _ W' | Throws _ W' => play pf rest W'
        | _ => None
        end
      else None
  end.

Definition sample_cancelled : World :=
  default sample_start (play sample_platform sample_events_cancelled sample_start).

(** The worker of [sample_cancelled]. *)
Definition sample_cancelled_worker : Worker.t :=
  {| Worker.userAgent := Some "agent"%string;
     Worker.pCurl :=
       Some (WorkerThread_setopt
               (Download {| HttpDownload.base :=
                              HttpRequest.set_status HttpRequest.SENDING
                                (HttpRequest.new HttpRequest.GET "http://host/a.png");
                            HttpDownload.m_destFile := "a.png";
                            HttpDownload.m_pTmpFile := None |})
               (setopt_USERAGENT (Some "agent"%string) curl_easy_init));
     Worker.thread := Worker.Performing;
     Worker.pRequest := Some 0%nat;
     Worker.cancelAndQuit := true;
     Worker.status := Worker.ACTIVE;
     Worker.responseHeadersDone := false;
     Worker.pResponseHeaders := [];
     Worker.result := CURLE_OK;
     Worker.responseStatusCode := 0 |}.

(** The first free worker, as the loop of [Update] finds it. *)
Definition free_at (ws : list Worker.t) (k : nat) : bool :=
  match ws !! k with
  | Some w => is_free w
  | None => false
  end.

Fixpoint first_free_in (ws : list Worker.t) (indices : list nat) : option nat :=
  match indices with
  | [] => None
  | k :: rest => if free_at ws k then Some k else first_free_in ws rest
  end.

Definition first_free (ws : list Worker.t) : option nat :=
  first_free_in ws (seq 0 (length ws)).

(** Across the whole loop: every worker and every request is as it was or
    has been passed over by the loop. *)
Definition scanned (W W' : World) : Prop :=
  fs W' = fs W /\ next_addr W' = next_addr W /\
  m_pendingRequests (http W') = m_pendingRequests (http W) /\
  m_userAgent (http W') = m_userAgent (http W) /\
  length (m_workers (http W')) = length (m_workers (http W)) /\
  (forall k w, m_workers (http W) !! k = Some w ->
     exists w', m_workers (http W') !! k = Some w' /\ worker_scanned w w') /\
  (forall b r, heap W !! b = Some r ->
     exists r', heap W' !! b = Some r' /\ request_scanned r r') /\
  (exists more, trace W' = trace W ++ more).

(** The response body of a request can be read back from its buffer. *)
Definition body_readable (r : Request) : Prop :=
  match r with
  | Download _ => True
  | Post p =>
      is_Some (response_body (HttpPost.m_workerResponseBuffer p)
                 (HttpPost.m_workerResponseSize p))
  | PostJson j =>
      is_Some (response_body (HttpPost.m_workerResponseBuffer (HttpPostJson.post j))
                 (HttpPost.m_workerResponseSize (HttpPostJson.post j)))
  | YoutubeUpload y =>
      is_Some (response_body (YoutubeUploadRequest.m_workerResponseBuffer y)
                 (YoutubeUploadRequest.m_workerResponseSize y))
  end.

(** What the loop of [Update] relies on for the workers of [indices]: a
    busy worker holds a live request, a finished one a request in flight
    whose body can be read, and no two busy workers share a request. *)
Definition ready_on (indices : list nat) (W : World) : Prop :=
  (forall k, k ∈ indices ->
     exists w, m_workers (http W) !! k = Some w /\
       (is_busy w = true ->
        exists a r, Worker.pRequest w = Some a /\ heap W !! a = Some r /\
          (Worker.status w = Worker.DONE ->
           in_flight (GetStatus r) /\ body_readable r))) /\
  (forall k k' w w', k ∈ indices -> k' ∈ indices -> k <> k' ->
     m_workers (http W) !! k = Some w -> m_workers (http W) !! k' = Some w' ->
     is_busy w = true -> is_busy w' = true ->
     Worker.pRequest w <> Worker.pRequest w').

(** What the dispatch relies on: the request at the head of the queue is
    live and pending or cancelled, and a worker never started has no curl
    handle. *)
Definition dispatch_ready (W : World) : Prop :=
  (forall p rest, m_pendingRequests (http W) = p :: rest ->
     exists r, heap W !! p = Some r /\
       (GetStatus r = HttpRequest.PENDING \/ GetStatus r = HttpRequest.CANCELLED)) /\
  (forall k w, m_workers (http W) !! k = Some w ->
     Worker.status w = Worker.UNUSED -> Worker.pCurl w = None).

(** Two workers, both never started, and two downloads queued. *)
Definition sample_two_start : World := World_new 2 "agent" sample_files.

Definition sample_two_queued : World :=
  default sample_two_start
    (play sample_platform
       [ev_DownloadFile "http://host/a.png" "a.png";
        ev_DownloadFile "http://host/b.png" "b.png"] sample_two_start).

(** The state one call of [Update] leaves behind. *)
Definition Update_result (pf : Platform) (spawn_ok : bool) (W : World) : World :=
  match Update pf spawn_ok W with
  | Returns _ W' | Throws _ W' => W'
  | _ => W
  end.

Definition sample_two_updated : World := Update_result sample_platform true sample_two_queued.

(** A download whose transfer has ended with HTTP status 404 after one
    chunk of the error page, not yet seen by [Update]. *)
Definition sample_events_404 : list Event :=
  [ev_DownloadFile "http://host/a.png" "a.png"; ev_Update true;
   ev_thread_enter 0; ev_thread_loop_head 0;
   ev_write 0 true "gone" 1 4; ev_thread_perform_done 0 CURLE_OK 404].

Definition sample_404 : World :=
  default sample_start (play sample_platform sample_events_404 sample_start).

Definition sample_404_worker : Worker.t :=
  default Worker.new (m_workers (http sample_404) !! 0%nat).

Definition sample_404_request : Request :=
  default (Post (sample_post "")) (heap sample_404 !! 0%nat).

(** A download that has written one chunk and whose transfer has ended
    well with HTTP status 304, seen by [Update]. *)
Definition sample_events_304 : list Event :=
  [ev_DownloadFile "http://host/a.png" "a.png"; ev_Update true;
   ev_thread_enter 0; ev_thread_loop_head 0;
   ev_write 0 true "body" 1 4; ev_thread_perform_done 0 CURLE_OK 304;
   ev_Update true].

Definition sample_304 : World :=
  default sample_start (play sample_platform sample_events_304 sample_start).

(** A download whose transfer has ended well with HTTP status 200 and an
    empty body, seen by [Update]. *)
Definition sample_events_200_empty : list Event :=
  [ev_DownloadFile "http://host/a.png" "a.png"; ev_Update true;
   ev_thread_enter 0; ev_thread_loop_head 0;
   ev_thread_perform_done 0 CURLE_OK 200; ev_Update true].

Definition sample_200_empty : World :=
  default sample_start (play sample_platform sample_events_200_empty sample_start).

(** The files once a transfer has ended, by what [Worker_HandleDone] does
    with an open temporary file. *)
Definition files_when_done (keep : bool) (tmp dst : string) (files : gmap string string)
    : gmap string string :=
  if keep then
    match files !! tmp with
    | Some content => <[dst := content]> (delete tmp files)
    | None => files
    end
  else delete tmp files.

(** A download in the middle of its transfer: one chunk written. *)
Definition sample_events_receiving : list Event :=
  [ev_DownloadFile "http://host/a.png" "a.png"; ev_Update true;
   ev_thread_enter 0; ev_thread_loop_head 0; ev_write 0 true "body" 1 4].

Definition sample_receiving : World :=
  default sample_start (play sample_platform sample_events_receiving sample_start).

Definition sample_receiving_worker : Worker.t :=
  default Worker.new (m_workers (http sample_receiving) !! 0%nat).

Definition sample_receiving_download : HttpDownload.t :=
  match heap sample_receiving !! 0%nat with
  | Some (Download d) => d
  | _ => {| HttpDownload.base := HttpRequest.new HttpRequest.GET EmptyString;
            HttpDownload.m_destFile := EmptyString; HttpDownload.m_pTmpFile := None |}
  end.

(** ** The downloader's map of active downloads *)

Definition unfinished (st : HttpRequest.Status) : Prop :=
  st <> HttpRequest.DONE /\ st <> HttpRequest.ERROR.

(** The status after is the status before, or not a final one. *)
Definition status_kept (r r' : Request) : Prop :=
  GetStatus r' = GetStatus r \/ unfinished (GetStatus r').

Definition keeps_status {A} (m : M Request A) : Prop :=
  forall r r', leaves (m r) r' -> status_kept r r'.

Definition keeps_status_fs {A} (m : M (Request * FileSystem) A) : Prop :=
  forall r files s', leaves (m (r, files)) s' -> status_kept r s'.1.

(** The map is as it was, no registered callback is lost, and no request
    is finished. *)
Definition downloads_kept (W W' : World) : Prop :=
  m_activeDownloads W' = m_activeDownloads W /\
  (forall x, x ∈ m_pendingCallbacks (http W) -> x ∈ m_pendingCallbacks (http W')) /\
  (next_addr W <= next_addr W')%nat /\
  (forall a r, heap W !! a = Some r ->
     exists r', heap W' !! a = Some r' /\ status_kept r r') /\
  (forall a, is_Some (heap W' !! a) -> is_Some (heap W !! a)).

(** [R] holds of the two states whenever the first has what [I] asks. *)
Definition under (I : World -> Prop) (W W' : World) : Prop := I W -> I W'.

(** Every request in the map is live and unfinished and has the
    downloader's callback registered; no two keys share a request; requests
    sit below the next address. *)
Definition downloads_inv (W : World) : Prop :=
  (forall url a, m_activeDownloads W !! url = Some a ->
     (a, HttpCallback_HandleDownloadDone) ∈ m_pendingCallbacks (http W) /\
     exists r, heap W !! a = Some r /\ unfinished (GetStatus r)) /\
  (forall url url' a, m_activeDownloads W !! url = Some a ->
     m_activeDownloads W !! url' = Some a -> url = url') /\
  (forall a r, heap W !! a = Some r -> (a < next_addr W)%nat).

(** The map stays in order and gains no key. *)
Definition downloads_step (W W' : World) : Prop :=
  under downloads_inv W W' /\
  forall url b, m_activeDownloads W' !! url = Some b -> m_activeDownloads W !! url = Some b.

(** A request that [Update] has completed. *)
Definition finished (st : HttpRequest.Status) : Prop :=
  st = HttpRequest.DONE \/ st = HttpRequest.ERROR.

(** A finished request keeps its status. *)
Definition final_step (r r' : Request) : Prop :=
  finished (GetStatus r) -> GetStatus r' = GetStatus r.

Definition keeps_final {A} (m : M Request A) : Prop :=
  forall r r', leaves (m r) r' -> final_step r r'.

Definition keeps_final_fs {A} (m : M (Request * FileSystem) A) : Prop :=
  forall r files s', leaves (m (r, files)) s' -> final_step r s'.1.

Definition final_kept (W W' : World) : Prop :=
  forall a r, heap W !! a = Some r -> finished (GetStatus r) ->
    exists r', heap W' !! a = Some r' /\ GetStatus r' = GetStatus r.

(** Every key of the map still stands for its request, unless that request
    has been completed; and completed requests stay completed. *)
Definition downloads_held (W W' : World) : Prop :=
  final_kept W W' /\
  forall url a, m_activeDownloads W !! url = Some a ->
    m_activeDownloads W' !! url = Some a \/
    exists r', heap W' !! a = Some r' /\ finished (GetStatus r').

(** The downloads of the samples. *)
Definition sample_url : string := "http://host/a.png".

(** A download that the application cancels while it is still queued, and
    the next [Update]. *)
Definition sample_events_cancelled_queued : list Event :=
  [ev_DownloadFile sample_url "a.png"; ev_Cancel 0%nat; ev_Update true].

Definition sample_cancelled_queued : World :=
  default sample_start (play sample_platform sample_events_cancelled_queued sample_start).

Definition DownloadFile_value (pf : Platform) (url destFile : string) (W : World)
    : option (option addr) :=
  match DownloadFile pf url destFile W with
  | Returns p _ => Some p
  | _ => None
  end.

(** ** Notions for the further properties *)

(** The value of the entry for [k] that comes last in the list [hs]. *)
Definition last_value (k : string) (hs : list (string * string)) : option string :=
  last (omap (fun hv : string * string => if decide (hv.1 = k) then Some hv.2 else None) hs).

(** The download of the samples as its constructor leaves it. *)
Definition sample_receiving_download_fresh : HttpDownload.t :=
  {| HttpDownload.base :=
       HttpRequest.set_status HttpRequest.PENDING
         (HttpRequest.new HttpRequest.GET "http://host/a.png");
     HttpDownload.m_destFile := "a.png";
     HttpDownload.m_pTmpFile := None |}.

(** A form post with two values set, still being built, and a program
    state that holds it at address 0. *)
Definition sample_form : HttpPost.t :=
  match HttpPost.new "http://host/api" tt with
  | Returns p _ =>
      match (HttpPost.SetValue "name" "bob" ;; HttpPost.SetValue "age" "35") p with
      | Returns _ p' => p'
      | _ => p
      end
  | _ => sample_post EmptyString
  end.

Definition sample_form_compiled : Request :=
  match CompileRequest sample_platform (Post sample_form) with
  | Returns _ r' => r'
  | _ => Post sample_form
  end.

Definition sample_form_world : World :=
  set_next_addr 1%nat (set_heap (<[0%nat := Post sample_form]> ∅) sample_start).

(** ** [iohelpers]: the parts of a path *)

(** [s.substr(pos, count)]: [count] is cut to what is left of the string. *)
Definition substr (pos : nat) (count : Z) (s : string) : string :=
  substring pos (Z.to_nat (Z.min count (Z.of_nat (String.length s - pos)))) s.

Definition GetFileName (path : string) : string :=
  match find_last_of "/" path with
  | None => path
  | Some pos_slash => substr_from (S pos_slash) path
  end.

(** [pos_dot - pos_slash - 1] is computed in [size_t]. *)
Definition FileNameNoExt (path : string) : string :=
  match find_last_of "." path, find_last_of "/" path with
  | None, _ => path
  | Some pos_dot, None => substr 0 (Z.of_nat pos_dot) path
  | Some pos_dot, Some pos_slash =>
      substr (S pos_slash) (size_t_wrap (Z.of_nat pos_dot - Z.of_nat pos_slash - 1)) path
  end.

Definition GetFileNameExt (path : string) : string :=
  match find_last_of "." path with
  | None => EmptyString
  | Some pos_dot => substr_from (S pos_dot) path
  end.

(** The file system after [MakePath] on an empty one. *)
Definition sample_made : FileSystem :=
  match MakePath "cache://maps//tiles/" sample_files with
  | Returns _ files' => files'
  | _ => sample_files
  end.

(** The characters that a url-encoded string may hold: letters, digits and
    ['%'], and in the lenient mode also [- _ . +]. *)
Definition url_safe (strict : bool) (c : ascii) : bool :=
  isalnum c || Ascii.eqb c "%" ||
  (negb strict && (Ascii.eqb c "-" || Ascii.eqb c "_" || Ascii.eqb c "." || Ascii.eqb c "+")).

Definition all_chars (P : ascii -> bool) (s : string) : bool :=
  forallb P (list_ascii_of_string s).

(** A download whose response headers have all arrived while the body is
    still to come. *)
Definition sample_events_headers : list Event :=
  [ev_DownloadFile "http://host/a.png" "a.png"; ev_Update true;
   ev_thread_enter 0; ev_thread_loop_head 0;
   ev_header 0 ("HTTP/1.1 200 OK" +:+ CRLF) 1 17;
   ev_header 0 ("Content-Type:  image/png" +:+ CRLF) 1 26;
   ev_header 0 CRLF 1 2].

Definition sample_headers : World :=
  default sample_start (play sample_platform sample_events_headers sample_start).

Definition sample_headers_worker : Worker.t :=
  default Worker.new (m_workers (http sample_headers) !! 0%nat).

Definition sample_headers_request : Request :=
  default (Post (sample_post EmptyString)) (heap sample_headers !! 0%nat).

(** A file system that holds the file of [sample_upload]. *)
Definition sample_movie_files : FileSystem :=
  fs_set_files (<["movie.mp4"%string := "0123456789"%string]> ∅) sample_files.

Definition sample_304_worker : Worker.t :=
  default Worker.new (m_workers (http sample_304) !! 0%nat).

Definition sample_304_request : Request :=
  default (Post (sample_post EmptyString)) (heap sample_304 !! 0%nat).
(** * Properties *)

(** ** Percent-encoding *)

Lemma append_cons (x : ascii) (a b : string) : String x a +:+ b = String x (a +:+ b).
Proof. reflexivity. Qed.

Lemma append_nil_l (b : string) : EmptyString +:+ b = b.
Proof. reflexivity. Qed.

Lemma append_assoc (a b c : string) : (a +:+ b) +:+ c = a +:+ (b +:+ c).
Proof.
  induction a as [|x a IH]; [reflexivity|].
  rewrite !append_cons. now rewrite IH.
Qed.

Lemma append_empty_r (a : string) : a +:+ EmptyString = a.
Proof.
  induction a as [|x a IH]; [reflexivity|].
  rewrite append_cons. now rewrite IH.
Qed.

Lemma oss_write_text (s : string) (o : ostringstream) :
  oss_write s o =
  {| oss_str := oss_str o +:+ oss_str (oss_write s {| oss_str := EmptyString;
                                                     oss_fill := oss_fill o;
                                                     oss_width := oss_width o |});
     oss_fill := oss_fill o; oss_width := 0 |}.
Proof. reflexivity. Qed.

Lemma UrlEncode_step_appends (char_signed strict : bool) (o : ostringstream) (c : ascii) :
  oss_fill o = "0"%char -> oss_width o = 0%nat ->
  UrlEncode_step char_signed strict o c =
  {| oss_str := oss_str o +:+ UrlEncode_step_text char_signed strict c;
     oss_fill := "0"; oss_width := 0 |}.
Proof.
  intros Hfill Hwidth. destruct o as [str fl wd]. simpl in Hfill, Hwidth. subst fl wd.
  unfold UrlEncode_step_text, UrlEncode_step.
  destruct (isalnum c); [reflexivity|].
  destruct (_ && negb strict); [reflexivity|].
  destruct (_ && negb strict); [reflexivity|].
  unfold oss_setw, oss_put_int, oss_put_char, oss_write. simpl.
  f_equal. rewrite !append_assoc. reflexivity.
Qed.

Lemma UrlEncode_step_text_rule (char_signed strict : bool) (c : ascii) :
  char_portable char_signed c = true ->
  UrlEncode_step_text char_signed strict c = UrlEncode_rule strict c.
Proof.
  destruct c as [b0 b1 b2 b3 b4 b5 b6 b7].
  destruct char_signed, strict, b0, b1, b2, b3, b4, b5, b6, b7;
    intros H; try discriminate H; vm_compute; reflexivity.
Qed.

Lemma UrlEncode_fold (char_signed strict : bool) (l : list ascii) (o : ostringstream) :
  oss_fill o = "0"%char -> oss_width o = 0%nat ->
  Forall (fun c => char_portable char_signed c = true) l ->
  oss_str (fold_left (UrlEncode_step char_signed strict) l o) =
  oss_str o +:+ concat_map_string (UrlEncode_rule strict) (string_of_list_ascii l).
Proof.
  revert o. induction l as [|c l IH]; intros o Hfill Hwidth Hall.
  - simpl. now rewrite append_empty_r.
  - inversion Hall as [|? ? Hc Hl]; subst. simpl.
    rewrite (UrlEncode_step_appends _ _ _ _ Hfill Hwidth).
    rewrite IH by (trivial). simpl.
    rewrite UrlEncode_step_text_rule by exact Hc.
    now rewrite append_assoc.
Qed.

Lemma portable_chars (char_signed : bool) (s : string) :
  portable char_signed s ->
  Forall (fun c => char_portable char_signed c = true) (list_ascii_of_string s).
Proof.
  unfold portable, char_portable. intros [-> | H].
  - apply Forall_forall. intros; reflexivity.
  - eapply Forall_impl; [exact H|]. simpl. intros c Hc.
    apply orb_true_iff. right. now apply Z.ltb_lt.
Qed.

Example UrlEncode_lenient_example : UrlEncode true "a b&c" false = "a+b%26c"%string.
Proof. reflexivity. Qed.

Example UrlEncode_strict_example : UrlEncode true "a b&c" true = "a%20b%26c"%string.
Proof. reflexivity. Qed.

(** On a platform with a signed [char] a byte above 127 is written as the
    eight digits of the negative [int]. *)
Example UrlEncode_high_byte_signed :
  UrlEncode true (String (ascii_of_nat 233) EmptyString) false = "%ffffffe9"%string.
Proof. reflexivity. Qed.

Example UrlEncode_high_byte_unsigned :
  UrlEncode false (String (ascii_of_nat 233) EmptyString) false = "%e9"%string.
Proof. reflexivity. Qed.

(** C4, as stated, fails: in strict mode ['-'] is escaped, and the hex
    digits of an escape are lower case. *)
Lemma UrlEncode_not_as_specified :
  UrlEncode false "a-b/c" true = "a%2db%2fc"%string /\
  concat_map_string (UrlEncode_rule_as_specified true) "a-b/c" = "a-b%2Fc"%string /\
  UrlEncode false "a-b/c" true <> concat_map_string (UrlEncode_rule_as_specified true) "a-b/c".
Proof. repeat split; try reflexivity. discriminate. Qed.

(** C4, amended: on every string whose bytes are below 128 (or on any
    string where [char] is unsigned), [UrlEncode] writes each byte by the
    table [UrlEncode_rule]: alphanumerics pass in both modes; ['-'], ['_'],
    ['.'] pass and space becomes ['+'] in the lenient mode only; every
    other byte, and in strict mode also ['-'], ['_'], ['.'] and space,
    becomes ['%'] and the two lower-case hex digits of its value. *)
Theorem UrlEncode_follows_rule (char_signed : bool) (value : string) (strict : bool) :
  portable char_signed value ->
  UrlEncode char_signed value strict = concat_map_string (UrlEncode_rule strict) value.
Proof.
  intros Hp. unfold UrlEncode.
  rewrite UrlEncode_fold; try reflexivity.
  - now rewrite append_nil_l, string_of_list_ascii_of_string.
  - now apply portable_chars.
Qed.

Lemma UrlEncode_follows_rule_witness :
  portable true "a-b c/d" /\
  UrlEncode true "a-b c/d" true = concat_map_string (UrlEncode_rule true) "a-b c/d".
Proof.
  assert (Hp : portable true "a-b c/d").
  { right. repeat constructor. }
  split; [exact Hp | exact (UrlEncode_follows_rule true "a-b c/d" true Hp)].
Defined.


(** ** [HttpDownload]: construction *)

Lemma only_mkdir_since_refl (files : FileSystem) : only_mkdir_since files files.
Proof.
  repeat split. exists []. simpl. now rewrite app_nil_r.
Qed.

Lemma only_mkdir_since_trans (a b c : FileSystem) :
  only_mkdir_since a b -> only_mkdir_since b c -> only_mkdir_since a c.
Proof.
  intros (Hf1 & Hd1 & m1 & Hc1) (Hf2 & Hd2 & m2 & Hc2).
  repeat split; try congruence.
  exists (m1 ++ m2). rewrite Hc2, Hc1, map_app. now rewrite app_assoc.
Qed.

Lemma s3eFileMakeDirectory_only_mkdir (path : string) (files : FileSystem) :
  only_mkdir_since files (s3eFileMakeDirectory path files).2.
Proof.
  unfold s3eFileMakeDirectory. destruct (bool_decide _); simpl;
    (repeat split; exists [path]; reflexivity).
Qed.

Lemma MakePath_loop_outcome (path_parts : list string) :
  forall (sub_path : string) (files : FileSystem),
    match MakePath_loop path_parts sub_path files with
    | Returns _ files' | Throws _ files' => only_mkdir_since files files'
    | _ => False
    end.
Proof.
  induction path_parts as [|part rest IH]; intros sub_path files; simpl.
  - apply only_mkdir_since_refl.
  - destruct (String.length part =? 0)%nat; [apply IH|].
    unfold_M.
    destruct (IsDir _ files); simpl; [apply IH|].
    pose proof (s3eFileMakeDirectory_only_mkdir
                  (c_str (sub_path +:+ part +:+ "/")) files) as Hmk.
    destruct (s3eFileMakeDirectory _ files) as [ok files1]. simpl in Hmk |- *.
    destruct ok; [|exact Hmk].
    specialize (IH (sub_path +:+ part +:+ "/") files1).
    destruct (MakePath_loop rest _ files1); try contradiction;
      eapply only_mkdir_since_trans; eauto.
Qed.

(** A refused [s3eFileMakeDirectory]: the text of the exception. *)
Example MakePath_refused_example :
  MakePath "cache://maps/tiles" (files_denying ["cache://maps/tiles"%string])
  = Throws "Error - unable to make path 'cache://maps/tiles/'. Reported error had error code: 1"
      (fs_log (s3eFileMakeDirectory_call "cache://maps/tiles/")
         (fs_set_dirs {["cache://maps"%string]}
            (fs_log (s3eFileMakeDirectory_call "cache://maps/")
               (files_denying ["cache://maps/tiles"%string])))).
Proof. vm_compute. reflexivity. Qed.

Lemma MakePath_outcome (uri : string) (files : FileSystem) :
  match MakePath uri files with
  | Returns _ files' | Throws _ files' => only_mkdir_since files files'
  | _ => False
  end.
Proof. unfold MakePath. apply MakePath_loop_outcome. Qed.

(** The constructor returns an object in state [PENDING] or leaves by the
    exception of [MakePath]; it opens no file. *)
Lemma HttpDownload_new_outcome (url destFile : string) (files : FileSystem) :
  match HttpDownload.new url destFile files with
  | Returns d files' =>
      only_mkdir_since files files' /\
      HttpRequest.m_status (HttpDownload.base d) = HttpRequest.PENDING /\
      HttpDownload.m_destFile d = destFile /\
      HttpDownload.m_pTmpFile d = None
  | Throws _ files' => only_mkdir_since files files'
  | _ => False
  end.
Proof.
  unfold HttpDownload.new. unfold_M. simpl.
  destruct (IsDir (DirName destFile) files); simpl.
  - repeat split. exists []. simpl. now rewrite app_nil_r.
  - pose proof (MakePath_outcome (DirName destFile) files) as H.
    destruct (MakePath _ files); try contradiction; auto.
Qed.

Lemma HttpDownload_new_returns (url destFile : string) (files : FileSystem) :
  IsDir (DirName destFile) files = true ->
  exists d, HttpDownload.new url destFile files = Returns d files.
Proof.
  intros H. unfold HttpDownload.new. cbn [HttpDownload.m_destFile]. unfold_M.
  rewrite H. simpl. eauto.
Qed.

Lemma pending_download_rejects_building_calls (pf : Platform) (d : HttpDownload.t) :
  HttpRequest.m_status (HttpDownload.base d) = HttpRequest.PENDING ->
  (forall header value,
      inherited (HttpRequest.SetHeader header value) (Download d)
      = AssertFails "m_status == BUILDING") /\
  CompileRequest pf (Download d) = AssertFails "m_status == BUILDING".
Proof.
  intros Hst. split; [intros header value|];
    unfold CompileRequest, inherited, HttpRequest.SetHeader, HttpRequest.CompileRequest;
    unfold_M; simpl; rewrite Hst; reflexivity.
Qed.

Lemma QueueRequest_pending_download (pf : Platform) (d : HttpDownload.t)
    (W : World) (a : addr) (cb : option HttpCallbackBase) :
  HttpRequest.m_status (HttpDownload.base d) = HttpRequest.PENDING ->
  heap W !! a = Some (Download d) ->
  exists W',
    QueueRequest pf (Some a) cb W = Returns tt W' /\
    trace W' = trace W /\ heap W' = heap W /\ fs W' = fs W /\
    m_workers (http W') = m_workers (http W) /\
    m_activeDownloads W' = m_activeDownloads W /\
    m_pendingRequests (http W') = m_pendingRequests (http W) ++ [a] /\
    m_pendingCallbacks (http W') =
      m_pendingCallbacks (http W) ++ match cb with Some c => [(a, c)] | None => [] end /\
    next_addr W' = next_addr W.
Proof.
  intros Hst Ha. unfold QueueRequest, deref. unfold_M. rewrite Ha. simpl.
  unfold GetStatus. simpl. rewrite Hst. simpl. rewrite Ha. simpl. rewrite Hst. simpl.
  destruct cb; simpl; eexists; (split; [reflexivity|]); simpl;
    repeat split; try reflexivity.
  now rewrite app_nil_r.
Qed.

(** C9: an [HttpDownload] is [PENDING] as soon as it is constructed (the
    constructor returns whenever the destination folder exists and
    otherwise returns or leaves by the exception of [MakePath]); on it
    [SetHeader] and [CompileRequest] stop at their [IwAssert] on
    [BUILDING], and [QueueRequest] queues it without calling
    [CompileRequest]. *)
Theorem HttpDownload_is_pending_from_construction
    (pf : Platform) (url destFile : string) (files : FileSystem) :
  (IsDir (DirName destFile) files = true ->
   exists d, HttpDownload.new url destFile files = Returns d files) /\
  match HttpDownload.new url destFile files with
  | Returns d _ =>
      GetStatus (Download d) = HttpRequest.PENDING /\
      (forall header value,
          inherited (HttpRequest.SetHeader header value) (Download d)
          = AssertFails "m_status == BUILDING") /\
      CompileRequest pf (Download d) = AssertFails "m_status == BUILDING" /\
      (forall (W : World) (a : addr) (cb : option HttpCallbackBase),
          heap W !! a = Some (Download d) ->
          exists W',
            QueueRequest pf (Some a) cb W = Returns tt W' /\
            trace W' = trace W /\ heap W' = heap W /\
            m_pendingRequests (http W') = m_pendingRequests (http W) ++ [a])
  | Throws _ _ => True
  | AssertFails _ | Undefined _ => False
  end.
Proof.
  split; [apply HttpDownload_new_returns|].
  pose proof (HttpDownload_new_outcome url destFile files) as H.
  destruct (HttpDownload.new url destFile files) as [d files'| | |]; auto.
  destruct H as (_ & Hst & _).
  destruct (pending_download_rejects_building_calls pf d Hst) as [Hset Hcomp].
  repeat split; auto.
  intros W a cb Ha.
  destruct (QueueRequest_pending_download pf d W a cb Hst Ha) as (W' & HQ & Ht & Hh & _ & _ & _ & Hq & _).
  eauto.
Qed.

(** ** [HttpDownload]: the temporary file *)

Lemma HttpDownload_first_chunk_open_refused (d : HttpDownload.t) (files : FileSystem)
    (contents : string) (size : Z) :
  HttpDownload.m_pTmpFile d = None ->
  HttpDownload.tmp_path d ∈ fs_denied files ->
  HttpDownload.Worker_HandleData contents size (d, files)
  = Throws "Unable to open file for downloading!"
      (d, fs_log (s3eFileOpen_call (HttpDownload.tmp_path d) "w") files).
Proof.
  intros Hnone Hden. unfold HttpDownload.Worker_HandleData. unfold_M. simpl.
  rewrite Hnone. unfold s3eFileOpen_w.
  rewrite bool_decide_eq_true_2 by exact Hden. simpl.
  destruct d; simpl in *; subst; reflexivity.
Qed.

Lemma HttpDownload_first_chunk_opens (d : HttpDownload.t) (files : FileSystem)
    (contents : string) (size : Z) :
  HttpDownload.m_pTmpFile d = None ->
  HttpDownload.tmp_path d ∉ fs_denied files ->
  size <= strlen contents ->
  exists f files',
    HttpDownload.Worker_HandleData contents size (d, files)
    = Returns size (HttpDownload.set_pTmpFile (Some f) d, files') /\
    file_path f = HttpDownload.tmp_path d /\
    fs_files files' = <[HttpDownload.tmp_path d := substring 0 (Z.to_nat size) contents]> (fs_files files).
Proof.
  intros Hnone Hden Hsize. unfold HttpDownload.Worker_HandleData. unfold_M. simpl.
  rewrite Hnone. unfold s3eFileOpen_w.
  rewrite bool_decide_eq_false_2 by exact Hden. simpl.
  unfold mem_read. unfold_M.
  destruct (Z.leb_spec size (strlen contents)) as [_|Hgt]; [|lia]. simpl.
  eexists _, _. split; [reflexivity|]. split; [reflexivity|].
  unfold s3eFileWrite. simpl. rewrite lookup_insert_eq. simpl.
  now rewrite insert_insert_eq.
Qed.

(** C6, as stated, fails: with the temporary path refused by the file
    system the constructor still returns a [PENDING] request without any
    call to [s3eFileOpen]; the failure shows on the first body chunk. *)
Lemma HttpDownload_open_failure_is_not_at_construction :
  exists d,
    HttpDownload.new "http://host/f" "out.bin" (files_denying ["out.bin.tmp"%string])
    = Returns d (files_denying ["out.bin.tmp"%string]) /\
    GetStatus (Download d) = HttpRequest.PENDING /\
    HttpDownload.Worker_HandleData "abc" 3 (d, files_denying ["out.bin.tmp"%string])
    = Throws "Unable to open file for downloading!"
        (d, fs_log (s3eFileOpen_call "out.bin.tmp" "w") (files_denying ["out.bin.tmp"%string])).
Proof.
  eexists. split; [vm_compute; reflexivity|]. split; [reflexivity|].
  apply HttpDownload_first_chunk_open_refused; [reflexivity|].
  vm_compute. set_solver.
Qed.

(** C6, amended: the constructor never opens the temporary file (it calls
    nothing but [s3eFileMakeDirectory], and fails only by the exception of
    [MakePath]); the file is opened by [Worker_HandleData] on the first
    body chunk, during the transfer, and a refused open there throws
    "Unable to open file for downloading!" before anything is written,
    while an accepted one stores the chunk and returns its size. *)
Theorem HttpDownload_opens_on_first_chunk (url destFile : string) (files : FileSystem) :
  match HttpDownload.new url destFile files with
  | Returns d files' =>
      only_mkdir_since files files' /\
      HttpDownload.m_pTmpFile d = None /\
      forall (fs1 : FileSystem) (contents : string) (size : Z),
        (HttpDownload.tmp_path d ∈ fs_denied fs1 ->
         HttpDownload.Worker_HandleData contents size (d, fs1)
         = Throws "Unable to open file for downloading!"
             (d, fs_log (s3eFileOpen_call (HttpDownload.tmp_path d) "w") fs1)) /\
        (HttpDownload.tmp_path d ∉ fs_denied fs1 -> size <= strlen contents ->
         exists f fs2,
           HttpDownload.Worker_HandleData contents size (d, fs1)
           = Returns size (HttpDownload.set_pTmpFile (Some f) d, fs2) /\
           fs_files fs2
           = <[HttpDownload.tmp_path d := substring 0 (Z.to_nat size) contents]> (fs_files fs1))
  | Throws _ files' => only_mkdir_since files files'
  | AssertFails _ | Undefined _ => False
  end.
Proof.
  pose proof (HttpDownload_new_outcome url destFile files) as H.
  destruct (HttpDownload.new url destFile files) as [d files'| | |]; auto.
  destruct H as (Hmk & _ & _ & Hnone).
  repeat split; try apply Hmk; auto.
  - intros Hden. now apply HttpDownload_first_chunk_open_refused.
  - intros Hok Hsize.
    destruct (HttpDownload_first_chunk_opens d fs1 contents size Hnone Hok Hsize)
      as (f & fs2 & Hrun & _ & Hfiles).
    eauto.
Qed.

(** ** The response buffer *)

Lemma length_list_ascii_of_string (s : string) :
  length (list_ascii_of_string s) = String.length s.
Proof. induction s as [|c s IH]; simpl; [reflexivity | now rewrite IH]. Qed.

Lemma substring_0_length (s : string) : substring 0 (String.length s) s = s.
Proof. induction s as [|c s IH]; simpl; [reflexivity | now rewrite IH]. Qed.

Lemma length_substring_0 (n : nat) (s : string) :
  (n <= String.length s)%nat -> String.length (substring 0 n s) = n.
Proof.
  revert n. induction s as [|c s IH]; intros [|n] Hn; simpl in *; try reflexivity; try lia.
  rewrite IH; [reflexivity | lia].
Qed.

Lemma string_of_cells_Some (s : string) :
  string_of_cells (map Some (list_ascii_of_string s)) = Some s.
Proof. induction s as [|c s IH]; simpl; [reflexivity | now rewrite IH]. Qed.

Lemma size_t_wrap_small (z : Z) : 0 <= z < 2 ^ 32 -> size_t_wrap z = z.
Proof. intros H. unfold size_t_wrap, size_t_bits. now apply Z.mod_small. Qed.

Lemma strlen_nonneg (s : string) : 0 <= strlen s.
Proof. unfold strlen. lia. Qed.

Lemma buffer_cells_length (b : c_buffer) (n : Z) :
  buffer_ok b n -> Z.of_nat (length (buffer_cells b n)) = n.
Proof.
  destruct b; simpl; intros H; try contradiction; [|exact H].
  rewrite length_replicate. lia.
Qed.

Lemma realloc_grows {S} (b : c_buffer) (n k : Z) (s : S) :
  buffer_ok b n -> 0 <= k ->
  realloc true b (n + k) s
  = Returns (block (buffer_cells b n ++ replicate (Z.to_nat k) None)) s.
Proof.
  intros Hok Hk. destruct b as [|cells|]; simpl in *; try contradiction; unfold ret.
  - rewrite Z2Nat.inj_add by lia. now rewrite replicate_add.
  - subst n.
    rewrite take_ge by lia.
    replace (Z.to_nat (Z.of_nat (length cells) + k) - length cells)%nat
      with (Z.to_nat k) by lia.
    reflexivity.
Qed.

Lemma memcpy_at_end {S} (cells : list (option ascii)) (data : string) (s : S) :
  memcpy_at (cells ++ replicate (String.length data) None) (Z.of_nat (length cells)) data s
  = Returns (cells ++ map Some (list_ascii_of_string data)) s.
Proof.
  unfold memcpy_at, strlen. rewrite length_app, length_replicate.
  destruct (Z.leb_spec (Z.of_nat (length cells) + Z.of_nat (String.length data))
              (Z.of_nat (length cells + String.length data))) as [_|H]; [|lia].
  unfold ret. f_equal.
  rewrite Nat2Z.id, take_app_length. f_equal.
  rewrite <- Nat2Z.inj_add, Nat2Z.id.
  rewrite drop_ge; [now rewrite app_nil_r|].
  rewrite length_app, length_replicate. lia.
Qed.

Lemma std_string_of_written {S} (data : string) (s : S) :
  std_string (block (map Some (list_ascii_of_string data))) (strlen data) s = Returns data s.
Proof.
  unfold std_string, strlen. rewrite length_map, length_list_ascii_of_string.
  rewrite Z.leb_refl, Nat2Z.id.
  rewrite take_ge by (rewrite length_map, length_list_ascii_of_string; lia).
  now rewrite string_of_cells_Some.
Qed.

Lemma buffer_ok_nonneg (b : c_buffer) (n : Z) : buffer_ok b n -> 0 <= n.
Proof. destruct b; simpl; intros H; try contradiction; lia. Qed.

Lemma realloc_fails {S} (b : c_buffer) (n m : Z) (s : S) :
  buffer_ok b n -> realloc false b m s = Returns null s.
Proof. destruct b; simpl; intros H; try contradiction; reflexivity. Qed.

(** One chunk appended by [realloc] and [memcpy], as both
    [Worker_HandleData] do it. *)
Lemma append_chunk {S} (b : c_buffer) (n : Z) (contents : string) (size : Z) (s : S) :
  buffer_ok b n -> 0 < size <= strlen contents -> n + size < 2 ^ 32 ->
  let data := substring 0 (Z.to_nat size) contents in
  realloc true b (size_t_wrap (n + size)) s
  = Returns (block (buffer_cells b n ++ replicate (Z.to_nat size) None)) s /\
  mem_read contents size s = Returns data s /\
  memcpy_at (buffer_cells b n ++ replicate (Z.to_nat size) None) n data s
  = Returns (buffer_cells b n ++ map Some (list_ascii_of_string data)) s /\
  size_t_wrap (n + size) = n + size /\
  strlen data = size.
Proof.
  intros Hok Hsize Hfit data.
  pose proof (buffer_ok_nonneg _ _ Hok) as Hn.
  assert (Hlen : String.length data = Z.to_nat size).
  { apply length_substring_0. unfold strlen in Hsize. lia. }
  rewrite size_t_wrap_small by lia.
  repeat split.
  - apply realloc_grows; [exact Hok | lia].
  - unfold mem_read. destruct (Z.leb_spec size (strlen contents)); [reflexivity | lia].
  - rewrite <- (buffer_cells_length b n Hok) at 2. rewrite <- Hlen.
    apply memcpy_at_end.
  - unfold strlen. rewrite Hlen. lia.
Qed.

Lemma HttpPost_Worker_HandleData_chunk (realloc_ok : bool) (contents : string) (size : Z)
    (p : HttpPost.t) :
  buffer_ok (HttpPost.m_workerResponseBuffer p) (HttpPost.m_workerResponseSize p) ->
  0 < size <= strlen contents ->
  HttpPost.m_workerResponseSize p + size < 2 ^ 32 ->
  HttpPost.Worker_HandleData realloc_ok contents size p
  = Returns size
      (if realloc_ok then
         HttpPost.set_buffer
           (block (buffer_cells (HttpPost.m_workerResponseBuffer p) (HttpPost.m_workerResponseSize p)
                   ++ map Some (list_ascii_of_string (substring 0 (Z.to_nat size) contents))))
           (HttpPost.m_workerResponseSize p + size) p
       else HttpPost.set_buffer null (HttpPost.m_workerResponseSize p) p).
Proof.
  intros Hok Hsize Hfit.
  unfold HttpPost.Worker_HandleData. unfold_M.
  destruct (Z.ltb_spec 0 size) as [_|]; [|lia].
  destruct realloc_ok.
  - destruct (append_chunk (HttpPost.m_workerResponseBuffer p) _ contents size p Hok Hsize Hfit)
      as (Hre & _ & _ & Hw & _).
    rewrite Hre.
    destruct (append_chunk (HttpPost.m_workerResponseBuffer p) _ contents size
                (HttpPost.set_buffer
                   (block (buffer_cells (HttpPost.m_workerResponseBuffer p)
                             (HttpPost.m_workerResponseSize p)
                           ++ replicate (Z.to_nat size) None))
                   (HttpPost.m_workerResponseSize p) p) Hok Hsize Hfit)
      as (_ & Hrd & Hcp & _ & _).
    rewrite Hrd, Hcp, Hw. reflexivity.
  - rewrite (realloc_fails _ _ _ _ Hok). reflexivity.
Qed.

Lemma YoutubeUploadRequest_Worker_HandleData_chunk (realloc_ok : bool) (contents : string)
    (size : Z) (y : YoutubeUploadRequest.t) :
  buffer_ok (YoutubeUploadRequest.m_workerResponseBuffer y)
    (YoutubeUploadRequest.m_workerResponseSize y) ->
  0 < size <= strlen contents ->
  YoutubeUploadRequest.m_workerResponseSize y + size < 2 ^ 32 ->
  YoutubeUploadRequest.Worker_HandleData realloc_ok contents size y
  = Returns size
      (if realloc_ok then
         YoutubeUploadRequest.set_buffer
           (block (buffer_cells (YoutubeUploadRequest.m_workerResponseBuffer y)
                     (YoutubeUploadRequest.m_workerResponseSize y)
                   ++ map Some (list_ascii_of_string (substring 0 (Z.to_nat size) contents))))
           (YoutubeUploadRequest.m_workerResponseSize y + size) y
       else YoutubeUploadRequest.set_buffer null (YoutubeUploadRequest.m_workerResponseSize y) y).
Proof.
  intros Hok Hsize Hfit.
  unfold YoutubeUploadRequest.Worker_HandleData. unfold_M.
  destruct (Z.ltb_spec 0 size) as [_|]; [|lia].
  destruct realloc_ok.
  - destruct (append_chunk (YoutubeUploadRequest.m_workerResponseBuffer y) _ contents size y
                Hok Hsize Hfit) as (Hre & _ & _ & Hw & _).
    rewrite Hre.
    destruct (append_chunk (YoutubeUploadRequest.m_workerResponseBuffer y) _ contents size
                (YoutubeUploadRequest.set_buffer
                   (block (buffer_cells (YoutubeUploadRequest.m_workerResponseBuffer y)
                             (YoutubeUploadRequest.m_workerResponseSize y)
                           ++ replicate (Z.to_nat size) None))
                   (YoutubeUploadRequest.m_workerResponseSize y) y) Hok Hsize Hfit)
      as (_ & Hrd & Hcp & _ & _).
    rewrite Hrd, Hcp, Hw. reflexivity.
  - rewrite (realloc_fails _ _ _ _ Hok). reflexivity.
Qed.

(** ** [HandleResponse] of the posting requests *)

Lemma response_body_std_string {S} (b : c_buffer) (n : Z) (response : string) (s : S) :
  response_body b n = Some response -> std_string b n s = Returns response s.
Proof.
  unfold response_body, std_string, ret, undefined.
  destruct b as [|cells|]; try discriminate.
  - destruct (n =? 0); [|discriminate]. now intros [= <-].
  - destruct (n <=? Z.of_nat (length cells)); [|discriminate].
    destruct (string_of_cells _); [|discriminate]. now intros [= <-].
Qed.

Lemma HttpPost_HandleResponse_success (pf : Platform) (code : Z) (p : HttpPost.t)
    (response : string) :
  HttpRequest.m_status (HttpPost.base p) = HttpRequest.HEADERS ->
  response_body (HttpPost.m_workerResponseBuffer p) (HttpPost.m_workerResponseSize p)
  = Some response ->
  exists p',
    HttpPost.HandleResponse pf true code p = Returns tt p' /\
    success_result pf response (HttpPost.m_responseData p)
      (HttpRequest.m_status (HttpPost.base p')) (HttpPost.m_responseData p').
Proof.
  intros Hst Hbody.
  unfold HttpPost.HandleResponse, HttpRequest.HandleResponse, success_result. unfold_M.
  rewrite Hst. simpl.
  rewrite (response_body_std_string _ _ _ _ Hbody).
  destruct (String.eqb response EmptyString).
  - eexists; split; [reflexivity|]. now split.
  - destruct (HttpPost.looks_like_json response).
    + destruct (Reader_Read pf response (HttpPost.m_responseData p));
        eexists; (split; [reflexivity|]); now split.
    + eexists; split; [reflexivity|]. now split.
Qed.

Lemma HttpPost_HandleResponse_failure (pf : Platform) (code : Z) (p : HttpPost.t)
    (response : string) :
  HttpRequest.m_status (HttpPost.base p) = HttpRequest.HEADERS ->
  response_body (HttpPost.m_workerResponseBuffer p) (HttpPost.m_workerResponseSize p)
  = Some response ->
  HttpPost.HandleResponse pf false code p
  = Returns tt (HttpPost.set_base (HttpRequest.set_status HttpRequest.ERROR (HttpPost.base p)) p).
Proof.
  intros Hst Hbody.
  unfold HttpPost.HandleResponse, HttpRequest.HandleResponse. unfold_M.
  rewrite Hst. simpl.
  now rewrite (response_body_std_string _ _ _ _ Hbody).
Qed.

Lemma YoutubeUploadRequest_HandleResponse_success (pf : Platform) (code : Z)
    (y : YoutubeUploadRequest.t) (response : string) :
  HttpRequest.m_status (YoutubeUploadRequest.base y) = HttpRequest.HEADERS ->
  response_body (YoutubeUploadRequest.m_workerResponseBuffer y)
    (YoutubeUploadRequest.m_workerResponseSize y) = Some response ->
  exists y',
    YoutubeUploadRequest.HandleResponse pf true code y = Returns tt y' /\
    success_result pf response (YoutubeUploadRequest.m_responseData y)
      (HttpRequest.m_status (YoutubeUploadRequest.base y'))
      (YoutubeUploadRequest.m_responseData y').
Proof.
  intros Hst Hbody.
  unfold YoutubeUploadRequest.HandleResponse, HttpRequest.HandleResponse, success_result.
  unfold_M. rewrite Hst. simpl.
  rewrite (response_body_std_string _ _ _ _ Hbody).
  destruct (String.eqb response EmptyString).
  - eexists; split; [reflexivity|]. now split.
  - destruct (HttpPost.looks_like_json response).
    + destruct (Reader_Read pf response (YoutubeUploadRequest.m_responseData y));
        eexists; (split; [reflexivity|]); now split.
    + eexists; split; [reflexivity|]. now split.
Qed.

Lemma response_body_of_written (data : string) :
  response_body (block (map Some (list_ascii_of_string data))) (strlen data) = Some data.
Proof. unfold response_body. now rewrite std_string_of_written. Qed.

Lemma nonempty_eqb (s : string) : 0 < strlen s -> String.eqb s EmptyString = false.
Proof. destruct s; [unfold strlen; simpl; lia | reflexivity]. Qed.

Lemma substring_whole (s : string) : substring 0 (Z.to_nat (strlen s)) s = s.
Proof. unfold strlen. rewrite Nat2Z.id. apply substring_0_length. Qed.

(** C7, as stated, fails: an empty body does not look like JSON, and it
    is not wrapped as a string: the response data is [json::Null]. *)
Lemma HttpPost_empty_body_is_null :
  exists p',
    HandleResponse sample_platform true 200 (Post (sample_post "")) = Returns tt (Post p') /\
    HttpRequest.m_status (HttpPost.base p') = HttpRequest.DONE /\
    HttpPost.m_responseData p' = json.Null /\
    ~ success_result_as_specified sample_platform ""
        (HttpPost.m_responseData (sample_post ""))
        (HttpRequest.m_status (HttpPost.base p')) (HttpPost.m_responseData p').
Proof.
  eexists. split; [reflexivity|]. split; [reflexivity|]. split; [reflexivity|].
  unfold success_result_as_specified. simpl. intros [_ H]. discriminate H.
Qed.

(** C7, amended: for a form or JSON post in state [HEADERS] whose transfer
    succeeded, with [response] the body received: an empty body gives
    [json::Null] and [DONE]; a body that starts with ['{'] or ['['] is
    handed to the reader, whose value is kept with [DONE] and whose
    exception leaves the request in [ERROR]; any other body is wrapped as a
    [json::String] with [DONE]. *)
Theorem HttpPost_HandleResponse_on_success (pf : Platform) (code : Z) (p : HttpPost.t)
    (j : HttpPostJson.t) (response : string) :
  HttpRequest.m_status (HttpPost.base p) = HttpRequest.HEADERS ->
  response_body (HttpPost.m_workerResponseBuffer p) (HttpPost.m_workerResponseSize p)
  = Some response ->
  (exists p',
      HandleResponse pf true code (Post p) = Returns tt (Post p') /\
      success_result pf response (HttpPost.m_responseData p)
        (GetStatus (Post p')) (HttpPost.m_responseData p')) /\
  (HttpPostJson.post j = p ->
   exists p',
      HandleResponse pf true code (PostJson j) = Returns tt (PostJson (HttpPostJson.set_post p' j)) /\
      success_result pf response (HttpPost.m_responseData p)
        (GetStatus (PostJson (HttpPostJson.set_post p' j))) (HttpPost.m_responseData p')).
Proof.
  intros Hst Hbody.
  destruct (HttpPost_HandleResponse_success pf code p response Hst Hbody) as (p' & Hrun & Hres).
  split.
  - exists p'. split; [|exact Hres].
    unfold HandleResponse, as_variant. now rewrite Hrun.
  - intros Hj. exists p'. split; [|exact Hres].
    unfold HandleResponse, as_variant, zoom. rewrite Hj. now rewrite Hrun.
Qed.

Lemma HttpPost_HandleResponse_on_success_witness :
  HttpRequest.m_status (HttpPost.base (sample_post "{bad")) = HttpRequest.HEADERS /\
  response_body (HttpPost.m_workerResponseBuffer (sample_post "{bad"))
    (HttpPost.m_workerResponseSize (sample_post "{bad")) = Some "{bad"%string /\
  exists p',
    HandleResponse sample_platform true 200 (Post (sample_post "{bad")) = Returns tt (Post p') /\
    success_result sample_platform "{bad" json.Null
      (GetStatus (Post p')) (HttpPost.m_responseData p').
Proof.
  split; [reflexivity|]. split; [reflexivity|].
  exact (proj1 (HttpPost_HandleResponse_on_success sample_platform 200 (sample_post "{bad")
                  {| HttpPostJson.post := sample_post "{bad"; HttpPostJson.m_postDataJson := [] |}
                  "{bad" eq_refl eq_refl)).
Defined.

Example HttpPost_parse_failure_is_error :
  exists p',
    HandleResponse sample_platform true 200 (Post (sample_post "{bad")) = Returns tt (Post p') /\
    GetStatus (Post p') = HttpRequest.ERROR.
Proof. eexists. split; reflexivity. Qed.

Example HttpPost_plain_body_is_string :
  exists p',
    HandleResponse sample_platform true 200 (Post (sample_post "hello")) = Returns tt (Post p') /\
    GetStatus (Post p') = HttpRequest.DONE /\
    HttpPost.m_responseData p' = json.String "hello".
Proof. eexists. repeat split; reflexivity. Qed.

(** ** A failed [realloc] in [Worker_HandleData] *)

Lemma HttpPost_truncated_body_done (pf : Platform) (code : Z) (p : HttpPost.t) (c1 c2 : string) :
  HttpPost.m_workerResponseBuffer p = null ->
  HttpPost.m_workerResponseSize p = 0 ->
  HttpRequest.m_status (HttpPost.base p) = HttpRequest.HEADERS ->
  0 < strlen c1 < 2 ^ 32 -> 0 < strlen c2 < 2 ^ 32 ->
  HttpPost.looks_like_json c2 = false ->
  exists p1 p2 p3,
    HttpPost.Worker_HandleData false c1 (strlen c1) p = Returns (strlen c1) p1 /\
    HttpPost.Worker_HandleData true c2 (strlen c2) p1 = Returns (strlen c2) p2 /\
    HttpPost.HandleResponse pf true code p2 = Returns tt p3 /\
    HttpRequest.m_status (HttpPost.base p3) = HttpRequest.DONE /\
    HttpPost.m_responseData p3 = json.String c2.
Proof.
  intros Hbuf Hsz Hst H1 H2 Hjson.
  assert (Hok : buffer_ok (HttpPost.m_workerResponseBuffer p) (HttpPost.m_workerResponseSize p)).
  { rewrite Hbuf, Hsz. simpl. lia. }
  pose proof (HttpPost_Worker_HandleData_chunk false c1 (strlen c1) p Hok) as E1.
  rewrite Hsz in E1. specialize (E1 ltac:(lia) ltac:(lia)).
  set (p1 := HttpPost.set_buffer null 0 p) in *.
  pose proof (HttpPost_Worker_HandleData_chunk true c2 (strlen c2) p1) as E2.
  simpl in E2. specialize (E2 ltac:(lia) ltac:(lia) ltac:(lia)).
  rewrite substring_whole in E2.
  set (p2 := HttpPost.set_buffer _ _ p1) in *.
  destruct (HttpPost_HandleResponse_success pf code p2 c2) as (p3 & E3 & Hres).
  - exact Hst.
  - simpl. apply response_body_of_written.
  - unfold success_result in Hres.
    rewrite (nonempty_eqb c2) in Hres by lia. rewrite Hjson in Hres.
    destruct Hres as [Hdone Hdata].
    exists p1, p2, p3. auto.
Qed.

Lemma YoutubeUploadRequest_truncated_body_done (pf : Platform) (code : Z)
    (y : YoutubeUploadRequest.t) (c1 c2 : string) :
  YoutubeUploadRequest.m_workerResponseBuffer y = null ->
  YoutubeUploadRequest.m_workerResponseSize y = 0 ->
  HttpRequest.m_status (YoutubeUploadRequest.base y) = HttpRequest.HEADERS ->
  0 < strlen c1 < 2 ^ 32 -> 0 < strlen c2 < 2 ^ 32 ->
  HttpPost.looks_like_json c2 = false ->
  exists y1 y2 y3,
    YoutubeUploadRequest.Worker_HandleData false c1 (strlen c1) y = Returns (strlen c1) y1 /\
    YoutubeUploadRequest.Worker_HandleData true c2 (strlen c2) y1 = Returns (strlen c2) y2 /\
    YoutubeUploadRequest.HandleResponse pf true code y2 = Returns tt y3 /\
    HttpRequest.m_status (YoutubeUploadRequest.base y3) = HttpRequest.DONE /\
    YoutubeUploadRequest.m_responseData y3 = json.String c2.
Proof.
  intros Hbuf Hsz Hst H1 H2 Hjson.
  assert (Hok : buffer_ok (YoutubeUploadRequest.m_workerResponseBuffer y)
                  (YoutubeUploadRequest.m_workerResponseSize y)).
  { rewrite Hbuf, Hsz. simpl. lia. }
  pose proof (YoutubeUploadRequest_Worker_HandleData_chunk false c1 (strlen c1) y Hok) as E1.
  rewrite Hsz in E1. specialize (E1 ltac:(lia) ltac:(lia)).
  set (y1 := YoutubeUploadRequest.set_buffer null 0 y) in *.
  pose proof (YoutubeUploadRequest_Worker_HandleData_chunk true c2 (strlen c2) y1) as E2.
  simpl in E2. specialize (E2 ltac:(lia) ltac:(lia) ltac:(lia)).
  rewrite substring_whole in E2.
  set (y2 := YoutubeUploadRequest.set_buffer _ _ y1) in *.
  destruct (YoutubeUploadRequest_HandleResponse_success pf code y2 c2) as (y3 & E3 & Hres).
  - exact Hst.
  - simpl. apply response_body_of_written.
  - unfold success_result in Hres.
    rewrite (nonempty_eqb c2) in Hres by lia. rewrite Hjson in Hres.
    destruct Hres as [Hdone Hdata].
    exists y1, y2, y3. auto.
Qed.

(** C10: on a non-empty chunk [Worker_HandleData] of [HttpPost] and of
    [YoutubeUploadRequest] returns the full chunk size whether or not
    [realloc] succeeds; when it fails the buffer pointer becomes null, the
    size is unchanged and the chunk is not stored. A first chunk lost this
    way followed by a chunk that is stored leaves a body without the first
    chunk, and [HandleResponse] still ends in [DONE]. *)
Theorem Worker_HandleData_ignores_failed_realloc
    (pf : Platform) (realloc_ok : bool) (contents c1 c2 : string) (size code : Z)
    (p : HttpPost.t) (y : YoutubeUploadRequest.t) :
  0 < size <= strlen contents ->
  (buffer_ok (HttpPost.m_workerResponseBuffer p) (HttpPost.m_workerResponseSize p) ->
   HttpPost.m_workerResponseSize p + size < 2 ^ 32 ->
   exists p',
     HttpPost.Worker_HandleData realloc_ok contents size p = Returns size p' /\
     (realloc_ok = false ->
      p' = HttpPost.set_buffer null (HttpPost.m_workerResponseSize p) p)) /\
  (buffer_ok (YoutubeUploadRequest.m_workerResponseBuffer y)
     (YoutubeUploadRequest.m_workerResponseSize y) ->
   YoutubeUploadRequest.m_workerResponseSize y + size < 2 ^ 32 ->
   exists y',
     YoutubeUploadRequest.Worker_HandleData realloc_ok contents size y = Returns size y' /\
     (realloc_ok = false ->
      y' = YoutubeUploadRequest.set_buffer null (YoutubeUploadRequest.m_workerResponseSize y) y)) /\
  (0 < strlen c1 < 2 ^ 32 -> 0 < strlen c2 < 2 ^ 32 -> HttpPost.looks_like_json c2 = false ->
   (HttpPost.m_workerResponseBuffer p = null -> HttpPost.m_workerResponseSize p = 0 ->
    HttpRequest.m_status (HttpPost.base p) = HttpRequest.HEADERS ->
    exists p1 p2 p3,
      HttpPost.Worker_HandleData false c1 (strlen c1) p = Returns (strlen c1) p1 /\
      HttpPost.Worker_HandleData true c2 (strlen c2) p1 = Returns (strlen c2) p2 /\
      HttpPost.HandleResponse pf true code p2 = Returns tt p3 /\
      HttpRequest.m_status (HttpPost.base p3) = HttpRequest.DONE /\
      HttpPost.m_responseData p3 = json.String c2) /\
   (YoutubeUploadRequest.m_workerResponseBuffer y = null ->
    YoutubeUploadRequest.m_workerResponseSize y = 0 ->
    HttpRequest.m_status (YoutubeUploadRequest.base y) = HttpRequest.HEADERS ->
    exists y1 y2 y3,
      YoutubeUploadRequest.Worker_HandleData false c1 (strlen c1) y = Returns (strlen c1) y1 /\
      YoutubeUploadRequest.Worker_HandleData true c2 (strlen c2) y1 = Returns (strlen c2) y2 /\
      YoutubeUploadRequest.HandleResponse pf true code y2 = Returns tt y3 /\
      HttpRequest.m_status (YoutubeUploadRequest.base y3) = HttpRequest.DONE /\
      YoutubeUploadRequest.m_responseData y3 = json.String c2)).
Proof.
  intros Hsize. split; [|split].
  - intros Hok Hfit. eexists. split.
    + apply HttpPost_Worker_HandleData_chunk; assumption.
    + now intros ->.
  - intros Hok Hfit. eexists. split.
    + apply YoutubeUploadRequest_Worker_HandleData_chunk; assumption.
    + now intros ->.
  - intros H1 H2 Hjson. split; intros Hbuf Hsz Hst.
    + now apply HttpPost_truncated_body_done.
    + now apply YoutubeUploadRequest_truncated_body_done.
Qed.

Lemma Worker_HandleData_ignores_failed_realloc_witness :
  0 < 3 <= strlen "abc" /\
  (exists p', HttpPost.Worker_HandleData false "abc" 3 (sample_post "") = Returns 3 p') /\
  (exists y', YoutubeUploadRequest.Worker_HandleData false "abc" 3 sample_upload = Returns 3 y').
Proof.
  assert (H : 0 < 3 <= strlen "abc") by (unfold strlen; simpl; lia).
  split; [exact H|].
  destruct (Worker_HandleData_ignores_failed_realloc sample_platform false "abc" "lost" "kept"
              3 200 (sample_post "") sample_upload H) as (HP & HY & _).
  split.
  - destruct HP as (p' & Hp' & _);
      [change (0 <= 0); lia | change (0 + 3 < 2 ^ 32); lia |].
    exists p'. exact Hp'.
  - destruct HY as (y' & Hy' & _);
      [change (0 <= 0); lia | change (0 + 3 < 2 ^ 32); lia |].
    exists y'. exact Hy'.
Defined.

Example HttpPost_lost_chunk_example :
  exists p1 p2 p3,
    HttpPost.Worker_HandleData false "lost " 5 (sample_post "") = Returns 5 p1 /\
    HttpPost.Worker_HandleData true "kept" 4 p1 = Returns 4 p2 /\
    HttpPost.HandleResponse sample_platform true 200 p2 = Returns tt p3 /\
    HttpRequest.m_status (HttpPost.base p3) = HttpRequest.DONE /\
    HttpPost.m_responseData p3 = json.String "kept".
Proof. do 3 eexists. repeat split; reflexivity. Qed.

(** ** States before and after a call *)

Section Preserves.
Context (R : World -> World -> Prop) {HR : PreOrder R}.

Lemma preserves_ret {A} (a : A) : preserves R (ret a).
Proof. intros W. simpl. reflexivity. Qed.

Lemma preserves_get : preserves R get.
Proof. intros W. simpl. reflexivity. Qed.

Lemma preserves_throw {A} (what : string) : preserves R (@throw World A what).
Proof. intros W. simpl. reflexivity. Qed.

Lemma preserves_undefined {A} (what : string) : preserves R (@undefined World A what).
Proof. intros W. exact I. Qed.

Lemma preserves_IwAssert (cond : bool) (what : string) : preserves R (IwAssert cond what).
Proof. intros W. unfold IwAssert. destruct cond; [reflexivity | exact I]. Qed.

Lemma preserves_modify (f : World -> World) :
  (forall W, R W (f W)) -> preserves R (modify f).
Proof. intros H W. apply H. Qed.

Lemma preserves_bind {A B} (m : M World A) (k : A -> M World B) :
  preserves R m -> (forall a, preserves R (k a)) -> preserves R (bind m k).
Proof.
  intros Hm Hk W. unfold bind. specialize (Hm W).
  destruct (m W) as [a W1|what W1| |]; auto.
  specialize (Hk a W1). destruct (k a W1); auto; etransitivity; eauto.
Qed.

Lemma preserves_discard {A} (m : M World A) : preserves R m -> preserves R (discard m).
Proof. intros H. apply preserves_bind; [exact H | intros; apply preserves_ret]. Qed.

Lemma preserves_deref (p : option addr) : preserves R (deref p).
Proof.
  intros W. unfold deref. destruct p as [a|]; [|exact I].
  destruct (heap W !! a); [reflexivity | exact I].
Qed.

Lemma preserves_the_worker (i : nat) : preserves R (the_worker i).
Proof.
  intros W. unfold the_worker. destruct (m_workers (http W) !! i); [reflexivity | exact I].
Qed.

Context (Hwo : workers_only R).

Lemma preserves_same_workers {A} (m : M World A) :
  (forall W, match m W with
             | Returns _ W' | Throws _ W' => m_workers (http W') = m_workers (http W)
             | _ => True
             end) ->
  preserves R m.
Proof.
  intros H W. specialize (H W). destruct (m W); auto.
Qed.

Lemma preserves_record_call (a : addr) (c : MethodCall) : preserves R (record_call a c).
Proof. apply preserves_modify. intros W. now apply Hwo. Qed.

Lemma preserves_call {A} (p : option addr) (c : MethodCall) (m : M Request A) :
  preserves R (call p c m).
Proof.
  unfold call. apply preserves_bind; [apply preserves_deref|]. intros ar.
  apply preserves_bind; [apply preserves_record_call|]. intros _ W.
  destruct (m ar.2); auto; now apply Hwo.
Qed.

Lemma preserves_call_fs {A} (p : option addr) (c : MethodCall)
    (m : M (Request * FileSystem) A) :
  preserves R (call_fs p c m).
Proof.
  unfold call_fs. apply preserves_bind; [apply preserves_deref|]. intros ar.
  apply preserves_bind; [apply preserves_record_call|]. intros _ W.
  destruct (m (ar.2, fs W)); auto; now apply Hwo.
Qed.

Lemma preserves_allocate (r : Request) : preserves R (allocate r).
Proof. intros W. simpl. now apply Hwo. Qed.

Lemma preserves_zoom_fs {A} (m : M FileSystem A) : preserves R (zoom fs set_fs m).
Proof. intros W. unfold zoom. destruct (m (fs W)); auto; now apply Hwo. Qed.

Lemma preserves_Call (cb : HttpCallbackBase) (a : addr) : preserves R (Call cb a).
Proof.
  destruct cb; simpl; apply preserves_modify; intros W; apply Hwo; [|reflexivity].
  destruct (filter _ _); reflexivity.
Qed.

Lemma preserves_Update_callbacks (a : addr) (cbs : list (addr * HttpCallbackBase)) :
  preserves R (Update_callbacks a cbs).
Proof.
  induction cbs as [|it rest IH]; simpl; [apply preserves_ret|].
  destruct (decide (it.1 = a)).
  - apply preserves_bind; [apply preserves_Call | intros; exact IH].
  - apply preserves_bind; [exact IH | intros; apply preserves_ret].
Qed.

End Preserves.

(** ** The cancellation flag *)

#[local] Instance flags_kept_preorder : PreOrder flags_kept.
Proof.
  split.
  - intros W i w Hw. eauto.
  - intros W1 W2 W3 H12 H23 i w Hw.
    destruct (H12 i w Hw) as (w2 & Hw2 & Hc2).
    destruct (H23 i w2 Hw2) as (w3 & Hw3 & Hc3).
    eauto.
Qed.

Lemma flags_kept_workers_only : workers_only flags_kept.
Proof. intros W W' Heq i w Hw. rewrite Heq. eauto. Qed.

Lemma flags_kept_update_worker (j : nat) (f : Worker.t -> Worker.t) :
  (forall w, Worker.cancelAndQuit w = true -> Worker.cancelAndQuit (f w) = true) ->
  preserves flags_kept (update_worker j f).
Proof.
  intros Hf. apply (preserves_modify flags_kept). intros W i w Hw. simpl.
  destruct (decide (i = j)) as [->|Hne].
  - exists (f w). split; [|apply Hf].
    rewrite list_lookup_alter_eq. now rewrite Hw.
  - exists w. split; [|auto].
    now rewrite list_lookup_alter_ne by congruence.
Qed.

Ltac flags_kept_tac :=
  repeat
    match goal with
    | |- preserves _ (ret _) => apply (preserves_ret flags_kept)
    | |- preserves _ get => apply (preserves_get flags_kept)
    | |- preserves _ (throw _) => apply (preserves_throw flags_kept)
    | |- preserves _ (undefined _) => apply (preserves_undefined flags_kept)
    | |- preserves _ (IwAssert _ _) => apply (preserves_IwAssert flags_kept)
    | |- preserves _ (deref _) => apply (preserves_deref flags_kept)
    | |- preserves _ (the_worker _) => apply (preserves_the_worker flags_kept)
    | |- preserves _ (call _ _ _) => apply (preserves_call flags_kept flags_kept_workers_only)
    | |- preserves _ (call_fs _ _ _) =>
        apply (preserves_call_fs flags_kept flags_kept_workers_only)
    | |- preserves _ (allocate _) => apply (preserves_allocate flags_kept flags_kept_workers_only)
    | |- preserves _ (zoom fs set_fs _) =>
        apply (preserves_zoom_fs flags_kept flags_kept_workers_only)
    | |- preserves _ (Update_callbacks _ _) =>
        apply (preserves_Update_callbacks flags_kept flags_kept_workers_only)
    | |- preserves _ (discard _) => apply (preserves_discard flags_kept)
    | |- preserves _ (update_worker _ _) =>
        apply flags_kept_update_worker; intros ? ?; simpl; solve [auto]
    | |- preserves _ (modify _) =>
        apply (preserves_modify flags_kept); intros ?;
        apply flags_kept_workers_only; reflexivity
    | |- preserves _ (bind _ _) => apply (preserves_bind flags_kept); [|intros ?]
    | |- preserves _ (match ?x with _ => _ end) => destruct x
    end.

Lemma flags_kept_QueueRequest (pf : Platform) (p : option addr) (cb : option HttpCallbackBase) :
  preserves flags_kept (QueueRequest pf p cb).
Proof. unfold QueueRequest. flags_kept_tac. Qed.

Lemma flags_kept_Update_worker (pf : Platform) (i : nat) (free : option nat) :
  preserves flags_kept (Update_worker pf i free).
Proof. unfold Update_worker. flags_kept_tac. Qed.

Lemma flags_kept_Update_scan (pf : Platform) (indices : list nat) :
  forall free, preserves flags_kept (Update_scan pf indices free).
Proof.
  induction indices as [|i rest IH]; intros free; simpl.
  - apply (preserves_ret flags_kept).
  - apply (preserves_bind flags_kept); [apply flags_kept_Update_worker | intros; apply IH].
Qed.

Lemma flags_kept_Update_dispatch (spawn_ok : bool) (free : option nat) :
  preserves flags_kept (Update_dispatch spawn_ok free).
Proof. unfold Update_dispatch. flags_kept_tac. Qed.

Lemma flags_kept_Update (pf : Platform) (spawn_ok : bool) :
  preserves flags_kept (Update pf spawn_ok).
Proof.
  unfold Update. apply (preserves_bind flags_kept); [apply (preserves_get flags_kept)|]. intros W.
  apply (preserves_bind flags_kept); [apply flags_kept_Update_scan|]. intros free.
  apply flags_kept_Update_dispatch.
Qed.

Lemma flags_kept_DownloadFile (pf : Platform) (url destFile : string) :
  preserves flags_kept (DownloadFile pf url destFile).
Proof.
  unfold DownloadFile. apply (preserves_bind flags_kept); [apply (preserves_get flags_kept)|]. intros W.
  destruct (m_activeDownloads W !! url); [apply (preserves_ret flags_kept)|].
  apply (preserves_bind flags_kept);
    [apply (preserves_zoom_fs flags_kept flags_kept_workers_only)|].
  intros d. apply (preserves_bind flags_kept);
    [apply (preserves_allocate flags_kept flags_kept_workers_only)|].
  intros a. apply (preserves_bind flags_kept); [apply flags_kept_QueueRequest|]. intros _.
  flags_kept_tac.
Qed.

Lemma flags_kept_callbacks (realloc_ok : bool) (contents : string) (size nmemb : Z)
    (dltotal dlnow ultotal ulnow : double) (i : nat) :
  preserves flags_kept (HttpClient_WorkerThread_WriteCallback realloc_ok contents size nmemb i) /\
  preserves flags_kept (HttpClient_WorkerThread_HeaderCallback contents size nmemb i) /\
  preserves flags_kept (HttpClient_WorkerThread_ReadCallback size nmemb i) /\
  preserves flags_kept (HttpClient_WorkerThread_ProgressCallback dltotal dlnow ultotal ulnow i).
Proof.
  repeat split.
  - unfold HttpClient_WorkerThread_WriteCallback. flags_kept_tac.
  - unfold HttpClient_WorkerThread_HeaderCallback, mem_read. flags_kept_tac.
  - unfold HttpClient_WorkerThread_ReadCallback. flags_kept_tac.
  - unfold HttpClient_WorkerThread_ProgressCallback. flags_kept_tac.
Qed.

Lemma flags_kept_thread (i : nat) (result code : Z) :
  preserves flags_kept (WorkerThread_enter i) /\
  preserves flags_kept (WorkerThread_loop_head i) /\
  preserves flags_kept (WorkerThread_perform_done result code i) /\
  preserves flags_kept (WorkerThread_cleanup i) /\
  preserves flags_kept (WorkerThread_resume i).
Proof.
  repeat split.
  - unfold WorkerThread_enter. flags_kept_tac.
  - unfold WorkerThread_loop_head, WorkerThread_exit. flags_kept_tac.
  - unfold WorkerThread_perform_done. flags_kept_tac.
  - unfold WorkerThread_cleanup, WorkerThread_exit. flags_kept_tac.
  - unfold WorkerThread_resume. flags_kept_tac.
Qed.

Lemma flags_kept_run (pf : Platform) (ev : Event) : preserves flags_kept (run pf ev).
Proof.
  destruct ev; simpl.
  - apply (preserves_discard flags_kept), flags_kept_DownloadFile.
  - apply flags_kept_QueueRequest.
  - apply flags_kept_Update.
  - flags_kept_tac.
  - flags_kept_tac.
  - apply (flags_kept_thread i 0 0).
  - apply (flags_kept_thread i 0 0).
  - apply (preserves_discard flags_kept). apply (flags_kept_callbacks realloc_ok contents size nmemb
                                      PrimFloat.zero PrimFloat.zero PrimFloat.zero PrimFloat.zero i).
  - apply (preserves_discard flags_kept). apply (flags_kept_callbacks true pHeader size nmemb
                                      PrimFloat.zero PrimFloat.zero PrimFloat.zero PrimFloat.zero i).
  - apply (preserves_discard flags_kept). apply (flags_kept_callbacks true EmptyString size nmemb
                                      PrimFloat.zero PrimFloat.zero PrimFloat.zero PrimFloat.zero i).
  - apply (preserves_discard flags_kept). apply (flags_kept_callbacks true EmptyString 0 0
                                      dltotal dlnow ultotal ulnow i).
  - apply (flags_kept_thread i result code).
  - apply (flags_kept_thread i 0 0).
  - apply (flags_kept_thread i 0 0).
Qed.

Lemma flags_kept_step (pf : Platform) (W W' : World) : step pf W W' -> flags_kept W W'.
Proof.
  intros [ev _ Hrun]. pose proof (flags_kept_run pf ev W) as H.
  unfold leaves in Hrun. destruct (run pf ev W); try contradiction; now subst.
Qed.

Lemma flags_kept_reachable (pf : Platform) (W0 W : World) :
  reachable pf W0 W -> flags_kept W0 W.
Proof.
  induction 1 as [|W W' _ IH Hstep]; [reflexivity|].
  etransitivity; [exact IH | now apply flags_kept_step in Hstep].
Qed.

Lemma signalledb_sound (i : nat) (asleep : Worker.StatusCode) (W : World) :
  signalledb i asleep W = true -> signalled i asleep W.
Proof.
  unfold signalledb, signalled. destruct (m_workers (http W) !! i) as [w|]; [|discriminate].
  intros H. exists w. split; [reflexivity|].
  apply orb_true_iff in H as [H|H]; [left | now right].
  apply negb_true_iff in H. now apply bool_decide_eq_false in H.
Qed.

Lemma enabledb_sound (ev : Event) (W : World) : enabledb ev W = true -> enabled ev W.
Proof.
  destruct ev; simpl; unfold thread_atb, thread_at; intros H; try exact I;
    try (now apply bool_decide_eq_true in H).
  - destruct (m_workers (http W) !! i) as [w|]; [|discriminate].
    exists w. split; [reflexivity|].
    apply negb_true_iff in H. now apply bool_decide_eq_false in H.
  - apply andb_true_iff in H as [H1 H2]. split.
    + now apply bool_decide_eq_true in H1.
    + now apply signalledb_sound.
  - apply andb_true_iff in H as [H1 H2]. split.
    + now apply bool_decide_eq_true in H1.
    + now apply signalledb_sound.
Qed.

Lemma play_reachable (pf : Platform) (evs : list Event) :
  forall W0 W W', reachable pf W0 W -> play pf evs W = Some W' -> reachable pf W0 W'.
Proof.
  induction evs as [|ev rest IH]; intros W0 W W' Hreach Hrun; simpl in *.
  - now injection Hrun as <-.
  - destruct (enabledb ev W) eqn:Hen; [|discriminate].
    apply enabledb_sound in Hen.
    destruct (run pf ev W) as [u W1|what W1| |] eqn:E; try discriminate.
    + apply (IH W0 W1 W'); auto.
      eapply reachable_step; [exact Hreach|].
      apply (step_event pf W W1 ev Hen). now rewrite E.
    + apply (IH W0 W1 W'); auto.
      eapply reachable_step; [exact Hreach|].
      apply (step_event pf W W1 ev Hen). now rewrite E.
Qed.

Lemma sample_cancelled_reachable : reachable sample_platform sample_start sample_cancelled.
Proof.
  apply (play_reachable sample_platform sample_events_cancelled
           sample_start sample_start sample_cancelled (reachable_refl _ _)).
  vm_compute. reflexivity.
Qed.

(** C2: when the worker's [cancelAndQuit] is set, each of the four
    callbacks returns its abort value at once (0 from the write and the
    header callback, which differs from the size of any non-empty chunk;
    [CURL_READFUNC_ABORT] from the read callback; 1 from the progress
    callback) and leaves the whole state as it was, so that no method of
    the request is called; and in every state reached from there the flag
    is still set. *)
Theorem callbacks_abort_once_cancelled (pf : Platform) (W : World) (i : nat) (w : Worker.t)
    (realloc_ok : bool) (contents : string) (size nmemb : Z)
    (dltotal dlnow ultotal ulnow : double) :
  m_workers (http W) !! i = Some w ->
  Worker.cancelAndQuit w = true ->
  (HttpClient_WorkerThread_WriteCallback realloc_ok contents size nmemb i W = Returns 0 W /\
   (0 < size_t_wrap (size * nmemb) -> write_aborts 0 (size_t_wrap (size * nmemb)))) /\
  (HttpClient_WorkerThread_HeaderCallback contents size nmemb i W = Returns 0 W /\
   (0 < size_t_wrap (size * nmemb) -> write_aborts 0 (size_t_wrap (size * nmemb)))) /\
  (HttpClient_WorkerThread_ReadCallback size nmemb i W
   = Returns (CURL_READFUNC_ABORT, EmptyString) W /\
   read_aborts CURL_READFUNC_ABORT) /\
  (HttpClient_WorkerThread_ProgressCallback dltotal dlnow ultotal ulnow i W = Returns 1 W /\
   progress_aborts 1) /\
  (forall W', reachable pf W W' ->
     exists w', m_workers (http W') !! i = Some w' /\ Worker.cancelAndQuit w' = true).
Proof.
  intros Hw Hc.
  unfold HttpClient_WorkerThread_WriteCallback, HttpClient_WorkerThread_HeaderCallback,
    HttpClient_WorkerThread_ReadCallback, HttpClient_WorkerThread_ProgressCallback,
    the_worker, write_aborts, read_aborts, progress_aborts.
  unfold_M. rewrite Hw, Hc.
  repeat split; try reflexivity; try lia.
  intros W' Hreach.
  destruct (flags_kept_reachable pf W W' Hreach i w Hw) as (w' & Hw' & Hc').
  eauto.
Qed.

Lemma sample_cancelled_worker_lookup :
  m_workers (http sample_cancelled) !! 0%nat = Some sample_cancelled_worker.
Proof. vm_compute. reflexivity. Qed.

Lemma callbacks_abort_once_cancelled_witness :
  (m_workers (http sample_cancelled) !! 0%nat = Some sample_cancelled_worker /\
   Worker.cancelAndQuit sample_cancelled_worker = true) /\
  HttpClient_WorkerThread_WriteCallback true "data" 1 4 0 sample_cancelled
  = Returns 0 sample_cancelled /\
  HttpClient_WorkerThread_ProgressCallback PrimFloat.zero PrimFloat.zero PrimFloat.zero
    PrimFloat.zero 0 sample_cancelled = Returns 1 sample_cancelled.
Proof.
  split; [split; [exact sample_cancelled_worker_lookup | reflexivity]|].
  destruct (callbacks_abort_once_cancelled sample_platform sample_cancelled 0
              sample_cancelled_worker true "data" 1 4
              PrimFloat.zero PrimFloat.zero PrimFloat.zero PrimFloat.zero
              sample_cancelled_worker_lookup eq_refl)
    as ((Hwrite & _) & _ & _ & (Hprog & _) & _).
  split; [exact Hwrite | exact Hprog].
Defined.

(** ** The methods that move a request through its states *)

Lemma GetStatus_with_base (b : HttpRequest.t) (r : Request) :
  GetStatus (with_base b r) = HttpRequest.m_status b.
Proof. destruct r; reflexivity. Qed.

Lemma inherited_leaves {A} (m : M HttpRequest.t A) (r r' : Request) :
  leaves (inherited m r) r' ->
  exists b', leaves (m (base_of r)) b' /\ r' = with_base b' r.
Proof.
  unfold inherited, zoom. destruct (m (base_of r)) as [x b'|what b'| |]; simpl;
    try contradiction; intros ->; eauto.
Qed.

Lemma HandleRequestStart_leaves (r r' : Request) :
  leaves (HandleRequestStart r) r' ->
  GetStatus r = HttpRequest.PENDING /\
  r' = with_base (HttpRequest.set_status HttpRequest.SENDING (base_of r)) r.
Proof.
  intros H. apply inherited_leaves in H as (b' & Hb & ->).
  unfold HttpRequest.HandleRequestStart in Hb. unfold_M. unfold GetStatus.
  destruct (bool_decide_reflect (HttpRequest.m_status (base_of r) = HttpRequest.PENDING));
    simpl in Hb; [|contradiction].
  subst b'. auto.
Qed.

Lemma HandleRequestStart_returns (r : Request) :
  GetStatus r = HttpRequest.PENDING ->
  HandleRequestStart r
  = Returns tt (with_base (HttpRequest.set_status HttpRequest.SENDING (base_of r)) r).
Proof.
  intros H. unfold HandleRequestStart, inherited, zoom, HttpRequest.HandleRequestStart.
  unfold_M. unfold GetStatus in H. rewrite H. reflexivity.
Qed.

Lemma HandleResponseHeaders_leaves (hs : HttpRequest.RH) (r r' : Request) :
  leaves (HandleResponseHeaders hs r) r' ->
  GetStatus r = HttpRequest.SENDING /\ GetStatus r' = HttpRequest.HEADERS /\
  exists b', r' = with_base b' r.
Proof.
  intros H. apply inherited_leaves in H as (b' & Hb & ->).
  unfold HttpRequest.HandleResponseHeaders in Hb. unfold_M.
  destruct (bool_decide_reflect (HttpRequest.m_status (base_of r) = HttpRequest.SENDING));
    simpl in Hb; [|contradiction].
  subst b'. rewrite GetStatus_with_base. simpl. unfold GetStatus. eauto.
Qed.

Lemma HandleResponseHeaders_returns (hs : HttpRequest.RH) (r : Request) :
  GetStatus r = HttpRequest.SENDING ->
  exists r', HandleResponseHeaders hs r = Returns tt r' /\
             GetStatus r' = HttpRequest.HEADERS /\
             exists b', r' = with_base b' r.
Proof.
  intros H. unfold HandleResponseHeaders, inherited, zoom, HttpRequest.HandleResponseHeaders.
  unfold_M. unfold GetStatus in H. rewrite H. simpl.
  eexists. split; [reflexivity|]. rewrite GetStatus_with_base. simpl. eauto.
Qed.

Lemma HttpRequest_HandleResponse_leaves (success : bool) (code : Z) (b b' : HttpRequest.t) :
  leaves (HttpRequest.HandleResponse success code b) b' ->
  HttpRequest.m_status b = HttpRequest.HEADERS /\
  b' = HttpRequest.set_status (if success then HttpRequest.DONE else HttpRequest.ERROR) b.
Proof.
  unfold HttpRequest.HandleResponse. unfold_M.
  destruct (bool_decide_reflect (HttpRequest.m_status b = HttpRequest.HEADERS));
    simpl; [|contradiction].
  intros ->. auto.
Qed.

Lemma std_string_state {S} (b : c_buffer) (n : Z) (response : string) (s s' : S) :
  std_string b n s = Returns response s' -> s' = s.
Proof.
  unfold std_string, ret, undefined. destruct b as [|cells|]; try discriminate.
  - destruct (n =? 0); [|discriminate]. now intros [= _ <-].
  - destruct (n <=? Z.of_nat (length cells)); [|discriminate].
    destruct (string_of_cells _); [|discriminate]. now intros [= _ <-].
Qed.

Lemma std_string_cases {S} (b : c_buffer) (n : Z) (s : S) :
  (exists response, std_string b n s = Returns response s) \/
  (exists what, std_string b n s = Undefined what).
Proof.
  unfold std_string, ret, undefined. destruct b as [|cells|]; eauto.
  - destruct (n =? 0); eauto.
  - destruct (n <=? Z.of_nat (length cells)); eauto.
    destruct (string_of_cells _); eauto.
Qed.

Lemma HttpPost_HandleResponse_leaves (pf : Platform) (success : bool) (code : Z)
    (p p' : HttpPost.t) :
  leaves (HttpPost.HandleResponse pf success code p) p' ->
  HttpRequest.m_status (HttpPost.base p) = HttpRequest.HEADERS /\
  (HttpRequest.m_status (HttpPost.base p') = HttpRequest.DONE \/
   HttpRequest.m_status (HttpPost.base p') = HttpRequest.ERROR) /\
  (success = false -> HttpRequest.m_status (HttpPost.base p') = HttpRequest.ERROR).
Proof.
  unfold HttpPost.HandleResponse, HttpRequest.HandleResponse. unfold_M.
  destruct (bool_decide_reflect (HttpRequest.m_status (HttpPost.base p) = HttpRequest.HEADERS));
    simpl; [|contradiction].
  match goal with
  | |- context [std_string ?b ?n ?s] =>
      destruct (std_string_cases b n s) as [(response & E)|(what & E)]; rewrite E; simpl
  end; [|contradiction].
  destruct success.
  - destruct (String.eqb response EmptyString); simpl.
    { intros ->. simpl. repeat split; auto; discriminate. }
    destruct (HttpPost.looks_like_json response); simpl.
    + destruct (Reader_Read pf response _); simpl; intros ->; simpl;
        repeat split; auto; discriminate.
    + intros ->. simpl. repeat split; auto; discriminate.
  - simpl. intros ->. simpl. repeat split; auto.
Qed.

Lemma YoutubeUploadRequest_HandleResponse_leaves (pf : Platform) (success : bool) (code : Z)
    (y y' : YoutubeUploadRequest.t) :
  leaves (YoutubeUploadRequest.HandleResponse pf success code y) y' ->
  HttpRequest.m_status (YoutubeUploadRequest.base y) = HttpRequest.HEADERS /\
  (HttpRequest.m_status (YoutubeUploadRequest.base y') = HttpRequest.DONE \/
   HttpRequest.m_status (YoutubeUploadRequest.base y') = HttpRequest.ERROR) /\
  (success = false -> HttpRequest.m_status (YoutubeUploadRequest.base y') = HttpRequest.ERROR).
Proof.
  unfold YoutubeUploadRequest.HandleResponse, HttpRequest.HandleResponse. unfold_M.
  destruct (bool_decide_reflect
              (HttpRequest.m_status (YoutubeUploadRequest.base y) = HttpRequest.HEADERS));
    simpl; [|contradiction].
  match goal with
  | |- context [std_string ?b ?n ?s] =>
      destruct (std_string_cases b n s) as [(response & E)|(what & E)]; rewrite E; simpl
  end; [|contradiction].
  destruct success.
  - destruct (String.eqb response EmptyString); simpl.
    { intros ->. simpl. repeat split; auto; discriminate. }
    destruct (HttpPost.looks_like_json response); simpl.
    + destruct (Reader_Read pf response _); simpl; intros ->; simpl;
        repeat split; auto; discriminate.
    + intros ->. simpl. repeat split; auto; discriminate.
  - simpl. intros ->. simpl. repeat split; auto.
Qed.

(** Whatever the class of the request, [HandleResponse] needs [HEADERS]
    and ends in [DONE] or [ERROR], in [ERROR] when [success] is false. *)
Lemma HandleResponse_leaves (pf : Platform) (success : bool) (code : Z) (r r' : Request) :
  leaves (HandleResponse pf success code r) r' ->
  GetStatus r = HttpRequest.HEADERS /\
  (GetStatus r' = HttpRequest.DONE \/ GetStatus r' = HttpRequest.ERROR) /\
  (success = false -> GetStatus r' = HttpRequest.ERROR) /\
  (forall d, r = Download d ->
     r' = Download (HttpDownload.set_base
                      (HttpRequest.set_status
                         (if success then HttpRequest.DONE else HttpRequest.ERROR)
                         (HttpDownload.base d)) d)).
Proof.
  destruct r as [d|p|j|y]; unfold HandleResponse, GetStatus; simpl.
  - intros H. apply inherited_leaves in H as (b' & Hb & ->).
    apply HttpRequest_HandleResponse_leaves in Hb as [Hst ->]. simpl in *.
    repeat split; auto.
    + destruct success; auto.
    + now intros ->.
    + now intros d' [= <-].
  - unfold as_variant.
    destruct (HttpPost.HandleResponse pf success code p) as [x p'|what p'| |] eqn:E;
      simpl; try contradiction; intros ->;
      (pose proof (HttpPost_HandleResponse_leaves pf success code p p') as H;
       rewrite E in H; destruct (H eq_refl) as (? & ? & ?); simpl;
       repeat split; auto; discriminate).
  - unfold as_variant, zoom.
    destruct (HttpPost.HandleResponse pf success code (HttpPostJson.post j))
      as [x p'|what p'| |] eqn:E;
      simpl; try contradiction; intros ->;
      (pose proof (HttpPost_HandleResponse_leaves pf success code (HttpPostJson.post j) p') as H;
       rewrite E in H; destruct (H eq_refl) as (? & ? & ?); simpl;
       repeat split; auto; discriminate).
  - unfold as_variant.
    destruct (YoutubeUploadRequest.HandleResponse pf success code y) as [x y'|what y'| |] eqn:E;
      simpl; try contradiction; intros ->;
      (pose proof (YoutubeUploadRequest_HandleResponse_leaves pf success code y y') as H;
       rewrite E in H; destruct (H eq_refl) as (? & ? & ?); simpl;
       repeat split; auto; discriminate).
Qed.

(** ** The frame of one pass of the loop of [Update] *)

Lemma is_free_scanned (w w' : Worker.t) : worker_scanned w w' -> is_free w' = is_free w.
Proof.
  intros (_ & _ & _ & _ & _ & _ & _ & _ & [Hs|[Hd Hc]] & _); unfold is_free.
  - now rewrite Hs.
  - now rewrite Hd, Hc.
Qed.

#[local] Instance worker_scanned_preorder : PreOrder worker_scanned.
Proof.
  split.
  - intros w. unfold worker_scanned. repeat split; auto.
  - intros w1 w2 w3 H12 H23.
    pose proof (is_free_scanned _ _ H12) as Hfree.
    destruct H12 as (a1 & a2 & a3 & a4 & a5 & a6 & a7 & a8 & Hs1 & Hp1).
    destruct H23 as (b1 & b2 & b3 & b4 & b5 & b6 & b7 & b8 & Hs2 & Hp2).
    unfold worker_scanned. repeat split; try congruence.
    + destruct Hs1 as [Hs1|[Hd1 Hc1]], Hs2 as [Hs2|[Hd2 Hc2]]; try (left; congruence);
        right; split; congruence.
    + destruct Hp1 as [Hp1|[Hf1 Hn1]], Hp2 as [Hp2|[Hf2 Hn2]]; try (left; congruence);
        right; split; congruence.
Qed.

#[local] Instance request_scanned_preorder : PreOrder request_scanned.
Proof.
  split.
  - intros r. now left.
  - intros r1 r2 r3 [->|[Hin1 Han1]] [->|[Hin2 Han2]]; try (now left); right; now split.
Qed.

#[local] Instance scan_frame_preorder (A : option addr) (j : nat) : PreOrder (scan_frame A j).
Proof.
  split.
  - intros W. unfold scan_frame. repeat split; auto.
    + intros w Hw. exists w. split; [exact Hw | reflexivity].
    + intros b r Hr. exists r. split; [exact Hr | reflexivity].
    + exists []. split; [now rewrite app_nil_r | intros c Hc; inversion Hc].
  - intros W1 W2 W3
      (a1 & a2 & a3 & a4 & a5 & Ho1 & Hj1 & Hh1 & Hr1 & (m1 & Ht1 & Hm1))
      (b1 & b2 & b3 & b4 & b5 & Ho2 & Hj2 & Hh2 & Hr2 & (m2 & Ht2 & Hm2)).
    unfold scan_frame. repeat split; try congruence.
    + intros k Hk. rewrite Ho2, Ho1; auto.
    + intros w Hw. destruct (Hj1 w Hw) as (w2 & Hw2 & Hs2).
      destruct (Hj2 w2 Hw2) as (w3 & Hw3 & Hs3).
      exists w3. split; [exact Hw3 | etransitivity; eauto].
    + intros b Hb. rewrite Hh2, Hh1; auto.
    + intros b r Hr. destruct (Hr1 b r Hr) as (r2 & Hb2 & Hs2).
      destruct (Hr2 b r2 Hb2) as (r3 & Hb3 & Hs3).
      exists r3. split; [exact Hb3 | etransitivity; eauto].
    + exists (m1 ++ m2). split; [rewrite Ht2, Ht1; now rewrite app_assoc|].
      intros c Hc. apply elem_of_app in Hc as [Hc|Hc]; auto.
Qed.

#[local] Instance same_core_preorder : PreOrder same_core.
Proof.
  split.
  - intros W. unfold same_core. repeat split.
  - intros W1 W2 W3 (a1 & a2 & a3 & a4 & a5) (b1 & b2 & b3 & b4 & b5).
    unfold same_core. repeat split; congruence.
Qed.

Lemma same_core_scan_frame (A : option addr) (j : nat) (W W' : World) :
  same_core W W' -> scan_frame A j W W'.
Proof.
  intros (Hh & Hf & Hn & Hw & Ht).
  unfold scan_frame. rewrite Hh, Hf, Hn, Hw, Ht. repeat split; auto.
  - intros w Hw0. exists w. split; [exact Hw0 | reflexivity].
  - intros b r Hr. exists r. split; [exact Hr | reflexivity].
  - exists []. split; [now rewrite app_nil_r | intros c Hc; inversion Hc].
Qed.

Lemma same_core_Call (cb : HttpCallbackBase) (a : addr) : preserves same_core (Call cb a).
Proof.
  destruct cb; simpl; apply (preserves_modify same_core); intros W.
  - destruct (filter _ _); unfold same_core; simpl; repeat split.
  - unfold same_core; simpl; repeat split.
Qed.

Lemma same_core_Update_callbacks (a : addr) (cbs : list (addr * HttpCallbackBase)) :
  preserves same_core (Update_callbacks a cbs).
Proof.
  induction cbs as [|it rest IH]; simpl; [apply (preserves_ret same_core)|].
  destruct (decide (it.1 = a)).
  - apply (preserves_bind same_core); [apply same_core_Call | intros; exact IH].
  - apply (preserves_bind same_core); [exact IH | intros; apply (preserves_ret same_core)].
Qed.

Lemma preserves_weaken {A} (R R' : World -> World -> Prop) (m : M World A) :
  (forall W W', R W W' -> R' W W') -> preserves R m -> preserves R' m.
Proof. intros H Hm W. specialize (Hm W). destruct (m W); auto. Qed.

Lemma scan_frame_record_call (a : addr) (j : nat) (c : MethodCall) :
  preserves (scan_frame (Some a) j) (record_call a c).
Proof.
  apply (preserves_modify (scan_frame (Some a) j)). intros W. unfold scan_frame. simpl.
  repeat split; auto.
  - intros w Hw. exists w. split; [exact Hw | reflexivity].
  - intros b r Hr. exists r. split; [exact Hr | reflexivity].
  - exists [(a, c)]. split; [reflexivity|].
    intros c' Hc'. apply list_elem_of_singleton in Hc'. now subst.
Qed.

Lemma scan_frame_set_heap (a : addr) (j : nat) (W : World) (r r' : Request) :
  heap W !! a = Some r -> request_scanned r r' ->
  scan_frame (Some a) j W (set_heap (<[a := r']> (heap W)) W).
Proof.
  intros Ha Hs. unfold scan_frame. simpl. repeat split; auto.
  - intros w Hw. exists w. split; [exact Hw | reflexivity].
  - intros b Hb. rewrite lookup_insert_ne; [reflexivity | congruence].
  - intros b r0 Hr0. destruct (decide (a = b)) as [<-|Hne].
    + rewrite lookup_insert_eq. exists r'. split; [reflexivity|]. congruence.
    + rewrite lookup_insert_ne by exact Hne. exists r0. split; [exact Hr0 | reflexivity].
  - exists []. split; [now rewrite app_nil_r | intros c Hc; inversion Hc].
Qed.

Lemma scan_frame_call {A} (a : addr) (j : nat) (c : MethodCall) (m : M Request A) :
  (forall r r', leaves (m r) r' -> request_scanned r r') ->
  preserves (scan_frame (Some a) j) (call (Some a) c m).
Proof.
  intros Hm W. unfold call, deref. unfold_M.
  destruct (heap W !! a) as [r|] eqn:Ha; [|exact I]. simpl.
  pose proof (scan_frame_record_call a j c W) as Hrec. simpl in Hrec.
  pose proof (Hm r) as Hmr.
  destruct (m r) as [x r'|what r'| |]; auto;
    (etransitivity; [exact Hrec|]);
    apply (scan_frame_set_heap a j (set_trace (trace W ++ [(a, c)]) W) r r');
    simpl; auto; apply Hmr; reflexivity.
Qed.

Lemma scan_frame_update_worker (A : option addr) (j : nat) (f : Worker.t -> Worker.t) :
  (forall w, worker_scanned w (f w)) ->
  preserves (scan_frame A j) (update_worker j f).
Proof.
  intros Hf. apply (preserves_modify (scan_frame A j)). intros W. unfold scan_frame. simpl.
  repeat split; auto.
  - apply length_alter.
  - intros k Hk. now rewrite list_lookup_alter_ne by congruence.
  - intros w Hw. exists (f w). split; [|apply Hf].
    rewrite list_lookup_alter_eq. now rewrite Hw.
  - intros b r Hr. exists r. split; [exact Hr | reflexivity].
  - exists []. split; [now rewrite app_nil_r | intros c Hc; inversion Hc].
Qed.

Lemma yields_ret {A} (Q : A -> Prop) (a : A) : Q a -> yields Q (ret a).
Proof. intros H W. exact H. Qed.

Lemma yields_bind {A B} (Q : B -> Prop) (m : M World A) (k : A -> M World B) :
  (forall a, yields Q (k a)) -> yields Q (bind m k).
Proof.
  intros Hk W. unfold bind. destruct (m W) as [a W1| | |]; auto. apply Hk.
Qed.

Lemma scan_step_scanned (pf : Platform) (r r' : Request) :
  scan_step pf r r' -> request_scanned r r'.
Proof.
  intros [(hs & H)|(success & code & H)]; right; unfold in_flight, answered.
  - apply HandleResponseHeaders_leaves in H as (Hs & Hs' & _). auto.
  - apply HandleResponse_leaves in H as (Hs & [Hs'|Hs'] & _); auto.
Qed.

Lemma scan_frame_HandleResponseHeaders (a : addr) (j : nat) (hs : HttpRequest.RH) :
  preserves (scan_frame (Some a) j)
    (call (Some a) call_HandleResponseHeaders (HandleResponseHeaders hs)).
Proof.
  apply scan_frame_call. intros r r' H. apply (scan_step_scanned sample_platform).
  left. eauto.
Qed.

Lemma scan_frame_HandleResponse (pf : Platform) (a : addr) (j : nat) (success : bool) (code : Z) :
  preserves (scan_frame (Some a) j)
    (call (Some a) (call_HandleResponse success code) (HandleResponse pf success code)).
Proof.
  apply scan_frame_call. intros r r' H. apply (scan_step_scanned pf).
  right. eauto.
Qed.

Lemma worker_scanned_to_cleanup (w : Worker.t) :
  Worker.status w = Worker.DONE -> worker_scanned w (Worker.WakeToStatus Worker.CLEANUP w).
Proof. intros H. unfold worker_scanned. simpl. repeat split; auto. Qed.

Lemma worker_scanned_drop_request (w : Worker.t) :
  is_free w = true -> worker_scanned w (Worker.set_pRequest None w).
Proof. intros H. unfold worker_scanned. simpl. repeat split; auto. Qed.


(** ** The loop body of [Update], case by case *)

Lemma call_run {A} (a : addr) (c : MethodCall) (m : M Request A) (W : World) (r : Request) :
  heap W !! a = Some r ->
  call (Some a) c m W =
  match m r with
  | Returns x r' => Returns x (after_call a c r' W)
  | Throws what r' => Throws what (after_call a c r' W)
  | AssertFails what => AssertFails what
  | Undefined what => Undefined what
  end.
Proof.
  intros Ha. unfold call, deref, record_call. unfold_M. rewrite Ha. simpl.
  destruct (m r); reflexivity.
Qed.

Lemma Update_callbacks_run (a : addr) (cbs : list (addr * HttpCallbackBase)) :
  forall W, exists W3,
    Update_callbacks a cbs W = Returns (filter (fun it => it.1 <> a) cbs) W3 /\
    same_core W W3.
Proof.
  induction cbs as [|it rest IH]; intros W; simpl.
  - exists W. split; [reflexivity | reflexivity].
  - destruct (decide (it.1 = a)) as [Heq|Hne].
    + rewrite filter_cons_False by (intros H; now apply H).
      pose proof (same_core_Call it.2 a W) as HC. unfold bind.
      assert (exists W1, Call it.2 a W = Returns tt W1) as (W1 & E).
      { destruct it.2; simpl; unfold modify; eauto. }
      rewrite E in HC |- *.
      destruct (IH W1) as (W3 & E3 & Hc3).
      exists W3. split; [exact E3 | etransitivity; eauto].
    + rewrite filter_cons_True by exact Hne.
      destruct (IH W) as (W3 & E3 & Hc3). unfold bind. rewrite E3.
      exists W3. split; [reflexivity | exact Hc3].
Qed.

Lemma Update_worker_CLEANUP (pf : Platform) (j : nat) (free : option nat) (W : World)
    (w : Worker.t) :
  m_workers (http W) !! j = Some w -> Worker.status w = Worker.CLEANUP ->
  Update_worker pf j free W = Returns free W.
Proof.
  intros Hw Hs. unfold Update_worker, the_worker. unfold_M. rewrite Hw, Hs. reflexivity.
Qed.

Lemma Update_worker_free (pf : Platform) (j : nat) (free : option nat) (W : World)
    (w : Worker.t) :
  m_workers (http W) !! j = Some w -> is_free w = true ->
  Update_worker pf j free W
  = Returns (match free with None => Some j | Some _ => free end)
      (match Worker.pRequest w with
       | Some _ => set_http (set_workers (alter (Worker.set_pRequest None) j (m_workers (http W)))
                               (http W)) W
       | None => W
       end).
Proof.
  intros Hw Hf. unfold Update_worker, the_worker, update_worker. unfold_M. rewrite Hw.
  unfold is_free in Hf.
  destruct (Worker.status w); try discriminate; destruct (Worker.pRequest w); reflexivity.
Qed.

Lemma Update_worker_ACTIVE (pf : Platform) (j : nat) (free : option nat) (W : World)
    (w : Worker.t) (a : addr) (r : Request) :
  m_workers (http W) !! j = Some w -> Worker.status w = Worker.ACTIVE ->
  Worker.pRequest w = Some a -> heap W !! a = Some r ->
  exists W',
    Update_worker pf j free W = Returns free W' /\
    ((W' = W /\ ~ (GetStatus r = HttpRequest.SENDING /\ Worker.responseHeadersDone w = true)) \/
     (exists r', GetStatus r = HttpRequest.SENDING /\ Worker.responseHeadersDone w = true /\
                 HandleResponseHeaders (Worker.pResponseHeaders w) r = Returns tt r' /\
                 W' = after_call a call_HandleResponseHeaders r' W)).
Proof.
  intros Hw Hs Hp Ha. unfold Update_worker, the_worker. unfold_M. rewrite Hw, Hs, Hp.
  unfold deref at 1. rewrite Ha. simpl.
  destruct (bool_decide_reflect (GetStatus r = HttpRequest.SENDING)) as [Hsend|Hns]; simpl.
  - destruct (Worker.responseHeadersDone w) eqn:Hd.
    + rewrite (call_run a _ _ W r Ha).
      destruct (HandleResponseHeaders_returns (Worker.pResponseHeaders w) r Hsend)
        as (r' & E & _).
      rewrite E. eexists. split; [reflexivity|]. right. eauto.
    + exists W. split; [reflexivity|]. left. split; [reflexivity|]. intros [_ H]. discriminate.
  - exists W. split; [reflexivity|]. left. split; [reflexivity|]. intros [H _]. contradiction.
Qed.

Lemma Update_worker_DONE (pf : Platform) (j : nat) (free : option nat) (W : World)
    (w : Worker.t) (a : addr) (r : Request) :
  m_workers (http W) !! j = Some w -> Worker.status w = Worker.DONE ->
  Worker.pRequest w = Some a -> heap W !! a = Some r ->
  let success := (Worker.result w =? CURLE_OK) && (Worker.responseStatusCode w <? 400) in
  let code := int_of_long (Worker.responseStatusCode w) in
  exists r1 W1,
    ((GetStatus r <> HttpRequest.SENDING /\ r1 = r /\ W1 = W) \/
     (GetStatus r = HttpRequest.SENDING /\
      HandleResponseHeaders (Worker.pResponseHeaders w) r = Returns tt r1 /\
      W1 = after_call a call_HandleResponseHeaders r1 W)) /\
    match HandleResponse pf success code r1 with
    | Returns _ r2 =>
        exists W3,
          Update_callbacks a (m_pendingCallbacks (http W))
            (after_call a (call_HandleResponse success code) r2 W1)
          = Returns (filter (fun it => it.1 <> a) (m_pendingCallbacks (http W))) W3 /\
          same_core (after_call a (call_HandleResponse success code) r2 W1) W3 /\
          Update_worker pf j free W
          = Returns free
              (set_http
                 (set_workers (alter (Worker.WakeToStatus Worker.CLEANUP) j (m_workers (http W)))
                    (set_pendingCallbacks
                       (filter (fun it => it.1 <> a) (m_pendingCallbacks (http W))) (http W)))
                 W3)
    | Throws what r2 =>
        Update_worker pf j free W
        = Throws what (after_call a (call_HandleResponse success code) r2 W1)
    | AssertFails what => Update_worker pf j free W = AssertFails what
    | Undefined what => Update_worker pf j free W = Undefined what
    end.
Proof.
  intros Hw Hs Hp Ha success code.
  assert (Hpre : exists r1 W1,
             ((GetStatus r <> HttpRequest.SENDING /\ r1 = r /\ W1 = W) \/
              (GetStatus r = HttpRequest.SENDING /\
               HandleResponseHeaders (Worker.pResponseHeaders w) r = Returns tt r1 /\
               W1 = after_call a call_HandleResponseHeaders r1 W)) /\
             (if bool_decide (GetStatus r = HttpRequest.SENDING)
              then call (Some a) call_HandleResponseHeaders
                     (HandleResponseHeaders (Worker.pResponseHeaders w))
              else ret tt) W = Returns tt W1 /\
             heap W1 !! a = Some r1 /\ http W1 = http W).
  { destruct (bool_decide_reflect (GetStatus r = HttpRequest.SENDING)) as [Hsend|Hns].
    - destruct (HandleResponseHeaders_returns (Worker.pResponseHeaders w) r Hsend)
        as (r1 & E & _).
      exists r1, (after_call a call_HandleResponseHeaders r1 W).
      split; [right; auto|]. rewrite (call_run a _ _ W r Ha), E.
      split; [reflexivity|]. split; [apply lookup_insert_eq | reflexivity].
    - exists r, W. split; [left; auto|]. split; [reflexivity|]. auto. }
  destruct Hpre as (r1 & W1 & Hcase & Erun & Ha1 & Hhttp1).
  exists r1, W1. split; [exact Hcase|].
  remember (Update_worker pf j free W) as U eqn:EU.
  unfold Update_worker, the_worker in EU. unfold_M. rewrite Hw, Hs, Hp in EU.
  unfold deref at 1 in EU. rewrite Ha in EU. simpl in EU.
  rewrite Erun in EU.
  rewrite (call_run a _ _ W1 r1 Ha1) in EU.
  fold success in EU. fold code in EU.
  destruct (HandleResponse pf success code r1) as [u r2|what r2|what|what]; try exact EU.
  set (W2 := after_call a (call_HandleResponse success code) r2 W1) in *.
  assert (Hhttp2 : http W2 = http W) by (unfold W2; simpl; exact Hhttp1).
  rewrite Hhttp2 in EU.
  destruct (Update_callbacks_run a (m_pendingCallbacks (http W)) W2) as (W3 & E3 & Hc3).
  exists W3. split; [exact E3|]. split; [exact Hc3|].
  rewrite E3 in EU. unfold update_worker, modify in EU. simpl in EU.
  destruct Hc3 as (_ & _ & _ & Hhttp3 & _). rewrite Hhttp3, Hhttp2 in EU.
  exact EU.
Qed.

Lemma after_call_frame (a : addr) (j : nat) (c : MethodCall) (W : World) (r r' : Request) :
  heap W !! a = Some r -> request_scanned r r' ->
  scan_frame (Some a) j W (after_call a c r' W).
Proof.
  intros Ha Hs. unfold after_call.
  etransitivity; [apply (scan_frame_record_call a j c W)|].
  apply (scan_frame_set_heap a j (set_trace (trace W ++ [(a, c)]) W) r r'); auto.
Qed.

Lemma set_worker_frame (A : option addr) (j : nat) (f : Worker.t -> Worker.t) (W : World)
    (w : Worker.t) :
  m_workers (http W) !! j = Some w -> worker_scanned w (f w) ->
  scan_frame A j W (set_http (set_workers (alter f j (m_workers (http W))) (http W)) W).
Proof.
  intros Hw Hf. unfold scan_frame. simpl. repeat split; auto.
  - apply length_alter.
  - intros k Hk. now rewrite list_lookup_alter_ne by congruence.
  - intros w0 Hw0. rewrite Hw in Hw0. injection Hw0 as <-.
    exists (f w). split; [|exact Hf]. rewrite list_lookup_alter_eq. now rewrite Hw.
  - intros b r Hr. exists r. split; [exact Hr | reflexivity].
  - exists []. split; [now rewrite app_nil_r | intros c Hc; inversion Hc].
Qed.

Lemma set_worker_callbacks_frame (A : option addr) (j : nat) (f : Worker.t -> Worker.t)
    (cbs : list (addr * HttpCallbackBase)) (W : World) (w : Worker.t) :
  m_workers (http W) !! j = Some w -> worker_scanned w (f w) ->
  scan_frame A j W
    (set_http (set_workers (alter f j (m_workers (http W)))
                 (set_pendingCallbacks cbs (http W))) W).
Proof.
  intros Hw Hf. unfold scan_frame. simpl. repeat split; auto.
  - apply length_alter.
  - intros k Hk. now rewrite list_lookup_alter_ne by congruence.
  - intros w0 Hw0. rewrite Hw in Hw0. injection Hw0 as <-.
    exists (f w). split; [|exact Hf]. rewrite list_lookup_alter_eq. now rewrite Hw.
  - intros b r Hr. exists r. split; [exact Hr | reflexivity].
  - exists []. split; [now rewrite app_nil_r | intros c Hc; inversion Hc].
Qed.

(** Whatever the loop body for worker [j] leaves behind stays within the
    frame of that worker, and its value is the first free worker so far. *)
Lemma Update_worker_leaves (pf : Platform) (j : nat) (free : option nat) (W W' : World) :
  leaves (Update_worker pf j free W) W' ->
  exists w,
    m_workers (http W) !! j = Some w /\
    scan_frame (Worker.pRequest w) j W W' /\
    forall free' W1, Update_worker pf j free W = Returns free' W1 ->
      free' = (if is_free w then match free with None => Some j | Some _ => free end
               else free).
Proof.
  intros Hl.
  destruct (m_workers (http W) !! j) as [w|] eqn:Hw.
  2:{ unfold Update_worker, the_worker in Hl. unfold_M. rewrite Hw in Hl. contradiction. }
  exists w. split; [reflexivity|].
  destruct (Worker.status w) eqn:Hs.
  - (* UNUSED *)
    assert (Hf : is_free w = true) by (unfold is_free; now rewrite Hs).
    rewrite (Update_worker_free pf j free W w Hw Hf) in Hl |- *. simpl in Hl. subst W'.
    rewrite Hf. split.
    + destruct (Worker.pRequest w); [|reflexivity].
      apply (set_worker_frame _ j _ W w Hw). now apply worker_scanned_drop_request.
    + now intros free' W1 [= <- _].
  - (* ACTIVE *)
    assert (Hnf : is_free w = false) by (unfold is_free; now rewrite Hs).
    rewrite Hnf.
    destruct (Worker.pRequest w) as [a|] eqn:Hp.
    2:{ unfold Update_worker, the_worker in Hl. unfold_M. rewrite Hw, Hs, Hp in Hl.
        contradiction. }
    destruct (heap W !! a) as [r|] eqn:Ha.
    2:{ unfold Update_worker, the_worker in Hl. unfold_M. rewrite Hw, Hs, Hp in Hl.
        unfold deref in Hl. rewrite Ha in Hl. contradiction. }
    destruct (Update_worker_ACTIVE pf j free W w a r Hw Hs Hp Ha) as (W1 & E & Hcase).
    rewrite E in Hl |- *. simpl in Hl. subst W'. split.
    + destruct Hcase as [[-> _]|(r' & Hsend & _ & Hrun & ->)]; [reflexivity|].
      apply (after_call_frame a j _ W r r' Ha).
      apply (scan_step_scanned pf). left. exists (Worker.pResponseHeaders w).
      now rewrite Hrun.
    + now intros free' W2 [= <- _].
  - (* DONE *)
    assert (Hnf : is_free w = false) by (unfold is_free; now rewrite Hs).
    rewrite Hnf.
    destruct (Worker.pRequest w) as [a|] eqn:Hp.
    2:{ unfold Update_worker, the_worker in Hl. unfold_M. rewrite Hw, Hs, Hp in Hl.
        contradiction. }
    destruct (heap W !! a) as [r|] eqn:Ha.
    2:{ unfold Update_worker, the_worker in Hl. unfold_M. rewrite Hw, Hs, Hp in Hl.
        unfold deref in Hl. rewrite Ha in Hl. contradiction. }
    destruct (Update_worker_DONE pf j free W w a r Hw Hs Hp Ha) as (r1 & W1 & Hcase & Hrest).
    assert (H1 : scan_frame (Some a) j W W1 /\ heap W1 !! a = Some r1).
    { destruct Hcase as [(_ & -> & ->)|(Hsend & Hrun & ->)].
      - split; [reflexivity | exact Ha].
      - split; [|apply lookup_insert_eq].
        apply (after_call_frame a j _ W r r1 Ha).
        apply (scan_step_scanned pf). left. exists (Worker.pResponseHeaders w).
        now rewrite Hrun. }
    destruct H1 as [Hf1 Ha1].
    assert (Hw1 : m_workers (http W1) !! j = Some w).
    { destruct Hcase as [(_ & _ & ->)|(_ & _ & ->)]; exact Hw. }
    set (success := (Worker.result w =? CURLE_OK) && (Worker.responseStatusCode w <? 400)) in *.
    set (code := int_of_long (Worker.responseStatusCode w)) in *.
    destruct (HandleResponse pf success code r1) as [u r2|what r2|what|what] eqn:EH.
    + destruct Hrest as (W3 & E3 & Hc3 & E).
      rewrite E in Hl |- *. simpl in Hl. subst W'. split.
      * etransitivity; [exact Hf1|].
        assert (Hf2 : scan_frame (Some a) j W1
                        (after_call a (call_HandleResponse success code) r2 W1)).
        { apply (after_call_frame a j _ W1 r1 r2 Ha1).
          apply (scan_step_scanned pf). right. exists success, code. now rewrite EH. }
        etransitivity; [exact Hf2|].
        etransitivity; [apply same_core_scan_frame; exact Hc3|].
        destruct Hc3 as (_ & _ & _ & Hhttp3 & _).
        assert (Hw3 : m_workers (http W3) !! j = Some w).
        { rewrite Hhttp3. simpl. exact Hw1. }
        assert (Hhttp : http W = http W1).
        { destruct Hcase as [(_ & _ & ->)|(_ & _ & ->)]; reflexivity. }
        assert (Hh : http W = http W3) by (rewrite Hhttp3; simpl; exact Hhttp).
        rewrite Hh.
        apply (set_worker_callbacks_frame _ j _ _ W3 w Hw3).
        now apply worker_scanned_to_cleanup.
      * now intros free' W4 [= <- _].
    + rewrite Hrest in Hl |- *. simpl in Hl. subst W'. split; [|intros ? ? [=]].
      etransitivity; [exact Hf1|].
      apply (after_call_frame a j _ W1 r1 r2 Ha1).
      apply (scan_step_scanned pf). right. exists success, code. now rewrite EH.
    + rewrite Hrest in Hl. contradiction.
    + rewrite Hrest in Hl. contradiction.
  - (* CLEANUP *)
    rewrite (Update_worker_CLEANUP pf j free W w Hw Hs) in Hl |- *. simpl in Hl. subst W'.
    split; [reflexivity|].
    unfold is_free. rewrite Hs. now intros free' W1 [= <- _].
  - (* READY *)
    assert (Hf : is_free w = true) by (unfold is_free; now rewrite Hs).
    rewrite (Update_worker_free pf j free W w Hw Hf) in Hl |- *. simpl in Hl. subst W'.
    rewrite Hf. split.
    + destruct (Worker.pRequest w); [|reflexivity].
      apply (set_worker_frame _ j _ W w Hw). now apply worker_scanned_drop_request.
    + now intros free' W1 [= <- _].
Qed.

(** ** The loop of [Update] as a whole *)

#[local] Instance scanned_preorder : PreOrder scanned.
Proof.
  split.
  - intros W. unfold scanned. repeat split; auto.
    + intros k w Hw. exists w. split; [exact Hw | reflexivity].
    + intros b r Hr. exists r. split; [exact Hr | reflexivity].
    + exists []. now rewrite app_nil_r.
  - intros W1 W2 W3 (F1 & N1 & Q1 & U1 & L1 & K1 & H1 & (m1 & T1))
                    (F2 & N2 & Q2 & U2 & L2 & K2 & H2 & (m2 & T2)).
    unfold scanned. repeat split; try congruence.
    + intros k w Hw. destruct (K1 k w Hw) as (w' & Hw' & S1).
      destruct (K2 k w' Hw') as (w'' & Hw'' & S2).
      exists w''. split; [exact Hw'' | etransitivity; eauto].
    + intros b r Hr. destruct (H1 b r Hr) as (r' & Hr' & S1).
      destruct (H2 b r' Hr') as (r'' & Hr'' & S2).
      exists r''. split; [exact Hr'' | etransitivity; eauto].
    + exists (m1 ++ m2). rewrite T2, T1. now rewrite app_assoc.
Qed.

Lemma scan_frame_scanned (A : option addr) (j : nat) (W W' : World) :
  scan_frame A j W W' -> scanned W W'.
Proof.
  intros (F & N & Q & U & L & K & J & _ & H & (more & T & _)).
  unfold scanned. repeat split; auto.
  - intros k w Hw. destruct (decide (k = j)) as [->|Hk].
    + apply J, Hw.
    + exists w. split; [now rewrite K | reflexivity].
  - now exists more.
Qed.

Lemma leaves_bind {A B} (m : M World A) (k : A -> M World B) (W W' : World) :
  leaves (bind m k W) W' ->
  (exists what, m W = Throws what W') \/
  (exists x W1, m W = Returns x W1 /\ leaves (k x W1) W').
Proof.
  unfold bind. destruct (m W) as [x W1|what W1|what|what]; simpl; intros H;
    try contradiction.
  - right. eauto.
  - left. exists what. now subst.
Qed.

Lemma first_free_in_ext (ws ws' : list Worker.t) (indices : list nat) :
  (forall k, k ∈ indices -> ws' !! k = ws !! k) ->
  first_free_in ws' indices = first_free_in ws indices.
Proof.
  induction indices as [|k rest IH]; intros H; [reflexivity|]. simpl.
  unfold free_at. rewrite (H k) by apply list_elem_of_here.
  rewrite IH; [reflexivity|]. intros k' Hk'. apply H. now apply list_elem_of_further.
Qed.

(** What the loop leaves behind: each worker and each request passed over
    at most; workers outside the indices untouched; and the value is the
    first free worker among the indices, unless one was already found. *)
Lemma Update_scan_leaves (pf : Platform) (indices : list nat) :
  NoDup indices ->
  forall (free : option nat) (W W' : World),
    leaves (Update_scan pf indices free W) W' ->
    scanned W W' /\
    (forall k, k ∉ indices -> m_workers (http W') !! k = m_workers (http W) !! k) /\
    (forall free' W1, Update_scan pf indices free W = Returns free' W1 ->
       free' = match free with
               | Some f => Some f
               | None => first_free_in (m_workers (http W)) indices
               end).
Proof.
  induction 1 as [|j rest Hj Hnd IH]; intros free W W' Hl.
  - simpl in Hl. unfold ret in Hl. simpl in Hl. subst W'.
    split; [reflexivity|]. split; [auto|].
    intros free' W1 [= <- _]. now destruct free.
  - simpl in Hl |- *. apply leaves_bind in Hl as [(what & E)|(free1 & W1 & E & Hl)].
    + assert (Hl1 : leaves (Update_worker pf j free W) W') by (now rewrite E).
      apply Update_worker_leaves in Hl1 as (w & Hw & Hf & _).
      split; [eapply scan_frame_scanned; exact Hf|]. split.
      * intros k Hk. destruct Hf as (_ & _ & _ & _ & _ & K & _). apply K.
        intros ->. apply Hk, list_elem_of_here.
      * intros free' W2. unfold bind. rewrite E. discriminate.
    + assert (Hl1 : leaves (Update_worker pf j free W) W1) by (now rewrite E).
      apply Update_worker_leaves in Hl1 as (w & Hw & Hf & Hv).
      specialize (Hv _ _ E).
      destruct (IH free1 W1 W' Hl) as (Hs & Hk & Hval).
      split; [etransitivity; [eapply scan_frame_scanned; exact Hf | exact Hs]|].
      assert (K : forall k, k <> j -> m_workers (http W1) !! k = m_workers (http W) !! k).
      { destruct Hf as (_ & _ & _ & _ & _ & K & _). exact K. }
      split.
      * intros k Hnk. rewrite Hk.
        -- apply K. intros ->. apply Hnk, list_elem_of_here.
        -- intros Hin. apply Hnk. now apply list_elem_of_further.
      * intros free' W2. unfold bind. rewrite E. intros E2.
        rewrite (Hval _ _ E2). rewrite Hv. unfold free_at. rewrite Hw.
        assert (Hext : first_free_in (m_workers (http W1)) rest
                       = first_free_in (m_workers (http W)) rest).
        { apply first_free_in_ext. intros k Hin. apply K. intros ->. contradiction. }
        rewrite Hext. destruct (is_free w), free; reflexivity.
Qed.

(** ** The dispatch after the loop *)

Lemma Update_dispatch_nothing (spawn_ok : bool) (free : option nat) (W : World) :
  free = None \/ m_pendingRequests (http W) = [] ->
  Update_dispatch spawn_ok free W = Returns tt W.
Proof.
  intros [->|Hq]; unfold Update_dispatch; unfold_M; [reflexivity|].
  rewrite Hq. now destruct free.
Qed.

(** With a free worker [i] and the request [p] at the head of the queue:
    [p] leaves the queue whatever its status; a pending [p] is started on
    worker [i]; any other [p] must be cancelled and is dropped. *)
Lemma Update_dispatch_leaves (spawn_ok : bool) (i : nat) (p : addr) (rest : list addr)
    (W W' : World) (r : Request) (w : Worker.t) :
  m_pendingRequests (http W) = p :: rest ->
  heap W !! p = Some r ->
  m_workers (http W) !! i = Some w ->
  leaves (Update_dispatch spawn_ok (Some i) W) W' ->
  m_pendingRequests (http W') = rest /\
  fs W' = fs W /\ next_addr W' = next_addr W /\
  m_pendingCallbacks (http W') = m_pendingCallbacks (http W) /\
  m_activeDownloads W' = m_activeDownloads W /\
  length (m_workers (http W')) = length (m_workers (http W)) /\
  (forall k, k <> i -> m_workers (http W') !! k = m_workers (http W) !! k) /\
  (forall b, b <> p -> heap W' !! b = heap W !! b) /\
  if decide (GetStatus r = HttpRequest.PENDING) then
    heap W' !! p
    = Some (with_base (HttpRequest.set_status HttpRequest.SENDING (base_of r)) r) /\
    trace W' = trace W ++ [(p, call_HandleRequestStart)] /\
    exists w',
      m_workers (http W') !! i = Some w' /\
      Worker.pRequest w' = Some p /\
      Worker.cancelAndQuit w' = Worker.cancelAndQuit w /\
      match Worker.status w with
      | Worker.UNUSED =>
          Worker.pCurl w = None /\
          Worker.userAgent w' = Some (c_str (m_userAgent (http W))) /\
          if spawn_ok then
            Worker.status w' = Worker.ACTIVE /\ Worker.thread w' = Worker.Created /\
            Update_dispatch spawn_ok (Some i) W = Returns tt W'
          else
            Worker.status w' = Worker.DONE /\ Worker.thread w' = Worker.thread w /\
            Update_dispatch spawn_ok (Some i) W
            = Throws "Unable to spawn a new HttpClient worker thread." W'
      | Worker.READY =>
          Worker.status w' = Worker.ACTIVE /\ Worker.thread w' = Worker.thread w /\
          Update_dispatch spawn_ok (Some i) W = Returns tt W'
      | _ => False
      end
  else
    GetStatus r = HttpRequest.CANCELLED /\
    heap W' = heap W /\ trace W' = trace W /\
    m_workers (http W') = m_workers (http W) /\
    Update_dispatch spawn_ok (Some i) W = Returns tt W'.
Proof.
  intros Hq Hr Hw. remember (Update_dispatch spawn_ok (Some i) W) as U eqn:EU.
  unfold Update_dispatch, update_worker in EU. unfold_M. rewrite Hq in EU.
  unfold deref at 1 in EU. cbn [heap set_http] in EU. rewrite Hr in EU. cbn [snd fst] in EU.
  destruct (decide (GetStatus r = HttpRequest.PENDING)) as [Hp|Hnp].
  - rewrite (call_run p _ _ _ r) in EU by exact Hr.
    rewrite (HandleRequestStart_returns r Hp) in EU.
    unfold the_worker in EU.
    cbn [http after_call set_heap set_trace set_http m_workers
           set_workers set_pendingRequests] in EU.
    rewrite list_lookup_alter_eq, Hw in EU. cbn [fmap option_fmap option_map] in EU.
    change (Worker.status (Worker.set_pRequest (Some p) w)) with (Worker.status w) in EU.
    change (Worker.pCurl (Worker.set_pRequest (Some p) w)) with (Worker.pCurl w) in EU.
    destruct (decide (Worker.status w = Worker.UNUSED)) as [Hu|Hnu].
    + rewrite Hu.
      destruct (bool_decide_reflect (Worker.pCurl w = None)) as [Hc|Hc];
        [|rewrite EU; intros []].
      destruct spawn_ok; simpl in EU; rewrite EU; simpl; intros ->; simpl;
        (repeat split; auto;
         [ now rewrite !length_alter
         | intros k Hk; now rewrite !list_lookup_alter_ne by congruence
         | intros b Hb; now rewrite lookup_insert_ne by congruence
         | apply lookup_insert_eq
         | rewrite !list_lookup_alter_eq, Hw; simpl; eexists; split; [reflexivity|];
           simpl; repeat split; auto ]).
    + destruct (bool_decide_reflect (Worker.status w = Worker.READY)) as [Hy|Hy];
        [|rewrite EU; intros []].
      rewrite Hy. simpl in EU. rewrite EU. simpl. intros ->. simpl.
      repeat split; auto;
        [ now rewrite !length_alter
        | intros k Hk; now rewrite !list_lookup_alter_ne by congruence
        | intros b Hb; now rewrite lookup_insert_ne by congruence
        | apply lookup_insert_eq
        | rewrite !list_lookup_alter_eq, Hw; simpl; eexists; split; [reflexivity|];
          simpl; repeat split; auto ].
  - destruct (bool_decide_reflect (GetStatus r = HttpRequest.CANCELLED)) as [Hc|Hc];
      [|rewrite EU; intros []].
    simpl in EU. rewrite EU. simpl. intros ->. simpl. repeat split; auto.
Qed.

(** ** [Update] runs to its end *)

Lemma body_readable_with_base (b : HttpRequest.t) (r : Request) :
  body_readable r -> body_readable (with_base b r).
Proof. destruct r; simpl; auto. Qed.

Lemma YoutubeUploadRequest_HandleResponse_failure (pf : Platform) (code : Z)
    (y : YoutubeUploadRequest.t) (response : string) :
  HttpRequest.m_status (YoutubeUploadRequest.base y) = HttpRequest.HEADERS ->
  response_body (YoutubeUploadRequest.m_workerResponseBuffer y)
    (YoutubeUploadRequest.m_workerResponseSize y) = Some response ->
  YoutubeUploadRequest.HandleResponse pf false code y
  = Returns tt (YoutubeUploadRequest.set_base
                  (HttpRequest.set_status HttpRequest.ERROR (YoutubeUploadRequest.base y)) y).
Proof.
  intros Hst Hbody.
  unfold YoutubeUploadRequest.HandleResponse, HttpRequest.HandleResponse. unfold_M.
  rewrite Hst. simpl.
  now rewrite (response_body_std_string _ _ _ _ Hbody).
Qed.

Lemma HandleResponse_returns (pf : Platform) (success : bool) (code : Z) (r : Request) :
  GetStatus r = HttpRequest.HEADERS -> body_readable r ->
  exists r', HandleResponse pf success code r = Returns tt r'.
Proof.
  intros Hst Hb. destruct r as [d|p|j|y]; unfold GetStatus in Hst; simpl in Hst, Hb.
  - unfold HandleResponse, inherited, zoom, HttpRequest.HandleResponse. unfold_M.
    simpl. rewrite Hst. simpl. eauto.
  - destruct Hb as [response Hb]. unfold HandleResponse, as_variant. destruct success.
    + destruct (HttpPost_HandleResponse_success pf code p response Hst Hb) as (p' & E & _).
      rewrite E. eauto.
    + rewrite (HttpPost_HandleResponse_failure pf code p response Hst Hb). eauto.
  - destruct Hb as [response Hb]. unfold HandleResponse, as_variant, zoom. destruct success.
    + destruct (HttpPost_HandleResponse_success pf code _ response Hst Hb) as (p' & E & _).
      rewrite E. eauto.
    + rewrite (HttpPost_HandleResponse_failure pf code _ response Hst Hb). eauto.
  - destruct Hb as [response Hb]. unfold HandleResponse, as_variant. destruct success.
    + destruct (YoutubeUploadRequest_HandleResponse_success pf code y response Hst Hb)
        as (y' & E & _).
      rewrite E. eauto.
    + rewrite (YoutubeUploadRequest_HandleResponse_failure pf code y response Hst Hb). eauto.
Qed.

Lemma Update_worker_returns (pf : Platform) (j : nat) (free : option nat) (W : World)
    (w : Worker.t) :
  m_workers (http W) !! j = Some w ->
  (is_busy w = true ->
   exists a r, Worker.pRequest w = Some a /\ heap W !! a = Some r /\
     (Worker.status w = Worker.DONE -> in_flight (GetStatus r) /\ body_readable r)) ->
  exists free' W1,
    Update_worker pf j free W = Returns free' W1 /\
    (is_busy w = false -> heap W1 = heap W).
Proof.
  intros Hw Hbusy. destruct (Worker.status w) eqn:Hs.
  - assert (Hf : is_free w = true) by (unfold is_free; now rewrite Hs).
    rewrite (Update_worker_free pf j free W w Hw Hf). do 2 eexists. split; [reflexivity|].
    intros _. now destruct (Worker.pRequest w).
  - destruct Hbusy as (a & r & Hp & Ha & _); [unfold is_busy; now rewrite Hs|].
    destruct (Update_worker_ACTIVE pf j free W w a r Hw Hs Hp Ha) as (W1 & E & _).
    exists free, W1. split; [exact E|]. unfold is_busy. rewrite Hs. discriminate.
  - destruct Hbusy as (a & r & Hp & Ha & Hd); [unfold is_busy; now rewrite Hs|].
    destruct (Hd eq_refl) as (Hfl & Hbody).
    destruct (Update_worker_DONE pf j free W w a r Hw Hs Hp Ha) as (r1 & W1 & Hcase & Hrest).
    assert (H1 : GetStatus r1 = HttpRequest.HEADERS /\ body_readable r1).
    { destruct Hcase as [(Hns & -> & _)|(Hsend & Hrun & _)].
      - split; [|exact Hbody]. destruct Hfl; [contradiction | assumption].
      - destruct (HandleResponseHeaders_returns (Worker.pResponseHeaders w) r Hsend)
          as (r' & E & Hh & b' & ->).
        rewrite E in Hrun. injection Hrun as <-.
        split; [exact Hh | now apply body_readable_with_base]. }
    destruct H1 as (Hh & Hb1).
    destruct (HandleResponse_returns pf
                ((Worker.result w =? CURLE_OK) && (Worker.responseStatusCode w <? 400))
                (int_of_long (Worker.responseStatusCode w)) r1 Hh Hb1) as (r2 & E2).
    cbv zeta in Hrest. rewrite E2 in Hrest. destruct Hrest as (W3 & _ & _ & E).
    do 2 eexists. split; [exact E|]. unfold is_busy. rewrite Hs. discriminate.
  - rewrite (Update_worker_CLEANUP pf j free W w Hw Hs). do 2 eexists.
    split; [reflexivity | auto].
  - assert (Hf : is_free w = true) by (unfold is_free; now rewrite Hs).
    rewrite (Update_worker_free pf j free W w Hw Hf). do 2 eexists. split; [reflexivity|].
    intros _. now destruct (Worker.pRequest w).
Qed.

Lemma Update_scan_returns (pf : Platform) (indices : list nat) :
  NoDup indices ->
  forall (free : option nat) (W : World),
    ready_on indices W ->
    exists free' W', Update_scan pf indices free W = Returns free' W'.
Proof.
  induction 1 as [|j rest Hj Hnd IH]; intros free W (Hr & Hd).
  - simpl. unfold ret. eauto.
  - simpl. destruct (Hr j (list_elem_of_here _ _)) as (w & Hw & Hbusy).
    destruct (Update_worker_returns pf j free W w Hw Hbusy) as (free1 & W1 & E & Hidle).
    assert (Hl : leaves (Update_worker pf j free W) W1) by (now rewrite E).
    apply Update_worker_leaves in Hl as (w0 & Hw0 & Hf & _).
    rewrite Hw in Hw0. injection Hw0 as <-.
    destruct Hf as (_ & _ & _ & _ & _ & K & _ & Hheap & _).
    unfold bind. rewrite E. apply IH. split.
    + intros k Hk. assert (Hkj : k <> j) by (intros ->; contradiction).
      destruct (Hr k (list_elem_of_further _ _ _ Hk)) as (wk & Hwk & Hbk).
      exists wk. split; [now rewrite K|].
      intros Hb. destruct (Hbk Hb) as (a & r & Hp & Ha & Hdone).
      exists a, r. split; [exact Hp|]. split; [|exact Hdone].
      destruct (is_busy w) eqn:Hbw.
      * rewrite Hheap; [exact Ha|].
        intros Heq. apply (Hd j k w wk); auto using list_elem_of_here, list_elem_of_further.
        congruence.
      * now rewrite (Hidle eq_refl).
    + intros k k' wk wk' Hk Hk' Hne Hwk Hwk'.
      assert (k <> j) by (intros ->; contradiction).
      assert (k' <> j) by (intros ->; contradiction).
      rewrite K in Hwk by assumption. rewrite K in Hwk' by assumption.
      apply (Hd k k'); auto using list_elem_of_further.
Qed.

Lemma Update_dispatch_defined (spawn_ok : bool) (i : nat) (p : addr) (rest : list addr)
    (W : World) (r : Request) (w : Worker.t) :
  m_pendingRequests (http W) = p :: rest ->
  heap W !! p = Some r ->
  m_workers (http W) !! i = Some w ->
  GetStatus r = HttpRequest.PENDING \/ GetStatus r = HttpRequest.CANCELLED ->
  is_free w = true ->
  (Worker.status w = Worker.UNUSED -> Worker.pCurl w = None) ->
  exists W', leaves (Update_dispatch spawn_ok (Some i) W) W'.
Proof.
  intros Hq Hr Hw Hst Hf Hcurl. remember (Update_dispatch spawn_ok (Some i) W) as U eqn:EU.
  unfold Update_dispatch, update_worker in EU. unfold_M. rewrite Hq in EU.
  unfold deref at 1 in EU. cbn [heap set_http] in EU. rewrite Hr in EU. cbn [snd fst] in EU.
  destruct (decide (GetStatus r = HttpRequest.PENDING)) as [Hp|Hnp].
  - rewrite (call_run p _ _ _ r) in EU by exact Hr.
    rewrite (HandleRequestStart_returns r Hp) in EU.
    unfold the_worker in EU.
    cbn [http after_call set_heap set_trace set_http m_workers
           set_workers set_pendingRequests] in EU.
    rewrite list_lookup_alter_eq, Hw in EU. cbn [fmap option_fmap option_map] in EU.
    change (Worker.status (Worker.set_pRequest (Some p) w)) with (Worker.status w) in EU.
    change (Worker.pCurl (Worker.set_pRequest (Some p) w)) with (Worker.pCurl w) in EU.
    destruct (decide (Worker.status w = Worker.UNUSED)) as [Hu|Hnu].
    + rewrite (Hcurl Hu) in EU. simpl in EU.
      destruct spawn_ok; simpl in EU; rewrite EU; simpl; eauto.
    + assert (Hy : Worker.status w = Worker.READY).
      { unfold is_free in Hf. destruct (Worker.status w); congruence. }
      rewrite Hy in EU. simpl in EU. rewrite EU. simpl. eauto.
  - destruct Hst as [Hst|Hst]; [contradiction|].
    rewrite Hst in EU. simpl in EU. rewrite EU. simpl. eauto.
Qed.

Lemma first_free_in_Some (ws : list Worker.t) (indices : list nat) (i : nat) :
  first_free_in ws indices = Some i ->
  i ∈ indices /\ exists w, ws !! i = Some w /\ is_free w = true.
Proof.
  induction indices as [|k rest IH]; simpl; [discriminate|].
  unfold free_at at 1. destruct (ws !! k) as [w|] eqn:Hk.
  - destruct (is_free w) eqn:Hf.
    + intros [= <-]. split; [apply list_elem_of_here | eauto].
    + intros H. destruct (IH H) as (Hin & Hw). split; [now apply list_elem_of_further | exact Hw].
  - intros H. destruct (IH H) as (Hin & Hw). split; [now apply list_elem_of_further | exact Hw].
Qed.

Lemma first_free_in_seq_first (ws : list Worker.t) (n s i k : nat) (w : Worker.t) :
  first_free_in ws (seq s n) = Some i -> (s <= k < i)%nat -> ws !! k = Some w ->
  is_free w = false.
Proof.
  revert s. induction n as [|n IH]; intros s; simpl; [discriminate|].
  unfold free_at at 1. intros H Hk Hw.
  destruct (decide (k = s)) as [->|Hne].
  - rewrite Hw in H. destruct (is_free w); [|reflexivity].
    injection H as <-. lia.
  - destruct (ws !! s) as [ws0|] eqn:Hs.
    + destruct (is_free ws0).
      * injection H as <-. lia.
      * apply (IH (S s)); auto. lia.
    + apply (IH (S s)); auto. lia.
Qed.

(** No worker before the first free one is free. *)
Lemma first_free_is_first (ws : list Worker.t) (i k : nat) (w : Worker.t) :
  first_free ws = Some i -> (k < i)%nat -> ws !! k = Some w -> is_free w = false.
Proof.
  unfold first_free. intros H Hk Hw.
  apply (first_free_in_seq_first ws (length ws) 0 i k w H); [lia | exact Hw].
Qed.

Lemma worker_scanned_free (w w' : Worker.t) :
  worker_scanned w w' -> is_free w = true ->
  Worker.status w' = Worker.status w /\ Worker.pCurl w' = Worker.pCurl w /\
  Worker.thread w' = Worker.thread w.
Proof.
  intros (_ & _ & _ & Hc & Ht & _ & _ & _ & [Hs|(Hs & _)] & _) Hf; auto.
  unfold is_free in Hf. rewrite Hs in Hf. discriminate.
Qed.

Lemma request_scanned_waiting (r r' : Request) :
  request_scanned r r' ->
  GetStatus r = HttpRequest.PENDING \/ GetStatus r = HttpRequest.CANCELLED -> r' = r.
Proof.
  intros [->|([H|H] & _)] [Hs|Hs]; auto; congruence.
Qed.

(** C1, as the code has it: a call of [Update] on a state in working order
    runs to its end, and it takes at most ONE request from the queue -- the
    head, and only if some worker is free. The request goes to the FIRST
    free worker of the table: if it is pending it is started there (the
    worker becomes ACTIVE, its thread is created if the worker had never
    run, or the call throws with the worker DONE if the thread cannot be
    created); otherwise it was cancelled while queued and is dropped with
    nothing started. Every other worker, free or not, is only passed over
    by the loop: none of them is given a request or started. *)
Theorem Update_dispatches_one_request (pf : Platform) (spawn_ok : bool) (W : World) :
  ready_on (seq 0 (NUM_WORKERS (http W))) W -> dispatch_ready W ->
  exists W',
    leaves (Update pf spawn_ok W) W' /\
    match first_free (m_workers (http W)), m_pendingRequests (http W) with
    | Some i, p :: rest =>
        m_pendingRequests (http W') = rest /\
        (forall k wk, k <> i -> m_workers (http W) !! k = Some wk ->
           exists wk', m_workers (http W') !! k = Some wk' /\ worker_scanned wk wk') /\
        exists r w,
          heap W !! p = Some r /\ m_workers (http W) !! i = Some w /\ is_free w = true /\
          if decide (GetStatus r = HttpRequest.PENDING) then
            exists r' w',
              heap W' !! p = Some r' /\ GetStatus r' = HttpRequest.SENDING /\
              m_workers (http W') !! i = Some w' /\ Worker.pRequest w' = Some p /\
              if spawn_ok || bool_decide (Worker.status w = Worker.READY) then
                Update pf spawn_ok W = Returns tt W' /\
                Worker.status w' = Worker.ACTIVE /\
                Worker.thread w'
                = (if bool_decide (Worker.status w = Worker.UNUSED) then Worker.Created
                   else Worker.thread w)
              else
                Update pf spawn_ok W
                = Throws "Unable to spawn a new HttpClient worker thread." W' /\
                Worker.status w' = Worker.DONE
          else
            Update pf spawn_ok W = Returns tt W' /\
            GetStatus r = HttpRequest.CANCELLED /\ heap W' !! p = Some r /\
            exists w', m_workers (http W') !! i = Some w' /\ worker_scanned w w'
    | _, _ =>
        Update pf spawn_ok W = Returns tt W' /\
        m_pendingRequests (http W') = m_pendingRequests (http W) /\
        (forall k wk, m_workers (http W) !! k = Some wk ->
           exists wk', m_workers (http W') !! k = Some wk' /\ worker_scanned wk wk')
    end.
Proof.
  intros Hready (Hhead & Hcurl).
  destruct (Update_scan_returns pf _ (NoDup_seq 0 (NUM_WORKERS (http W))) None W Hready)
    as (free' & W1 & E).
  assert (Hl : leaves (Update_scan pf (seq 0 (NUM_WORKERS (http W))) None W) W1)
    by (now rewrite E).
  apply (Update_scan_leaves pf _ (NoDup_seq 0 (NUM_WORKERS (http W)))) in Hl
    as (Hs & _ & Hval).
  specialize (Hval _ _ E). change (free' = first_free (m_workers (http W))) in Hval.
  subst free'.
  assert (EU : Update pf spawn_ok W
               = Update_dispatch spawn_ok (first_free (m_workers (http W))) W1).
  { unfold Update. unfold_M. now rewrite E. }
  destruct Hs as (_ & _ & Hq & _ & _ & Hwk & Hhp & _).
  destruct (first_free (m_workers (http W))) as [i|] eqn:Hff.
  2:{ exists W1. rewrite EU, (Update_dispatch_nothing spawn_ok None W1) by auto.
      simpl. auto. }
  destruct (m_pendingRequests (http W)) as [|p rest] eqn:Hqueue.
  { exists W1. rewrite EU, (Update_dispatch_nothing spawn_ok (Some i) W1) by auto.
    simpl. auto. }
  destruct (Hhead p rest eq_refl) as (r & Hr & Hst).
  destruct (first_free_in_Some _ _ _ Hff) as (_ & w & Hw & Hf).
  destruct (Hwk i w Hw) as (w1 & Hw1 & Hsc).
  destruct (worker_scanned_free w w1 Hsc Hf) as (Hst1 & Hc1 & Ht1).
  assert (Hf1 : is_free w1 = true) by (unfold is_free in *; now rewrite Hst1).
  destruct (Hhp p r Hr) as (r1 & Hr1 & Hrs).
  apply request_scanned_waiting in Hrs; [|exact Hst]. subst r1.
  assert (Hcurl1 : Worker.status w1 = Worker.UNUSED -> Worker.pCurl w1 = None).
  { rewrite Hst1, Hc1. apply (Hcurl i w Hw). }
  destruct (Update_dispatch_defined spawn_ok i p rest W1 r w1 Hq Hr1 Hw1 Hst Hf1 Hcurl1)
    as (W' & Hl').
  exists W'. rewrite EU. split; [exact Hl'|].
  destruct (Update_dispatch_leaves spawn_ok i p rest W1 W' r w1 Hq Hr1 Hw1 Hl')
    as (Hq' & _ & _ & _ & _ & _ & Hk' & Hb' & Hcase).
  split; [exact Hq'|]. split.
  { intros k wk Hk Hwk0. destruct (Hwk k wk Hwk0) as (wk' & Hwk' & Hsk).
    exists wk'. split; [now rewrite Hk' | exact Hsk]. }
  exists r, w. repeat split; auto.
  destruct (decide (GetStatus r = HttpRequest.PENDING)) as [Hp|Hnp].
  - destruct Hcase as (Hheap & _ & w' & Hw' & Hpr & _ & Hrun).
    eexists _, w'. split; [exact Hheap|]. split; [now rewrite GetStatus_with_base|].
    split; [exact Hw'|]. split; [exact Hpr|].
    rewrite Hst1 in Hrun. unfold is_free in Hf.
    destruct (Worker.status w) eqn:Hsw; try discriminate; simpl.
    + destruct Hrun as (_ & _ & Hrun). destruct spawn_ok; simpl.
      * destruct Hrun as (? & ? & ?). auto.
      * destruct Hrun as (? & ? & ?). auto.
    + rewrite orb_true_r. destruct Hrun as (? & ? & ?). rewrite <- Ht1. auto.
  - destruct Hcase as (Hc & Hheap & _ & Hws & Hrun).
    repeat split; auto.
    + now rewrite Hheap.
    + exists w1. split; [now rewrite Hws | exact Hsc].
Qed.

Lemma idle_ready_on (W : World) :
  Forall (fun w => is_busy w = false) (m_workers (http W)) ->
  ready_on (seq 0 (NUM_WORKERS (http W))) W.
Proof.
  intros Hall. rewrite Forall_lookup in Hall. split.
  - intros k Hk. apply elem_of_seq in Hk.
    destruct (lookup_lt_is_Some_2 (m_workers (http W)) k) as [w Hw];
      [unfold NUM_WORKERS in Hk; lia|].
    exists w. split; [exact Hw|]. intros Hb. rewrite (Hall k w Hw) in Hb. discriminate.
  - intros k k' w w' _ _ _ Hw _ Hb. rewrite (Hall k w Hw) in Hb. discriminate.
Qed.

Lemma sample_two_queued_ready :
  ready_on (seq 0 (NUM_WORKERS (http sample_two_queued))) sample_two_queued.
Proof. apply idle_ready_on. vm_compute. repeat constructor. Qed.

Lemma sample_two_queued_dispatch_ready : dispatch_ready sample_two_queued.
Proof.
  split.
  - intros p rest Hq. vm_compute in Hq. injection Hq as <- <-.
    eexists. split; [vm_compute; reflexivity|]. left. vm_compute. reflexivity.
  - intros k w Hw.
    assert (Hall : Forall (fun w => Worker.pCurl w = None)
                     (m_workers (http sample_two_queued)))
      by (vm_compute; repeat constructor).
    rewrite Forall_lookup in Hall. intros _. exact (Hall k w Hw).
Qed.

Lemma sample_two_queued_first_free :
  first_free (m_workers (http sample_two_queued)) = Some 0%nat /\
  m_pendingRequests (http sample_two_queued) = [0%nat; 1%nat].
Proof. split_all; vm_compute; reflexivity. Qed.

Lemma Update_dispatches_one_request_witness :
  exists W',
    leaves (Update sample_platform true sample_two_queued) W' /\
    m_pendingRequests (http W') = [1%nat].
Proof.
  destruct (Update_dispatches_one_request sample_platform true sample_two_queued
              sample_two_queued_ready sample_two_queued_dispatch_ready) as (W' & Hl & Hm).
  destruct sample_two_queued_first_free as (Hff & Hq).
  rewrite Hff, Hq in Hm. destruct Hm as (Hrest & _).
  exists W'. split; [exact Hl | exact Hrest].
Defined.

(** C1 as stated fails: with two free workers and two pending requests in
    the queue, one call of [Update] takes only the first request; the second
    stays queued and the second free worker is left as it was. *)
Lemma Update_serves_one_free_worker_only :
  Update sample_platform true sample_two_queued = Returns tt sample_two_updated /\
  Worker.status <$> m_workers (http sample_two_queued) = [Worker.UNUSED; Worker.UNUSED] /\
  m_pendingRequests (http sample_two_queued) = [0%nat; 1%nat] /\
  GetStatus <$> heap sample_two_queued !! 0%nat = Some HttpRequest.PENDING /\
  GetStatus <$> heap sample_two_queued !! 1%nat = Some HttpRequest.PENDING /\
  m_pendingRequests (http sample_two_updated) = [1%nat] /\
  Worker.status <$> m_workers (http sample_two_updated) = [Worker.ACTIVE; Worker.UNUSED] /\
  Worker.pRequest <$> m_workers (http sample_two_updated) = [Some 0%nat; None] /\
  GetStatus <$> heap sample_two_updated !! 1%nat = Some HttpRequest.PENDING.
Proof. split_all; vm_compute; reflexivity. Qed.

Lemma int_of_long_small (x : Z) : - 2 ^ 31 <= x < 2 ^ 31 -> int_of_long x = x.
Proof. intros H. unfold int_of_long. rewrite Z.mod_small by lia. lia. Qed.

(** The loop body of [Update] on a worker whose transfer has ended. *)
Lemma Update_worker_completed (pf : Platform) (j : nat) (free : option nat)
    (W : World) (w : Worker.t) (a : addr) (r : Request) :
  m_workers (http W) !! j = Some w -> Worker.status w = Worker.DONE ->
  Worker.pRequest w = Some a -> heap W !! a = Some r ->
  in_flight (GetStatus r) -> body_readable r ->
  let success := (Worker.result w =? CURLE_OK) && (Worker.responseStatusCode w <? 400) in
  let code := int_of_long (Worker.responseStatusCode w) in
  (success = false <-> Worker.result w <> CURLE_OK \/ 400 <= Worker.responseStatusCode w) /\
  (- 2 ^ 31 <= Worker.responseStatusCode w < 2 ^ 31 -> code = Worker.responseStatusCode w) /\
  exists W' r',
    Update_worker pf j free W = Returns free W' /\
    trace W' = trace W
               ++ (if bool_decide (GetStatus r = HttpRequest.SENDING)
                   then [(a, call_HandleResponseHeaders)] else [])
               ++ [(a, call_HandleResponse success code)] /\
    heap W' !! a = Some r' /\
    (GetStatus r' = HttpRequest.DONE \/ GetStatus r' = HttpRequest.ERROR) /\
    (success = false -> GetStatus r' = HttpRequest.ERROR) /\
    (forall d, r = Download d ->
       exists b', r' = Download (HttpDownload.set_base b' d) /\
         HttpRequest.m_status b' = if success then HttpRequest.DONE else HttpRequest.ERROR) /\
    Worker.status <$> m_workers (http W') !! j = Some Worker.CLEANUP.
Proof.
  intros Hw Hs Hp Ha Hfl Hbody success code.
  split.
  { unfold success. rewrite andb_false_iff, Z.eqb_neq, Z.ltb_ge. reflexivity. }
  split; [apply int_of_long_small|].
  destruct (Update_worker_DONE pf j free W w a r Hw Hs Hp Ha) as (r1 & W1 & Hcase & Hrest).
  fold success code in Hrest.
  assert (H1 : GetStatus r1 = HttpRequest.HEADERS /\ body_readable r1 /\
               (forall d, r = Download d -> exists b1, r1 = Download (HttpDownload.set_base b1 d)) /\
               http W1 = http W /\
               trace W1 = trace W
                          ++ (if bool_decide (GetStatus r = HttpRequest.SENDING)
                              then [(a, call_HandleResponseHeaders)] else [])).
  { destruct Hcase as [(Hns & -> & ->)|(Hsend & Hrun & ->)].
    - rewrite bool_decide_eq_false_2 by exact Hns. rewrite app_nil_r.
      repeat split; eauto.
      + destruct Hfl; [contradiction | assumption].
      + intros d ->. exists (HttpDownload.base d). now destruct d.
    - rewrite bool_decide_eq_true_2 by exact Hsend.
      destruct (HandleResponseHeaders_returns (Worker.pResponseHeaders w) r Hsend)
        as (r' & E & Hh & b' & ->).
      rewrite E in Hrun. injection Hrun as <-.
      repeat split; auto; [now apply body_readable_with_base|].
      intros d ->. simpl. eauto. }
  destruct H1 as (Hh & Hb1 & Hd1 & Hhttp1 & Htr1).
  destruct (HandleResponse_returns pf success code r1 Hh Hb1) as (r2 & E2).
  rewrite E2 in Hrest. destruct Hrest as (W3 & _ & Hcore & E).
  assert (Hl2 : leaves (HandleResponse pf success code r1) r2) by (now rewrite E2).
  apply HandleResponse_leaves in Hl2 as (_ & Hfinal & Hfail & Hdl).
  destruct Hcore as (Hheap3 & _ & _ & _ & Htr3).
  eexists _, r2. split; [exact E|]. simpl.
  rewrite Htr3, Hheap3. simpl. rewrite Htr1, <- app_assoc.
  split; [reflexivity|]. split; [apply lookup_insert_eq|].
  split; [exact Hfinal|]. split; [exact Hfail|]. split.
  - intros d Hd. destruct (Hd1 d Hd) as (b1 & ->). rewrite (Hdl _ eq_refl).
    eexists. split; reflexivity.
  - rewrite list_lookup_alter_eq, Hw. simpl. reflexivity.
Qed.

(** ** One worker within the whole of [Update] *)

(** A worker that is neither [ACTIVE] nor [DONE]: the loop body calls no
    method of any request. *)
Lemma Update_worker_idle (pf : Platform) (j : nat) (free : option nat) (W W' : World)
    (w : Worker.t) :
  m_workers (http W) !! j = Some w -> is_busy w = false ->
  leaves (Update_worker pf j free W) W' ->
  heap W' = heap W /\ trace W' = trace W.
Proof.
  intros Hw Hb Hl. unfold is_busy in Hb. destruct (Worker.status w) eqn:Hs; try discriminate.
  - assert (Hf : is_free w = true) by (unfold is_free; now rewrite Hs).
    rewrite (Update_worker_free pf j free W w Hw Hf) in Hl. simpl in Hl. subst W'.
    destruct (Worker.pRequest w); auto.
  - rewrite (Update_worker_CLEANUP pf j free W w Hw Hs) in Hl. simpl in Hl. subst W'. auto.
  - assert (Hf : is_free w = true) by (unfold is_free; now rewrite Hs).
    rewrite (Update_worker_free pf j free W w Hw Hf) in Hl. simpl in Hl. subst W'.
    destruct (Worker.pRequest w); auto.
Qed.

(** The loop body for worker [j] leaves every other worker alone, and the
    request at [a] too unless [j] is busy with it. *)
Lemma Update_worker_other (pf : Platform) (j i : nat) (free : option nat) (W W' : World)
    (a : addr) :
  leaves (Update_worker pf j free W) W' -> j <> i ->
  (forall wj, m_workers (http W) !! j = Some wj -> is_busy wj = true ->
     Worker.pRequest wj <> Some a) ->
  m_workers (http W') !! i = m_workers (http W) !! i /\
  heap W' !! a = heap W !! a /\
  exists more, trace W' = trace W ++ more /\ forall c, c ∈ more -> c.1 <> a.
Proof.
  intros Hl Hji Hd. pose proof Hl as Hl0.
  apply Update_worker_leaves in Hl as (wj & Hwj & Hf & _).
  destruct Hf as (_ & _ & _ & _ & _ & K & _ & Hheap & _ & (more & Ht & Hmore)).
  split; [apply K; congruence|].
  destruct (is_busy wj) eqn:Hb.
  - specialize (Hd wj Hwj Hb). split; [apply Hheap; exact Hd|].
    exists more. split; [exact Ht|]. intros c Hc Heq. apply Hd.
    rewrite (Hmore c Hc). now rewrite Heq.
  - destruct (Update_worker_idle pf j free W W' wj Hwj Hb Hl0) as (Hh & Htr).
    split; [now rewrite Hh|]. exists []. split; [now rewrite app_nil_r|].
    intros c Hc. inversion Hc.
Qed.

(** The workers still to come are as ready after the loop body for [j] as
    they were before it. *)
Lemma ready_on_step (pf : Platform) (j : nat) (rest : list nat) (free free1 : option nat)
    (W W1 : World) :
  j ∉ rest -> ready_on (j :: rest) W ->
  Update_worker pf j free W = Returns free1 W1 ->
  ready_on rest W1.
Proof.
  intros Hj (Hr & Hd) E.
  assert (Hl : leaves (Update_worker pf j free W) W1) by (now rewrite E).
  assert (K : forall k, k <> j -> m_workers (http W1) !! k = m_workers (http W) !! k).
  { pose proof Hl as Hl0. apply Update_worker_leaves in Hl0 as (w0' & _ & Hf & _).
    destruct Hf as (_ & _ & _ & _ & _ & K & _). exact K. }
  split.
  - intros k Hk. assert (Hkj : j <> k) by (intros ->; contradiction).
    destruct (Hr k (list_elem_of_further _ _ _ Hk)) as (wk & Hwk & Hbk).
    exists wk. split; [rewrite K by congruence; exact Hwk|].
    intros Hb. destruct (Hbk Hb) as (a & r & Hp & Ha & Hdone).
    exists a, r. split; [exact Hp|]. split; [|exact Hdone].
    destruct (Update_worker_other pf j k free W W1 a Hl Hkj) as (_ & Hh & _); [|now rewrite Hh].
    intros wj Hwj Hbj Heq.
    apply (Hd j k wj wk); auto using list_elem_of_here, list_elem_of_further. congruence.
  - intros k k' wk wk' Hk Hk' Hne Hwk Hwk'.
    assert (Hkj : k <> j) by (intros ->; contradiction).
    assert (Hkj' : k' <> j) by (intros ->; contradiction).
    rewrite K in Hwk by exact Hkj. rewrite K in Hwk' by exact Hkj'.
    apply (Hd k k'); auto using list_elem_of_further.
Qed.

(** The loop over workers none of which is busy with the request at [a]:
    that request and the worker [i], which is not among them, are as they
    were. *)
Lemma Update_scan_others (pf : Platform) (indices : list nat) (i : nat) (a : addr) :
  NoDup indices -> i ∉ indices ->
  forall (free : option nat) (W W' : World),
    leaves (Update_scan pf indices free W) W' ->
    (forall j wj, j ∈ indices -> m_workers (http W) !! j = Some wj -> is_busy wj = true ->
       Worker.pRequest wj <> Some a) ->
    m_workers (http W') !! i = m_workers (http W) !! i /\
    heap W' !! a = heap W !! a /\
    exists more, trace W' = trace W ++ more /\ forall c, c ∈ more -> c.1 <> a.
Proof.
  induction 1 as [|j rest Hj Hnd IH]; intros Hi free W W' Hl Hd.
  - simpl in Hl. unfold ret in Hl. simpl in Hl. subst W'. split_all; auto.
    exists []. split; [now rewrite app_nil_r|]. intros c Hc. inversion Hc.
  - assert (Hji : j <> i) by (intros ->; apply Hi, list_elem_of_here).
    assert (Hir : i ∉ rest) by (intros H; apply Hi; now apply list_elem_of_further).
    simpl in Hl. apply leaves_bind in Hl as [(what & E)|(free1 & W1 & E & Hl)].
    + apply (Update_worker_other pf j i free W W' a); [now rewrite E | exact Hji |].
      intros wj Hwj. apply (Hd j wj (list_elem_of_here _ _) Hwj).
    + assert (Hl1 : leaves (Update_worker pf j free W) W1) by (now rewrite E).
      destruct (Update_worker_other pf j i free W W1 a Hl1 Hji) as (Hw1 & Hh1 & m1 & Ht1 & Hm1).
      { intros wj Hwj. apply (Hd j wj (list_elem_of_here _ _) Hwj). }
      assert (K : forall k, k <> j -> m_workers (http W1) !! k = m_workers (http W) !! k).
      { apply Update_worker_leaves in Hl1 as (w0' & _ & Hf & _).
        destruct Hf as (_ & _ & _ & _ & _ & K & _). exact K. }
      destruct (IH Hir free1 W1 W' Hl) as (Hw2 & Hh2 & m2 & Ht2 & Hm2).
      { intros k wk Hk Hwk. rewrite K in Hwk by (intros ->; contradiction).
        apply (Hd k wk); [now apply list_elem_of_further | exact Hwk]. }
      split; [congruence|]. split; [congruence|].
      exists (m1 ++ m2). split; [rewrite Ht2, Ht1; now rewrite app_assoc|].
      intros c Hc. apply elem_of_app in Hc as [Hc|Hc]; auto.
Qed.

(** The loop of [Update] comes to every busy worker of its indices: up to
    the loop body for worker [i] nothing has touched that worker or its
    request, and nothing touches them after it. *)
Lemma Update_scan_visits (pf : Platform) (indices : list nat) :
  NoDup indices ->
  forall (free : option nat) (W : World) (i : nat) (w : Worker.t) (a : addr),
    ready_on indices W -> i ∈ indices ->
    m_workers (http W) !! i = Some w -> is_busy w = true -> Worker.pRequest w = Some a ->
    exists free1 Wa free2 Wb free3 W1 pre post,
      m_workers (http Wa) !! i = Some w /\ heap Wa !! a = heap W !! a /\
      trace Wa = trace W ++ pre /\ (forall c, c ∈ pre -> c.1 <> a) /\
      Update_worker pf i free1 Wa = Returns free2 Wb /\
      Update_scan pf indices free W = Returns free3 W1 /\
      m_workers (http W1) !! i = m_workers (http Wb) !! i /\
      heap W1 !! a = heap Wb !! a /\
      trace W1 = trace Wb ++ post /\ (forall c, c ∈ post -> c.1 <> a).
Proof.
  induction 1 as [|j rest Hj Hnd IH]; intros free W i w a Hready Hi Hw Hb Hp.
  - inversion Hi.
  - destruct Hready as (Hr & Hd).
    destruct (Hr j (list_elem_of_here _ _)) as (wj & Hwj & Hbusy).
    destruct (Update_worker_returns pf j free W wj Hwj Hbusy) as (free1 & W1 & E & _).
    assert (Hl1 : leaves (Update_worker pf j free W) W1) by (now rewrite E).
    pose proof (ready_on_step pf j rest free free1 W W1 Hj (conj Hr Hd) E) as Hready1.
    destruct (decide (j = i)) as [->|Hji].
    + (* the worker itself *)
      destruct (Update_scan_returns pf rest Hnd free1 W1 Hready1) as (free3 & W3 & E3).
      assert (Hl3 : leaves (Update_scan pf rest free1 W1) W3) by (now rewrite E3).
      destruct (Update_scan_others pf rest i a Hnd Hj free1 W1 W3 Hl3)
        as (Hw3 & Hh3 & post & Ht3 & Hpost).
      { intros k wk Hk Hwk Hbk Heq.
        assert (Hki : k <> i) by (intros ->; contradiction).
        apply Update_worker_leaves in Hl1 as (w0' & _ & Hf & _).
        destruct Hf as (_ & _ & _ & _ & _ & K & _).
        rewrite K in Hwk by exact Hki.
        apply (Hd k i wk w); auto using list_elem_of_here, list_elem_of_further.
        congruence. }
      exists free, W, free1, W1, free3, W3, [], post.
      split; [exact Hw|]. split; [reflexivity|]. split; [now rewrite app_nil_r|].
      split; [intros c Hc; inversion Hc|]. split; [exact E|].
      split; [simpl; unfold bind; now rewrite E|]. auto.
    + (* another worker first *)
      assert (Hir : i ∈ rest).
      { apply elem_of_cons in Hi as [->|Hi]; [contradiction | exact Hi]. }
      destruct (Update_worker_other pf j i free W W1 a Hl1 Hji) as (Hw1 & Hh1 & m1 & Ht1 & Hm1).
      { intros wj' Hwj' Hbj Heq. rewrite Hwj in Hwj'. injection Hwj' as <-.
        apply (Hd j i wj w); auto using list_elem_of_here. congruence. }
      rewrite Hw in Hw1.
      destruct (IH free1 W1 i w a Hready1 Hir Hw1 Hb Hp)
        as (f1 & Wa & f2 & Wb & f3 & W3 & pre & post & Hwa & Hha & Hta & Hpre & Ea & E3 &
            Hw3 & Hh3 & Ht3 & Hpost).
      exists f1, Wa, f2, Wb, f3, W3, (m1 ++ pre), post.
      split; [exact Hwa|]. split; [congruence|].
      split; [rewrite Hta, Ht1; now rewrite app_assoc|].
      split; [intros c Hc; apply elem_of_app in Hc as [Hc|Hc]; auto|].
      split; [exact Ea|].
      split; [simpl; unfold bind; now rewrite E|]. auto.
Qed.

(** [Update] on a state in working order runs to its end; what comes after
    the loop touches only a free worker and a request that is pending. *)
Lemma Update_runs (pf : Platform) (spawn_ok : bool) (W : World) :
  ready_on (seq 0 (NUM_WORKERS (http W))) W -> dispatch_ready W ->
  exists W1 W',
    Update_scan pf (seq 0 (NUM_WORKERS (http W))) None W
    = Returns (first_free (m_workers (http W))) W1 /\
    scanned W W1 /\
    leaves (Update pf spawn_ok W) W' /\
    fs W' = fs W1 /\ next_addr W' = next_addr W1 /\
    m_activeDownloads W' = m_activeDownloads W1 /\
    m_pendingCallbacks (http W') = m_pendingCallbacks (http W1) /\
    (forall k wk, m_workers (http W1) !! k = Some wk -> is_free wk = false ->
       m_workers (http W') !! k = Some wk) /\
    (forall b rb, heap W1 !! b = Some rb -> GetStatus rb <> HttpRequest.PENDING ->
       heap W' !! b = Some rb) /\
    exists post, trace W' = trace W1 ++ post /\
      forall c, c ∈ post ->
        exists rc, heap W1 !! c.1 = Some rc /\ GetStatus rc = HttpRequest.PENDING.
Proof.
  intros Hready (Hhead & Hcurl).
  destruct (Update_scan_returns pf _ (NoDup_seq 0 (NUM_WORKERS (http W))) None W Hready)
    as (free' & W1 & E).
  assert (Hl : leaves (Update_scan pf (seq 0 (NUM_WORKERS (http W))) None W) W1)
    by (now rewrite E).
  apply (Update_scan_leaves pf _ (NoDup_seq 0 (NUM_WORKERS (http W)))) in Hl
    as (Hs & _ & Hval).
  specialize (Hval _ _ E). change (free' = first_free (m_workers (http W))) in Hval.
  subst free'.
  assert (EU : Update pf spawn_ok W
               = Update_dispatch spawn_ok (first_free (m_workers (http W))) W1).
  { unfold Update. unfold_M. now rewrite E. }
  exists W1.
  assert (Hnothing : Update_dispatch spawn_ok (first_free (m_workers (http W))) W1
                     = Returns tt W1 ->
          exists W',
            Update_scan pf (seq 0 (NUM_WORKERS (http W))) None W
            = Returns (first_free (m_workers (http W))) W1 /\
            scanned W W1 /\
            leaves (Update pf spawn_ok W) W' /\
            fs W' = fs W1 /\ next_addr W' = next_addr W1 /\
            m_activeDownloads W' = m_activeDownloads W1 /\
            m_pendingCallbacks (http W') = m_pendingCallbacks (http W1) /\
            (forall k wk, m_workers (http W1) !! k = Some wk -> is_free wk = false ->
               m_workers (http W') !! k = Some wk) /\
            (forall b rb, heap W1 !! b = Some rb -> GetStatus rb <> HttpRequest.PENDING ->
               heap W' !! b = Some rb) /\
            exists post, trace W' = trace W1 ++ post /\
              forall c, c ∈ post ->
                exists rc, heap W1 !! c.1 = Some rc /\ GetStatus rc = HttpRequest.PENDING).
  { intros En. exists W1. rewrite EU, En. simpl. split_all; auto.
    exists []. split; [now rewrite app_nil_r|]. intros c Hc. inversion Hc. }
  pose proof Hs as (_ & _ & Hq & _ & _ & Hwk & Hhp & _).
  destruct (first_free (m_workers (http W))) as [i|] eqn:Hff.
  2:{ apply Hnothing, Update_dispatch_nothing. now left. }
  destruct (m_pendingRequests (http W)) as [|p rest] eqn:Hqueue.
  { apply Hnothing, Update_dispatch_nothing. now right. }
  clear Hnothing.
  destruct (Hhead p rest eq_refl) as (r & Hr & Hst).
  destruct (first_free_in_Some _ _ _ Hff) as (_ & w & Hw & Hf).
  destruct (Hwk i w Hw) as (w1 & Hw1 & Hsc).
  destruct (worker_scanned_free w w1 Hsc Hf) as (Hst1 & Hc1 & Ht1).
  assert (Hf1 : is_free w1 = true) by (unfold is_free in *; now rewrite Hst1).
  destruct (Hhp p r Hr) as (r1 & Hr1 & Hrs).
  apply request_scanned_waiting in Hrs; [|exact Hst]. subst r1.
  assert (Hcurl1 : Worker.status w1 = Worker.UNUSED -> Worker.pCurl w1 = None).
  { rewrite Hst1, Hc1. apply (Hcurl i w Hw). }
  destruct (Update_dispatch_defined spawn_ok i p rest W1 r w1 Hq Hr1 Hw1 Hst Hf1 Hcurl1)
    as (W' & Hl').
  exists W'. rewrite EU.
  destruct (Update_dispatch_leaves spawn_ok i p rest W1 W' r w1 Hq Hr1 Hw1 Hl')
    as (_ & Hfs & Hn & Hcb & Hmap & _ & Hk' & Hb' & Hcase).
  split; [exact E|]. split; [exact Hs|]. split; [exact Hl'|].
  split; [exact Hfs|]. split; [exact Hn|]. split; [exact Hmap|]. split; [exact Hcb|].
  destruct (decide (GetStatus r = HttpRequest.PENDING)) as [Hp|Hnp].
  - destruct Hcase as (_ & Htr & _). split_all.
    + intros k wk Hwk1 Hnf. rewrite Hk'; [exact Hwk1|].
      intros ->. rewrite Hw1 in Hwk1. injection Hwk1 as <-. congruence.
    + intros b rb Hb Hnp. rewrite Hb'; [exact Hb|].
      intros ->. rewrite Hr1 in Hb. injection Hb as <-. contradiction.
    + exists [(p, call_HandleRequestStart)]. split; [exact Htr|].
      intros c Hc. apply list_elem_of_singleton in Hc. subst c. simpl. eauto.
  - destruct Hcase as (_ & Hheap & Htr & Hws & _). split_all.
    + intros k wk Hwk1 _. now rewrite Hws.
    + intros b rb Hb _. now rewrite Hheap.
    + exists []. split; [now rewrite app_nil_r|]. intros c Hc. inversion Hc.
Qed.

(** [Update] as a whole and a busy worker [i] with the request at [a]:
    between the state before and the state after lies one run of the loop
    body for [i], on a state in which that worker and that request are as
    [Update] found them, and nothing else in [Update] touches them. *)
Lemma Update_visits (pf : Platform) (spawn_ok : bool) (W : World) (i : nat) (w : Worker.t)
    (a : addr) (r : Request) :
  ready_on (seq 0 (NUM_WORKERS (http W))) W -> dispatch_ready W ->
  m_workers (http W) !! i = Some w -> is_busy w = true ->
  Worker.pRequest w = Some a -> heap W !! a = Some r -> in_flight (GetStatus r) ->
  exists free1 Wa free2 Wb W' pre post,
    m_workers (http Wa) !! i = Some w /\ heap Wa !! a = Some r /\
    trace Wa = trace W ++ pre /\ (forall c, c ∈ pre -> c.1 <> a) /\
    Update_worker pf i free1 Wa = Returns free2 Wb /\
    leaves (Update pf spawn_ok W) W' /\
    m_workers (http W') !! i = m_workers (http Wb) !! i /\
    heap W' !! a = heap Wb !! a /\
    trace W' = trace Wb ++ post /\ (forall c, c ∈ post -> c.1 <> a) /\
    fs W' = fs W /\ next_addr W' = next_addr W.
Proof.
  intros Hready Hdisp Hw Hb Hp Ha Hfl.
  assert (Hi : i ∈ seq 0 (NUM_WORKERS (http W))).
  { apply elem_of_seq. apply lookup_lt_Some in Hw. unfold NUM_WORKERS. lia. }
  destruct (Update_scan_visits pf _ (NoDup_seq 0 (NUM_WORKERS (http W))) None W i w a
              Hready Hi Hw Hb Hp)
    as (f1 & Wa & f2 & Wb & f3 & W1 & pre & post & Hwa & Hha & Hta & Hpre & Ea & E1 &
        Hw1 & Hh1 & Ht1 & Hpost).
  destruct (Update_runs pf spawn_ok W Hready Hdisp)
    as (W1' & W' & E1' & Hs & Hl & Hfs & Hn & _ & _ & Hkeepw & Hkeeph & post' & Ht' & Hpost').
  rewrite E1 in E1'. injection E1' as _ <-.
  rewrite Ha in Hha.
  assert (Hlb : leaves (Update_worker pf i f1 Wa) Wb) by (now rewrite Ea).
  apply Update_worker_leaves in Hlb as (w0 & Hw0 & Hf & _).
  rewrite Hwa in Hw0. injection Hw0 as <-.
  destruct Hf as (_ & _ & _ & _ & _ & _ & J & _ & H & _).
  destruct (J w Hwa) as (wb & Hwb & Hscw).
  destruct (H a r Hha) as (rb & Hrb & Hscr).
  assert (Hnf : is_free wb = false).
  { destruct Hscw as (_ & _ & _ & _ & _ & _ & _ & _ & Hst & _).
    unfold is_busy in Hb. unfold is_free.
    destruct Hst as [Hst|(_ & Hst)]; rewrite Hst; [|reflexivity].
    destruct (Worker.status w); congruence. }
  assert (Hnp : GetStatus rb <> HttpRequest.PENDING).
  { destruct Hscr as [->|(_ & [Hx|[Hx|Hx]])]; [|congruence..].
    destruct Hfl as [Hx|Hx]; congruence. }
  exists f1, Wa, f2, Wb, W', pre, (post ++ post').
  split; [exact Hwa|]. split; [exact Hha|]. split; [exact Hta|]. split; [exact Hpre|].
  split; [exact Ea|]. split; [exact Hl|].
  split; [rewrite Hwb; apply Hkeepw; [now rewrite Hw1 | exact Hnf]|].
  split; [rewrite Hrb; apply Hkeeph; [now rewrite Hh1 | exact Hnp]|].
  split; [rewrite Ht', Ht1; now rewrite app_assoc|].
  split.
  { intros c Hc. apply elem_of_app in Hc as [Hc|Hc]; [auto|].
    destruct (Hpost' c Hc) as (rc & Hrc & Hpc). intros Heq. rewrite Heq in Hrc.
    rewrite Hh1, Hrb in Hrc. congruence. }
  destruct Hs as (Hfs1 & Hn1 & _). split; congruence.
Qed.

(** A state with a single worker that is busy with a live request. *)
Lemma one_worker_ready_on (W : World) (w : Worker.t) (a : addr) (r : Request) :
  m_workers (http W) = [w] -> Worker.pRequest w = Some a -> heap W !! a = Some r ->
  (Worker.status w = Worker.DONE -> in_flight (GetStatus r) /\ body_readable r) ->
  ready_on (seq 0 (NUM_WORKERS (http W))) W.
Proof.
  intros Hws Hp Ha Hd. unfold NUM_WORKERS. rewrite Hws. simpl. split.
  - intros k Hk. apply list_elem_of_singleton in Hk. subst k.
    exists w. split; [now rewrite Hws|]. intros _. eauto.
  - intros k k' wk wk' Hk Hk' Hne. apply list_elem_of_singleton in Hk, Hk'. congruence.
Qed.

Lemma one_worker_dispatch_ready (W : World) (w : Worker.t) :
  m_workers (http W) = [w] -> m_pendingRequests (http W) = [] ->
  Worker.status w <> Worker.UNUSED -> dispatch_ready W.
Proof.
  intros Hws Hq Hs. split.
  - intros p rest Hp. rewrite Hq in Hp. discriminate.
  - intros k wk Hk Hu. rewrite Hws in Hk. destruct k as [|k]; simpl in Hk; [|discriminate].
    injection Hk as <-. contradiction.
Qed.

(** [Update] as a whole on a state in which worker [j] has finished its
    transfer. *)
Lemma Update_completes_transfer (pf : Platform) (spawn_ok : bool)
    (W : World) (j : nat) (w : Worker.t) (a : addr) (r : Request) :
  ready_on (seq 0 (NUM_WORKERS (http W))) W -> dispatch_ready W ->
  m_workers (http W) !! j = Some w -> Worker.status w = Worker.DONE ->
  Worker.pRequest w = Some a -> heap W !! a = Some r ->
  let success := (Worker.result w =? CURLE_OK) && (Worker.responseStatusCode w <? 400) in
  let code := int_of_long (Worker.responseStatusCode w) in
  (success = false <-> Worker.result w <> CURLE_OK \/ 400 <= Worker.responseStatusCode w) /\
  (- 2 ^ 31 <= Worker.responseStatusCode w < 2 ^ 31 -> code = Worker.responseStatusCode w) /\
  exists W' r' pre post,
    leaves (Update pf spawn_ok W) W' /\
    trace W' = trace W ++ pre
               ++ ((if bool_decide (GetStatus r = HttpRequest.SENDING)
                    then [(a, call_HandleResponseHeaders)] else [])
                   ++ [(a, call_HandleResponse success code)])
               ++ post /\
    (forall c, c ∈ pre ++ post -> c.1 <> a) /\
    heap W' !! a = Some r' /\
    (GetStatus r' = HttpRequest.DONE \/ GetStatus r' = HttpRequest.ERROR) /\
    (success = false -> GetStatus r' = HttpRequest.ERROR) /\
    (forall d, r = Download d ->
       exists b', r' = Download (HttpDownload.set_base b' d) /\
         HttpRequest.m_status b' = if success then HttpRequest.DONE else HttpRequest.ERROR) /\
    Worker.status <$> m_workers (http W') !! j = Some Worker.CLEANUP.
Proof.
  intros Hready Hdisp Hw Hs Hp Ha success code.
  assert (Hb : is_busy w = true) by (unfold is_busy; now rewrite Hs).
  assert (Hj : j ∈ seq 0 (NUM_WORKERS (http W))).
  { apply elem_of_seq. apply lookup_lt_Some in Hw. unfold NUM_WORKERS. lia. }
  destruct Hready as (Hr & Hd).
  destruct (Hr j Hj) as (w0 & Hw0 & Hbusy). rewrite Hw in Hw0. injection Hw0 as <-.
  destruct (Hbusy Hb) as (a0 & r0 & Hp0 & Ha0 & Hdone).
  rewrite Hp in Hp0. injection Hp0 as <-. rewrite Ha in Ha0. injection Ha0 as <-.
  destruct (Hdone Hs) as (Hfl & Hbody).
  destruct (Update_visits pf spawn_ok W j w a r (conj Hr Hd) Hdisp Hw Hb Hp Ha Hfl)
    as (f1 & Wa & f2 & Wb & W' & pre & post & Hwa & Hha & Hta & Hpre & Ea & Hl &
        Hw' & Hh' & Ht' & Hpost & _).
  destruct (Update_worker_completed pf j f1 Wa w a r Hwa Hs Hp Hha Hfl Hbody)
    as (Hsucc & Hcode & Wb' & r' & Eb & Htb & Hrb & Hfin & Hfail & Hdl & Hst).
  fold success code in Hsucc, Hcode, Eb, Htb, Hfail, Hdl.
  rewrite Ea in Eb. injection Eb as _ <-.
  split; [exact Hsucc|]. split; [exact Hcode|].
  exists W', r', pre, post. split; [exact Hl|].
  split; [rewrite Ht', Htb, Hta; now rewrite <- !app_assoc|].
  split; [intros c Hc; apply elem_of_app in Hc as [Hc|Hc]; auto|].
  split; [now rewrite Hh'|]. split; [exact Hfin|]. split; [exact Hfail|].
  split; [exact Hdl|]. now rewrite Hw'.
Qed.

(** C3: one call of [Update] comes to EVERY worker whose transfer has
    ended: for each such worker it calls the request's [HandleResponse]
    exactly once (after [HandleResponseHeaders], if the headers had not
    been handed over yet), with [success] false exactly when curl's result
    is not [CURLE_OK] or the HTTP status is 400 or more, and with the status
    code curl reports (0 when no response came, the real code otherwise);
    [Update] runs to its end (or to the exception of a failed thread
    creation, after the loop), a request handled with [success] false is
    left in ERROR, and the worker goes on to CLEANUP. *)
Theorem completed_transfer_reports_failure (pf : Platform) (spawn_ok : bool)
    (W : World) (j : nat) (w : Worker.t) (a : addr) (r : Request) :
  ready_on (seq 0 (NUM_WORKERS (http W))) W -> dispatch_ready W ->
  m_workers (http W) !! j = Some w -> Worker.status w = Worker.DONE ->
  Worker.pRequest w = Some a -> heap W !! a = Some r ->
  let success := (Worker.result w =? CURLE_OK) && (Worker.responseStatusCode w <? 400) in
  let code := int_of_long (Worker.responseStatusCode w) in
  (success = false <-> Worker.result w <> CURLE_OK \/ 400 <= Worker.responseStatusCode w) /\
  (- 2 ^ 31 <= Worker.responseStatusCode w < 2 ^ 31 -> code = Worker.responseStatusCode w) /\
  exists W' r' pre post,
    leaves (Update pf spawn_ok W) W' /\
    trace W' = trace W ++ pre
               ++ ((if bool_decide (GetStatus r = HttpRequest.SENDING)
                    then [(a, call_HandleResponseHeaders)] else [])
                   ++ [(a, call_HandleResponse success code)])
               ++ post /\
    (forall c, c ∈ pre ++ post -> c.1 <> a) /\
    heap W' !! a = Some r' /\
    (GetStatus r' = HttpRequest.DONE \/ GetStatus r' = HttpRequest.ERROR) /\
    (success = false -> GetStatus r' = HttpRequest.ERROR) /\
    (forall d, r = Download d ->
       exists b', r' = Download (HttpDownload.set_base b' d) /\
         HttpRequest.m_status b' = if success then HttpRequest.DONE else HttpRequest.ERROR) /\
    Worker.status <$> m_workers (http W') !! j = Some Worker.CLEANUP.
Proof.
  intros Hready Hdisp Hw Hs Hp Ha.
  exact (Update_completes_transfer pf spawn_ok W j w a r Hready Hdisp Hw Hs Hp Ha).
Qed.

Lemma sample_404_facts :
  m_workers (http sample_404) = [sample_404_worker] /\
  m_pendingRequests (http sample_404) = [] /\
  Worker.status sample_404_worker = Worker.DONE /\
  Worker.pRequest sample_404_worker = Some 0%nat /\
  heap sample_404 !! 0%nat = Some sample_404_request /\
  GetStatus sample_404_request = HttpRequest.SENDING.
Proof. split_all; vm_compute; reflexivity. Qed.

Lemma completed_transfer_reports_failure_witness :
  exists W' r',
    leaves (Update sample_platform true sample_404) W' /\
    heap W' !! 0%nat = Some r' /\ GetStatus r' = HttpRequest.ERROR.
Proof.
  destruct sample_404_facts as (Hws & Hq & Hs & Hp & Ha & Hst).
  assert (Hbody : body_readable sample_404_request) by (vm_compute; exact I).
  assert (Hw : m_workers (http sample_404) !! 0%nat = Some sample_404_worker)
    by (now rewrite Hws).
  assert (Hnu : Worker.status sample_404_worker <> Worker.UNUSED)
    by (rewrite Hs; discriminate).
  destruct (completed_transfer_reports_failure sample_platform true sample_404 0
              sample_404_worker 0%nat sample_404_request
              (one_worker_ready_on _ _ _ _ Hws Hp Ha (fun _ => conj (or_introl Hst) Hbody))
              (one_worker_dispatch_ready _ _ Hws Hq Hnu) Hw Hs Hp Ha)
    as (_ & _ & W' & r' & pre & post & Hl & _ & _ & Hr' & _ & Hfail & _).
  exists W', r'. split; [exact Hl|]. split; [exact Hr'|].
  apply Hfail. vm_compute. reflexivity.
Defined.

(** ** The end of a download *)

Lemma HttpDownload_Worker_HandleDone_run (success : bool) (code : Z) (d : HttpDownload.t)
    (files : FileSystem) :
  exists files',
    HttpDownload.Worker_HandleDone success code (d, files)
    = Returns tt (HttpDownload.set_pTmpFile None d, files') /\
    fs_dirs files' = fs_dirs files /\
    fs_files files'
    = match HttpDownload.m_pTmpFile d with
      | Some _ =>
          files_when_done (success && (code =? 200)) (HttpDownload.tmp_path d)
            (c_str (HttpDownload.m_destFile d)) (fs_files files)
      | None => fs_files files
      end.
Proof.
  unfold HttpDownload.Worker_HandleDone, files_when_done. unfold_M. simpl.
  destruct d as [b dest [f|]]; simpl.
  - destruct (success && (code =? 200)); simpl.
    + unfold s3eFileRename, s3eFileClose. simpl.
      destruct (fs_files files !! _); eexists; split; try reflexivity; split; reflexivity.
    + eexists. split; [reflexivity|]. split; reflexivity.
  - eexists. split; [reflexivity|]. split; reflexivity.
Qed.

Lemma WorkerThread_perform_done_download (result code : Z) (j : nat) (W : World)
    (w : Worker.t) (a : addr) (d : HttpDownload.t) :
  m_workers (http W) !! j = Some w -> Worker.pRequest w = Some a ->
  heap W !! a = Some (Download d) ->
  exists W1,
    WorkerThread_perform_done result code j W = Returns tt W1 /\
    heap W1 !! a = Some (Download (HttpDownload.set_pTmpFile None d)) /\
    m_workers (http W1) !! j
    = Some (Worker.set_thread Worker.AwaitingCleanup
              (Worker.set_status Worker.DONE (Worker.set_result result code w))) /\
    trace W1 = trace W ++ [(a, call_Worker_HandleDone (result =? CURLE_OK) (int_of_long code))] /\
    fs_files (fs W1)
    = match HttpDownload.m_pTmpFile d with
      | Some _ =>
          files_when_done ((result =? CURLE_OK) && (int_of_long code =? 200))
            (HttpDownload.tmp_path d) (c_str (HttpDownload.m_destFile d)) (fs_files (fs W))
      | None => fs_files (fs W)
      end /\
    (forall k, k <> j -> m_workers (http W1) !! k = m_workers (http W) !! k) /\
    (forall b, b <> a -> heap W1 !! b = heap W !! b) /\
    m_pendingRequests (http W1) = m_pendingRequests (http W) /\
    length (m_workers (http W1)) = length (m_workers (http W)).
Proof.
  intros Hw Hp Ha.
  destruct (HttpDownload_Worker_HandleDone_run (result =? CURLE_OK) (int_of_long code) d (fs W))
    as (files' & E & _ & Hfiles).
  unfold WorkerThread_perform_done, update_worker, the_worker, call_fs, deref, record_call.
  unfold_M. cbn [http set_http m_workers set_workers].
  rewrite list_lookup_alter_eq, Hw. cbn [fmap option_fmap option_map].
  cbn [Worker.pRequest Worker.set_result Worker.result Worker.responseStatusCode].
  rewrite Hp. cbn [heap set_http]. rewrite Ha. cbn [fst snd].
  unfold Worker_HandleDone, as_variant_fs. cbn [fst snd fs set_trace set_http].
  rewrite E. cbn [fst snd].
  eexists. split; [reflexivity|]. cbn.
  split; [apply lookup_insert_eq|]. split.
  { rewrite list_lookup_alter_eq, list_lookup_alter_eq, Hw. reflexivity. }
  split; [reflexivity|]. split; [exact Hfiles|]. split_all.
  - intros k Hk. now rewrite !list_lookup_alter_ne by congruence.
  - intros b Hb. now rewrite lookup_insert_ne by congruence.
  - reflexivity.
  - now rewrite !length_alter.
Qed.

(** The end of the transfer leaves the state in working order for the
    next [Update]. *)
Lemma ready_after_perform_done (W W1 : World) (j : nat) (w w1 : Worker.t) (a : addr)
    (d d1 : HttpDownload.t) :
  ready_on (seq 0 (NUM_WORKERS (http W))) W -> dispatch_ready W ->
  m_workers (http W) !! j = Some w -> is_busy w = true -> Worker.pRequest w = Some a ->
  heap W !! a = Some (Download d) -> in_flight (GetStatus (Download d)) ->
  m_workers (http W1) !! j = Some w1 -> is_busy w1 = true -> Worker.pRequest w1 = Some a ->
  heap W1 !! a = Some (Download d1) -> GetStatus (Download d1) = GetStatus (Download d) ->
  (forall k, k <> j -> m_workers (http W1) !! k = m_workers (http W) !! k) ->
  (forall b, b <> a -> heap W1 !! b = heap W !! b) ->
  m_pendingRequests (http W1) = m_pendingRequests (http W) ->
  length (m_workers (http W1)) = length (m_workers (http W)) ->
  ready_on (seq 0 (NUM_WORKERS (http W1))) W1 /\ dispatch_ready W1.
Proof.
  intros (Hr & Hd) (Hhead & Hcurl) Hw Hb Hp Ha Hfl Hw1 Hb1 Hp1 Ha1 Hst K Hh Hq Hlen.
  assert (Hj : j ∈ seq 0 (NUM_WORKERS (http W))).
  { apply elem_of_seq. apply lookup_lt_Some in Hw. unfold NUM_WORKERS. lia. }
  unfold NUM_WORKERS in *. rewrite Hlen. split; [split|split].
  - intros k Hk. destruct (decide (k = j)) as [->|Hkj].
    + exists w1. split; [exact Hw1|]. intros _. exists a, (Download d1).
      split; [exact Hp1|]. split; [exact Ha1|]. intros _. rewrite Hst. split; [exact Hfl | exact I].
    + destruct (Hr k Hk) as (wk & Hwk & Hbk). exists wk. split; [now rewrite K|].
      intros Hbusy. destruct (Hbk Hbusy) as (ak & rk & Hpk & Hak & Hdone).
      exists ak, rk. split; [exact Hpk|]. split; [|exact Hdone].
      rewrite Hh; [exact Hak|]. intros ->.
      apply (Hd k j wk w Hk Hj Hkj Hwk Hw Hbusy Hb). congruence.
  - intros k k' wk wk' Hk Hk' Hne Hwk Hwk' Hbk Hbk'.
    destruct (decide (k = j)) as [->|Hkj], (decide (k' = j)) as [->|Hkj']; try congruence.
    + rewrite Hw1 in Hwk. injection Hwk as <-. rewrite K in Hwk' by exact Hkj'.
      rewrite Hp1, <- Hp. apply (Hd j k' w wk'); auto.
    + rewrite Hw1 in Hwk'. injection Hwk' as <-. rewrite K in Hwk by exact Hkj.
      rewrite Hp1, <- Hp. apply (Hd k j wk w); auto.
    + rewrite K in Hwk by exact Hkj. rewrite K in Hwk' by exact Hkj'.
      apply (Hd k k' wk wk'); auto.
  - intros p rest Hqp. rewrite Hq in Hqp. destruct (Hhead p rest Hqp) as (r & Hrp & Hsp).
    exists r. split; [|exact Hsp]. rewrite Hh; [exact Hrp|]. intros ->.
    rewrite Ha in Hrp. injection Hrp as <-. destruct Hfl as [Hx|Hx], Hsp as [Hy|Hy]; congruence.
  - intros k wk Hwk Hu. destruct (decide (k = j)) as [->|Hkj].
    + rewrite Hw1 in Hwk. injection Hwk as <-. unfold is_busy in Hb1. rewrite Hu in Hb1.
      discriminate.
    + rewrite K in Hwk by exact Hkj. apply (Hcurl k wk Hwk Hu).
Qed.

Lemma files_when_done_kept (tmp dst content : string) (files : gmap string string) :
  files !! tmp = Some content ->
  files_when_done true tmp dst files !! dst = Some content /\
  (dst <> tmp -> files_when_done true tmp dst files !! tmp = None).
Proof.
  intros H. unfold files_when_done. rewrite H. split.
  - apply lookup_insert_eq.
  - intros Hne. rewrite lookup_insert_ne by exact Hne. apply lookup_delete_eq.
Qed.

Lemma files_when_done_dropped (tmp dst : string) (files : gmap string string) :
  files_when_done false tmp dst files !! tmp = None /\
  forall path, path <> tmp -> files_when_done false tmp dst files !! path = files !! path.
Proof.
  unfold files_when_done. split; [apply lookup_delete_eq|].
  intros path Hne. now apply lookup_delete_ne.
Qed.

(** The end of a download, from the worker thread to [Update]. *)
Lemma download_done_run (pf : Platform) (spawn_ok : bool) (result code : Z) (j : nat)
    (W : World) (w : Worker.t) (a : addr) (d : HttpDownload.t) :
  ready_on (seq 0 (NUM_WORKERS (http W))) W -> dispatch_ready W ->
  m_workers (http W) !! j = Some w -> Worker.status w = Worker.ACTIVE ->
  Worker.pRequest w = Some a ->
  heap W !! a = Some (Download d) -> in_flight (GetStatus (Download d)) ->
  let success := (result =? CURLE_OK) && (code <? 400) in
  exists W1 W2 d2 pre post,
    WorkerThread_perform_done result code j W = Returns tt W1 /\
    leaves (Update pf spawn_ok W1) W2 /\
    trace W2 = trace W
               ++ [(a, call_Worker_HandleDone (result =? CURLE_OK) (int_of_long code))]
               ++ pre
               ++ ((if bool_decide (GetStatus (Download d) = HttpRequest.SENDING)
                    then [(a, call_HandleResponseHeaders)] else [])
                   ++ [(a, call_HandleResponse success (int_of_long code))])
               ++ post /\
    (forall c, c ∈ pre ++ post -> c.1 <> a) /\
    heap W2 !! a = Some (Download d2) /\
    HttpDownload.m_pTmpFile d2 = None /\
    GetStatus (Download d2) = (if success then HttpRequest.DONE else HttpRequest.ERROR) /\
    fs_files (fs W2)
    = match HttpDownload.m_pTmpFile d with
      | Some _ =>
          files_when_done ((result =? CURLE_OK) && (int_of_long code =? 200))
            (HttpDownload.tmp_path d) (c_str (HttpDownload.m_destFile d)) (fs_files (fs W))
      | None => fs_files (fs W)
      end.
Proof.
  intros Hready Hdisp Hw Hs Hp Ha Hfl success.
  assert (Hb : is_busy w = true) by (unfold is_busy; now rewrite Hs).
  destruct (WorkerThread_perform_done_download result code j W w a d Hw Hp Ha)
    as (W1 & E1 & Ha1 & Hw1 & Ht1 & Hfiles & K & Hh & Hq & Hlen).
  destruct (ready_after_perform_done W W1 j w _ a d _ Hready Hdisp Hw Hb Hp Ha Hfl
              Hw1 eq_refl Hp Ha1 eq_refl K Hh Hq Hlen) as (Hready1 & Hdisp1).
  destruct (Update_completes_transfer pf spawn_ok W1 j _ a _ Hready1 Hdisp1 Hw1 eq_refl Hp Ha1)
    as (_ & _ & W2 & r' & pre & post & Hl & Ht2 & Hnone & Hr' & _ & _ & Hd & _).
  destruct (Hd _ eq_refl) as (b' & -> & Hst).
  assert (Hfs : fs W2 = fs W1).
  { destruct (Update_visits pf spawn_ok W1 j _ a _ Hready1 Hdisp1 Hw1 eq_refl Hp Ha1 Hfl)
      as (f1 & Wa & f2 & Wb & W2' & pre' & post' & _ & _ & _ & _ & _ & Hl' & _ & _ & _ & _ &
          Hfs & _).
    unfold leaves in Hl, Hl'.
    destruct (Update pf spawn_ok W1); try contradiction; congruence. }
  exists W1, W2, (HttpDownload.set_base b' (HttpDownload.set_pTmpFile None d)), pre, post.
  split; [exact E1|]. split; [exact Hl|].
  split; [rewrite Ht2, Ht1; now rewrite <- !app_assoc|].
  split; [exact Hnone|]. split; [exact Hr'|].
  split; [reflexivity|]. split; [exact Hst|]. now rewrite Hfs.
Qed.

(** C5 as stated fails: a download that has received a body and ends well
    with HTTP status 304 has its temporary file deleted and no destination
    file, yet the request ends in DONE, not in ERROR. *)
Lemma download_304_is_dropped_but_done :
  play sample_platform sample_events_304 sample_start = Some sample_304 /\
  trace sample_304
  = [(0%nat, call_HandleRequestStart); (0%nat, call_Worker_HandleData 4);
     (0%nat, call_Worker_HandleDone true 304); (0%nat, call_HandleResponseHeaders);
     (0%nat, call_HandleResponse true 304)] /\
  fs_calls (fs sample_304)
  = [s3eFileOpen_call "a.png.tmp" "w"; s3eFileWrite_call "a.png.tmp" "body";
     s3eFileClose_call "a.png.tmp"; s3eFileDelete_call "a.png.tmp"] /\
  fs_files (fs sample_304) !! "a.png"%string = None /\
  fs_files (fs sample_304) !! "a.png.tmp"%string = None /\
  GetStatus <$> heap sample_304 !! 0%nat = Some HttpRequest.DONE.
Proof. split_all; vm_compute; reflexivity. Qed.

(** A download that ends well with status 200 and an empty body: no
    temporary file was ever opened, nothing is renamed, and the request is
    DONE with no destination file. *)
Example download_200_without_body_leaves_no_file :
  play sample_platform sample_events_200_empty sample_start = Some sample_200_empty /\
  fs_calls (fs sample_200_empty) = [] /\
  fs_files (fs sample_200_empty) !! "a.png"%string = None /\
  GetStatus <$> heap sample_200_empty !! 0%nat = Some HttpRequest.DONE.
Proof. split_all; vm_compute; reflexivity. Qed.

(** C5, amended: when the transfer of a download ends and [Update] has
    seen it, a temporary file that was opened (one exists only once a chunk
    has arrived) has been renamed to the destination exactly when curl's
    result is [CURLE_OK] and the status code is 200, and has been deleted
    otherwise, leaving every other path as it was; with no temporary file
    the files are untouched. Apart from that, [Update] calls the request's
    [HandleResponse] once, with the real status code, and the request ends
    in ERROR exactly when curl's result is not [CURLE_OK] or the status is
    400 or more, and in DONE otherwise. *)
Theorem download_kept_only_on_200 (pf : Platform) (spawn_ok : bool) (result code : Z)
    (j : nat) (W : World) (w : Worker.t) (a : addr) (d : HttpDownload.t) :
  ready_on (seq 0 (NUM_WORKERS (http W))) W -> dispatch_ready W ->
  m_workers (http W) !! j = Some w -> Worker.status w = Worker.ACTIVE ->
  Worker.pRequest w = Some a ->
  heap W !! a = Some (Download d) -> in_flight (GetStatus (Download d)) ->
  let tmp := HttpDownload.tmp_path d in
  let dst := c_str (HttpDownload.m_destFile d) in
  let success := (result =? CURLE_OK) && (code <? 400) in
  exists W1 W2 d2 pre post,
    WorkerThread_perform_done result code j W = Returns tt W1 /\
    leaves (Update pf spawn_ok W1) W2 /\
    trace W2 = trace W
               ++ [(a, call_Worker_HandleDone (result =? CURLE_OK) (int_of_long code))]
               ++ pre
               ++ ((if bool_decide (GetStatus (Download d) = HttpRequest.SENDING)
                    then [(a, call_HandleResponseHeaders)] else [])
                   ++ [(a, call_HandleResponse success (int_of_long code))])
               ++ post /\
    (forall c, c ∈ pre ++ post -> c.1 <> a) /\
    (- 2 ^ 31 <= code < 2 ^ 31 -> int_of_long code = code) /\
    heap W2 !! a = Some (Download d2) /\
    HttpDownload.m_pTmpFile d2 = None /\
    (GetStatus (Download d2) = HttpRequest.ERROR <-> result <> CURLE_OK \/ 400 <= code) /\
    (GetStatus (Download d2) = HttpRequest.DONE <-> result = CURLE_OK /\ code < 400) /\
    match HttpDownload.m_pTmpFile d with
    | None => fs_files (fs W2) = fs_files (fs W)
    | Some _ =>
        if (result =? CURLE_OK) && (int_of_long code =? 200) then
          forall content, fs_files (fs W) !! tmp = Some content ->
            fs_files (fs W2) !! dst = Some content /\
            (dst <> tmp -> fs_files (fs W2) !! tmp = None)
        else
          fs_files (fs W2) !! tmp = None /\
          forall path, path <> tmp -> fs_files (fs W2) !! path = fs_files (fs W) !! path
    end.
Proof.
  intros Hready Hdisp Hw Hs Hp Ha Hfl tmp dst success.
  destruct (download_done_run pf spawn_ok result code j W w a d Hready Hdisp Hw Hs Hp Ha Hfl)
    as (W1 & W2 & d2 & pre & post & E1 & Hl & Ht & Hnone & Ha2 & Htmp & Hst & Hfiles).
  exists W1, W2, d2, pre, post. split; [exact E1|]. split; [exact Hl|]. split; [exact Ht|].
  split; [exact Hnone|]. split; [apply int_of_long_small|]. split; [exact Ha2|].
  split; [exact Htmp|]. rewrite Hst. split; [|split].
  - destruct (Z.eqb_spec result CURLE_OK), (Z.ltb_spec code 400); simpl;
      split; try discriminate; intros; try tauto; try lia.
  - destruct (Z.eqb_spec result CURLE_OK), (Z.ltb_spec code 400); simpl;
      split; try discriminate; intros; try tauto; try lia.
  - rewrite Hfiles. destruct (HttpDownload.m_pTmpFile d); [|reflexivity].
    destruct ((result =? CURLE_OK) && (int_of_long code =? 200)).
    + intros content Hc. now apply files_when_done_kept.
    + apply files_when_done_dropped.
Qed.

Lemma sample_receiving_facts :
  m_workers (http sample_receiving) !! 0%nat = Some sample_receiving_worker /\
  m_workers (http sample_receiving) = [sample_receiving_worker] /\
  m_pendingRequests (http sample_receiving) = [] /\
  Worker.status sample_receiving_worker = Worker.ACTIVE /\
  Worker.pRequest sample_receiving_worker = Some 0%nat /\
  heap sample_receiving !! 0%nat = Some (Download sample_receiving_download) /\
  GetStatus (Download sample_receiving_download) = HttpRequest.SENDING /\
  fs_files (fs sample_receiving) !! HttpDownload.tmp_path sample_receiving_download
  = Some "body"%string.
Proof. split_all; vm_compute; reflexivity. Qed.

Lemma download_kept_only_on_200_witness :
  exists W1 W2,
    WorkerThread_perform_done CURLE_OK 200 0 sample_receiving = Returns tt W1 /\
    leaves (Update sample_platform true W1) W2 /\
    fs_files (fs W2) !! c_str (HttpDownload.m_destFile sample_receiving_download)
    = Some "body"%string.
Proof.
  destruct sample_receiving_facts as (Hw & Hws & Hq & Hs & Hp & Ha & Hst & Hbody).
  assert (Hnu : Worker.status sample_receiving_worker <> Worker.UNUSED)
    by (rewrite Hs; discriminate).
  destruct (download_kept_only_on_200 sample_platform true CURLE_OK 200 0 sample_receiving
              sample_receiving_worker 0%nat sample_receiving_download
              (one_worker_ready_on _ _ _ _ Hws Hp Ha
                 (fun H => conj (or_introl Hst) I))
              (one_worker_dispatch_ready _ _ Hws Hq Hnu) Hw Hs Hp Ha (or_introl Hst))
    as (W1 & W2 & d2 & pre & post & E1 & Hl & _ & _ & _ & _ & _ & _ & _ & Hfiles).
  destruct (HttpDownload.m_pTmpFile sample_receiving_download) as [f|] eqn:Hopen;
    [|vm_compute in Hopen; discriminate].
  change ((CURLE_OK =? CURLE_OK) && (int_of_long 200 =? 200)) with true in Hfiles.
  exists W1, W2. split; [exact E1|]. split; [exact Hl|].
  exact (proj1 (Hfiles _ Hbody)).
Defined.

(** ** The downloader's map across the events of the program *)

Lemma status_kept_refl (r : Request) : status_kept r r.
Proof. now left. Qed.

Lemma status_kept_trans (r1 r2 r3 : Request) :
  status_kept r1 r2 -> status_kept r2 r3 -> status_kept r1 r3.
Proof.
  unfold status_kept. intros [H1|H1] [H2|H2]; auto.
  - left. congruence.
  - right. now rewrite H2.
Qed.

Ltac status_tac :=
  repeat
    match goal with
    | H : False |- _ => contradiction
    | H : leaves ?o _ |- _ =>
        match o with
        | context [match ?x with _ => _ end] =>
            lazymatch x with
            | context [match _ with _ => _ end] => fail
            | _ => destruct x eqn:?; simpl in H
            end
        end
    end.

Lemma inherited_keeps_status {A} (m : M HttpRequest.t A) :
  (forall b b', leaves (m b) b' ->
     HttpRequest.m_status b' = HttpRequest.m_status b \/
     unfinished (HttpRequest.m_status b')) ->
  keeps_status (inherited m).
Proof.
  intros Hm r r' H. apply inherited_leaves in H as (b' & Hb & ->).
  unfold status_kept. rewrite GetStatus_with_base. apply (Hm _ _ Hb).
Qed.

Lemma Cancel_keeps_status : keeps_status Cancel.
Proof.
  apply inherited_keeps_status. intros b b'. unfold HttpRequest.Cancel. unfold_M. simpl.
  intros ->. destruct (decide _); [|now left].
  right. simpl. split; discriminate.
Qed.

Lemma HttpRequest_CompileRequest_status (b b' : HttpRequest.t) :
  leaves (HttpRequest.CompileRequest b) b' ->
  HttpRequest.m_status b' = HttpRequest.PENDING.
Proof.
  unfold HttpRequest.CompileRequest. unfold_M. intros H. status_tac. now subst.
Qed.

Lemma HttpRequest_SetHeader_status (header value : string) (b b' : HttpRequest.t) :
  leaves (HttpRequest.SetHeader header value b) b' ->
  HttpRequest.m_status b' = HttpRequest.m_status b.
Proof.
  unfold HttpRequest.SetHeader. unfold_M. intros H. status_tac. now subst.
Qed.

Lemma HttpRequest_SetHeader_no_throw (header value : string) (b b' : HttpRequest.t)
    (what : string) :
  HttpRequest.SetHeader header value b = Throws what b' -> False.
Proof.
  unfold HttpRequest.SetHeader. unfold_M. destruct (bool_decide _); discriminate.
Qed.

Lemma CompileRequest_pending (pf : Platform) (r r' : Request) :
  leaves (CompileRequest pf r) r' -> GetStatus r' = HttpRequest.PENDING.
Proof.
  intros H.
  destruct r as [d|p|j|y]; unfold CompileRequest in H.
  - apply inherited_leaves in H as (b' & Hb & ->). rewrite GetStatus_with_base.
    now apply HttpRequest_CompileRequest_status in Hb.
  - unfold as_variant, HttpPost.CompileRequest in H. unfold_M.
    status_tac; subst; unfold GetStatus; simpl;
      match goal with
      | E : HttpRequest.CompileRequest ?b = _ |- _ =>
          eapply HttpRequest_CompileRequest_status; rewrite E; reflexivity
      end.
  - unfold as_variant, HttpPostJson.CompileRequest, HttpPost.SetHeader in H. unfold_M.
    simpl in H.
    status_tac; subst; unfold GetStatus; simpl;
      match goal with
      | E : HttpRequest.CompileRequest ?b = _ |- _ =>
          eapply HttpRequest_CompileRequest_status; rewrite E; reflexivity
      | E : HttpRequest.SetHeader _ _ _ = Throws _ _ |- _ =>
          exfalso; exact (HttpRequest_SetHeader_no_throw _ _ _ _ _ E)
      end.
  - apply inherited_leaves in H as (b' & Hb & ->). rewrite GetStatus_with_base.
    now apply HttpRequest_CompileRequest_status in Hb.
Qed.

Lemma CompileRequest_keeps_status (pf : Platform) : keeps_status (CompileRequest pf).
Proof.
  intros r r' H. right. rewrite (CompileRequest_pending pf r r' H). split; discriminate.
Qed.

Lemma Worker_UpdateProgress_keeps_status (dltotal dlnow ultotal ulnow : double) :
  keeps_status (Worker_UpdateProgress dltotal dlnow ultotal ulnow).
Proof.
  apply inherited_keeps_status. intros b b'. unfold HttpRequest.Worker_UpdateProgress.
  unfold_M. simpl. intros ->. now left.
Qed.

Lemma HandleRequestStart_keeps_status : keeps_status HandleRequestStart.
Proof.
  apply inherited_keeps_status. intros b b'. unfold HttpRequest.HandleRequestStart.
  unfold_M. intros H. status_tac. subst. right. simpl. split; discriminate.
Qed.

Lemma HandleResponseHeaders_keeps_status (hs : HttpRequest.RH) :
  keeps_status (HandleResponseHeaders hs).
Proof.
  intros r r' H. apply HandleResponseHeaders_leaves in H as (_ & Hh & _).
  right. rewrite Hh. split; discriminate.
Qed.

Ltac status_fs_tac H :=
  unfold as_variant_fs, no_fs, zoom, mem_read, realloc, memcpy_at in H; unfold_M; simpl in H;
  status_tac; subst; try reflexivity;
  try (repeat
         match goal with
         | |- context [match ?x with _ => _ end] =>
             lazymatch x with
             | context [match _ with _ => _ end] => fail
             | _ => destruct x
             end
         end; reflexivity).

Lemma Worker_HandleData_keeps_status (realloc_ok : bool) (contents : string) (size : Z) :
  keeps_status_fs (Worker_HandleData realloc_ok contents size).
Proof.
  intros r files s' H. left. destruct r as [d|p|j|y]; unfold Worker_HandleData in H; simpl in H.
  - unfold HttpDownload.Worker_HandleData in H. status_fs_tac H.
  - unfold HttpPost.Worker_HandleData in H. status_fs_tac H.
  - unfold HttpPost.Worker_HandleData in H. status_fs_tac H.
  - unfold YoutubeUploadRequest.Worker_HandleData in H. status_fs_tac H.
Qed.

Lemma Worker_HandleUpload_keeps_status (fillSize : Z) :
  keeps_status_fs (Worker_HandleUpload fillSize).
Proof.
  intros r files s' H. left. destruct r as [d|p|j|y]; unfold Worker_HandleUpload in H;
    simpl in H.
  - now subst.
  - unfold HttpPost.Worker_HandleUpload in H. status_fs_tac H.
  - unfold HttpPost.Worker_HandleUpload in H. status_fs_tac H.
  - unfold YoutubeUploadRequest.Worker_HandleUpload in H. status_fs_tac H.
Qed.

Lemma Worker_HandleDone_keeps_status (success : bool) (code : Z) :
  keeps_status_fs (Worker_HandleDone success code).
Proof.
  intros r files s' H. left. destruct r as [d|p|j|y]; unfold Worker_HandleDone in H;
    simpl in H; try (now subst).
  unfold HttpDownload.Worker_HandleDone in H. status_fs_tac H.
Qed.

Lemma Worker_HandleCleanup_keeps_status : keeps_status_fs Worker_HandleCleanup.
Proof.
  intros r files s' H. left. destruct r as [d|p|j|y]; unfold Worker_HandleCleanup in H;
    simpl in H.
  - now subst.
  - unfold HttpPost.Worker_HandleCleanup in H. status_fs_tac H.
  - unfold HttpPost.Worker_HandleCleanup in H. status_fs_tac H.
  - unfold YoutubeUploadRequest.Worker_HandleCleanup in H. status_fs_tac H.
Qed.

#[local] Instance downloads_kept_preorder : PreOrder downloads_kept.
Proof.
  split.
  - intros W. unfold downloads_kept. split_all; auto.
    intros a r Hr. exists r. split; [exact Hr | apply status_kept_refl].
  - intros W1 W2 W3 (M1 & C1 & N1 & H1 & D1) (M2 & C2 & N2 & H2 & D2).
    unfold downloads_kept. split_all.
    + congruence.
    + auto.
    + lia.
    + intros a r Hr. destruct (H1 a r Hr) as (r' & Hr' & S1).
      destruct (H2 a r' Hr') as (r'' & Hr'' & S2).
      exists r''. split; [exact Hr'' | eapply status_kept_trans; eauto].
    + auto.
Qed.

#[local] Instance under_preorder (I : World -> Prop) : PreOrder (under I).
Proof. split; unfold under; [intros W; auto | intros W1 W2 W3; auto]. Qed.

Lemma downloads_kept_inv (W W' : World) :
  downloads_kept W W' -> under downloads_inv W W'.
Proof.
  intros (Hm & Hc & Hn & Hh & Hd) (I1 & I2 & I3). unfold downloads_inv. split_all.
  - intros url a Ha. rewrite Hm in Ha. destruct (I1 url a Ha) as (Hcb & r & Hr & Hu).
    split; [auto|]. destruct (Hh a r Hr) as (r' & Hr' & [Hs|Hs]).
    + exists r'. split; [exact Hr'|]. now rewrite Hs.
    + eauto.
  - intros url url' a. rewrite Hm. apply I2.
  - intros a r Hr. destruct (Hd a) as [r0 Hr0]; [eauto|].
    specialize (I3 a r0 Hr0). lia.
Qed.

Lemma downloads_kept_same_objects (W W' : World) :
  m_activeDownloads W' = m_activeDownloads W -> heap W' = heap W ->
  next_addr W' = next_addr W ->
  (forall x, x ∈ m_pendingCallbacks (http W) -> x ∈ m_pendingCallbacks (http W')) ->
  downloads_kept W W'.
Proof.
  intros Hm Hh Hn Hc. unfold downloads_kept. rewrite Hm, Hh, Hn. split_all; auto.
  intros a r Hr. exists r. split; [exact Hr | apply status_kept_refl].
Qed.

Lemma downloads_kept_after_call (a : addr) (c : MethodCall) (W : World) (r r' : Request) :
  heap W !! a = Some r -> status_kept r r' -> downloads_kept W (after_call a c r' W).
Proof.
  intros Ha Hs. unfold downloads_kept, after_call. simpl. split_all; auto.
  - intros b rb Hb. destruct (decide (b = a)) as [->|Hne].
    + rewrite lookup_insert_eq. rewrite Ha in Hb. injection Hb as <-. eauto.
    + rewrite lookup_insert_ne by congruence. exists rb. split; [exact Hb|].
      apply status_kept_refl.
  - intros b. destruct (decide (b = a)) as [->|Hne].
    + intros _. eauto.
    + now rewrite lookup_insert_ne by congruence.
Qed.

Lemma downloads_kept_call {A} (p : option addr) (c : MethodCall) (m : M Request A) :
  keeps_status m -> preserves downloads_kept (call p c m).
Proof.
  intros Hm W. destruct p as [a|]; [|reflexivity].
  destruct (heap W !! a) as [r|] eqn:Ha.
  - rewrite (call_run a c m W r Ha).
    destruct (m r) as [x r'|what r'| |] eqn:E; auto;
      apply (downloads_kept_after_call a c W r r' Ha), Hm; now rewrite E.
  - unfold call, deref. unfold_M. now rewrite Ha.
Qed.

Lemma downloads_kept_call_fs {A} (p : option addr) (c : MethodCall)
    (m : M (Request * FileSystem) A) :
  keeps_status_fs m -> preserves downloads_kept (call_fs p c m).
Proof.
  intros Hm W. destruct p as [a|]; [|reflexivity].
  unfold call_fs, deref, record_call. unfold_M.
  destruct (heap W !! a) as [r|] eqn:Ha; [|exact I]. simpl.
  destruct (m (r, fs W)) as [x s|what s| |] eqn:E; auto;
    (assert (Hs : status_kept r s.1) by (apply (Hm r (fs W)); now rewrite E));
    pose proof (downloads_kept_after_call a c W r s.1 Ha Hs) as Hk;
    (etransitivity; [exact Hk|]);
    apply downloads_kept_same_objects; reflexivity || auto.
Qed.

Create HintDb keeps.

#[local] Hint Resolve Cancel_keeps_status CompileRequest_keeps_status
  Worker_UpdateProgress_keeps_status HandleRequestStart_keeps_status
  HandleResponseHeaders_keeps_status Worker_HandleData_keeps_status
  Worker_HandleUpload_keeps_status Worker_HandleDone_keeps_status
  Worker_HandleCleanup_keeps_status : keeps.

Ltac downloads_kept_tac :=
  repeat
    match goal with
    | |- preserves _ (ret _) => apply (preserves_ret downloads_kept)
    | |- preserves _ get => apply (preserves_get downloads_kept)
    | |- preserves _ (throw _) => apply (preserves_throw downloads_kept)
    | |- preserves _ (undefined _) => apply (preserves_undefined downloads_kept)
    | |- preserves _ (IwAssert _ _) => apply (preserves_IwAssert downloads_kept)
    | |- preserves _ (deref _) => apply (preserves_deref downloads_kept)
    | |- preserves _ (the_worker _) => apply (preserves_the_worker downloads_kept)
    | |- preserves _ (call _ _ _) => apply downloads_kept_call; solve [auto with keeps]
    | |- preserves _ (call_fs _ _ _) => apply downloads_kept_call_fs; solve [auto with keeps]
    | |- preserves _ (discard _) => apply (preserves_discard downloads_kept)
    | |- preserves _ (update_worker _ _) => unfold update_worker
    | |- preserves _ (modify _) =>
        apply (preserves_modify downloads_kept); intros ?;
        apply downloads_kept_same_objects; simpl; auto;
        intros ? ?; apply elem_of_app; auto
    | |- preserves _ (bind _ _) => apply (preserves_bind downloads_kept); [|intros ?]
    | |- preserves _ (match ?x with _ => _ end) => destruct x
    end.

Lemma downloads_kept_QueueRequest (pf : Platform) (p : option addr)
    (cb : option HttpCallbackBase) :
  preserves downloads_kept (QueueRequest pf p cb).
Proof. unfold QueueRequest. downloads_kept_tac. Qed.

Lemma downloads_kept_Update_dispatch (spawn_ok : bool) (free : option nat) :
  preserves downloads_kept (Update_dispatch spawn_ok free).
Proof. unfold Update_dispatch. downloads_kept_tac. Qed.

Lemma downloads_kept_callbacks (realloc_ok : bool) (contents : string) (size nmemb : Z)
    (dltotal dlnow ultotal ulnow : double) (i : nat) :
  preserves downloads_kept
    (HttpClient_WorkerThread_WriteCallback realloc_ok contents size nmemb i) /\
  preserves downloads_kept (HttpClient_WorkerThread_HeaderCallback contents size nmemb i) /\
  preserves downloads_kept (HttpClient_WorkerThread_ReadCallback size nmemb i) /\
  preserves downloads_kept
    (HttpClient_WorkerThread_ProgressCallback dltotal dlnow ultotal ulnow i).
Proof.
  split_all.
  - unfold HttpClient_WorkerThread_WriteCallback. downloads_kept_tac.
  - unfold HttpClient_WorkerThread_HeaderCallback, mem_read. downloads_kept_tac.
  - unfold HttpClient_WorkerThread_ReadCallback. downloads_kept_tac.
  - unfold HttpClient_WorkerThread_ProgressCallback. downloads_kept_tac.
Qed.

Lemma downloads_kept_thread (i : nat) (result code : Z) :
  preserves downloads_kept (WorkerThread_enter i) /\
  preserves downloads_kept (WorkerThread_loop_head i) /\
  preserves downloads_kept (WorkerThread_perform_done result code i) /\
  preserves downloads_kept (WorkerThread_cleanup i) /\
  preserves downloads_kept (WorkerThread_resume i).
Proof.
  split_all.
  - unfold WorkerThread_enter. downloads_kept_tac.
  - unfold WorkerThread_loop_head, WorkerThread_exit. downloads_kept_tac.
  - unfold WorkerThread_perform_done. downloads_kept_tac.
  - unfold WorkerThread_cleanup, WorkerThread_exit. downloads_kept_tac.
  - unfold WorkerThread_resume. downloads_kept_tac.
Qed.

Lemma elem_of_in_key_order {V} (m : gmap string V) (k : string) (v : V) :
  (k, v) ∈ in_key_order m <-> m !! k = Some v.
Proof.
  unfold in_key_order. rewrite merge_sort_Permutation. apply elem_of_map_to_list.
Qed.

(** [HandleDownloadDone] erases one key of the request, if it has one. *)
Lemma HandleDownloadDone_run (a : addr) (W : World) :
  exists W',
    HandleDownloadDone a W = Returns tt W' /\ same_core W W' /\
    ((m_activeDownloads W' = m_activeDownloads W /\
      forall url, m_activeDownloads W !! url <> Some a) \/
     (exists url, m_activeDownloads W !! url = Some a /\
                  m_activeDownloads W' = delete url (m_activeDownloads W))).
Proof.
  unfold HandleDownloadDone. unfold_M.
  destruct (filter (fun kv : string * addr => kv.2 = a) (in_key_order (m_activeDownloads W)))
    as [|kv rest] eqn:E.
  - exists W. split; [reflexivity|]. split; [reflexivity|]. left. split; [reflexivity|].
    intros url Hurl. apply elem_of_in_key_order in Hurl.
    assert (Hin : (url, a) ∈ filter (fun kv : string * addr => kv.2 = a)
                                (in_key_order (m_activeDownloads W)))
      by (apply list_elem_of_filter; auto).
    rewrite E in Hin. inversion Hin.
  - eexists. split; [reflexivity|]. split; [unfold same_core; simpl; auto|].
    right. exists kv.1. split; [|reflexivity].
    assert (Hin : kv ∈ filter (fun kv : string * addr => kv.2 = a)
                           (in_key_order (m_activeDownloads W)))
      by (rewrite E; apply list_elem_of_here).
    apply list_elem_of_filter in Hin as [Hk Hin]. destruct kv as [k v]. simpl in *. subst v.
    now apply elem_of_in_key_order.
Qed.

(** The callbacks of a finished request: the map can only lose keys of
    that request, and loses its key when the downloader's callback is
    among them. *)
Lemma Update_callbacks_map (a : addr) (cbs : list (addr * HttpCallbackBase)) :
  forall W l W3, Update_callbacks a cbs W = Returns l W3 ->
    (forall url b, m_activeDownloads W3 !! url = Some b ->
       m_activeDownloads W !! url = Some b) /\
    (forall url b, m_activeDownloads W !! url = Some b -> b <> a ->
       m_activeDownloads W3 !! url = Some b) /\
    ((a, HttpCallback_HandleDownloadDone) ∈ cbs ->
     (forall url url', m_activeDownloads W !! url = Some a ->
        m_activeDownloads W !! url' = Some a -> url = url') ->
     forall url, m_activeDownloads W3 !! url <> Some a).
Proof.
  induction cbs as [|it rest IH]; intros W l W3; simpl.
  - unfold ret. intros [= <- <-]. split_all; auto. intros Hin. inversion Hin.
  - destruct (decide (it.1 = a)) as [Heq|Hne].
    + unfold bind.
      destruct (Call it.2 a W) as [u W1|what W1| |] eqn:EC; try discriminate.
      intros Hrest. destruct (IH W1 l W3 Hrest) as (Hsub & Hkeep & Hgone).
      assert (Hcall :
        (forall url b, m_activeDownloads W1 !! url = Some b ->
           m_activeDownloads W !! url = Some b) /\
        (forall url b, m_activeDownloads W !! url = Some b -> b <> a ->
           m_activeDownloads W1 !! url = Some b) /\
        (it.2 = HttpCallback_HandleDownloadDone ->
         (forall url url', m_activeDownloads W !! url = Some a ->
            m_activeDownloads W !! url' = Some a -> url = url') ->
         forall url, m_activeDownloads W1 !! url <> Some a)).
      { destruct it as [a0 [|fn]]; simpl in *.
        - destruct (HandleDownloadDone_run a W) as (W' & E & _ & Hcase).
          rewrite E in EC. assert (W1 = W') by congruence. subst W1.
          destruct Hcase as [(Hm & Hnone)|(url0 & Hurl0 & Hm)]; rewrite Hm.
          + split_all; auto.
          + split_all.
            * intros url b Hb. apply lookup_delete_Some in Hb. tauto.
            * intros url b Hb Hba. rewrite lookup_delete_ne; [exact Hb|].
              intros <-. congruence.
            * intros _ Hinj url Hurl. apply lookup_delete_Some in Hurl as [Hne Hurl].
              apply Hne. now apply Hinj.
        - unfold modify in EC. assert (HW1 : W1 = set_delivered (delivered W ++ [(fn, a)]) W)
            by congruence.
          subst W1. simpl. split_all; auto. }
      destruct Hcall as (Hsub1 & Hkeep1 & Hgone1).
      split_all; auto.
      intros Hin Hinj url Hurl.
      apply elem_of_cons in Hin as [Hit|Hin].
      * apply (Hgone1 (f_equal snd (eq_sym Hit)) Hinj url). now apply Hsub.
      * apply (Hgone Hin) in Hurl; [exact Hurl|].
        intros k k' Hk Hk'. apply Hinj; auto.
    + unfold bind.
      destruct (Update_callbacks a rest W) as [l' W'|what W'| |] eqn:ER; try discriminate.
      unfold ret. intros [= <- <-]. destruct (IH W l' W' ER) as (Hsub & Hkeep & Hgone).
      split_all; auto.
      intros Hin. apply elem_of_cons in Hin as [Hit|Hin]; [|auto].
      exfalso. apply Hne. now rewrite <- Hit.
Qed.

Lemma HandleResponse_no_throw (pf : Platform) (success : bool) (code : Z) (r r' : Request)
    (what : string) :
  HandleResponse pf success code r = Throws what r' -> False.
Proof.
  destruct r as [d|p|j|y];
    unfold HandleResponse, as_variant, inherited, zoom, HttpPost.HandleResponse,
      YoutubeUploadRequest.HandleResponse, HttpRequest.HandleResponse, std_string;
    unfold_M; simpl;
    repeat
      match goal with
      | |- context [match ?x with _ => _ end] =>
          lazymatch x with
          | context [match _ with _ => _ end] => fail
          | _ => destruct x
          end
      end; discriminate.
Qed.

Lemma downloads_inv_workers (W : World) (ws : list Worker.t) :
  under downloads_inv W (set_http (set_workers ws (http W)) W).
Proof.
  apply downloads_kept_inv, downloads_kept_same_objects; auto.
Qed.

#[local] Instance downloads_step_preorder : PreOrder downloads_step.
Proof.
  split.
  - intros W. split; [reflexivity | auto].
  - intros W1 W2 W3 (I12 & S12) (I23 & S23). split; [etransitivity; eauto | auto].
Qed.

Lemma downloads_kept_step (W W' : World) : downloads_kept W W' -> downloads_step W W'.
Proof.
  intros H. split; [now apply downloads_kept_inv|].
  destruct H as (Hm & _). now rewrite Hm.
Qed.

(** The loop body of [Update] keeps the map in order: a request that it
    finishes has lost its key by the time the body is done. *)
Lemma downloads_step_Update_worker (pf : Platform) (j : nat) (free : option nat) :
  preserves downloads_step (Update_worker pf j free).
Proof.
  intros W.
  destruct (Update_worker pf j free W) as [free' W'|what W'| |] eqn:EU; auto;
    (assert (Hl : leaves (Update_worker pf j free W) W') by (now rewrite EU));
    clear free' what EU || clear what EU || idtac.
  all: destruct (m_workers (http W) !! j) as [w|] eqn:Hw;
    [|unfold Update_worker, the_worker in Hl; unfold_M; rewrite Hw in Hl; contradiction].
  all: destruct (Worker.status w) eqn:Hs.
  all: try (assert (Hf : is_free w = true) by (unfold is_free; now rewrite Hs);
            rewrite (Update_worker_free pf j free W w Hw Hf) in Hl; simpl in Hl; subst W';
            destruct (Worker.pRequest w);
            [apply downloads_kept_step, downloads_kept_same_objects; auto | reflexivity]).
  all: try (rewrite (Update_worker_CLEANUP pf j free W w Hw Hs) in Hl; simpl in Hl;
            subst W'; reflexivity).
  all: destruct (Worker.pRequest w) as [a|] eqn:Hp;
    [|unfold Update_worker, the_worker in Hl; unfold_M; rewrite Hw, Hs, Hp in Hl;
      contradiction].
  all: destruct (heap W !! a) as [r|] eqn:Ha;
    [|unfold Update_worker, the_worker in Hl; unfold_M; rewrite Hw, Hs, Hp in Hl;
      unfold deref in Hl; rewrite Ha in Hl; contradiction].
  all: try (destruct (Update_worker_ACTIVE pf j free W w a r Hw Hs Hp Ha) as (W1 & E & Hcase);
            rewrite E in Hl; simpl in Hl; subst W';
            destruct Hcase as [[-> _]|(r' & Hsend & _ & Hrun & ->)]; [reflexivity|];
            apply downloads_kept_step, (downloads_kept_after_call a _ W r r' Ha);
            apply (HandleResponseHeaders_keeps_status (Worker.pResponseHeaders w));
            now rewrite Hrun).
  all: destruct (Update_worker_DONE pf j free W w a r Hw Hs Hp Ha) as (r1 & W1 & Hcase & Hrest).
  all: cbv zeta in Hrest.
  all: destruct (HandleResponse pf _ _ r1) as [u r2|what r2|what|what] eqn:EH;
    [ | exfalso; exact (HandleResponse_no_throw _ _ _ _ _ _ EH)
      | rewrite Hrest in Hl; contradiction | rewrite Hrest in Hl; contradiction ].
  all: destruct Hrest as (W3 & E3 & Hcore & E); rewrite E in Hl; simpl in Hl; subst W'.
  all: assert (H1 : heap W1 !! a = Some r1 /\ m_activeDownloads W1 = m_activeDownloads W /\
                    next_addr W1 = next_addr W /\
                    (forall b, b <> a -> heap W1 !! b = heap W !! b))
    by (destruct Hcase as [(_ & -> & ->)|(_ & _ & ->)]; simpl;
        [auto | split_all; auto; [apply lookup_insert_eq |
                                  intros b Hb; now apply lookup_insert_ne]]).
  all: destruct H1 as (Ha1 & Hm1 & Hn1 & Hh1).
  all: destruct (Update_callbacks_map a _ _ _ _ E3) as (Hsub & Hkeep & Hgone).
  all: simpl in Hsub, Hkeep, Hgone; rewrite Hm1 in *.
  all: destruct Hcore as (Hheap3 & _ & Hn3 & _ & _); simpl in Hheap3, Hn3.
  all: split; [|exact Hsub].
  all: intros (I1 & I2 & I3).
  all: assert (Hnot : forall url, m_activeDownloads W3 !! url <> Some a)
    by (intros url Hurl; pose proof (Hsub url a Hurl) as Hold;
        destruct (I1 url a Hold) as (Hcb & _);
        exact (Hgone Hcb (fun u u' => I2 u u' a) url Hurl)).
  all: unfold downloads_inv; simpl; split_all.
  all: try (intros url b Hb;
            assert (Hba : b <> a) by (intros ->; exact (Hnot url Hb));
            destruct (I1 url b (Hsub url b Hb)) as (Hcb & rb & Hrb & Hub);
            split; [apply list_elem_of_filter; auto|];
            exists rb; split; [|exact Hub];
            rewrite Hheap3, lookup_insert_ne by congruence; now rewrite Hh1).
  all: try (intros url url' b Hb Hb'; apply (I2 url url' b); auto).
  all: intros b rb; rewrite Hheap3, Hn3, Hn1; intros Hb;
    destruct (decide (b = a)) as [->|Hne];
    [apply (I3 a r Ha) | rewrite lookup_insert_ne, Hh1 in Hb by congruence; eauto].
Qed.

Lemma downloads_inv_Update_worker (pf : Platform) (j : nat) (free : option nat) :
  preserves (under downloads_inv) (Update_worker pf j free).
Proof.
  apply (preserves_weaken downloads_step); [now intros W W' [H _]|].
  apply downloads_step_Update_worker.
Qed.

Lemma downloads_inv_Update (pf : Platform) (spawn_ok : bool) :
  preserves (under downloads_inv) (Update pf spawn_ok).
Proof.
  unfold Update.
  apply (preserves_bind (under downloads_inv)); [apply (preserves_get (under downloads_inv))|].
  intros W0. apply (preserves_bind (under downloads_inv)).
  - generalize (None : option nat) as free.
    induction (seq 0 (NUM_WORKERS (http W0))) as [|i rest IH]; intros free; simpl.
    + apply (preserves_ret (under downloads_inv)).
    + apply (preserves_bind (under downloads_inv)); [apply downloads_inv_Update_worker|].
      intros free'. apply IH.
  - intros free. apply (preserves_weaken downloads_kept); [apply downloads_kept_inv|].
    apply downloads_kept_Update_dispatch.
Qed.

(** [DownloadFile], case by case. *)
Lemma DownloadFile_run (pf : Platform) (url destFile : string) (W : World) :
  match m_activeDownloads W !! url with
  | Some p => DownloadFile pf url destFile W = Returns (Some p) W
  | None =>
      match HttpDownload.new url destFile (fs W) with
      | Returns d files' =>
          exists W',
            DownloadFile pf url destFile W = Returns (Some (next_addr W)) W' /\
            GetStatus (Download d) = HttpRequest.PENDING /\
            heap W' = <[next_addr W := Download d]> (heap W) /\
            next_addr W' = S (next_addr W) /\ fs W' = files' /\
            m_activeDownloads W' = <[url := next_addr W]> (m_activeDownloads W) /\
            m_pendingRequests (http W') = m_pendingRequests (http W) ++ [next_addr W] /\
            m_pendingCallbacks (http W')
            = m_pendingCallbacks (http W) ++ [(next_addr W, HttpCallback_HandleDownloadDone)] /\
            m_workers (http W') = m_workers (http W) /\ trace W' = trace W
      | Throws what files' =>
          DownloadFile pf url destFile W = Throws what (set_fs files' W)
      | AssertFails what => DownloadFile pf url destFile W = AssertFails what
      | Undefined what => DownloadFile pf url destFile W = Undefined what
      end
  end.
Proof.
  unfold DownloadFile. unfold_M.
  destruct (m_activeDownloads W !! url) as [p|] eqn:Hm; [reflexivity|].
  pose proof (HttpDownload_new_outcome url destFile (fs W)) as Hnew.
  destruct (HttpDownload.new url destFile (fs W)) as [d files'|what files'| |];
    try reflexivity.
  destruct Hnew as (_ & Hst & _). unfold allocate.
  pose (W1 := set_next_addr (S (next_addr W))
                (set_heap (<[next_addr W := Download d]> (heap W)) (set_fs files' W))).
  assert (Ha : heap W1 !! next_addr W = Some (Download d)) by apply lookup_insert_eq.
  destruct (QueueRequest_pending_download pf d W1 (next_addr W)
              (Some HttpCallback_HandleDownloadDone) Hst Ha)
    as (W2 & E & Ht & Hh & Hfs & Hws & Hmap & Hq & Hcb & Hn2).
  change (set_next_addr (S (next_addr (set_fs files' W)))
            (set_heap (<[next_addr (set_fs files' W) := Download d]>
                         (heap (set_fs files' W))) (set_fs files' W))) with W1.
  change (next_addr (set_fs files' W)) with (next_addr W).
  rewrite E. eexists. split; [reflexivity|]. simpl.
  rewrite Hh, Hfs, Hmap, Hq, Hcb, Hws, Ht, Hn2. split_all; auto.
Qed.

Lemma downloads_inv_DownloadFile (pf : Platform) (url destFile : string) :
  preserves (under downloads_inv) (DownloadFile pf url destFile).
Proof.
  intros W. pose proof (DownloadFile_run pf url destFile W) as H.
  destruct (m_activeDownloads W !! url) as [p|] eqn:Hm; [rewrite H; reflexivity|].
  destruct (HttpDownload.new url destFile (fs W)) as [d files'|what files'|what|what].
  - destruct H as (W' & E & Hst & Hh & Hn & _ & Hmap & _ & Hcb & _). rewrite E.
    intros (I1 & I2 & I3). unfold downloads_inv. rewrite Hh, Hn, Hmap, Hcb. split_all.
    + intros u a Hu. destruct (decide (u = url)) as [->|Hne].
      * rewrite lookup_insert_eq in Hu. injection Hu as <-. split.
        -- apply elem_of_app. right. apply list_elem_of_here.
        -- exists (Download d). split; [apply lookup_insert_eq|].
           rewrite Hst. split; discriminate.
      * rewrite lookup_insert_ne in Hu by congruence.
        destruct (I1 u a Hu) as (Hin & r & Hr & Hur). split.
        -- apply elem_of_app. now left.
        -- exists r. split; [|exact Hur]. rewrite lookup_insert_ne; [exact Hr|].
           specialize (I3 a r Hr). lia.
    + intros u u' a Hu Hu'.
      assert (Hfresh : forall k, m_activeDownloads W !! k <> Some (next_addr W)).
      { intros k Hk. destruct (I1 k _ Hk) as (_ & r & Hr & _). specialize (I3 _ r Hr). lia. }
      destruct (decide (u = url)) as [->|Hne], (decide (u' = url)) as [->|Hne']; auto.
      * rewrite lookup_insert_eq in Hu. rewrite lookup_insert_ne in Hu' by congruence.
        injection Hu as <-. now apply Hfresh in Hu'.
      * rewrite lookup_insert_eq in Hu'. rewrite lookup_insert_ne in Hu by congruence.
        injection Hu' as <-. now apply Hfresh in Hu.
      * rewrite lookup_insert_ne in Hu, Hu' by congruence. eapply I2; eauto.
    + intros a r Hr. destruct (decide (a = next_addr W)) as [->|Hne]; [lia|].
      rewrite lookup_insert_ne in Hr by congruence. specialize (I3 a r Hr). lia.
  - rewrite H. apply downloads_kept_inv, downloads_kept_same_objects; auto.
  - now rewrite H.
  - now rewrite H.
Qed.

Lemma downloads_kept_run (pf : Platform) (ev : Event) :
  match ev with
  | ev_DownloadFile _ _ | ev_Update _ => True
  | _ => preserves downloads_kept (run pf ev)
  end.
Proof.
  destruct ev; simpl; auto.
  - apply downloads_kept_QueueRequest.
  - downloads_kept_tac.
  - downloads_kept_tac.
  - apply (downloads_kept_thread i 0 0).
  - apply (downloads_kept_thread i 0 0).
  - apply (preserves_discard downloads_kept).
    apply (downloads_kept_callbacks realloc_ok contents size nmemb
             PrimFloat.zero PrimFloat.zero PrimFloat.zero PrimFloat.zero i).
  - apply (preserves_discard downloads_kept).
    apply (downloads_kept_callbacks true pHeader size nmemb
             PrimFloat.zero PrimFloat.zero PrimFloat.zero PrimFloat.zero i).
  - apply (preserves_discard downloads_kept).
    apply (downloads_kept_callbacks true EmptyString size nmemb
             PrimFloat.zero PrimFloat.zero PrimFloat.zero PrimFloat.zero i).
  - apply (preserves_discard downloads_kept).
    apply (downloads_kept_callbacks true EmptyString 0 0 dltotal dlnow ultotal ulnow i).
  - apply (downloads_kept_thread i result code).
  - apply (downloads_kept_thread i 0 0).
  - apply (downloads_kept_thread i 0 0).
Qed.

Lemma downloads_inv_run (pf : Platform) (ev : Event) :
  preserves (under downloads_inv) (run pf ev).
Proof.
  pose proof (downloads_kept_run pf ev) as H.
  destruct ev;
    try (apply (preserves_weaken downloads_kept); [apply downloads_kept_inv | exact H]).
  - apply (preserves_discard (under downloads_inv)), downloads_inv_DownloadFile.
  - apply downloads_inv_Update.
Qed.

Lemma downloads_inv_new (numWorkers : nat) (userAgentStr : string) (files : FileSystem) :
  downloads_inv (World_new numWorkers userAgentStr files).
Proof.
  unfold downloads_inv, World_new. simpl. split_all.
  - intros url a H. now rewrite lookup_empty in H.
  - intros url url' a H. now rewrite lookup_empty in H.
  - intros a r H. now rewrite lookup_empty in H.
Qed.

Lemma downloads_inv_reachable (pf : Platform) (W0 W : World) :
  reachable pf W0 W -> downloads_inv W0 -> downloads_inv W.
Proof.
  induction 1 as [|W W' _ IH [ev _ Hrun]]; [auto|].
  intros H0. specialize (IH H0). pose proof (downloads_inv_run pf ev W) as H.
  unfold leaves in Hrun. destruct (run pf ev W); try contradiction; subst; now apply H.
Qed.

(** ** Completed requests stay completed *)

Lemma inherited_keeps_final {A} (m : M HttpRequest.t A) :
  (forall b b', leaves (m b) b' -> finished (HttpRequest.m_status b) ->
     HttpRequest.m_status b' = HttpRequest.m_status b) ->
  keeps_final (inherited m).
Proof.
  intros Hm r r' H Hf. apply inherited_leaves in H as (b' & Hb & ->).
  rewrite GetStatus_with_base. apply (Hm _ _ Hb). exact Hf.
Qed.

Lemma Cancel_keeps_final : keeps_final Cancel.
Proof.
  apply inherited_keeps_final. intros b b'. unfold HttpRequest.Cancel. unfold_M. simpl.
  intros -> Hf. destruct (decide _) as [Hp|]; [|reflexivity].
  destruct Hf as [Hf|Hf]; congruence.
Qed.

Lemma CompileRequest_keeps_final (pf : Platform) : keeps_final (CompileRequest pf).
Proof.
  intros r r' H Hf. exfalso.
  assert (Hnb : GetStatus r <> HttpRequest.BUILDING) by (destruct Hf; congruence).
  unfold GetStatus in Hnb.
  destruct r as [d|p|j|y];
    unfold CompileRequest, inherited, as_variant, HttpPost.CompileRequest,
      HttpPostJson.CompileRequest, HttpPost.SetHeader, HttpRequest.SetHeader,
      HttpRequest.CompileRequest, zoom in H;
    unfold_M; simpl in *;
    repeat
      match type of H with
      | context [bool_decide ?P] =>
          destruct (bool_decide_reflect P); [contradiction|]; simpl in H
      | context [String.eqb ?a ?b] => destruct (String.eqb a b); simpl in H
      end; try contradiction.
Qed.

Lemma HandleRequestStart_keeps_final : keeps_final HandleRequestStart.
Proof.
  intros r r' H Hf. apply HandleRequestStart_leaves in H as (Hp & _).
  destruct Hf; congruence.
Qed.

Lemma HandleResponseHeaders_keeps_final (hs : HttpRequest.RH) :
  keeps_final (HandleResponseHeaders hs).
Proof.
  intros r r' H Hf. apply HandleResponseHeaders_leaves in H as (Hp & _).
  destruct Hf; congruence.
Qed.

Lemma HandleResponse_keeps_final (pf : Platform) (success : bool) (code : Z) :
  keeps_final (HandleResponse pf success code).
Proof.
  intros r r' H Hf. apply HandleResponse_leaves in H as (Hp & _).
  destruct Hf; congruence.
Qed.

Lemma Worker_UpdateProgress_keeps_final (dltotal dlnow ultotal ulnow : double) :
  keeps_final (Worker_UpdateProgress dltotal dlnow ultotal ulnow).
Proof.
  apply inherited_keeps_final. intros b b'. unfold HttpRequest.Worker_UpdateProgress.
  unfold_M. simpl. now intros ->.
Qed.

Lemma Worker_HandleData_keeps_final (realloc_ok : bool) (contents : string) (size : Z) :
  keeps_final_fs (Worker_HandleData realloc_ok contents size).
Proof.
  intros r files s' H _. destruct r as [d|p|j|y]; unfold Worker_HandleData in H; simpl in H.
  - unfold HttpDownload.Worker_HandleData in H. status_fs_tac H.
  - unfold HttpPost.Worker_HandleData in H. status_fs_tac H.
  - unfold HttpPost.Worker_HandleData in H. status_fs_tac H.
  - unfold YoutubeUploadRequest.Worker_HandleData in H. status_fs_tac H.
Qed.

Lemma Worker_HandleUpload_keeps_final (fillSize : Z) :
  keeps_final_fs (Worker_HandleUpload fillSize).
Proof.
  intros r files s' H _. destruct r as [d|p|j|y]; unfold Worker_HandleUpload in H;
    simpl in H.
  - now subst.
  - unfold HttpPost.Worker_HandleUpload in H. status_fs_tac H.
  - unfold HttpPost.Worker_HandleUpload in H. status_fs_tac H.
  - unfold YoutubeUploadRequest.Worker_HandleUpload in H. status_fs_tac H.
Qed.

Lemma Worker_HandleDone_keeps_final (success : bool) (code : Z) :
  keeps_final_fs (Worker_HandleDone success code).
Proof.
  intros r files s' H _. destruct r as [d|p|j|y]; unfold Worker_HandleDone in H;
    simpl in H; try (now subst).
  unfold HttpDownload.Worker_HandleDone in H. status_fs_tac H.
Qed.

Lemma Worker_HandleCleanup_keeps_final : keeps_final_fs Worker_HandleCleanup.
Proof.
  intros r files s' H _. destruct r as [d|p|j|y]; unfold Worker_HandleCleanup in H;
    simpl in H.
  - now subst.
  - unfold HttpPost.Worker_HandleCleanup in H. status_fs_tac H.
  - unfold HttpPost.Worker_HandleCleanup in H. status_fs_tac H.
  - unfold YoutubeUploadRequest.Worker_HandleCleanup in H. status_fs_tac H.
Qed.

#[local] Instance final_kept_preorder : PreOrder final_kept.
Proof.
  split.
  - intros W a r Hr _. eauto.
  - intros W1 W2 W3 H1 H2 a r Hr Hf.
    destruct (H1 a r Hr Hf) as (r' & Hr' & Hs').
    destruct (H2 a r' Hr') as (r'' & Hr'' & Hs''); [now rewrite Hs'|].
    exists r''. split; [exact Hr'' | congruence].
Qed.

Lemma final_kept_same_heap (W W' : World) : heap W' = heap W -> final_kept W W'.
Proof. intros Hh a r Hr _. rewrite Hh. eauto. Qed.

Lemma final_kept_insert (W W' : World) (a : addr) (r r' : Request) :
  heap W !! a = Some r -> final_step r r' -> heap W' = <[a := r']> (heap W) ->
  final_kept W W'.
Proof.
  intros Ha Hs Hh b rb Hb Hf. rewrite Hh. destruct (decide (b = a)) as [->|Hne].
  - rewrite lookup_insert_eq. rewrite Ha in Hb. injection Hb as <-. eauto.
  - rewrite lookup_insert_ne by congruence. eauto.
Qed.

Lemma final_kept_call {A} (p : option addr) (c : MethodCall) (m : M Request A) :
  keeps_final m -> preserves final_kept (call p c m).
Proof.
  intros Hm W. destruct p as [a|]; [|reflexivity].
  destruct (heap W !! a) as [r|] eqn:Ha.
  - rewrite (call_run a c m W r Ha).
    destruct (m r) as [x r'|what r'| |] eqn:E; auto;
      apply (final_kept_insert _ _ a r r' Ha); try reflexivity; apply Hm; now rewrite E.
  - unfold call, deref. unfold_M. now rewrite Ha.
Qed.

Lemma final_kept_call_fs {A} (p : option addr) (c : MethodCall)
    (m : M (Request * FileSystem) A) :
  keeps_final_fs m -> preserves final_kept (call_fs p c m).
Proof.
  intros Hm W. destruct p as [a|]; [|reflexivity].
  unfold call_fs, deref, record_call. unfold_M.
  destruct (heap W !! a) as [r|] eqn:Ha; [|exact I]. simpl.
  destruct (m (r, fs W)) as [x s|what s| |] eqn:E; auto;
    apply (final_kept_insert _ _ a r s.1 Ha); try reflexivity;
    apply (Hm r (fs W)); now rewrite E.
Qed.

Create HintDb finals.

#[local] Hint Resolve Cancel_keeps_final CompileRequest_keeps_final
  Worker_UpdateProgress_keeps_final HandleRequestStart_keeps_final
  HandleResponseHeaders_keeps_final HandleResponse_keeps_final Worker_HandleData_keeps_final
  Worker_HandleUpload_keeps_final Worker_HandleDone_keeps_final
  Worker_HandleCleanup_keeps_final : finals.

Ltac final_kept_tac :=
  repeat
    match goal with
    | |- preserves _ (ret _) => apply (preserves_ret final_kept)
    | |- preserves _ get => apply (preserves_get final_kept)
    | |- preserves _ (throw _) => apply (preserves_throw final_kept)
    | |- preserves _ (undefined _) => apply (preserves_undefined final_kept)
    | |- preserves _ (IwAssert _ _) => apply (preserves_IwAssert final_kept)
    | |- preserves _ (deref _) => apply (preserves_deref final_kept)
    | |- preserves _ (the_worker _) => apply (preserves_the_worker final_kept)
    | |- preserves _ (call _ _ _) => apply final_kept_call; solve [auto with finals]
    | |- preserves _ (call_fs _ _ _) => apply final_kept_call_fs; solve [auto with finals]
    | |- preserves _ (discard _) => apply (preserves_discard final_kept)
    | |- preserves _ (update_worker _ _) => unfold update_worker
    | |- preserves _ (Update_callbacks _ _) =>
        apply (preserves_weaken same_core);
        [ intros ? ? (? & _); now apply final_kept_same_heap
        | intros ?; match goal with
                    | |- match Update_callbacks ?a ?cbs ?W with _ => _ end =>
                        destruct (Update_callbacks_run a cbs W) as (? & -> & ?); assumption
                    end ]
    | |- preserves _ (modify _) =>
        apply (preserves_modify final_kept); intros ?;
        apply final_kept_same_heap; reflexivity
    | |- preserves _ (bind _ _) => apply (preserves_bind final_kept); [|intros ?]
    | |- preserves _ (match ?x with _ => _ end) => destruct x
    | |- preserves _ (if ?x then _ else _) => destruct x
    end.

Lemma final_kept_QueueRequest (pf : Platform) (p : option addr)
    (cb : option HttpCallbackBase) :
  preserves final_kept (QueueRequest pf p cb).
Proof. unfold QueueRequest. final_kept_tac. Qed.

Lemma final_kept_Update (pf : Platform) (spawn_ok : bool) :
  preserves final_kept (Update pf spawn_ok).
Proof.
  unfold Update.
  apply (preserves_bind final_kept); [apply (preserves_get final_kept)|].
  intros W0. apply (preserves_bind final_kept).
  - generalize (None : option nat) as free.
    induction (seq 0 (NUM_WORKERS (http W0))) as [|i rest IH]; intros free; simpl.
    + apply (preserves_ret final_kept).
    + apply (preserves_bind final_kept); [|intros free'; apply IH].
      unfold Update_worker. final_kept_tac.
  - intros free. unfold Update_dispatch. final_kept_tac.
Qed.

Lemma final_kept_run (pf : Platform) (ev : Event) :
  match ev with
  | ev_DownloadFile _ _ => True
  | _ => preserves final_kept (run pf ev)
  end.
Proof.
  destruct ev; simpl; auto.
  - apply final_kept_QueueRequest.
  - apply final_kept_Update.
  - final_kept_tac.
  - final_kept_tac.
  - unfold WorkerThread_enter. final_kept_tac.
  - unfold WorkerThread_loop_head, WorkerThread_exit. final_kept_tac.
  - unfold HttpClient_WorkerThread_WriteCallback. final_kept_tac.
  - unfold HttpClient_WorkerThread_HeaderCallback, mem_read. final_kept_tac.
  - unfold HttpClient_WorkerThread_ReadCallback. final_kept_tac.
  - unfold HttpClient_WorkerThread_ProgressCallback. final_kept_tac.
  - unfold WorkerThread_perform_done. final_kept_tac.
  - unfold WorkerThread_cleanup, WorkerThread_exit. final_kept_tac.
  - unfold WorkerThread_resume. final_kept_tac.
Qed.

(** ** The keys of the map from one state to the next *)

#[local] Instance downloads_held_preorder : PreOrder downloads_held.
Proof.
  split.
  - intros W. split; [reflexivity | auto].
  - intros W1 W2 W3 (F1 & H1) (F2 & H2). split; [etransitivity; eauto|].
    intros url a Hm. destruct (H1 url a Hm) as [Hm2|(r2 & Hr2 & Hf2)]; [auto|].
    right. destruct (F2 a r2 Hr2 Hf2) as (r3 & Hr3 & Hs3).
    exists r3. split; [exact Hr3 | now rewrite Hs3].
Qed.

Lemma downloads_held_same_map (W W' : World) :
  final_kept W W' -> m_activeDownloads W' = m_activeDownloads W -> downloads_held W W'.
Proof. intros Hf Hm. split; [exact Hf|]. intros url a Ha. left. now rewrite Hm. Qed.

Lemma preserves_held {A} (m : M World A) :
  preserves final_kept m -> preserves downloads_kept m -> preserves downloads_held m.
Proof.
  intros Hf Hk W. specialize (Hf W). specialize (Hk W).
  destruct (m W); auto; apply downloads_held_same_map; auto; now destruct Hk.
Qed.

(** The loop body of [Update] takes a key from the map only when it has
    completed the request of that key. *)
Lemma Update_worker_held (pf : Platform) (j : nat) (free : option nat) (W W' : World) :
  leaves (Update_worker pf j free W) W' ->
  forall url a, m_activeDownloads W !! url = Some a ->
    m_activeDownloads W' !! url = Some a \/
    exists r', heap W' !! a = Some r' /\ finished (GetStatus r').
Proof.
  intros Hl url a Hm.
  destruct (m_workers (http W) !! j) as [w|] eqn:Hw;
    [|unfold Update_worker, the_worker in Hl; unfold_M; rewrite Hw in Hl; contradiction].
  destruct (Worker.status w) eqn:Hs.
  all: try (assert (Hf : is_free w = true) by (unfold is_free; now rewrite Hs);
            rewrite (Update_worker_free pf j free W w Hw Hf) in Hl; simpl in Hl; subst W';
            left; destruct (Worker.pRequest w); exact Hm).
  all: try (rewrite (Update_worker_CLEANUP pf j free W w Hw Hs) in Hl; simpl in Hl;
            subst W'; left; exact Hm).
  all: destruct (Worker.pRequest w) as [b|] eqn:Hp;
    [|unfold Update_worker, the_worker in Hl; unfold_M; rewrite Hw, Hs, Hp in Hl;
      contradiction].
  all: destruct (heap W !! b) as [r|] eqn:Ha;
    [|unfold Update_worker, the_worker in Hl; unfold_M; rewrite Hw, Hs, Hp in Hl;
      unfold deref in Hl; rewrite Ha in Hl; contradiction].
  - destruct (Update_worker_ACTIVE pf j free W w b r Hw Hs Hp Ha) as (W1 & E & Hcase).
    rewrite E in Hl. simpl in Hl. subst W'. left.
    destruct Hcase as [[-> _]|(r' & _ & _ & _ & ->)]; exact Hm.
  - destruct (Update_worker_DONE pf j free W w b r Hw Hs Hp Ha) as (r1 & W1 & Hcase & Hrest).
    cbv zeta in Hrest.
    destruct (HandleResponse pf _ _ r1) as [u r2|what r2|what|what] eqn:EH;
      [ | exfalso; exact (HandleResponse_no_throw _ _ _ _ _ _ EH)
        | rewrite Hrest in Hl; contradiction | rewrite Hrest in Hl; contradiction ].
    destruct Hrest as (W3 & E3 & Hcore & E). rewrite E in Hl. simpl in Hl. subst W'.
    assert (Hm1 : m_activeDownloads W1 = m_activeDownloads W)
      by (destruct Hcase as [(_ & _ & ->)|(_ & _ & ->)]; reflexivity).
    destruct (Update_callbacks_map b _ _ _ _ E3) as (_ & Hkeep & _).
    simpl in Hkeep. rewrite Hm1 in Hkeep.
    destruct Hcore as (Hheap3 & _). simpl in Hheap3.
    destruct (decide (a = b)) as [->|Hne].
    + right. exists r2. simpl. rewrite Hheap3. split; [apply lookup_insert_eq|].
      assert (Hl2 : leaves (HandleResponse pf
                              ((Worker.result w =? CURLE_OK) && (Worker.responseStatusCode w <? 400))
                              (int_of_long (Worker.responseStatusCode w)) r1) r2)
        by (now rewrite EH).
      apply HandleResponse_leaves in Hl2 as (_ & Hfin & _). exact Hfin.
    + left. simpl. now apply Hkeep.
Qed.

Lemma final_kept_Update_worker (pf : Platform) (j : nat) (free : option nat) :
  preserves final_kept (Update_worker pf j free).
Proof. unfold Update_worker. final_kept_tac. Qed.

Lemma downloads_held_Update_worker (pf : Platform) (j : nat) (free : option nat) :
  preserves downloads_held (Update_worker pf j free).
Proof.
  intros W. pose proof (final_kept_Update_worker pf j free W) as Hf.
  pose proof (Update_worker_held pf j free W) as Hh.
  destruct (Update_worker pf j free W); auto; (split; [exact Hf | now apply Hh]).
Qed.

Lemma downloads_held_Update (pf : Platform) (spawn_ok : bool) :
  preserves downloads_held (Update pf spawn_ok).
Proof.
  unfold Update.
  apply (preserves_bind downloads_held); [apply (preserves_get downloads_held)|].
  intros W0. apply (preserves_bind downloads_held).
  - generalize (None : option nat) as free.
    induction (seq 0 (NUM_WORKERS (http W0))) as [|i rest IH]; intros free; simpl.
    + apply (preserves_ret downloads_held).
    + apply (preserves_bind downloads_held); [apply downloads_held_Update_worker|].
      intros free'. apply IH.
  - intros free. apply preserves_held; [|apply downloads_kept_Update_dispatch].
    unfold Update_dispatch. final_kept_tac.
Qed.

(** [Update] as a whole keeps the map in order and adds no key to it. *)
Lemma downloads_step_Update (pf : Platform) (spawn_ok : bool) :
  preserves downloads_step (Update pf spawn_ok).
Proof.
  unfold Update.
  apply (preserves_bind downloads_step); [apply (preserves_get downloads_step)|].
  intros W0. apply (preserves_bind downloads_step).
  - generalize (None : option nat) as free.
    induction (seq 0 (NUM_WORKERS (http W0))) as [|i rest IH]; intros free; simpl.
    + apply (preserves_ret downloads_step).
    + apply (preserves_bind downloads_step); [apply downloads_step_Update_worker|].
      intros free'. apply IH.
  - intros free. apply (preserves_weaken downloads_kept); [apply downloads_kept_step|].
    apply downloads_kept_Update_dispatch.
Qed.

Lemma downloads_held_DownloadFile (pf : Platform) (url destFile : string) (W W' : World) :
  downloads_inv W -> leaves (DownloadFile pf url destFile W) W' -> downloads_held W W'.
Proof.
  intros (I1 & _ & I3) Hl. pose proof (DownloadFile_run pf url destFile W) as H.
  destruct (m_activeDownloads W !! url) as [p|] eqn:Hm.
  { rewrite H in Hl. simpl in Hl. subst W'. reflexivity. }
  destruct (HttpDownload.new url destFile (fs W)) as [d files'|what files'|what|what].
  - destruct H as (W1 & E & _ & Hh & _ & _ & Hmap & _). rewrite E in Hl. simpl in Hl.
    subst W1. split.
    + intros a r Hr _. exists r. split; [|reflexivity]. rewrite Hh.
      rewrite lookup_insert_ne; [exact Hr|]. specialize (I3 a r Hr). lia.
    + intros u a Hu. left. rewrite Hmap. rewrite lookup_insert_ne; [exact Hu|].
      intros <-. congruence.
  - rewrite H in Hl. simpl in Hl. subst W'.
    apply downloads_held_same_map; [now apply final_kept_same_heap | reflexivity].
  - rewrite H in Hl. contradiction.
  - rewrite H in Hl. contradiction.
Qed.

Lemma downloads_held_run (pf : Platform) (ev : Event) (W W' : World) :
  downloads_inv W -> leaves (run pf ev W) W' -> downloads_held W W'.
Proof.
  intros Hinv Hl.
  assert (Hgen : preserves downloads_held (run pf ev) -> downloads_held W W').
  { intros H. specialize (H W). destruct (run pf ev W); try contradiction;
      simpl in Hl; now subst. }
  pose proof (final_kept_run pf ev) as Hf. pose proof (downloads_kept_run pf ev) as Hk.
  destruct ev; try (apply Hgen, preserves_held; assumption).
  - simpl in Hl. unfold discard, bind in Hl.
    apply (downloads_held_DownloadFile pf url destFile W W' Hinv).
    destruct (DownloadFile pf url destFile W); exact Hl.
  - apply Hgen, downloads_held_Update.
Qed.

(** From a state in which the map is in order on: a key stands for the same
    request in every later state in which that request is not completed. *)
Lemma downloads_held_reachable (pf : Platform) (W W' : World) :
  downloads_inv W -> reachable pf W W' -> downloads_held W W'.
Proof.
  intros Hinv. induction 1 as [|W1 W2 Hreach IH [ev _ Hrun]]; [reflexivity|].
  etransitivity; [exact IH|].
  apply (downloads_held_run pf ev); [|exact Hrun].
  now apply (downloads_inv_reachable pf W W1).
Qed.

(** [Update] on a state in which worker [j] has finished the transfer of a
    request of the map: the request is completed and its key is gone. *)
Lemma Update_removes_key (pf : Platform) (spawn_ok : bool) (W : World) (url : string)
    (j : nat) (w : Worker.t) (a : addr) :
  downloads_inv W -> m_activeDownloads W !! url = Some a ->
  ready_on (seq 0 (NUM_WORKERS (http W))) W -> dispatch_ready W ->
  m_workers (http W) !! j = Some w -> Worker.status w = Worker.DONE ->
  Worker.pRequest w = Some a ->
  exists W' r',
    leaves (Update pf spawn_ok W) W' /\
    heap W' !! a = Some r' /\ finished (GetStatus r') /\
    m_activeDownloads W' !! url = None /\
    forall url' b, m_activeDownloads W !! url' = Some b -> b <> a ->
      m_activeDownloads W' !! url' = Some b \/
      exists rb, heap W' !! b = Some rb /\ finished (GetStatus rb).
Proof.
  intros Hinv Hm Hready Hdisp Hw Hs Hp.
  destruct Hinv as (I1 & I2 & I3). destruct (I1 url a Hm) as (_ & r & Ha & _).
  destruct (Update_completes_transfer pf spawn_ok W j w a r Hready Hdisp Hw Hs Hp Ha)
    as (_ & _ & W' & r' & pre & post & Hl & _ & _ & Hr' & Hfin & _).
  exists W', r'. split; [exact Hl|]. split; [exact Hr'|]. split; [exact Hfin|].
  pose proof (downloads_step_Update pf spawn_ok W) as Hstep.
  pose proof (downloads_held_Update pf spawn_ok W) as Hheld.
  unfold leaves in Hl.
  destruct (Update pf spawn_ok W) as [u W1|what W1| |]; try contradiction; subst W1.
  all: destruct Hstep as (Hinv' & Hsub); destruct Hheld as (_ & Hkeep).
  all: destruct (Hinv' (conj I1 (conj I2 I3))) as (I1' & _).
  all: split; [|intros url' b Hb _; exact (Hkeep url' b Hb)].
  all: destruct (m_activeDownloads W' !! url) as [b|] eqn:Hm'; [|reflexivity].
  all: exfalso; pose proof (Hsub url b Hm') as Hold; rewrite Hm in Hold; injection Hold as <-.
  all: destruct (I1' url a Hm') as (_ & r0 & Hr0 & Hu1 & Hu2).
  all: rewrite Hr' in Hr0; injection Hr0 as <-; destruct Hfin; contradiction.
Qed.

(** C8 as stated fails for a request that ends as CANCELLED: a download
    that the application cancels while it is still queued is taken from the
    queue by the next [Update] and dropped, and no callback is called for
    it; its key stays in the map, the downloader's callback stays
    registered, and [DownloadFile] on that key goes on returning the
    cancelled request, which no worker will ever transfer, and builds no
    new one. *)
Lemma cancelled_download_keeps_its_key :
  play sample_platform sample_events_cancelled_queued sample_start
  = Some sample_cancelled_queued /\
  trace sample_cancelled_queued = [(0%nat, call_Cancel)] /\
  GetStatus <$> heap sample_cancelled_queued !! 0%nat = Some HttpRequest.CANCELLED /\
  m_pendingRequests (http sample_cancelled_queued) = [] /\
  Worker.pRequest <$> m_workers (http sample_cancelled_queued) = [None] /\
  m_pendingCallbacks (http sample_cancelled_queued)
  = [(0%nat, HttpCallback_HandleDownloadDone)] /\
  @eq (option addr) (m_activeDownloads sample_cancelled_queued !! sample_url) (Some 0%nat) /\
  DownloadFile sample_platform sample_url "a.png" sample_cancelled_queued
  = Returns (Some 0%nat) sample_cancelled_queued /\
  Update sample_platform true sample_cancelled_queued = Returns tt sample_cancelled_queued.
Proof. split_all; vm_compute; reflexivity. Qed.

(** C8, amended: in every state the program can reach, a key of the
    downloader's map stands for a request that [Update] has not completed
    (it is neither DONE nor ERROR) and that still has the downloader's
    callback registered. [DownloadFile] on such a key returns that same
    request and changes nothing at all (no request is built, queued or
    started). The key stands for that request in every later state in which
    the request is not completed. When [Update] completes the request, on
    success and on failure alike, the key is gone from the map by the time
    [Update] is done, and the key of no other request is lost unless that
    request was completed too. On a key that is not in the map
    [DownloadFile] builds a new request at a fresh address, queues it with
    the downloader's callback and records it under the key (or leaves by
    the exception of the constructor). *)
Theorem DownloadFile_shares_unfinished_download (pf : Platform) (numWorkers : nat)
    (userAgentStr : string) (files : FileSystem) (W : World) (url destFile : string) :
  reachable pf (World_new numWorkers userAgentStr files) W ->
  match m_activeDownloads W !! url with
  | Some a =>
      DownloadFile pf url destFile W = Returns (Some a) W /\
      (a, HttpCallback_HandleDownloadDone) ∈ m_pendingCallbacks (http W) /\
      (exists r, heap W !! a = Some r /\ unfinished (GetStatus r)) /\
      (forall W', reachable pf W W' ->
         m_activeDownloads W' !! url = Some a \/
         exists r', heap W' !! a = Some r' /\ finished (GetStatus r')) /\
      (forall spawn_ok j w,
          ready_on (seq 0 (NUM_WORKERS (http W))) W -> dispatch_ready W ->
          m_workers (http W) !! j = Some w -> Worker.status w = Worker.DONE ->
          Worker.pRequest w = Some a ->
          exists W' r',
            leaves (Update pf spawn_ok W) W' /\
            heap W' !! a = Some r' /\ finished (GetStatus r') /\
            m_activeDownloads W' !! url = None /\
            forall url' b, m_activeDownloads W !! url' = Some b -> b <> a ->
              m_activeDownloads W' !! url' = Some b \/
              exists rb, heap W' !! b = Some rb /\ finished (GetStatus rb))
  | None =>
      match HttpDownload.new url destFile (fs W) with
      | Returns d files' =>
          exists W',
            DownloadFile pf url destFile W = Returns (Some (next_addr W)) W' /\
            heap W !! next_addr W = None /\
            heap W' !! next_addr W = Some (Download d) /\
            GetStatus (Download d) = HttpRequest.PENDING /\
            m_activeDownloads W' = <[url := next_addr W]> (m_activeDownloads W) /\
            m_pendingRequests (http W') = m_pendingRequests (http W) ++ [next_addr W] /\
            m_pendingCallbacks (http W')
            = m_pendingCallbacks (http W) ++ [(next_addr W, HttpCallback_HandleDownloadDone)]
      | Throws what files' =>
          DownloadFile pf url destFile W = Throws what (set_fs files' W)
      | _ => False
      end
  end.
Proof.
  intros Hreach.
  assert (Hinv : downloads_inv W)
    by (apply (downloads_inv_reachable pf _ W Hreach), downloads_inv_new).
  pose proof (DownloadFile_run pf url destFile W) as Hrun.
  destruct (m_activeDownloads W !! url) as [a|] eqn:Hm.
  - pose proof Hinv as (I1 & I2 & I3). destruct (I1 url a Hm) as (Hcb & Hr).
    split; [exact Hrun|]. split; [exact Hcb|]. split; [exact Hr|]. split.
    + intros W' Hlater.
      destruct (downloads_held_reachable pf W W' Hinv Hlater) as (_ & Hheld).
      exact (Hheld url a Hm).
    + intros spawn_ok j w Hready Hdisp Hw Hs Hp.
      exact (Update_removes_key pf spawn_ok W url j w a Hinv Hm Hready Hdisp Hw Hs Hp).
  - pose proof (HttpDownload_new_outcome url destFile (fs W)) as Hnew.
    destruct (HttpDownload.new url destFile (fs W)) as [d files'|what files'|what|what];
      try contradiction; [|exact Hrun].
    destruct Hrun as (W' & E & Hst & Hh & _ & _ & Hmap & Hq & Hcb & _).
    exists W'. split; [exact E|]. split.
    { destruct Hinv as (_ & _ & I3).
      destruct (heap W !! next_addr W) as [r|] eqn:Hr; [|reflexivity].
      specialize (I3 _ r Hr). lia. }
    rewrite Hh. split; [apply lookup_insert_eq|]. auto.
Qed.

Lemma sample_receiving_reachable :
  reachable sample_platform (World_new 1 "agent" sample_files) sample_receiving /\
  @eq (option addr) (m_activeDownloads sample_receiving !! sample_url) (Some 0%nat).
Proof.
  split.
  - apply (play_reachable sample_platform sample_events_receiving
             sample_start sample_start sample_receiving (reachable_refl _ _)).
    vm_compute. reflexivity.
  - vm_compute. reflexivity.
Qed.

Lemma sample_404_reachable :
  reachable sample_platform (World_new 1 "agent" sample_files) sample_404 /\
  @eq (option addr) (m_activeDownloads sample_404 !! sample_url) (Some 0%nat).
Proof.
  split.
  - apply (play_reachable sample_platform sample_events_404
             sample_start sample_start sample_404 (reachable_refl _ _)).
    vm_compute. reflexivity.
  - vm_compute. reflexivity.
Qed.

Lemma DownloadFile_shares_unfinished_download_witness :
  DownloadFile sample_platform sample_url "elsewhere.png" sample_404
  = Returns (Some 0%nat) sample_404 /\
  exists W',
    leaves (Update sample_platform true sample_404) W' /\
    @eq (option addr) (m_activeDownloads W' !! sample_url) None.
Proof.
  destruct sample_404_reachable as (Hreach & Hm).
  pose proof (DownloadFile_shares_unfinished_download sample_platform 1 "agent" sample_files
                sample_404 sample_url "elsewhere.png" Hreach) as H.
  rewrite Hm in H. destruct H as (Hsame & _ & _ & _ & Hgone).
  split; [exact Hsame|].
  destruct sample_404_facts as (Hws & Hq & Hs & Hp & Ha & Hst).
  assert (Hbody : body_readable sample_404_request) by (vm_compute; exact I).
  assert (Hw : m_workers (http sample_404) !! 0%nat = Some sample_404_worker)
    by (now rewrite Hws).
  assert (Hnu : Worker.status sample_404_worker <> Worker.UNUSED)
    by (rewrite Hs; discriminate).
  destruct (Hgone true 0%nat sample_404_worker
              (one_worker_ready_on _ _ _ _ Hws Hp Ha (fun _ => conj (or_introl Hst) Hbody))
              (one_worker_dispatch_ready _ _ Hws Hq Hnu) Hw Hs Hp)
    as (W' & r' & Hl & _ & _ & Hnone & _).
  exists W'. split; [exact Hl | exact Hnone].
Defined.

(** The three calls of the scenario: a second call while the first download
    is under way returns the first request; once that has ended (here with
    status 304) the key is free and a third call builds a new request. *)
Example DownloadFile_three_calls :
  DownloadFile_value sample_platform sample_url "a.png" sample_start = Some (Some 0%nat) /\
  DownloadFile_value sample_platform sample_url "a.png" sample_receiving = Some (Some 0%nat) /\
  m_activeDownloads sample_304 !! sample_url = None /\
  DownloadFile_value sample_platform sample_url "a.png" sample_304 = Some (Some 1%nat).
Proof. split_all; vm_compute; reflexivity. Qed.

(** * Further properties of the code *)

(** ** The response headers *)

Lemma last_value_cons (k : string) (hv : string * string) (rest : list (string * string)) :
  last_value k (hv :: rest)
  = match last_value k rest with
    | Some v => Some v
    | None => if decide (hv.1 = k) then Some hv.2 else None
    end.
Proof.
  unfold last_value. cbn [omap list_omap].
  destruct (decide (hv.1 = k)); [|now destruct (last _)].
  match goal with |- context [omap ?f rest] => generalize (omap f rest) end.
  intros l. destruct l as [|x l]; [reflexivity|]. rewrite last_cons.
  now destruct (last (x :: l)).
Qed.

Lemma fold_insert_lookup (hs : list (string * string)) :
  forall (m : gmap string string) (k : string),
    fold_left (fun m hv => <[hv.1 := hv.2]> m) hs m !! k
    = match last_value k hs with
      | Some v => Some v
      | None => m !! k
      end.
Proof.
  induction hs as [|hv rest IH]; intros m k; [reflexivity|].
  cbn [fold_left]. rewrite IH, last_value_cons.
  destruct (last_value k rest); [reflexivity|].
  destruct (decide (hv.1 = k)) as [<-|Hk].
  - apply lookup_insert_eq.
  - now apply lookup_insert_ne.
Qed.

(** X2: [HttpRequest::HandleResponseHeaders] on a request that is being
    sent returns with the status [HEADERS]; of the entries of the worker's
    header list with the same name it keeps the one that comes LAST in the
    list -- the list is built newest first ([push_header]), so the value
    received first wins -- and headers not in the list keep the value they
    had. On a request in any other state the assertion fails. *)
Theorem HandleResponseHeaders_keeps_first_received (hs : HttpRequest.RH) (b : HttpRequest.t) :
  if decide (HttpRequest.m_status b = HttpRequest.SENDING) then
    exists b',
      HttpRequest.HandleResponseHeaders hs b = Returns tt b' /\
      HttpRequest.m_status b' = HttpRequest.HEADERS /\
      HttpRequest.m_requestHeaders b' = HttpRequest.m_requestHeaders b /\
      forall k,
        HttpRequest.m_responseHeaders b' !! k
        = match last_value k hs with
          | Some v => Some v
          | None => HttpRequest.m_responseHeaders b !! k
          end
  else
    HttpRequest.HandleResponseHeaders hs b = AssertFails "m_status == SENDING".
Proof.
  unfold HttpRequest.HandleResponseHeaders. unfold_M.
  destruct (decide (HttpRequest.m_status b = HttpRequest.SENDING)) as [Hs|Hs].
  - rewrite bool_decide_eq_true_2 by exact Hs. simpl.
    eexists. split; [reflexivity|]. simpl. split_all; auto.
    intros k. apply fold_insert_lookup.
  - now rewrite bool_decide_eq_false_2 by exact Hs.
Qed.

(** ** The body of a form post *)

Lemma CompileRequest_loop_rest (pf : Platform) (items : list (string * string)) :
  forall acc,
    HttpPost.CompileRequest_loop pf false items acc
    = acc +:+ String.concat EmptyString
                (map (fun kv : string * string =>
                        "&" +:+ UrlEncode (char_signed pf) kv.1 true +:+ "="
                        +:+ UrlEncode (char_signed pf) kv.2 true) items).
Proof.
  induction items as [|it rest IH]; intros acc; simpl.
  - now rewrite append_empty_r.
  - rewrite IH. destruct rest as [|it' rest'].
    + simpl. rewrite append_empty_r. now rewrite !append_assoc.
    + cbn [map String.concat]. rewrite append_nil_l. now rewrite !append_assoc.
Qed.

Lemma concat_separated (sep : string) (xs : list string) (x : string) :
  String.concat sep (x :: xs)
  = x +:+ String.concat EmptyString (map (fun y => sep +:+ y) xs).
Proof.
  revert x. induction xs as [|y ys IH]; intros x.
  - simpl. now rewrite append_empty_r.
  - change (String.concat sep (x :: y :: ys)) with (x +:+ sep +:+ String.concat sep (y :: ys)).
    rewrite IH. cbn [map]. destruct ys as [|z zs].
    + simpl. now rewrite !append_empty_r.
    + cbn [map String.concat]. rewrite append_nil_l. now rewrite !append_assoc.
Qed.

Lemma CompileRequest_loop_concat (pf : Platform) (items : list (string * string)) :
  HttpPost.CompileRequest_loop pf true items EmptyString
  = String.concat "&"
      (map (fun kv : string * string =>
              UrlEncode (char_signed pf) kv.1 true +:+ "="
              +:+ UrlEncode (char_signed pf) kv.2 true) items).
Proof.
  destruct items as [|it rest]; [reflexivity|].
  cbn [HttpPost.CompileRequest_loop map]. rewrite CompileRequest_loop_rest, concat_separated.
  rewrite append_nil_l, map_map. f_equal.
Qed.

(** X3: [HttpPost::CompileRequest] on a post that is being built and whose
    body is still empty returns with the status [PENDING] and the body
    [k1=v1&k2=v2&...]: one pair for every value set, in the order of the
    keys, key and value url-encoded in the strict mode, joined by ['&'];
    the values set stay as they are. With a body already compiled, or in
    another state than [BUILDING], an assertion fails. *)
Theorem HttpPost_CompileRequest_body (pf : Platform) (p : HttpPost.t) :
  if String.eqb (HttpPost.m_postData p) EmptyString then
    if decide (HttpRequest.m_status (HttpPost.base p) = HttpRequest.BUILDING) then
      exists p',
        HttpPost.CompileRequest pf p = Returns tt p' /\
        HttpRequest.m_status (HttpPost.base p') = HttpRequest.PENDING /\
        HttpPost.m_data p' = HttpPost.m_data p /\
        HttpPost.m_postData p'
        = String.concat "&"
            (map (fun kv : string * string =>
                    UrlEncode (char_signed pf) kv.1 true +:+ "="
                    +:+ UrlEncode (char_signed pf) kv.2 true)
               (in_key_order (HttpPost.m_data p)))
    else HttpPost.CompileRequest pf p = AssertFails "m_status == BUILDING"
  else HttpPost.CompileRequest pf p = AssertFails "m_postData.empty()".
Proof.
  unfold HttpPost.CompileRequest, HttpRequest.CompileRequest. unfold_M.
  destruct (String.eqb_spec (HttpPost.m_postData p) EmptyString) as [He|He]; [|reflexivity].
  simpl.
  destruct (decide (HttpRequest.m_status (HttpPost.base p) = HttpRequest.BUILDING)) as [Hs|Hs].
  - rewrite bool_decide_eq_true_2 by exact Hs. simpl.
    eexists. split; [reflexivity|]. simpl. split_all; auto.
    rewrite He. apply CompileRequest_loop_concat.
  - now rewrite bool_decide_eq_false_2 by exact Hs.
Qed.

(** ** Uploading the body of a post *)

Lemma length_substring (s : string) :
  forall a n, (a + n <= String.length s)%nat -> String.length (substring a n s) = n.
Proof.
  induction s as [|c s IH]; intros [|a] [|n] H; simpl in *; try reflexivity; try lia.
  - rewrite (IH 0%nat n); [reflexivity | lia].
  - apply (IH a 0%nat). lia.
  - apply (IH a (S n)). lia.
Qed.

Lemma substring_app (s : string) :
  forall a n m, (a + n <= String.length s)%nat ->
    substring a n s +:+ substring (a + n) m s = substring a (n + m) s.
Proof.
  induction s as [|c s IH]; intros [|a] [|n] m H; simpl in *; try lia.
  - now destruct m.
  - reflexivity.
  - rewrite append_cons. f_equal. apply (IH 0%nat n m). lia.
  - specialize (IH a 0%nat m). rewrite Nat.add_0_r in *. apply IH. lia.
  - apply (IH a (S n) m). lia.
Qed.

(** X4: [HttpPost::Worker_HandleUpload] hands libcurl the next piece of the
    compiled body: as many bytes as are left, but not more than the buffer
    takes; it counts them as uploaded, so that what has been handed over so
    far is always a prefix of the body, and it returns 0 (the end of the
    upload) exactly when nothing is left or the buffer is empty. *)
Theorem HttpPost_Worker_HandleUpload_next_piece (fillSize : Z) (p : HttpPost.t) :
  0 <= HttpPost.m_bytesUploaded p <= strlen (HttpPost.m_postData p) ->
  strlen (HttpPost.m_postData p) < 2 ^ 32 ->
  0 <= fillSize ->
  let body := HttpPost.m_postData p in
  let sent := HttpPost.m_bytesUploaded p in
  let n := Z.min (strlen body - sent) fillSize in
  let piece := substring (Z.to_nat sent) (Z.to_nat n) body in
  HttpPost.Worker_HandleUpload fillSize p
  = Returns (n, piece) (HttpPost.set_bytesUploaded (sent + n) p) /\
  strlen piece = n /\ n <= fillSize /\
  substring 0 (Z.to_nat sent) body +:+ piece = substring 0 (Z.to_nat (sent + n)) body /\
  (n = 0 <-> sent = strlen body \/ fillSize = 0).
Proof.
  intros Hsent Hfit Hfill. cbv zeta.
  set (n := Z.min (strlen (HttpPost.m_postData p) - HttpPost.m_bytesUploaded p) fillSize).
  assert (Hn : 0 <= n <= strlen (HttpPost.m_postData p) - HttpPost.m_bytesUploaded p)
    by (unfold n; lia).
  split; [|split; [|split; [|split]]].
  - unfold HttpPost.Worker_HandleUpload. unfold_M.
    rewrite (size_t_wrap_small (strlen (HttpPost.m_postData p) - HttpPost.m_bytesUploaded p))
      by lia.
    fold n.
    destruct (Z.leb_spec n (strlen (HttpPost.m_postData p) - HttpPost.m_bytesUploaded p))
      as [_|]; [|lia].
    simpl. rewrite size_t_wrap_small by lia. reflexivity.
  - unfold strlen. rewrite length_substring; [lia|].
    unfold strlen in *. lia.
  - unfold n. lia.
  - replace (Z.to_nat (HttpPost.m_bytesUploaded p + n))
      with (Z.to_nat (HttpPost.m_bytesUploaded p) + Z.to_nat n)%nat by lia.
    rewrite <- (substring_app (HttpPost.m_postData p) 0
                  (Z.to_nat (HttpPost.m_bytesUploaded p)) (Z.to_nat n)); [reflexivity|].
    unfold strlen in *. lia.
  - unfold n. lia.
Qed.

Lemma HttpPost_Worker_HandleUpload_next_piece_witness :
  HttpPost.Worker_HandleUpload 4
    (HttpPost.set_bytesUploaded 4 (HttpPost.set_postData "name=bob&age=35" (sample_post "")))
  = Returns (4, "=bob"%string)
      (HttpPost.set_bytesUploaded 8
         (HttpPost.set_postData "name=bob&age=35" (sample_post ""))).
Proof.
  refine (proj1 (HttpPost_Worker_HandleUpload_next_piece 4
                   (HttpPost.set_bytesUploaded 4
                      (HttpPost.set_postData "name=bob&age=35" (sample_post ""))) _ _ _)).
  - vm_compute. split; discriminate.
  - reflexivity.
  - discriminate.
Defined.

(** ** The response body of a post *)

Lemma string_of_cells_app (l : list (option ascii)) (s data : string) :
  string_of_cells l = Some s ->
  string_of_cells (l ++ map Some (list_ascii_of_string data)) = Some (s +:+ data).
Proof.
  revert s. induction l as [|[c|] l IH]; intros s; simpl.
  - intros [= <-]. rewrite append_nil_l. apply string_of_cells_Some.
  - destruct (string_of_cells l) as [s'|] eqn:E; [|discriminate]. simpl.
    intros [= <-]. rewrite (IH s' eq_refl). simpl. now rewrite append_cons.
  - discriminate.
Qed.

Lemma response_body_cells (b : c_buffer) (n : Z) (body : string) :
  buffer_ok b n -> response_body b n = Some body ->
  string_of_cells (buffer_cells b n) = Some body.
Proof.
  unfold response_body, std_string, ret, undefined. destruct b as [|cells|]; simpl.
  - intros _. destruct (Z.eqb_spec n 0) as [->|]; [|discriminate].
    now intros [= <-].
  - intros Hlen. rewrite <- Hlen, Z.leb_refl, Nat2Z.id, take_ge by lia.
    destruct (string_of_cells cells); [|discriminate]. now intros [= <-].
  - contradiction.
Qed.

(** X5: [HttpPost::Worker_HandleData] with a successful [realloc] appends
    the chunk to the response buffer: the body that [HandleResponse] will
    read from the buffer is the body so far followed by the bytes of the
    chunk, and the whole chunk is reported as consumed. *)
Theorem HttpPost_Worker_HandleData_appends (contents : string) (size : Z) (p : HttpPost.t)
    (body : string) :
  buffer_ok (HttpPost.m_workerResponseBuffer p) (HttpPost.m_workerResponseSize p) ->
  response_body (HttpPost.m_workerResponseBuffer p) (HttpPost.m_workerResponseSize p)
  = Some body ->
  0 < size <= strlen contents ->
  HttpPost.m_workerResponseSize p + size < 2 ^ 32 ->
  exists p',
    HttpPost.Worker_HandleData true contents size p = Returns size p' /\
    HttpPost.m_workerResponseSize p' = HttpPost.m_workerResponseSize p + size /\
    response_body (HttpPost.m_workerResponseBuffer p') (HttpPost.m_workerResponseSize p')
    = Some (body +:+ substring 0 (Z.to_nat size) contents).
Proof.
  intros Hok Hbody Hsize Hfit.
  rewrite (HttpPost_Worker_HandleData_chunk true contents size p Hok Hsize Hfit).
  eexists. split; [reflexivity|]. simpl. split; [reflexivity|].
  pose proof (response_body_cells _ _ _ Hok Hbody) as Hcells.
  pose proof (string_of_cells_app _ _ (substring 0 (Z.to_nat size) contents) Hcells) as Happ.
  unfold response_body, std_string.
  assert (Hlen : Z.of_nat (length (buffer_cells (HttpPost.m_workerResponseBuffer p)
                                     (HttpPost.m_workerResponseSize p)
                                   ++ map Some (list_ascii_of_string
                                                  (substring 0 (Z.to_nat size) contents))))
                 = HttpPost.m_workerResponseSize p + size).
  { rewrite length_app, length_map, length_list_ascii_of_string, length_substring_0
      by (unfold strlen in Hsize; lia).
    rewrite Nat2Z.inj_add, (buffer_cells_length _ _ Hok). lia. }
  rewrite <- Hlen, Z.leb_refl, Nat2Z.id, take_ge by lia.
  now rewrite Happ.
Qed.

Lemma HttpPost_Worker_HandleData_appends_witness :
  exists p',
    HttpPost.Worker_HandleData true "[1,2]" 5 (sample_post "{}") = Returns 5 p' /\
    response_body (HttpPost.m_workerResponseBuffer p') (HttpPost.m_workerResponseSize p')
    = Some "{}[1,2]"%string.
Proof.
  destruct (HttpPost_Worker_HandleData_appends "[1,2]" 5 (sample_post "{}") "{}")
    as (p' & E & _ & Hbody).
  - reflexivity.
  - reflexivity.
  - vm_compute. split; [reflexivity | discriminate].
  - reflexivity.
  - exists p'. split; [exact E | exact Hbody].
Defined.

(** ** The temporary file of a download *)

Lemma HttpDownload_next_chunk (d : HttpDownload.t) (files : FileSystem) (f : s3eFile)
    (contents : string) (size : Z) :
  HttpDownload.m_pTmpFile d = Some f -> size <= strlen contents ->
  HttpDownload.Worker_HandleData contents size (d, files)
  = Returns size (d, s3eFileWrite (substring 0 (Z.to_nat size) contents) f files).
Proof.
  intros Hf Hsize. unfold HttpDownload.Worker_HandleData, mem_read. unfold_M. simpl.
  rewrite Hf. simpl. rewrite Hf.
  destruct (Z.leb_spec size (strlen contents)) as [_|]; [|lia]. reflexivity.
Qed.

(** X6: a download writes the chunks it receives to its temporary file in
    the order they arrive -- the first chunk creates the file, every later
    one is appended -- and when the transfer ends well with status 200 the
    destination file holds exactly the chunks, one after the other. *)
Theorem HttpDownload_stores_chunks_in_order (d : HttpDownload.t) (files : FileSystem)
    (c1 c2 : string) :
  HttpDownload.m_pTmpFile d = None ->
  HttpDownload.tmp_path d ∉ fs_denied files ->
  exists d1 files1 files2 d3 files3,
    HttpDownload.Worker_HandleData c1 (strlen c1) (d, files) = Returns (strlen c1) (d1, files1) /\
    fs_files files1 !! HttpDownload.tmp_path d = Some c1 /\
    HttpDownload.Worker_HandleData c2 (strlen c2) (d1, files1) = Returns (strlen c2) (d1, files2) /\
    fs_files files2 !! HttpDownload.tmp_path d = Some (c1 +:+ c2) /\
    HttpDownload.Worker_HandleDone true 200 (d1, files2) = Returns tt (d3, files3) /\
    HttpDownload.m_pTmpFile d3 = None /\
    fs_files files3 !! c_str (HttpDownload.m_destFile d) = Some (c1 +:+ c2).
Proof.
  intros Hnone Hok.
  destruct (HttpDownload_first_chunk_opens d files c1 (strlen c1) Hnone Hok (Z.le_refl _))
    as (f & files1 & E1 & Hpath & Hfiles1).
  rewrite substring_whole in Hfiles1.
  assert (Hc1 : fs_files files1 !! HttpDownload.tmp_path d = Some c1)
    by (rewrite Hfiles1; apply lookup_insert_eq).
  pose proof (HttpDownload_next_chunk (HttpDownload.set_pTmpFile (Some f) d) files1 f c2
                (strlen c2) eq_refl (Z.le_refl _)) as E2.
  rewrite substring_whole in E2.
  assert (Hc2 : fs_files (s3eFileWrite c2 f files1) !! HttpDownload.tmp_path d
                = Some (c1 +:+ c2)).
  { unfold s3eFileWrite. simpl. rewrite Hpath, Hc1. simpl. apply lookup_insert_eq. }
  destruct (HttpDownload_Worker_HandleDone_run true 200
              (HttpDownload.set_pTmpFile (Some f) d) (s3eFileWrite c2 f files1))
    as (files3 & E3 & _ & Hfiles3).
  exists (HttpDownload.set_pTmpFile (Some f) d), files1, (s3eFileWrite c2 f files1),
    (HttpDownload.set_pTmpFile None (HttpDownload.set_pTmpFile (Some f) d)), files3.
  split; [exact E1|]. split; [exact Hc1|]. split; [exact E2|]. split; [exact Hc2|].
  split; [exact E3|]. split; [reflexivity|].
  rewrite Hfiles3. simpl.
  apply (files_when_done_kept (HttpDownload.tmp_path d)
           (c_str (HttpDownload.m_destFile d)) (c1 +:+ c2)).
  exact Hc2.
Qed.

Lemma HttpDownload_stores_chunks_in_order_witness :
  exists d1 files1 files2 d3 files3,
    HttpDownload.Worker_HandleData "GIF8" 4 (sample_receiving_download_fresh, sample_files)
    = Returns 4 (d1, files1) /\
    HttpDownload.Worker_HandleData "9a" 2 (d1, files1) = Returns 2 (d1, files2) /\
    HttpDownload.Worker_HandleDone true 200 (d1, files2) = Returns tt (d3, files3) /\
    fs_files files3 !! "a.png"%string = Some "GIF89a"%string.
Proof.
  destruct (HttpDownload_stores_chunks_in_order sample_receiving_download_fresh sample_files
              "GIF8" "9a")
    as (d1 & files1 & files2 & d3 & files3 & E1 & _ & E2 & _ & E3 & _ & Hdest).
  - reflexivity.
  - vm_compute. set_solver.
  - exists d1, files1, files2, d3, files3. split; [exact E1|]. split; [exact E2|].
    split; [exact E3 | exact Hdest].
Defined.

(** ** Compiling and queueing *)

(** X7: [HttpPostJson::CompileRequest] on a post that is being built
    returns with the status [PENDING]; the body is what the JSON writer
    makes of the data, and the request header [Content-Length] is the
    length of that body in decimal, the other request headers staying as
    they were. In any other state the assertion of [SetHeader] fails (after
    the body has been written). *)
Theorem HttpPostJson_CompileRequest_sets_length (pf : Platform) (j : HttpPostJson.t) :
  let body := Writer_Write pf (HttpPostJson.m_postDataJson j) in
  let b := HttpPost.base (HttpPostJson.post j) in
  if decide (HttpRequest.m_status b = HttpRequest.BUILDING) then
    exists j',
      HttpPostJson.CompileRequest pf j = Returns tt j' /\
      HttpRequest.m_status (HttpPost.base (HttpPostJson.post j')) = HttpRequest.PENDING /\
      HttpPost.m_postData (HttpPostJson.post j') = body /\
      HttpPost.Worker_GetUploadSize (HttpPostJson.post j') = strlen body /\
      HttpPostJson.m_postDataJson j' = HttpPostJson.m_postDataJson j /\
      forall header,
        HttpRequest.m_requestHeaders (HttpPost.base (HttpPostJson.post j')) !! header
        = if decide (header = "Content-Length"%string) then Some (pretty (strlen body))
          else HttpRequest.m_requestHeaders b !! header
  else HttpPostJson.CompileRequest pf j = AssertFails "m_status == BUILDING".
Proof.
  cbv zeta.
  unfold HttpPostJson.CompileRequest, HttpPost.SetHeader, HttpRequest.SetHeader,
    HttpRequest.CompileRequest.
  unfold_M. simpl.
  destruct (decide _) as [Hs|Hs].
  - rewrite bool_decide_eq_true_2 by exact Hs. simpl.
    rewrite bool_decide_eq_true_2 by exact Hs. simpl.
    eexists. split; [reflexivity|]. simpl. split_all; auto.
    intros header. destruct (decide (header = "Content-Length"%string)) as [->|Hne].
    + apply lookup_insert_eq.
    + now apply lookup_insert_ne.
  - now rewrite bool_decide_eq_false_2 by exact Hs.
Qed.

(** X8: [HttpClient::QueueRequest] compiles a request that is still being
    built, by the [CompileRequest] of its class, and then puts it at the
    END of the queue of pending requests, pending, with its callback (if
    any) registered last; a request already pending is queued as it is; a
    request in any other state fails the assertion and nothing is queued. *)
Theorem QueueRequest_compiles_and_queues (pf : Platform) (a : addr)
    (cb : option HttpCallbackBase) (W : World) (r : Request) :
  heap W !! a = Some r ->
  let queued (r' : Request) (W' : World) :=
    heap W' = <[a := r']> (heap W) /\
    GetStatus r' = HttpRequest.PENDING /\
    m_pendingRequests (http W') = m_pendingRequests (http W) ++ [a] /\
    m_pendingCallbacks (http W')
    = m_pendingCallbacks (http W) ++ match cb with Some c => [(a, c)] | None => [] end /\
    m_workers (http W') = m_workers (http W) /\ fs W' = fs W in
  if decide (GetStatus r = HttpRequest.BUILDING) then
    match CompileRequest pf r with
    | Returns _ r' =>
        exists W', QueueRequest pf (Some a) cb W = Returns tt W' /\ queued r' W' /\
                   trace W' = trace W ++ [(a, call_CompileRequest)]
    | Throws what _ => exists W', QueueRequest pf (Some a) cb W = Throws what W'
    | AssertFails what => QueueRequest pf (Some a) cb W = AssertFails what
    | Undefined what => QueueRequest pf (Some a) cb W = Undefined what
    end
  else if decide (GetStatus r = HttpRequest.PENDING) then
    exists W', QueueRequest pf (Some a) cb W = Returns tt W' /\
               heap W' = heap W /\ queued r W' /\ trace W' = trace W
  else
    QueueRequest pf (Some a) cb W
    = AssertFails "pRequest->GetStatus() == HttpRequest::PENDING".
Proof.
  intros Ha. cbv zeta. remember (QueueRequest pf (Some a) cb W) as Q eqn:EQ.
  unfold QueueRequest in EQ.
  unfold bind at 1 in EQ. unfold deref at 1 in EQ. rewrite Ha in EQ. cbn [snd fst] in EQ.
  destruct (decide (GetStatus r = HttpRequest.BUILDING)) as [Hb|Hb].
  - unfold bind at 1 in EQ. rewrite (call_run a _ _ W r Ha) in EQ.
    destruct (CompileRequest pf r) as [u r'|what r'|what|what] eqn:EC; eauto.
    assert (Hp : GetStatus r' = HttpRequest.PENDING)
      by (apply (CompileRequest_pending pf r); now rewrite EC).
    unfold bind, deref, after_call in EQ. cbn [heap set_heap set_trace] in EQ.
    rewrite lookup_insert_eq in EQ.
    cbn [snd fst] in EQ. unfold IwAssert in EQ. rewrite bool_decide_eq_true_2 in EQ by exact Hp.
    unfold modify, ret in EQ. subst Q.
    destruct cb; eexists; (split; [reflexivity|]); simpl; split_all; auto;
      now rewrite app_nil_r.
  - unfold bind at 1 in EQ. unfold ret at 1 in EQ. unfold bind, deref in EQ.
    rewrite Ha in EQ. cbn [snd fst] in EQ. unfold IwAssert in EQ.
    destruct (decide (GetStatus r = HttpRequest.PENDING)) as [Hp|Hp].
    + rewrite bool_decide_eq_true_2 in EQ by exact Hp. unfold modify, ret in EQ. subst Q.
      destruct cb; eexists; (split; [reflexivity|]); simpl; split_all; auto;
        try (now rewrite app_nil_r);
        try (symmetry; now apply insert_id).
    + now rewrite bool_decide_eq_false_2 in EQ by exact Hp.
Qed.

Lemma sample_form_facts :
  heap sample_form_world !! 0%nat = Some (Post sample_form) /\
  GetStatus (Post sample_form) = HttpRequest.BUILDING /\
  CompileRequest sample_platform (Post sample_form) = Returns tt sample_form_compiled.
Proof. split_all; vm_compute; reflexivity. Qed.

Lemma QueueRequest_compiles_and_queues_witness :
  exists W',
    QueueRequest sample_platform (Some 0%nat) None sample_form_world = Returns tt W' /\
    heap W' = <[0%nat := sample_form_compiled]> (heap sample_form_world) /\
    m_pendingRequests (http W') = m_pendingRequests (http sample_form_world) ++ [0%nat].
Proof.
  destruct sample_form_facts as (Ha & Hb & Hc).
  pose proof (QueueRequest_compiles_and_queues sample_platform 0%nat None sample_form_world
                (Post sample_form) Ha) as H.
  cbv zeta in H. rewrite decide_True in H by exact Hb. rewrite Hc in H.
  destruct H as (W' & E & (Hheap & _ & Hq & _) & _).
  exists W'. split; [exact E|]. split; [exact Hheap | exact Hq].
Defined.

(** The body compiled for the sample form: the pairs in the order of the
    keys, not in the order in which the values were set. *)
Example sample_form_body :
  match sample_form_compiled with
  | Post p => HttpPost.m_postData p
  | _ => EmptyString
  end = "age=35&name=bob"%string.
Proof. vm_compute. reflexivity. Qed.

(** ** The parts of a path *)

Lemma find_last_of_split (c : ascii) (s : string) :
  forall i, find_last_of c s = Some i ->
    (i < String.length s)%nat /\
    substring i 1 s = String c EmptyString /\
    find_last_of c (substr_from (S i) s) = None.
Proof.
  unfold substr_from.
  induction s as [|a s IH]; intros i; simpl; [discriminate|].
  destruct (find_last_of c s) as [k|] eqn:E.
  - intros [= <-]. destruct (IH k eq_refl) as (Hlt & Hc & Hnone).
    split; [lia|]. split; [exact Hc | exact Hnone].
  - destruct (Ascii.eqb_spec a c) as [->|]; [|discriminate].
    intros [= <-]. split; [lia|]. split.
    + now destruct s.
    + rewrite Nat.sub_0_r, substring_0_length. exact E.
Qed.

Lemma substring_rest (s : string) (i : nat) :
  (i <= String.length s)%nat ->
  substring 0 i s +:+ substr_from i s = s.
Proof.
  intros H. unfold substr_from.
  pose proof (substring_app s 0 i (String.length s - i)) as H1.
  cbn [Nat.add] in H1. rewrite H1 by lia.
  replace (i + (String.length s - i))%nat with (String.length s) by lia.
  apply substring_0_length.
Qed.

Lemma substr_from_next (s : string) (i : nat) :
  (i < String.length s)%nat ->
  substr_from i s = substring i 1 s +:+ substr_from (S i) s.
Proof.
  intros H. unfold substr_from.
  replace (S i) with (i + 1)%nat by lia.
  rewrite (substring_app s i 1 (String.length s - (i + 1))) by lia.
  f_equal. lia.
Qed.

(** X9: [DirName] and [GetFileName] cut a path at its last slash: a path
    with a slash is its directory name, a slash and its file name; a path
    without one has the empty directory name and is its own file name; and
    a file name never has a slash in it. *)
Theorem DirName_GetFileName_split (path : string) :
  path = (match find_last_of "/" path with
          | Some _ => DirName path +:+ "/" +:+ GetFileName path
          | None => DirName path +:+ GetFileName path
          end) /\
  find_last_of "/" (GetFileName path) = None /\
  (find_last_of "/" path = None -> DirName path = EmptyString).
Proof.
  unfold DirName, GetFileName.
  destruct (find_last_of "/" path) as [pos|] eqn:E.
  - destruct (find_last_of_split "/" path pos E) as (Hlt & Hc & Hnone).
    split; [|split; [exact Hnone | discriminate]].
    rewrite <- (substring_rest path pos) at 1 by lia.
    rewrite (substr_from_next path pos Hlt), Hc. reflexivity.
  - split; [now rewrite append_nil_l|]. split; [exact E | reflexivity].
Qed.

Lemma substr_exact (s : string) (pos n : nat) :
  (pos + n <= String.length s)%nat -> substr pos (Z.of_nat n) s = substring pos n s.
Proof.
  intros H. unfold substr. f_equal. lia.
Qed.

Lemma substr_rest (s : string) (pos : nat) (count : Z) :
  Z.of_nat (String.length s - pos) <= count -> substr pos count s = substr_from pos s.
Proof.
  intros H. unfold substr, substr_from. f_equal. lia.
Qed.

(** X10: [FileNameNoExt] and [GetFileNameExt] cut the file name at the last
    dot of the path: when that dot lies in the file name (after the last
    slash, if there is one), the file name is the name without extension, a
    dot and the extension. When the last dot lies in a directory name,
    [pos_dot - pos_slash - 1] wraps around in [size_t] and [FileNameNoExt]
    gives the whole file name. *)
Theorem FileNameNoExt_GetFileNameExt_split (path : string) (pos_dot : nat) :
  find_last_of "." path = Some pos_dot ->
  Z.of_nat (String.length path) < 2 ^ 32 ->
  match find_last_of "/" path with
  | Some pos_slash =>
      if (pos_slash <? pos_dot)%nat then
        GetFileName path = FileNameNoExt path +:+ "." +:+ GetFileNameExt path
      else FileNameNoExt path = GetFileName path
  | None => path = FileNameNoExt path +:+ "." +:+ GetFileNameExt path
  end.
Proof.
  intros Hdot Hlen. unfold GetFileName, FileNameNoExt, GetFileNameExt. rewrite Hdot.
  destruct (find_last_of_split "." path pos_dot Hdot) as (Hlt & Hc & _).
  destruct (find_last_of "/" path) as [pos_slash|] eqn:Hslash.
  - destruct (find_last_of_split "/" path pos_slash Hslash) as (Hlts & Hcs & _).
    destruct (Nat.ltb_spec pos_slash pos_dot) as [Hbefore|Hafter].
    + rewrite size_t_wrap_small by lia.
      replace (Z.of_nat pos_dot - Z.of_nat pos_slash - 1)
        with (Z.of_nat (pos_dot - pos_slash - 1)) by lia.
      rewrite substr_exact by lia.
      rewrite <- (Hc), <- (substr_from_next path pos_dot Hlt).
      unfold substr_from.
      pose proof (substring_app path (S pos_slash) (pos_dot - pos_slash - 1)
                    (String.length path - pos_dot)) as H1.
      replace (S pos_slash + (pos_dot - pos_slash - 1))%nat with pos_dot in H1 by lia.
      rewrite H1 by lia. f_equal. lia.
    + assert (Hne : pos_slash <> pos_dot).
      { intros ->. rewrite Hcs in Hc. discriminate. }
      apply substr_rest. unfold size_t_wrap, size_t_bits.
      replace (Z.of_nat pos_dot - Z.of_nat pos_slash - 1)
        with ((Z.of_nat pos_dot - Z.of_nat pos_slash - 1 + 2 ^ 32) + (-1) * 2 ^ 32) by lia.
      rewrite Z.mod_add by lia. rewrite Z.mod_small by lia. lia.
  - replace (Z.of_nat pos_dot) with (Z.of_nat pos_dot) by reflexivity.
    rewrite substr_exact by lia.
    rewrite <- Hc, <- (substr_from_next path pos_dot Hlt).
    symmetry. apply substring_rest. lia.
Qed.

Lemma FileNameNoExt_GetFileNameExt_split_witness :
  GetFileName "cache://maps/tile.7.png"
  = FileNameNoExt "cache://maps/tile.7.png" +:+ "." +:+ GetFileNameExt "cache://maps/tile.7.png".
Proof.
  exact (FileNameNoExt_GetFileNameExt_split "cache://maps/tile.7.png" 19 eq_refl eq_refl).
Defined.

Example path_parts_example :
  DirName "cache://maps/tile.7.png" = "cache://maps"%string /\
  GetFileName "cache://maps/tile.7.png" = "tile.7.png"%string /\
  FileNameNoExt "cache://maps/tile.7.png" = "tile.7"%string /\
  GetFileNameExt "cache://maps/tile.7.png" = "png"%string /\
  GetFileNameExt "v1.2/readme" = "2/readme"%string /\
  FileNameNoExt "v1.2/readme" = "readme"%string.
Proof. split_all; vm_compute; reflexivity. Qed.

(** ** [MakePath] *)

Lemma MakePath_loop_again (path_parts : list string) :
  forall (sub_path : string) (files files' : FileSystem),
    MakePath_loop path_parts sub_path files = Returns tt files' ->
    fs_dirs files ⊆ fs_dirs files' /\
    forall files'', fs_dirs files' ⊆ fs_dirs files'' ->
      MakePath_loop path_parts sub_path files'' = Returns tt files''.
Proof.
  induction path_parts as [|part rest IH]; intros sub_path files files'; simpl.
  - unfold ret. intros [= <-]. split; [reflexivity | reflexivity].
  - destruct (String.length part =? 0)%nat; [apply IH|].
    unfold_M. unfold IsDir.
    destruct (bool_decide_reflect
                (strip_slash (c_str (sub_path +:+ part +:+ "/")) ∈ fs_dirs files))
      as [Hin|Hnin]; simpl.
    + intros Hrun. destruct (IH _ _ _ Hrun) as (Hsub & Hagain).
      split; [exact Hsub|]. intros files'' Hsub'.
      rewrite bool_decide_eq_true_2 by (apply Hsub', Hsub, Hin). simpl. now apply Hagain.
    + unfold s3eFileMakeDirectory.
      destruct (bool_decide _); simpl; [discriminate|].
      intros Hrun. destruct (IH _ _ _ Hrun) as (Hsub & Hagain). simpl in Hsub.
      split; [intros y Hy; apply Hsub, elem_of_union; now right|]. intros files'' Hsub'.
      rewrite bool_decide_eq_true_2
        by (apply Hsub', Hsub, elem_of_union; left; now apply elem_of_singleton).
      simpl. now apply Hagain.
Qed.

(** X11: when [MakePath] returns, no directory and no file has been
    removed or changed, and every directory of the path exists: a second
    [MakePath] of the same path, then or at any later time while these
    directories exist, finds every directory with [IsDir] and returns
    having created nothing: it makes no call of [s3eFileMakeDirectory] (nor
    any other call that opens or changes something) and leaves the file
    system exactly as it is. *)
Theorem MakePath_is_idempotent (uri : string) (files files' : FileSystem) :
  MakePath uri files = Returns tt files' ->
  fs_dirs files ⊆ fs_dirs files' /\
  fs_files files' = fs_files files /\
  forall files'', fs_dirs files' ⊆ fs_dirs files'' ->
    MakePath uri files'' = Returns tt files''.
Proof.
  intros Hrun. pose proof (MakePath_outcome uri files) as Hout. rewrite Hrun in Hout.
  destruct Hout as (Hfiles & _). unfold MakePath in *.
  destruct (MakePath_loop_again _ _ _ _ Hrun) as (Hsub & Hagain).
  split; [exact Hsub|]. split; [exact Hfiles | exact Hagain].
Qed.

Lemma sample_made_run :
  MakePath "cache://maps//tiles/" sample_files = Returns tt sample_made /\
  fs_calls sample_made
  = [s3eFileMakeDirectory_call "cache://maps/"; s3eFileMakeDirectory_call "cache://maps/tiles/"].
Proof. split_all; vm_compute; reflexivity. Qed.

Lemma MakePath_is_idempotent_witness :
  MakePath "cache://maps//tiles/" sample_made = Returns tt sample_made.
Proof.
  destruct (MakePath_is_idempotent "cache://maps//tiles/" sample_files sample_made
              (proj1 sample_made_run)) as (_ & _ & Hagain).
  apply Hagain. reflexivity.
Defined.

(** ** The alphabet of [UrlEncode] *)

Lemma UrlEncode_as_rule (char_signed : bool) (value : string) (strict : bool) :
  portable char_signed value ->
  UrlEncode char_signed value strict = concat_map_string (UrlEncode_rule strict) value.
Proof.
  intros Hp. unfold UrlEncode.
  rewrite UrlEncode_fold; try reflexivity.
  - now rewrite append_nil_l, string_of_list_ascii_of_string.
  - now apply portable_chars.
Qed.

Lemma UrlEncode_rule_safe (strict : bool) (c : ascii) :
  all_chars (url_safe strict) (UrlEncode_rule strict c) = true /\
  (1 <= String.length (UrlEncode_rule strict c) <= 3)%nat.
Proof.
  destruct strict, c as [[] [] [] [] [] [] [] []]; vm_compute; split; try reflexivity;
    split; repeat constructor.
Qed.

Lemma all_chars_app (P : ascii -> bool) (a b : string) :
  all_chars P (a +:+ b) = all_chars P a && all_chars P b.
Proof.
  unfold all_chars. induction a as [|x a IH]; [reflexivity|].
  rewrite append_cons. simpl. now rewrite IH, andb_assoc.
Qed.

Lemma length_append (a b : string) :
  String.length (a +:+ b) = (String.length a + String.length b)%nat.
Proof.
  induction a as [|x a IH]; [reflexivity|]. rewrite append_cons. simpl. now rewrite IH.
Qed.

(** X12: on a string of portable bytes the output of [UrlEncode] consists
    of letters, digits and ['%'] only in the strict mode, and of these and
    [- _ . +] in the lenient mode: no space, no ['&'], ['='], ['/'] or other
    reserved character is ever left in it; and it has at least as many and
    at most three times as many characters as the input. *)
Theorem UrlEncode_output_is_safe (char_signed : bool) (value : string) (strict : bool) :
  portable char_signed value ->
  all_chars (url_safe strict) (UrlEncode char_signed value strict) = true /\
  (String.length value <= String.length (UrlEncode char_signed value strict)
   <= 3 * String.length value)%nat.
Proof.
  intros Hp. rewrite (UrlEncode_as_rule char_signed value strict Hp). clear Hp.
  induction value as [|c value IH]; simpl; [split; [reflexivity | lia]|].
  destruct (UrlEncode_rule_safe strict c) as (Hsafe & Hlen).
  rewrite all_chars_app, length_append, Hsafe. simpl. split; [apply IH | lia].
Qed.

Lemma UrlEncode_output_is_safe_witness :
  all_chars (url_safe true) (UrlEncode true "a b&c=d/e" true) = true.
Proof.
  refine (proj1 (UrlEncode_output_is_safe true "a b&c=d/e" true _)).
  right. repeat constructor.
Defined.

(** ** [Update] and a transfer under way *)

(** X13: one call of [Update] comes to every worker whose transfer is
    under way, and hands the response headers to its request as soon as the
    worker has seen the end of the headers, and only then: the request goes
    from [SENDING] to [HEADERS] (so this happens once) by the one call of
    [HandleResponseHeaders] that [Update] makes on it. In every other case
    [Update] calls no method of the request and leaves it as it is. The
    worker is left running as it was in both cases. *)
Theorem Update_hands_headers_over_early (pf : Platform) (spawn_ok : bool) (W : World)
    (j : nat) (w : Worker.t) (a : addr) (r : Request) :
  ready_on (seq 0 (NUM_WORKERS (http W))) W -> dispatch_ready W ->
  m_workers (http W) !! j = Some w -> Worker.status w = Worker.ACTIVE ->
  Worker.pRequest w = Some a -> heap W !! a = Some r -> in_flight (GetStatus r) ->
  exists W' pre post,
    leaves (Update pf spawn_ok W) W' /\
    m_workers (http W') !! j = Some w /\
    (forall c, c ∈ pre ++ post -> c.1 <> a) /\
    if bool_decide (GetStatus r = HttpRequest.SENDING) && Worker.responseHeadersDone w then
      exists r',
        HandleResponseHeaders (Worker.pResponseHeaders w) r = Returns tt r' /\
        GetStatus r' = HttpRequest.HEADERS /\
        heap W' !! a = Some r' /\
        trace W' = trace W ++ pre ++ [(a, call_HandleResponseHeaders)] ++ post
    else
      heap W' !! a = Some r /\ trace W' = trace W ++ pre ++ post.
Proof.
  intros Hready Hdisp Hw Hs Hp Ha Hfl.
  assert (Hb : is_busy w = true) by (unfold is_busy; now rewrite Hs).
  destruct (Update_visits pf spawn_ok W j w a r Hready Hdisp Hw Hb Hp Ha Hfl)
    as (f1 & Wa & f2 & Wb & W' & pre & post & Hwa & Hha & Hta & Hpre & Ea & Hl &
        Hw' & Hh' & Ht' & Hpost & _).
  exists W', pre, post. split; [exact Hl|].
  destruct (Update_worker_ACTIVE pf j f1 Wa w a r Hwa Hs Hp Hha) as (Wb' & E & Hcase).
  rewrite Ea in E. injection E as _ <-.
  assert (Hnone : forall c, c ∈ pre ++ post -> c.1 <> a)
    by (intros c Hc; apply elem_of_app in Hc as [Hc|Hc]; auto).
  destruct Hcase as [(-> & Hnot)|(r' & Hsend & Hdone & Hrun & ->)].
  - split; [now rewrite Hw'|]. split; [exact Hnone|].
    assert (Hno : bool_decide (GetStatus r = HttpRequest.SENDING)
                  && Worker.responseHeadersDone w = false).
    { destruct (bool_decide_reflect (GetStatus r = HttpRequest.SENDING)) as [Hsend|_];
        [|reflexivity].
      destruct (Worker.responseHeadersDone w); [|reflexivity].
      exfalso. apply Hnot. auto. }
    rewrite Hno. split; [now rewrite Hh'|].
    rewrite Ht', Hta. now rewrite <- app_assoc.
  - split; [rewrite Hw'; exact Hwa|]. split; [exact Hnone|].
    rewrite bool_decide_eq_true_2 by exact Hsend. rewrite Hdone. simpl.
    exists r'. split; [exact Hrun|]. split.
    { destruct (HandleResponseHeaders_returns (Worker.pResponseHeaders w) r Hsend)
        as (r0 & E0 & Hh & _).
      rewrite E0 in Hrun. injection Hrun as <-. exact Hh. }
    split; [rewrite Hh'; apply lookup_insert_eq|].
    rewrite Ht'. simpl. rewrite Hta. now rewrite <- !app_assoc.
Qed.

Lemma sample_headers_facts :
  m_workers (http sample_headers) !! 0%nat = Some sample_headers_worker /\
  Worker.status sample_headers_worker = Worker.ACTIVE /\
  Worker.pRequest sample_headers_worker = Some 0%nat /\
  heap sample_headers !! 0%nat = Some sample_headers_request /\
  GetStatus sample_headers_request = HttpRequest.SENDING /\
  Worker.responseHeadersDone sample_headers_worker = true /\
  Worker.pResponseHeaders sample_headers_worker
  = [("Content-Type", "image/png"); ("HTTP", "HTTP/1.1 200 OK")]%string /\
  m_workers (http sample_headers) = [sample_headers_worker] /\
  m_pendingRequests (http sample_headers) = [].
Proof. split_all; vm_compute; reflexivity. Qed.

Lemma Update_hands_headers_over_early_witness :
  exists W' r',
    leaves (Update sample_platform true sample_headers) W' /\
    heap W' !! 0%nat = Some r' /\ GetStatus r' = HttpRequest.HEADERS.
Proof.
  destruct sample_headers_facts as (Hw & Hs & Hp & Ha & Hst & Hdone & _ & Hws & Hq).
  assert (Hnu : Worker.status sample_headers_worker <> Worker.UNUSED)
    by (rewrite Hs; discriminate).
  assert (Hnd : Worker.status sample_headers_worker = Worker.DONE ->
                in_flight (GetStatus sample_headers_request) /\
                body_readable sample_headers_request)
    by (rewrite Hs; discriminate).
  destruct (Update_hands_headers_over_early sample_platform true sample_headers 0
              sample_headers_worker 0%nat sample_headers_request
              (one_worker_ready_on _ _ _ _ Hws Hp Ha Hnd)
              (one_worker_dispatch_ready _ _ Hws Hq Hnu) Hw Hs Hp Ha (or_introl Hst))
    as (W' & pre & post & Hl & _ & _ & H).
  rewrite bool_decide_eq_true_2 in H by exact Hst. rewrite Hdone in H.
  destruct H as (r' & _ & Hh & Hr' & _). exists W', r'. auto.
Defined.

(** ** The header callback *)

Lemma substring_0_app (a b : string) : substring 0 (String.length a) (a +:+ b) = a.
Proof.
  induction a as [|x a IH]; simpl.
  - now destruct b.
  - rewrite ?append_cons; simpl. now rewrite IH.
Qed.

Lemma substring_skip_app (a b : string) (n m : nat) :
  substring (String.length a + n) m (a +:+ b) = substring n m b.
Proof.
  induction a as [|x a IH]; [reflexivity|]. rewrite ?append_cons; simpl. exact IH.
Qed.

Lemma substr_from_app (a b : string) : substr_from (String.length a) (a +:+ b) = b.
Proof.
  unfold substr_from. rewrite length_append.
  replace (String.length a) with (String.length a + 0)%nat at 1 by lia.
  rewrite substring_skip_app.
  replace (String.length a + String.length b - String.length a)%nat
    with (String.length b) by lia.
  apply substring_0_length.
Qed.

Lemma get_skip_app (a b : string) (n : nat) :
  String.get (String.length a + n) (a +:+ b) = String.get n b.
Proof.
  induction a as [|x a IH]; [reflexivity|]. rewrite ?append_cons; simpl. exact IH.
Qed.

Lemma index_0_cons (s1 : string) (b : ascii) (s2 : string) :
  index 0 s1 (String b s2)
  = if String.prefix s1 (String b s2) then Some 0%nat
    else match index 0 s1 s2 with Some n => Some (S n) | None => None end.
Proof. reflexivity. Qed.

Lemma prefix_colon_cons (c : ascii) (x : string) :
  String.prefix ":" (String c x) = Ascii.eqb c ":".
Proof.
  cbn [String.prefix]. destruct (ascii_dec ":" c) as [<-|Hne].
  - now destruct x.
  - symmetry. apply Ascii.eqb_neq. congruence.
Qed.

Lemma index_colon_app (key rest : string) :
  all_chars (fun c => negb (Ascii.eqb c ":")) key = true ->
  index 0 ":" (key +:+ String ":" rest) = Some (String.length key).
Proof.
  unfold all_chars. induction key as [|c key IH].
  - intros _. rewrite append_nil_l, index_0_cons, prefix_colon_cons. reflexivity.
  - cbn [list_ascii_of_string forallb String.length]. intros H.
    apply andb_true_iff in H as [Hc Hkey]. apply negb_true_iff in Hc.
    rewrite append_cons, index_0_cons, prefix_colon_cons, Hc, (IH Hkey). reflexivity.
Qed.

Lemma skip_spaces_step (fuel : nat) (header : string) (p : nat) :
  skip_spaces (S fuel) header p
  = match String.get p header with
    | Some c => if Ascii.eqb c " " then skip_spaces fuel header (S p) else p
    | None => p
    end.
Proof. reflexivity. Qed.

Lemma get_app_0 (a b : string) : String.get (String.length a) (a +:+ b) = String.get 0 b.
Proof.
  pose proof (get_skip_app a b 0) as H. now rewrite Nat.add_0_r in H.
Qed.

Lemma skip_spaces_app (pad val : string) :
  all_chars (fun c => Ascii.eqb c " ") pad = true ->
  (match val with String c _ => Ascii.eqb c " " = false | EmptyString => True end) ->
  forall (pre : string) (fuel : nat), (String.length pad <= fuel)%nat ->
    skip_spaces fuel (pre +:+ pad +:+ val) (String.length pre)
    = (String.length pre + String.length pad)%nat.
Proof.
  unfold all_chars. intros Hpad Hval.
  induction pad as [|c pad IH]; intros pre fuel Hfuel.
  - rewrite append_nil_l. cbn [String.length]. rewrite Nat.add_0_r.
    destruct fuel as [|fuel]; [reflexivity|].
    rewrite skip_spaces_step, get_app_0.
    destruct val as [|v val]; [reflexivity|]. cbn [String.get]. now rewrite Hval.
  - cbn [list_ascii_of_string forallb] in Hpad. apply andb_true_iff in Hpad as [Hc Hpad'].
    cbn [String.length] in Hfuel |- *.
    destruct fuel as [|fuel]; [lia|].
    rewrite skip_spaces_step, get_app_0, append_cons. cbn [String.get]. rewrite Hc.
    specialize (IH Hpad' (pre +:+ String c EmptyString) fuel).
    rewrite length_append in IH. cbn [String.length] in IH.
    rewrite append_assoc, append_cons, append_nil_l in IH.
    replace (String.length pre + 1)%nat with (S (String.length pre)) in IH by lia.
    rewrite IH by lia. lia.
Qed.

Lemma length_CRLF : String.length CRLF = 2%nat.
Proof. reflexivity. Qed.

(** X14: the header callback on a response line [key: value] (a name
    without a colon, a colon, any number of spaces, a value, CR LF): the
    whole line is reported as consumed; the line end is dropped, the name is
    what stands before the first colon, the value what follows the colon and
    the spaces after it; and the pair is put in FRONT of the worker's list
    of headers, so that the list holds the newest header first. *)
Theorem HeaderCallback_parses_line (key pad val : string) (size nmemb : Z) (i : nat)
    (W : World) (w : Worker.t) :
  m_workers (http W) !! i = Some w -> Worker.cancelAndQuit w = false ->
  all_chars (fun c => negb (Ascii.eqb c ":")) key = true ->
  all_chars (fun c => Ascii.eqb c " ") pad = true ->
  (match val with String c _ => Ascii.eqb c " " = false | EmptyString => True end) ->
  size_t_wrap (size * nmemb) = strlen ((key +:+ ":" +:+ pad +:+ val) +:+ CRLF) ->
  HttpClient_WorkerThread_HeaderCallback ((key +:+ ":" +:+ pad +:+ val) +:+ CRLF) size nmemb i W
  = Returns (strlen ((key +:+ ":" +:+ pad +:+ val) +:+ CRLF))
      (set_http (set_workers (alter (push_header key val) i (m_workers (http W))) (http W)) W).
Proof.
  intros Hw Hc Hkey Hpad Hval Hsize.
  set (X := key +:+ ":" +:+ pad +:+ val) in *.
  assert (HX1 : X = key +:+ String ":" (pad +:+ val)).
  { unfold X. now rewrite (append_cons ":" EmptyString), append_nil_l. }
  assert (HX2 : X = (key +:+ ":") +:+ pad +:+ val).
  { unfold X. now rewrite !append_assoc. }
  assert (HX3 : X = ((key +:+ ":") +:+ pad) +:+ val).
  { unfold X. now rewrite !append_assoc. }
  assert (Hlen1 : String.length (key +:+ ":") = S (String.length key)).
  { rewrite length_append. simpl. lia. }
  unfold HttpClient_WorkerThread_HeaderCallback, the_worker, mem_read, update_worker.
  unfold_M. rewrite Hw, Hc, Hsize, Z.leb_refl, substring_whole.
  rewrite length_append, length_CRLF.
  replace (String.length X + 2 - 2)%nat with (String.length X) by lia.
  replace (2 <=? String.length X + 2)%nat with true by (symmetry; apply Nat.leb_le; lia).
  pose proof (substring_skip_app X CRLF 0 2) as Hcrlf. rewrite Nat.add_0_r in Hcrlf.
  rewrite Hcrlf. change (substring 0 2 CRLF) with CRLF. rewrite String.eqb_refl.
  cbn [andb]. rewrite substring_0_app.
  assert (Hne : String.eqb X EmptyString = false).
  { rewrite HX1. destruct key; reflexivity. }
  rewrite Hne.
  assert (Hidx : index 0 ":" X = Some (String.length key)).
  { rewrite HX1. now apply index_colon_app. }
  rewrite Hidx.
  assert (Hk : substring 0 (String.length key) X = key).
  { rewrite HX1. apply substring_0_app. }
  assert (Hskip : skip_spaces (String.length X) X (S (String.length key))
                  = (S (String.length key) + String.length pad)%nat).
  { rewrite <- Hlen1. rewrite HX2 at 2. apply skip_spaces_app; auto.
    rewrite HX3, !length_append. lia. }
  assert (Hv : substr_from (S (String.length key) + String.length pad) X = val).
  { rewrite <- Hlen1, <- length_append. rewrite HX3. apply substr_from_app. }
  rewrite Hk, Hskip, Hv. reflexivity.
Qed.

Lemma HeaderCallback_parses_line_witness :
  exists w',
    HttpClient_WorkerThread_HeaderCallback
      (("Content-Type" +:+ ":" +:+ "  " +:+ "image/png") +:+ CRLF) 1 26 0 sample_receiving
    = Returns 26
        (set_http (set_workers (alter (push_header "Content-Type" "image/png") 0%nat
                                  (m_workers (http sample_receiving)))
                     (http sample_receiving)) sample_receiving) /\
    m_workers (http sample_receiving) !! 0%nat = Some w'.
Proof.
  exists sample_receiving_worker.
  destruct sample_receiving_facts as (Hw & _).
  split; [|exact Hw].
  apply (HeaderCallback_parses_line "Content-Type" "  " "image/png" 1 26 0 sample_receiving
           sample_receiving_worker Hw); vm_compute; reflexivity.
Defined.

(** ** The downloader's map *)

(** X16: in every state the program can reach, no two keys of the
    downloader's map stand for the same request, every key stands for a
    request that exists, and every request lies below the next address to
    be handed out (so a new request never takes the place of one that a key
    stands for). *)
Theorem active_downloads_are_distinct (pf : Platform) (numWorkers : nat)
    (userAgentStr : string) (files : FileSystem) (W : World) :
  reachable pf (World_new numWorkers userAgentStr files) W ->
  (forall url url' a,
      m_activeDownloads W !! url = Some a -> m_activeDownloads W !! url' = Some a ->
      url = url') /\
  (forall url a, m_activeDownloads W !! url = Some a -> is_Some (heap W !! a)) /\
  (forall a r, heap W !! a = Some r -> (a < next_addr W)%nat).
Proof.
  intros Hreach.
  destruct (downloads_inv_reachable pf _ W Hreach (downloads_inv_new _ _ _))
    as (I1 & I2 & I3).
  split; [exact I2|]. split; [|exact I3].
  intros url a Hm. destruct (I1 url a Hm) as (_ & r & Hr & _). eauto.
Qed.

Lemma active_downloads_are_distinct_witness :
  is_Some (heap sample_receiving !! 0%nat).
Proof.
  exact (proj1 (proj2 (active_downloads_are_distinct sample_platform 1 "agent" sample_files
                         sample_receiving (proj1 sample_receiving_reachable)))
           sample_url 0%nat (proj2 sample_receiving_reachable)).
Defined.

(** ** A worker thread that is told to quit *)

(** X17: a worker thread whose [cancelAndQuit] flag is set leaves its loop
    the next time it comes to the loop's head -- whether it gets there from
    the start of the thread or out of the [READY] sleep, whose assertion
    the flag satisfies whatever the status -- without looking at its
    request: it gives up its curl handle and ends; no method of any request
    is called and no file is touched. *)
Theorem worker_thread_quits_when_told (i : nat) (W : World) (w : Worker.t) :
  m_workers (http W) !! i = Some w -> Worker.cancelAndQuit w = true ->
  let quit (W' : World) :=
    heap W' = heap W /\ fs W' = fs W /\ trace W' = trace W /\
    exists w', m_workers (http W') !! i = Some w' /\
               Worker.thread w' = Worker.Exited /\ Worker.pCurl w' = None /\
               Worker.status w' = Worker.status w /\ Worker.pRequest w' = Worker.pRequest w in
  (exists W', WorkerThread_loop_head i W = Returns tt W' /\ quit W') /\
  (exists W1 W2, WorkerThread_resume i W = Returns tt W1 /\
                 WorkerThread_loop_head i W1 = Returns tt W2 /\ quit W2).
Proof.
  intros Hw Hc. cbv zeta. split.
  - unfold WorkerThread_loop_head, WorkerThread_exit, the_worker, update_worker. unfold_M.
    rewrite Hw, Hc. eexists. split; [reflexivity|].
    cbn [heap fs trace set_http http m_workers set_workers]. split_all; auto.
    eexists. split; [rewrite list_lookup_alter_eq, Hw; reflexivity|]. auto.
  - assert (E1 : WorkerThread_resume i W
                 = Returns tt (set_http (set_workers
                                           (alter (Worker.set_thread Worker.AtLoopHead) i
                                              (m_workers (http W))) (http W)) W)).
    { unfold WorkerThread_resume, the_worker, update_worker. unfold_M.
      now rewrite Hw, Hc, orb_true_r. }
    rewrite E1. eexists _, _. split; [reflexivity|].
    unfold WorkerThread_loop_head, WorkerThread_exit, the_worker, update_worker. unfold_M.
    cbn [heap fs trace set_http http m_workers set_workers].
    rewrite list_lookup_alter_eq, Hw.
    cbn [fmap option_fmap option_map Worker.cancelAndQuit Worker.set_thread]. rewrite Hc.
    split; [reflexivity|].
    cbn [heap fs trace set_http http m_workers set_workers]. split_all; auto.
    eexists. split; [rewrite !list_lookup_alter_eq, Hw; reflexivity|]. auto.
Qed.

Lemma worker_thread_quits_when_told_witness :
  exists W',
    WorkerThread_loop_head 0 sample_cancelled = Returns tt W' /\
    heap W' = heap sample_cancelled /\ fs W' = fs sample_cancelled.
Proof.
  destruct (worker_thread_quits_when_told 0 sample_cancelled sample_cancelled_worker
              sample_cancelled_worker_lookup eq_refl) as ((W' & E & Hh & Hf & _) & _).
  exists W'. split; [exact E|]. split; [exact Hh | exact Hf].
Defined.

(** ** Uploading a file *)

Lemma substring_overlong (s : string) :
  forall n, (String.length s <= n)%nat -> substring 0 n s = s.
Proof.
  induction s as [|c s IH]; intros [|n] H; simpl in *; try reflexivity; try lia.
  rewrite IH; [reflexivity | lia].
Qed.

Lemma substring_at_end (s : string) (m : nat) : substring (String.length s) m s = EmptyString.
Proof. induction s as [|c s IH]; simpl; [now destruct m | exact IH]. Qed.

Lemma substring_0_app_any (s : string) (n m : nat) :
  substring 0 n s +:+ substring (String.length (substring 0 n s)) m s = substring 0 (n + m) s.
Proof.
  destruct (Nat.le_gt_cases n (String.length s)) as [Hle|Hgt].
  - rewrite length_substring_0 by exact Hle.
    exact (substring_app s 0 n m Hle).
  - rewrite (substring_overlong s n) by lia. rewrite substring_at_end, append_empty_r.
    symmetry. apply substring_overlong. lia.
Qed.

(** X18: [YoutubeUploadRequest::Worker_HandleUpload] opens the file to
    upload on its first call and throws "Unable to open file for
    uploading!" when there is no such file, with nothing counted as
    uploaded; otherwise each call reads the next [fillSize] bytes of the
    file (fewer at its end), so that the pieces handed to libcurl follow one
    another in the file with no gap and no overlap, and the file is not
    changed. *)
Theorem YoutubeUploadRequest_reads_file_in_order (y : YoutubeUploadRequest.t)
    (files : FileSystem) (fill1 fill2 : Z) :
  YoutubeUploadRequest.m_pUploadFile y = None ->
  match fs_files files !! c_str (YoutubeUploadRequest.m_filePath y) with
  | None =>
      exists files',
        YoutubeUploadRequest.Worker_HandleUpload fill1 (y, files)
        = Throws "Unable to open file for uploading!" (y, files') /\
        fs_files files' = fs_files files
  | Some content =>
      let piece1 := substring 0 (Z.to_nat fill1) content in
      let piece2 := substring (String.length piece1) (Z.to_nat fill2) content in
      exists y1 files1 y2 files2,
        YoutubeUploadRequest.Worker_HandleUpload fill1 (y, files)
        = Returns (strlen piece1, piece1) (y1, files1) /\
        YoutubeUploadRequest.Worker_HandleUpload fill2 (y1, files1)
        = Returns (strlen piece2, piece2) (y2, files2) /\
        piece1 +:+ piece2 = substring 0 (Z.to_nat fill1 + Z.to_nat fill2) content /\
        fs_files files2 = fs_files files /\
        YoutubeUploadRequest.m_bytesUploaded y1
        = size_t_wrap (YoutubeUploadRequest.m_bytesUploaded y + strlen piece1)
  end.
Proof.
  intros Hnone.
  unfold YoutubeUploadRequest.Worker_HandleUpload, s3eFileOpen_rb, s3eFileRead. unfold_M.
  cbn [fst snd]. rewrite Hnone.
  destruct (fs_files files !! c_str (YoutubeUploadRequest.m_filePath y)) as [content|] eqn:Hf.
  - cbn. rewrite Hf. cbn.
    eexists _, _, _, _. split; [reflexivity|]. cbn. rewrite Hf. cbn.
    split; [reflexivity|]. split; [apply substring_0_app_any|]. split; reflexivity.
  - cbn. destruct y; cbn in *. subst. eexists. split; reflexivity.
Qed.

Lemma sample_movie_lookup :
  fs_files sample_movie_files !! c_str (YoutubeUploadRequest.m_filePath sample_upload)
  = Some "0123456789"%string.
Proof. vm_compute. reflexivity. Qed.

Lemma YoutubeUploadRequest_reads_file_in_order_witness :
  exists y1 files1,
    YoutubeUploadRequest.Worker_HandleUpload 4 (sample_upload, sample_movie_files)
    = Returns (4, "0123"%string) (y1, files1).
Proof.
  pose proof (YoutubeUploadRequest_reads_file_in_order sample_upload sample_movie_files 4 6
                eq_refl) as H.
  rewrite sample_movie_lookup in H. cbv zeta in H.
  destruct H as (y1 & files1 & _ & _ & E & _).
  exists y1, files1. exact E.
Defined.

(** ** After a transfer *)

Lemma Worker_HandleCleanup_returns (r : Request) (files : FileSystem) :
  exists r' files',
    Worker_HandleCleanup (r, files) = Returns tt (r', files') /\
    GetStatus r' = GetStatus r /\ fs_files files' = fs_files files.
Proof.
  destruct r as [d|p|j|y]; unfold Worker_HandleCleanup, as_variant_fs, no_fs, zoom,
    HttpPost.Worker_HandleCleanup, YoutubeUploadRequest.Worker_HandleCleanup;
    unfold_M; cbn [fst snd].
  - eexists _, _. split; [reflexivity|]. split; reflexivity.
  - eexists _, _. split; [reflexivity|]. split; [|reflexivity].
    now destruct (is_null _).
  - eexists _, _. split; [reflexivity|]. split; [|reflexivity].
    unfold GetStatus. cbn. now destruct (is_null _).
  - destruct (YoutubeUploadRequest.m_pUploadFile
                (if is_null (YoutubeUploadRequest.m_workerResponseBuffer y) then y
                 else YoutubeUploadRequest.set_buffer freed
                        (YoutubeUploadRequest.m_workerResponseSize y) y)) eqn:E;
      eexists _, _; (split; [reflexivity|]); cbn [fst snd];
      (split; [now destruct (is_null _) | reflexivity]).
Qed.

(** X19: a worker that the application has woken for cleanup (and not told
    to quit) calls [Worker_HandleCleanup] on its request once, forgets the
    headers and the status code of the transfer, and goes to sleep as
    [READY], a worker that [Update] takes for free; it still points to the
    request it has finished, and no other worker is touched. *)
Theorem worker_is_ready_after_cleanup (i : nat) (W : World) (w : Worker.t)
    (a : addr) (r : Request) :
  m_workers (http W) !! i = Some w -> Worker.status w = Worker.CLEANUP ->
  Worker.cancelAndQuit w = false ->
  Worker.pRequest w = Some a -> heap W !! a = Some r ->
  exists W1 w1,
    WorkerThread_cleanup i W = Returns tt W1 /\
    trace W1 = trace W ++ [(a, call_Worker_HandleCleanup)] /\
    m_workers (http W1) !! i = Some w1 /\
    Worker.status w1 = Worker.READY /\ is_free w1 = true /\
    Worker.thread w1 = Worker.AwaitingJob /\
    Worker.pResponseHeaders w1 = [] /\ Worker.responseHeadersDone w1 = false /\
    Worker.responseStatusCode w1 = 0 /\ Worker.pRequest w1 = Some a /\
    Worker.pCurl w1 = Worker.pCurl w /\ Worker.cancelAndQuit w1 = false /\
    (forall k, k <> i -> m_workers (http W1) !! k = m_workers (http W) !! k) /\
    (exists r', heap W1 !! a = Some r' /\ GetStatus r' = GetStatus r) /\
    (forall b, b <> a -> heap W1 !! b = heap W !! b).
Proof.
  intros Hw Hs Hc Hp Ha.
  destruct (Worker_HandleCleanup_returns r (fs W)) as (r' & files' & E & Hst & _).
  assert (E1 : WorkerThread_cleanup i W
               = Returns tt
                   (set_http
                      (set_workers
                         (alter (fun w0 => Worker.set_thread Worker.AwaitingJob
                                             (Worker.set_status Worker.READY w0)) i
                            (alter Worker.Reset i (m_workers (http W)))) (http W))
                      (set_fs files' (set_heap (<[a := r']> (heap W))
                                        (set_trace (trace W ++ [(a, call_Worker_HandleCleanup)])
                                           W))))).
  { unfold WorkerThread_cleanup, the_worker, update_worker, call_fs, deref, record_call.
    unfold_M. rewrite Hw, Hs, Hp. cbn [bool_decide decide_rel]. rewrite bool_decide_eq_true_2 by reflexivity.
    rewrite Ha. cbn [fst snd fs set_trace]. rewrite E.
    cbn [fst snd heap fs trace set_http set_fs set_heap set_trace http m_workers set_workers].
    rewrite list_lookup_alter_eq, Hw.
    cbn [fmap option_fmap option_map Worker.cancelAndQuit Worker.Reset]. rewrite Hc.
    reflexivity. }
  rewrite E1.
  eexists _, (Worker.set_thread Worker.AwaitingJob
                (Worker.set_status Worker.READY (Worker.Reset w))).
  split; [reflexivity|]. split; [reflexivity|].
  split; [cbn [http set_http m_workers set_workers];
          rewrite !list_lookup_alter_eq, Hw; reflexivity|].
  split; [reflexivity|]. split; [reflexivity|]. split; [reflexivity|].
  split; [reflexivity|]. split; [reflexivity|]. split; [reflexivity|].
  split; [exact Hp|]. split; [reflexivity|]. split; [exact Hc|]. split_all.
  - intros k Hk. cbn [http set_http m_workers set_workers].
    now rewrite !list_lookup_alter_ne by congruence.
  - exists r'. split; [apply lookup_insert_eq | exact Hst].
  - intros b Hb. cbn [heap set_http set_fs set_heap]. now rewrite lookup_insert_ne by congruence.
Qed.

Lemma sample_304_facts :
  m_workers (http sample_304) !! 0%nat = Some sample_304_worker /\
  Worker.status sample_304_worker = Worker.CLEANUP /\
  Worker.cancelAndQuit sample_304_worker = false /\
  Worker.pRequest sample_304_worker = Some 0%nat /\
  heap sample_304 !! 0%nat = Some sample_304_request.
Proof. split_all; vm_compute; reflexivity. Qed.

Lemma worker_is_ready_after_cleanup_witness :
  exists W1 w1,
    WorkerThread_cleanup 0 sample_304 = Returns tt W1 /\
    m_workers (http W1) !! 0%nat = Some w1 /\ Worker.status w1 = Worker.READY.
Proof.
  destruct sample_304_facts as (Hw & Hs & Hc & Hp & Ha).
  destruct (worker_is_ready_after_cleanup 0 sample_304 sample_304_worker
              0%nat sample_304_request Hw Hs Hc Hp Ha)
    as (W1 & w1 & E1 & _ & Hw1 & Hs1 & _).
  exists W1, w1. auto.
Defined.

(** ** A failed post *)

(** X20: when the transfer of a form post, a JSON post or an upload has
    failed ([success] false), [HandleResponse] does not look into the body:
    the response data stay as they were, whatever the body holds, and the
    request ends in [ERROR]. *)
Theorem failed_post_keeps_response_data (pf : Platform) (code : Z) (r : Request) :
  GetStatus r = HttpRequest.HEADERS -> body_readable r ->
  match r with
  | Download _ => True
  | Post p =>
      HandleResponse pf false code r
      = Returns tt (Post (HttpPost.set_base
                            (HttpRequest.set_status HttpRequest.ERROR (HttpPost.base p)) p))
  | PostJson j =>
      HandleResponse pf false code r
      = Returns tt (PostJson
                      (HttpPostJson.set_post
                         (HttpPost.set_base
                            (HttpRequest.set_status HttpRequest.ERROR
                               (HttpPost.base (HttpPostJson.post j)))
                            (HttpPostJson.post j)) j))
  | YoutubeUpload y =>
      HandleResponse pf false code r
      = Returns tt (YoutubeUpload
                      (YoutubeUploadRequest.set_base
                         (HttpRequest.set_status HttpRequest.ERROR
                            (YoutubeUploadRequest.base y)) y))
  end.
Proof.
  intros Hst Hbody. destruct r as [d|p|j|y]; [exact I| | |];
    unfold GetStatus in Hst; simpl in Hst, Hbody; destruct Hbody as [response Hbody];
    unfold HandleResponse, as_variant, zoom.
  - now rewrite (HttpPost_HandleResponse_failure pf code p response Hst Hbody).
  - now rewrite (HttpPost_HandleResponse_failure pf code _ response Hst Hbody).
  - now rewrite (YoutubeUploadRequest_HandleResponse_failure pf code y response Hst Hbody).
Qed.

Lemma failed_post_keeps_response_data_witness :
  HandleResponse sample_platform false 500 (Post (sample_post "{}"))
  = Returns tt (Post (HttpPost.set_base
                        (HttpRequest.set_status HttpRequest.ERROR
                           (HttpPost.base (sample_post "{}"))) (sample_post "{}"))).
Proof.
  refine (failed_post_keeps_response_data sample_platform 500 (Post (sample_post "{}")) _ _).
  - reflexivity.
  - exists "{}"%string. reflexivity.
Defined.
